(** * CrossSock: packet codec, client and server session machines

    A shallow embedding of the CrossSock headers (CrossUtil.h, CrossSock.h,
    CrossPack.h, CrossClient.h, CrossServer.h) and the properties of the
    session-layer specification that are checked against them.

    Conventions of the embedding.
    - C++ integers are [Z] with the wrap-around of their type written out
      ([u16], [u32], [s32]); [char] is a [byte], read as a signed 8-bit
      value by [char_val] (the reading the specification fixes for the
      checksum).
    - [sizeof(CrossPackHeader)] is 6 and [sizeof(CrossPackFooter)] is 8:
      two 16-bit fields and a char under 2-byte alignment, two 32-bit
      fields under 4-byte alignment.
    - The host byte order is a parameter [le] of every function that
      copies a scalar to or from a buffer ([CrossSysUtil::IsLittleEndian]).
    - [double] and [float] are IEEE binary64 and binary32, computed with
      the Standard Library's [spec_float] operations.
    - Sockets, the clock and the application callbacks are the environment:
      a [World] scripts the results of the system calls in the order they
      are made and records what was transmitted; an event log records the
      callbacks that were executed.  Callbacks are taken not to call back
      into the session object. *)

From Stdlib Require Import ZArith List Bool Lia Strings.Byte SpecFloat.
From stdpp Require Import base option gmap.
Import ListNotations.
Local Open Scope Z_scope.

(** * Machine integers and bytes *)

Definition u8 (z : Z) : Z := z mod 256.
Definition u16 (z : Z) : Z := z mod 65536.
Definition u32 (z : Z) : Z := z mod 4294967296.
Definition s32 (z : Z) : Z := (z + 2147483648) mod 4294967296 - 2147483648.

Definition Z_of_byte (b : byte) : Z := Z.of_N (Byte.to_N b).

Definition byte_of_Z (z : Z) : byte :=
match Byte.of_N (Z.to_N (u8 z)) with
| Some b => b
| None => x00
end.

(** A [char] read as a number: signed 8-bit. *)
Definition char_val (b : byte) : Z :=
let u := Z_of_byte b in if u <? 128 then u else u - 256.

(** * CrossUtil.h *)

Module Util.

Definition CROSS_SOCK_BUFFER_SIZE : Z := 65536.
Definition CROSS_SOCK_MAX_DATA_NAME_LENGTH : Z := 1024.

Inductive NetTransMethod := TCP | UDP.

Inductive NetTransError :=
| NO_TRANSMIT
| CLIENT_NOT_FOUND
| STREAM_NOT_BOUND
| CLIENT_NOT_CONNECTED
| INVALID_CHECKSUM
| INVALID_DATA_ID
| INVALID_PAYLOAD_SIZE.

Definition NetTransError_code (e : NetTransError) : Z :=
  match e with
  | NO_TRANSMIT => -1
  | CLIENT_NOT_FOUND => -2
  | STREAM_NOT_BOUND => -3
  | CLIENT_NOT_CONNECTED => -4
  | INVALID_CHECKSUM => -5
  | INVALID_DATA_ID => -6
  | INVALID_PAYLOAD_SIZE => -7
  end.

(** [enum StaticDataID] *)
Definition HANDSHAKE : Z := 0.
Definition INIT_CLIENT_ID : Z := 1.
Definition RECONNECT_PACK : Z := 2.
Definition DISCONNECT_PACK : Z := 3.
Definition INIT_CUSTOM_DATA_LIST : Z := 4.
Definition UNKNOWN_PACK : Z := 5.
Definition ALIVENESS_TEST : Z := 6.
Definition CUSTOM_DATA_START : Z := 7.

(** [CrossSysUtil::SwapEndian]: reverses [inLength] cells from [inStart]. *)
Definition SwapEndian {A} (inData : list A) (inStart inLength : nat) : list A :=
  firstn inStart inData
    ++ rev (firstn inLength (skipn inStart inData))
    ++ skipn (inStart + inLength) inData.

(** The bit helpers at [T = char] (the only instantiation the packet
    uses): the operand is promoted to [int], combined, and narrowed. *)
Definition SetBit (inNumber : byte) (inX : Z) : byte :=
  byte_of_Z (Z.lor (char_val inNumber) (Z.shiftl 1 inX)).

Definition ClearBit (inNumber : byte) (inX : Z) : byte :=
  byte_of_Z (Z.land (char_val inNumber) (Z.lnot (Z.shiftl 1 inX))).

Definition CheckBit (inNumber : byte) (inX : Z) : bool :=
  negb (Z.land (Z.shiftr (char_val inNumber) inX) 1 =? 0).

Definition ToggleBit (inNumber : byte) (inX : Z) : byte :=
  byte_of_Z (Z.lxor (char_val inNumber) (Z.shiftl 1 inX)).

(** The bit helpers at [T = uint32_t] (the instantiation the socket
    address uses).  [1 << 31] is the [int] with only its sign bit set, as
    the compilers evaluate it; the result is narrowed to 32 bits. *)
Definition SetBit_uint32 (inNumber : Z) (inX : Z) : Z :=
  u32 (Z.lor inNumber (Z.shiftl 1 inX)).

Definition ClearBit_uint32 (inNumber : Z) (inX : Z) : Z :=
  u32 (Z.land inNumber (Z.lnot (Z.shiftl 1 inX))).

Definition CheckBit_uint32 (inNumber : Z) (inX : Z) : bool :=
  negb (Z.land (Z.shiftr inNumber inX) 1 =? 0).

(** [GetStateFromFlag<T>(inFlag, inStart, inEnd)], over the bit helpers
    of [T]: the loop [for (x = 0; x <= inEnd - inStart; x++)]. *)
Definition GetStateFromFlag {T} (CheckBit : T -> Z -> bool)
    (SetBit : T -> Z -> T) (zero : T) (inFlag : T) (inStart inEnd : Z) : T :=
  fold_left
    (fun out x => if CheckBit inFlag (x + inStart) then SetBit out x else out)
    (map Z.of_nat (seq 0 (Z.to_nat (inEnd - inStart + 1)))) zero.

(** [SetStateToFlag<T>(inFlag, inState, inStart, inEnd)] *)
Definition SetStateToFlag {T} (CheckBit : T -> Z -> bool)
    (SetBit ClearBit : T -> Z -> T) (inFlag inState : T)
    (inStart inEnd : Z) : T :=
  fold_left
    (fun inFlag x =>
       if CheckBit inState x then SetBit inFlag (x + inStart)
       else ClearBit inFlag (x + inStart))
    (map Z.of_nat (seq 0 (Z.to_nat (inEnd - inStart + 1)))) inFlag.

(** A [CrossDataEvent]: its name, its data id and how many callbacks
    are registered on it. *)
Record CrossDataEvent := {
  name : list byte;
  de_dataID : Z;
  callbacks : nat
}.

Definition bytes_eqb (a b : list byte) : bool :=
  if decide (map Byte.to_N a = map Byte.to_N b) then true else false.

(** The first event of [dataEvents] named [n], as the search loops find it. *)
Fixpoint find_name (n : list byte) (l : list CrossDataEvent) (i : nat)
    : option nat :=
  match l with
  | [] => None
  | d :: r => if bytes_eqb (name d) n then Some i else find_name n r (S i)
  end.

Fixpoint set_nth {A} (i : nat) (f : A -> A) (l : list A) : list A :=
  match l, i with
  | [], _ => []
  | x :: r, O => f x :: r
  | x :: r, S k => x :: set_nth k f r
  end.

(** [map[key] = value] on the name table. *)
Fixpoint name_insert (k : list byte) (v : nat) (m : list (list byte * nat))
    : list (list byte * nat) :=
  match m with
  | [] => [(k, v)]
  | (k', v') :: r =>
      if bytes_eqb k' k then (k', v) :: r else (k', v') :: name_insert k v r
  end.

(** [map.find(key)] on the name table. *)
Fixpoint name_find (k : list byte) (m : list (list byte * nat))
    : option nat :=
  match m with
  | [] => None
  | (k', v) :: r => if bytes_eqb k' k then Some v else name_find k r
  end.

End Util.

(** * CrossSock.h: socket addresses and error codes *)

Module Sock.

(** [AF_INET] is 2 on every supported platform; [AF_INET6] is the Linux
    value (it is 23 on Windows and 30 on macOS; nothing below depends on
    it beyond its being different from [AF_INET]). *)
Definition AF_INET : Z := 2.
Definition AF_INET6 : Z := 10.

(** The [sockaddr] seen through [sockaddr_in]: family, port and IPv4
    address (both kept in network byte order, as stored). *)
Record CrossSockAddress := {
  sa_family : Z;
  sin_port : Z;
  sin_addr : Z
}.

(** [CrossSockAddress::operator==] *)
Definition operator_eq (this inOther : CrossSockAddress) : bool :=
  ((sa_family this =? AF_INET) && (sin_port this =? sin_port inOther))
    && (sin_addr this =? sin_addr inOther).

(** [CrossSockAddress::Hash()], the value [std::hash<CrossSockAddress>]
    returns: [GetIP4Ref() | (uint32_t(sin_port) << 13) | sa_family]. *)
Definition Hash (a : CrossSockAddress) : Z :=
  Z.lor (Z.lor (sin_addr a) (u32 (Z.shiftl (sin_port a) 13))) (sa_family a).

(** The default constructor: [AF_INET], [INADDR_ANY], port 0. *)
Definition CrossSockAddress_default : CrossSockAddress :=
  {| sa_family := AF_INET; sin_port := 0; sin_addr := 0 |}.

(** [htons] and [htonl] on a host of the given byte order: the bytes of
    the operand are reversed on a little-endian host.  [ntohs] and
    [ntohl] are the same functions. *)
Definition htons (le : bool) (x : Z) : Z :=
  if le
  then Z.lor (Z.shiftl (Z.land x 255) 8) (Z.land (Z.shiftr x 8) 255)
  else u16 x.

Definition htonl (le : bool) (x : Z) : Z :=
  if le
  then Z.lor (Z.shiftl (Z.land x 255) 24)
         (Z.lor (Z.shiftl (Z.land (Z.shiftr x 8) 255) 16)
            (Z.lor (Z.shiftl (Z.land (Z.shiftr x 16) 255) 8)
               (Z.land (Z.shiftr x 24) 255)))
  else u32 x.

Definition ntohs : bool -> Z -> Z := htons.
Definition ntohl : bool -> Z -> Z := htonl.

(** [CrossSockAddress(inAddress, inPort, inAddressFamily)] *)
Definition CrossSockAddress_of_address (le : bool) (inAddress inPort : Z)
    (inAddressFamily : Z) : CrossSockAddress :=
  {| sa_family := inAddressFamily; sin_port := htons le inPort;
     sin_addr := htonl le inAddress |}.

(** [CrossSockAddress(inB1, inB2, inB3, inB4, inPort, inAddressFamily)] *)
Definition CrossSockAddress_of_bytes (le : bool) (inB1 inB2 inB3 inB4 : Z)
    (inPort : Z) (inAddressFamily : Z) : CrossSockAddress :=
  let set := Util.SetStateToFlag Util.CheckBit_uint32 Util.SetBit_uint32
               Util.ClearBit_uint32 in
  let address := 0 in
  let address := set address inB1 24 31 in
  let address := set address inB2 16 23 in
  let address := set address inB3 8 15 in
  let address := set address inB4 0 7 in
  {| sa_family := inAddressFamily; sin_port := htons le inPort;
     sin_addr := htonl le address |}.

Definition GetPort (le : bool) (a : CrossSockAddress) : Z :=
  ntohs le (sin_port a).

Definition GetAddress (le : bool) (a : CrossSockAddress) : Z :=
  ntohl le (sin_addr a).

Definition GetFamily (a : CrossSockAddress) : Z := sa_family a.

(** [GetB1] .. [GetB4]: the state read is narrowed to [uint8_t]. *)
Definition GetB1 (le : bool) (a : CrossSockAddress) : Z :=
  u8 (Util.GetStateFromFlag Util.CheckBit_uint32 Util.SetBit_uint32 0
             (GetAddress le a) 24 31).

Definition GetB2 (le : bool) (a : CrossSockAddress) : Z :=
  u8 (Util.GetStateFromFlag Util.CheckBit_uint32 Util.SetBit_uint32 0
             (GetAddress le a) 16 23).

Definition GetB3 (le : bool) (a : CrossSockAddress) : Z :=
  u8 (Util.GetStateFromFlag Util.CheckBit_uint32 Util.SetBit_uint32 0
             (GetAddress le a) 8 15).

Definition GetB4 (le : bool) (a : CrossSockAddress) : Z :=
  u8 (Util.GetStateFromFlag Util.CheckBit_uint32 Util.SetBit_uint32 0
             (GetAddress le a) 0 7).

(** [enum CrossSockError] as the script of a system call reports it. *)
Inductive CrossSockError :=
| SUCCESS | INVALID | CONNRESET | WOULDBLOCK | INPROGRESS | ISCONN | ALREADY
| OTHER (errno : Z).

Definition CrossSockError_eqb (a b : CrossSockError) : bool :=
  match a, b with
  | SUCCESS, SUCCESS | INVALID, INVALID | CONNRESET, CONNRESET
  | WOULDBLOCK, WOULDBLOCK | INPROGRESS, INPROGRESS | ISCONN, ISCONN
  | ALREADY, ALREADY => true
  | OTHER x, OTHER y => x =? y
  | _, _ => false
  end.

End Sock.

(** * Floating point: [double] and [float] *)

Module CFloat.

Definition double := spec_float.
Definition float := spec_float.

Definition dadd : double -> double -> double := SFadd 53 1024.
Definition dsub : double -> double -> double := SFsub 53 1024.
Definition dmul : double -> double -> double := SFmul 53 1024.
Definition ddiv : double -> double -> double := SFdiv 53 1024.
Definition dltb : double -> double -> bool := SFltb.
Definition dleb : double -> double -> bool := SFleb.
Definition deqb : double -> double -> bool := SFeqb.

(** Conversion of an integer to [double] (round to nearest even). *)
Definition double_of_Z (z : Z) : double := binary_normalize 53 1024 z 0 false.

Definition dzero : double := S754_zero false.

(** The cast [(float)d]: rounding to binary32. *)
Definition float_of_double (d : double) : float :=
  match d with
  | S754_finite s m e => binary_round 24 128 s m e
  | _ => d
  end.

(** The implicit conversion of a [float] to [double] (exact). *)
Definition double_of_float (f : float) : double :=
  match f with
  | S754_finite s m e => binary_round 53 1024 s m e
  | _ => f
  end.

(** The object representation of a [float] as a 32-bit pattern. *)
Definition bits_of_float (f : float) : Z :=
  match f with
  | S754_zero s => if s then 2147483648 else 0
  | S754_infinity s => (if s then 2147483648 else 0) + 2139095040
  | S754_nan => 2143289344
  | S754_finite s m e =>
      (if s then 2147483648 else 0)
      + (if Z.pos m <? 8388608 then Z.pos m
         else (e + 150) * 8388608 + (Z.pos m - 8388608))
  end.

Definition float_of_bits (x : Z) : float :=
  let s := Z.testbit x 31 in
  let E := (x / 8388608) mod 256 in
  let mant := x mod 8388608 in
  if E =? 0 then
    if mant =? 0 then S754_zero s else S754_finite s (Z.to_pos mant) (-149)
  else if E =? 255 then
    if mant =? 0 then S754_infinity s else S754_nan
  else S754_finite s (Z.to_pos (mant + 8388608)) (E - 150).

(** [CROSS_SOCK_TIMEOUT_FACTOR], the literal [3.1]: the double nearest to
    31/10.  [CROSS_SOCK_MAX_TIMEOUT] is [999999.0]. *)
Definition CROSS_SOCK_TIMEOUT_FACTOR : double :=
  ddiv (double_of_Z 31) (double_of_Z 10).
Definition CROSS_SOCK_MAX_TIMEOUT : double := double_of_Z 999999.

End CFloat.

(** * CrossPack.h: the packet codec *)

Module Pack.
Import Util.

Inductive CrossPackError := VALID_DATA | INVALID_DATA_SIZE | HAS_BEEN_FINALIZED.

(** [enum CrossPackFlagBit] *)
Definition CHECKSUM_FLAG : Z := 0.
Definition UDP_SUPPORT_FLAG : Z := 1.
Definition CUSTOM_FLAG_1 : Z := 2.

Definition sizeof_CrossPackHeader : Z := 6.
Definition sizeof_CrossPackFooter : Z := 8.
Definition sizeof_CrossPackDataID : Z := 2.
Definition sizeof_CrossPackPayloadLen : Z := 2.
Definition sizeof_CrossPackFlag : Z := 1.
Definition sizeof_CrossPackChecksum : Z := 4.
Definition sizeof_CrossClientID : Z := 4.

Definition MAX_PAYLOAD_BYTES : Z :=
  1500 - sizeof_CrossPackHeader - sizeof_CrossPackFooter.

Record CrossPackHeader := {
  dataID : Z;          (* unsigned short *)
  payloadSize : Z;     (* unsigned short *)
  packFlags : byte     (* char *)
}.

Record CrossPackFooter := {
  checksum : Z;        (* int *)
  senderID : Z         (* unsigned int *)
}.

Definition CrossPackHeader_default : CrossPackHeader :=
  {| dataID := UNKNOWN_PACK; payloadSize := 0; packFlags := x00 |}.

Definition CrossPackFooter_default : CrossPackFooter :=
  {| checksum := 0; senderID := 0 |}.

(** The packet.  [payload] is the whole buffer the C++ pointer designates:
    the header image, the payload bytes from offset [GetHeaderSize], and
    the footer image after them. *)
Record CrossPack := {
  header : CrossPackHeader;
  footer : CrossPackFooter;
  payload : list byte;
  removeIdx : Z;
  shouldDeleteData : bool;
  hasBeenFinalized : bool;
  hasBeenSerialized : bool
}.

Definition set_header (h : CrossPackHeader) (p : CrossPack) : CrossPack :=
  {| header := h; footer := footer p; payload := payload p;
     removeIdx := removeIdx p; shouldDeleteData := shouldDeleteData p;
     hasBeenFinalized := hasBeenFinalized p;
     hasBeenSerialized := hasBeenSerialized p |}.

Definition set_footer (f : CrossPackFooter) (p : CrossPack) : CrossPack :=
  {| header := header p; footer := f; payload := payload p;
     removeIdx := removeIdx p; shouldDeleteData := shouldDeleteData p;
     hasBeenFinalized := hasBeenFinalized p;
     hasBeenSerialized := hasBeenSerialized p |}.

Definition set_payload (b : list byte) (p : CrossPack) : CrossPack :=
  {| header := header p; footer := footer p; payload := b;
     removeIdx := removeIdx p; shouldDeleteData := shouldDeleteData p;
     hasBeenFinalized := hasBeenFinalized p;
     hasBeenSerialized := hasBeenSerialized p |}.

Definition set_removeIdx (i : Z) (p : CrossPack) : CrossPack :=
  {| header := header p; footer := footer p; payload := payload p;
     removeIdx := i; shouldDeleteData := shouldDeleteData p;
     hasBeenFinalized := hasBeenFinalized p;
     hasBeenSerialized := hasBeenSerialized p |}.

Definition set_hasBeenFinalized (b : bool) (p : CrossPack) : CrossPack :=
  {| header := header p; footer := footer p; payload := payload p;
     removeIdx := removeIdx p; shouldDeleteData := shouldDeleteData p;
     hasBeenFinalized := b;
     hasBeenSerialized := hasBeenSerialized p |}.

Definition set_hasBeenSerialized (b : bool) (p : CrossPack) : CrossPack :=
  {| header := header p; footer := footer p; payload := payload p;
     removeIdx := removeIdx p; shouldDeleteData := shouldDeleteData p;
     hasBeenFinalized := hasBeenFinalized p;
     hasBeenSerialized := b |}.

Definition set_dataID (d : Z) (h : CrossPackHeader) : CrossPackHeader :=
  {| dataID := d; payloadSize := payloadSize h; packFlags := packFlags h |}.

Definition set_payloadSize (n : Z) (h : CrossPackHeader) : CrossPackHeader :=
  {| dataID := dataID h; payloadSize := n; packFlags := packFlags h |}.

Definition set_packFlags (f : byte) (h : CrossPackHeader) : CrossPackHeader :=
  {| dataID := dataID h; payloadSize := payloadSize h; packFlags := f |}.

(** ** Scalars in memory *)

(** [n] bytes of [z], least significant first (two's complement). *)
Fixpoint le_bytes (n : nat) (z : Z) : list byte :=
  match n with
  | O => []
  | S k => byte_of_Z z :: le_bytes k (z / 256)
  end.

Fixpoint le_value (l : list byte) : Z :=
  match l with
  | [] => 0
  | b :: r => Z_of_byte b + 256 * le_value r
  end.

(** The object representation of a scalar on the host, and its reading. *)
Definition object_bytes (le : bool) (n : nat) (z : Z) : list byte :=
  if le then le_bytes n z else rev (le_bytes n z).

Definition object_value (le : bool) (l : list byte) : Z :=
  le_value (if le then l else rev l).

(** [memcpy(dst + off, src, length src)]. *)
Definition memcpy (dst : list byte) (off : Z) (src : list byte) : list byte :=
  firstn (Z.to_nat off) dst ++ src
    ++ skipn (Z.to_nat off + length src) dst.

(** The [len] bytes at [buf + off]; cells past the end read as zero. *)
Definition sub_bytes (buf : list byte) (off : Z) (len : nat) : list byte :=
  map (fun i => nth (Z.to_nat off + i)%nat buf x00) (seq 0 len).

(** ** Static helpers *)

Definition GetHeaderSize : Z := sizeof_CrossPackHeader.

Definition GetMaxPacketSize : Z :=
  u16 (sizeof_CrossPackHeader + MAX_PAYLOAD_BYTES + sizeof_CrossPackFooter).

Definition PeakHeader (le : bool) (inData : list byte) : CrossPackHeader :=
  let headerData := sub_bytes inData 0 (Z.to_nat sizeof_CrossPackHeader) in
  let headerData :=
    if negb le then
      SwapEndian
        (SwapEndian
           (SwapEndian headerData 0 2)
           2 2)
        4 1
    else headerData in
  {| dataID := object_value le (sub_bytes headerData 0 2);
     payloadSize := object_value le (sub_bytes headerData 2 2);
     packFlags := nth 4 headerData x00 |}.

Definition GetFooterLength (inHeader : CrossPackHeader) : Z :=
  u16 ((if CheckBit (packFlags inHeader) CHECKSUM_FLAG
        then sizeof_CrossPackChecksum else 0)
       + (if CheckBit (packFlags inHeader) UDP_SUPPORT_FLAG
          then sizeof_CrossClientID else 0)).

Definition PeakFooter (le : bool) (inData : list byte)
    (inHeader : CrossPackHeader) : CrossPackFooter :=
  let footerStart := u16 (sizeof_CrossPackHeader + payloadSize inHeader) in
  let footerSize := GetFooterLength inHeader in
  let footerData := sub_bytes inData footerStart (Z.to_nat footerSize) in
  let hasChecksum := CheckBit (packFlags inHeader) CHECKSUM_FLAG in
  let hasSender := CheckBit (packFlags inHeader) UDP_SUPPORT_FLAG in
  let footerData1 :=
    if hasChecksum && negb le then SwapEndian footerData 0 4 else footerData in
  let outChecksum :=
    if hasChecksum then s32 (object_value le (sub_bytes footerData1 0 4))
    else 0 in
  let offset := if hasChecksum then sizeof_CrossPackChecksum else 0 in
  let footerData2 :=
    if hasSender && negb le
    then SwapEndian footerData1 (Z.to_nat offset) 4 else footerData1 in
  let outSender :=
    if hasSender then object_value le (sub_bytes footerData2 offset 4)
    else 0 in
  {| checksum := outChecksum; senderID := outSender |}.

(** ** Constructors *)

(** A buffer fresh from [new CrossPackData[GetMaxPacketSize()]].  Its
    contents are indeterminate in C++ and no constructor writes them:
    [mem] tells what each cell of the storage obtained holds. *)
Definition new_buffer (mem : nat -> byte) : list byte :=
  map mem (seq 0 (Z.to_nat GetMaxPacketSize)).

(** Storage that happens to hold zeros. *)
Definition zeros : nat -> byte := fun _ => x00.

(** [CrossPack()], in the storage [mem]. *)
Definition CrossPack_new (mem : nat -> byte) : CrossPack :=
  {| header := CrossPackHeader_default; footer := CrossPackFooter_default;
     payload := new_buffer mem; removeIdx := 0; shouldDeleteData := true;
     hasBeenFinalized := false; hasBeenSerialized := false |}.

(** [CrossPack(CrossPackDataID inDataID)] *)
Definition CrossPack_of_dataID (mem : nat -> byte) (inDataID : Z)
    : CrossPack :=
  set_header (set_dataID inDataID CrossPackHeader_default)
    (CrossPack_new mem).

(** The component constructor, from a header, a footer and a buffer. *)
Definition CrossPack_of_parts (inHeader : CrossPackHeader)
    (inFooter : CrossPackFooter) (inPayload : list byte) : CrossPack :=
  {| header := inHeader; footer := inFooter; payload := inPayload;
     removeIdx := 0; shouldDeleteData := false;
     hasBeenFinalized := false; hasBeenSerialized := false |}.

(** The deserialization constructor, from a received buffer. *)
Definition CrossPack_of_data (le : bool) (data : list byte) : CrossPack :=
  let h := PeakHeader le data in
  CrossPack_of_parts h (PeakFooter le data h) data.

(** ** Accessors *)

Definition GetPayloadSize (p : CrossPack) : Z := payloadSize (header p).
Definition GetDataID (p : CrossPack) : Z := dataID (header p).
Definition GetSenderID (p : CrossPack) : Z := senderID (footer p).
Definition GetChecksum (p : CrossPack) : Z := checksum (footer p).
Definition IsFinalized (p : CrossPack) : bool := hasBeenFinalized p.
Definition GetFooterSize (p : CrossPack) : Z := GetFooterLength (header p).

Definition GetPacketSize (p : CrossPack) : Z :=
  u16 (GetPayloadSize p + GetHeaderSize + GetFooterSize p).

Definition GetRemainingPayloadSize (p : CrossPack) : Z :=
  u16 (GetPayloadSize p - removeIdx p).

Definition GetPacketFlag (p : CrossPack) (inFlag : Z) : bool :=
  CheckBit (packFlags (header p)) inFlag.

Definition SetDataID (inDataID : Z) (p : CrossPack) : CrossPack :=
  set_header (set_dataID inDataID (header p)) p.

Definition Reset (p : CrossPack) : CrossPack := set_removeIdx 0 p.

Definition ClearPayload (p : CrossPack) : CrossPack :=
  let p := Reset p in
  let p := set_header (set_payloadSize 0 (header p)) p in
  let p := set_hasBeenFinalized false p in
  set_hasBeenSerialized false p.

(** ** Writing the payload *)

(** [AddToPayload<T>(data, autoEndianSwap)] for a scalar type of
    [sizeofT] bytes whose value has the bit pattern [data]. *)
Definition AddToPayload (le : bool) (sizeofT : nat) (data : Z)
    (autoEndianSwap : bool) (p : CrossPack) : CrossPackError * CrossPack :=
  let size := payloadSize (header p) in
  if size + Z.of_nat sizeofT >? MAX_PAYLOAD_BYTES then (INVALID_DATA_SIZE, p)
  else
    let buf := memcpy (payload p) (size + GetHeaderSize)
                 (object_bytes le sizeofT data) in
    let buf :=
      if autoEndianSwap && negb le
      then SwapEndian buf (Z.to_nat (size + GetHeaderSize)) sizeofT
      else buf in
    let p := set_payload buf p in
    let p := set_header
               (set_payloadSize (u16 (size + Z.of_nat sizeofT)) (header p)) p in
    (VALID_DATA, set_hasBeenSerialized false p).

(** [AddDataToPayload(inData, length, autoEndianSwap)] *)
Definition AddDataToPayload (le : bool) (inData : list byte)
    (autoEndianSwap : bool) (p : CrossPack) : CrossPackError * CrossPack :=
  let size := payloadSize (header p) in
  let len := Z.of_nat (length inData) in
  if size + len >? MAX_PAYLOAD_BYTES then (INVALID_DATA_SIZE, p)
  else
    let buf := memcpy (payload p) (size + GetHeaderSize) inData in
    let buf :=
      if autoEndianSwap && negb le
      then SwapEndian buf (Z.to_nat (size + GetHeaderSize)) (length inData)
      else buf in
    let p := set_payload buf p in
    let p := set_header (set_payloadSize (u16 (size + len)) (header p)) p in
    (VALID_DATA, set_hasBeenSerialized false p).

Definition is_VALID_DATA (e : CrossPackError) : bool :=
  match e with VALID_DATA => true | _ => false end.

(** [AddStringToPayload(inStr)]: a 16-bit length, then the characters.
    The data is the first [(CrossPackPayloadLen)inStr.length()] characters. *)
Definition AddStringToPayload (le : bool) (inStr : list byte)
    (p : CrossPack) : CrossPackError * CrossPack :=
  let len := Z.of_nat (length inStr) in
  if payloadSize (header p) + len + sizeof_CrossPackPayloadLen
       >? MAX_PAYLOAD_BYTES
  then (INVALID_DATA_SIZE, p)
  else
    let '(e1, p1) := AddToPayload le 2 (u16 len) true p in
    if negb (is_VALID_DATA e1) then (INVALID_DATA_SIZE, p1)
    else
      let '(e2, p2) :=
        AddDataToPayload le (firstn (Z.to_nat (u16 len)) inStr) false p1 in
      if negb (is_VALID_DATA e2) then
        (INVALID_DATA_SIZE,
         set_header
           (set_payloadSize
              (u16 (payloadSize (header p2) - sizeof_CrossPackPayloadLen))
              (header p2)) p2)
      else (VALID_DATA, p2).

(** ** Reading the payload *)

(** [RemoveFromPayload<T>(autoEndianSwap)]: the bit pattern read, or
    [None] where the C++ returns [0] because too few bytes remain. *)
Definition RemoveFromPayload (le : bool) (sizeofT : nat)
    (autoEndianSwap : bool) (p : CrossPack) : option Z * CrossPack :=
  if payloadSize (header p) <? Z.of_nat sizeofT + removeIdx p then (None, p)
  else
    let buf :=
      if autoEndianSwap && negb le
      then SwapEndian (payload p) (Z.to_nat (GetHeaderSize + removeIdx p))
             sizeofT
      else payload p in
    let Output :=
      object_value le (sub_bytes buf (GetHeaderSize + removeIdx p) sizeofT) in
    let p := set_payload buf p in
    (Some Output, set_removeIdx (u16 (removeIdx p + Z.of_nat sizeofT)) p).

(** The instances the session layer uses. *)
Definition RemoveFromPayload_uint (le : bool) (sizeofT : nat)
    (p : CrossPack) : Z * CrossPack :=
  let '(o, p) := RemoveFromPayload le sizeofT true p in
  (match o with Some v => v | None => 0 end, p).

Definition RemoveFromPayload_float (le : bool) (p : CrossPack)
    : CFloat.float * CrossPack :=
  let '(o, p) := RemoveFromPayload le 4 true p in
  (match o with
   | Some v => CFloat.float_of_bits v
   | None => CFloat.dzero
   end, p).

Definition AddToPayload_float (le : bool) (f : CFloat.float)
    (p : CrossPack) : CrossPackError * CrossPack :=
  AddToPayload le 4 (CFloat.bits_of_float f) true p.

(** [RemoveDataFromPayload(outData, length, autoEndianSwap)] *)
Definition RemoveDataFromPayload (le : bool) (len : Z)
    (autoEndianSwap : bool) (p : CrossPack)
    : CrossPackError * list byte * CrossPack :=
  if payloadSize (header p) <? len + removeIdx p
  then (INVALID_DATA_SIZE, [], p)
  else
    let buf :=
      if autoEndianSwap && negb le
      then SwapEndian (payload p) (Z.to_nat (GetHeaderSize + removeIdx p))
             (Z.to_nat len)
      else payload p in
    let outData := sub_bytes buf (GetHeaderSize + removeIdx p) (Z.to_nat len) in
    let p := set_payload buf p in
    (VALID_DATA, outData, set_removeIdx (u16 (removeIdx p + len)) p).

(** The characters of a C string: up to the first NUL. *)
Fixpoint c_str (l : list byte) : list byte :=
  match l with
  | [] => []
  | b :: r => if Byte.eqb b x00 then [] else b :: c_str r
  end.

(** [RemoveStringFromPayload()] *)
Definition RemoveStringFromPayload (le : bool) (p : CrossPack)
    : list byte * CrossPack :=
  if payloadSize (header p) <? sizeof_CrossPackPayloadLen then ([], p)
  else
    let '(len, p) := RemoveFromPayload_uint le 2 p in
    if payloadSize (header p) <? len then ([], p)
    else
      let '(e, outBuf, p) := RemoveDataFromPayload le len false p in
      if is_VALID_DATA e then (c_str outBuf, p) else ([], p).

(** ** Flags, checksum, finalization *)

(** [SetPacketFlag(inFlag, inValue)] *)
Definition SetPacketFlag (inFlag : Z) (inValue : bool) (p : CrossPack)
    : CrossPackError * CrossPack :=
  if hasBeenFinalized p && (inFlag <? CUSTOM_FLAG_1)
  then (HAS_BEEN_FINALIZED, p)
  else
    let f := if inValue then SetBit (packFlags (header p)) inFlag
             else ClearBit (packFlags (header p)) inFlag in
    let p := set_header (set_packFlags f (header p)) p in
    (VALID_DATA, set_hasBeenSerialized false p).

(** [CalculateChecksum()]: every [+=] on the [int] accumulator wraps. *)
Definition CalculateChecksum (p : CrossPack) : Z :=
  let outChecksum :=
    fold_left
      (fun acc x =>
         s32 (acc + char_val (nth (x + Z.to_nat GetHeaderSize) (payload p) x00)))
      (seq 0 (Z.to_nat (payloadSize (header p)))) 0 in
  let outChecksum := s32 (outChecksum + dataID (header p)) in
  let outChecksum := s32 (outChecksum + payloadSize (header p)) in
  let outChecksum := s32 (outChecksum + char_val (packFlags (header p))) in
  let outChecksum := s32 (outChecksum + senderID (footer p)) in
  outChecksum.

(** [Finalize(AddChecksum, AddUDPSupport, inSenderID)] *)
Definition Finalize (AddChecksum AddUDPSupport : bool) (inSenderID : Z)
    (p : CrossPack) : CrossPack :=
  let p := set_hasBeenFinalized false p in
  let p := snd (SetPacketFlag CHECKSUM_FLAG AddChecksum p) in
  let p := snd (SetPacketFlag UDP_SUPPORT_FLAG AddUDPSupport p) in
  let p :=
    if AddUDPSupport
    then set_footer {| checksum := checksum (footer p);
                       senderID := inSenderID |} p
    else p in
  let p :=
    if AddChecksum
    then set_footer {| checksum := CalculateChecksum p;
                       senderID := senderID (footer p) |} p
    else p in
  let p := set_hasBeenFinalized true p in
  set_hasBeenSerialized false p.

(** [IsValid()] *)
Definition IsValid (p : CrossPack) : bool :=
  if negb (GetPacketFlag p CHECKSUM_FLAG) then true
  else checksum (footer p) =? CalculateChecksum p.

(** [SetPacketState(inStart, inEnd, inValue)] *)
Definition SetPacketState (inStart inEnd : Z) (inValue : byte)
    (p : CrossPack) : CrossPackError * CrossPack :=
  if hasBeenFinalized p && (inStart <? CUSTOM_FLAG_1)
  then (HAS_BEEN_FINALIZED, p)
  else
    let f := SetStateToFlag CheckBit SetBit ClearBit (packFlags (header p))
               inValue inStart inEnd in
    let p := set_header (set_packFlags f (header p)) p in
    (VALID_DATA, set_hasBeenSerialized false p).

(** [GetPacketState(inStart, inEnd)] *)
Definition GetPacketState (inStart inEnd : Z) (p : CrossPack) : byte :=
  GetStateFromFlag CheckBit SetBit x00 (packFlags (header p)) inStart inEnd.

(** [Copy(inPack)] on the packet [this]. *)
Definition Copy (inPack : CrossPack) (this : CrossPack) : CrossPack :=
  let size := payloadSize (header inPack) in
  {| header := {| dataID := dataID (header inPack); payloadSize := size;
                  packFlags := packFlags (header inPack) |};
     footer := {| checksum := checksum (footer inPack);
                  senderID := senderID (footer inPack) |};
     payload := memcpy (payload this) GetHeaderSize
                  (sub_bytes (payload inPack) GetHeaderSize (Z.to_nat size));
     removeIdx := removeIdx inPack;
     shouldDeleteData := shouldDeleteData this;
     hasBeenFinalized := hasBeenFinalized inPack;
     hasBeenSerialized := false |}.

(** The copy constructor: a new buffer, then [Copy(inPack)]. *)
Definition CrossPack_copy (mem : nat -> byte) (inPack : CrossPack)
    : CrossPack :=
  Copy inPack (CrossPack_new mem).

(** ** Serialization *)

(** [Serialize()]: lays the header and footer images out around the
    payload unless the image is flagged current; returns the buffer. *)
Definition Serialize (le : bool) (p : CrossPack) : CrossPack :=
  if negb (hasBeenSerialized p) then
    let h := header p in
    let size := payloadSize h in
    let buf := payload p in
    let buf := memcpy buf 0 (object_bytes le 2 (dataID h)) in
    let buf := memcpy buf sizeof_CrossPackDataID
                 (object_bytes le 2 (payloadSize h)) in
    let buf := memcpy buf (sizeof_CrossPackDataID + sizeof_CrossPackPayloadLen)
                 [packFlags h] in
    let buf :=
      if GetPacketFlag p CHECKSUM_FLAG then
        let buf := memcpy buf (GetHeaderSize + size)
                     (object_bytes le 4 (checksum (footer p))) in
        if GetPacketFlag p UDP_SUPPORT_FLAG then
          memcpy buf (GetHeaderSize + size + sizeof_CrossPackChecksum)
            (object_bytes le 4 (senderID (footer p)))
        else buf
      else if GetPacketFlag p UDP_SUPPORT_FLAG then
        memcpy buf (GetHeaderSize + size)
          (object_bytes le 4 (senderID (footer p)))
      else buf in
    let buf :=
      if negb le then
        let buf := SwapEndian buf 0 2 in
        let buf := SwapEndian buf 2 2 in
        let buf := SwapEndian buf 4 1 in
        if GetPacketFlag p CHECKSUM_FLAG then
          let buf := SwapEndian buf (Z.to_nat (GetHeaderSize + size)) 4 in
          if GetPacketFlag p UDP_SUPPORT_FLAG then
            SwapEndian buf
              (Z.to_nat (GetHeaderSize + size + sizeof_CrossPackChecksum)) 4
          else buf
        else if GetPacketFlag p UDP_SUPPORT_FLAG then
          SwapEndian buf (Z.to_nat (GetHeaderSize + size)) 4
        else buf
      else buf in
    set_hasBeenSerialized true (set_payload buf p)
  else p.

(** The bytes handed to [send]: [GetPacketSize()] bytes from the pointer
    [Serialize()] returns. *)
Definition wire (le : bool) (p : CrossPack) : list byte :=
  let q := Serialize le p in
  firstn (Z.to_nat (GetPacketSize q)) (payload q).

(** The payload region of a packet's buffer. *)
Definition payload_bytes (p : CrossPack) : list byte :=
  firstn (Z.to_nat (payloadSize (header p)))
    (skipn (Z.to_nat GetHeaderSize) (payload p)).

(** The checksum as the specification words it: one wrapping 32-bit sum
    of the payload bytes read as signed 8-bit values, the data id, the
    payload size, the flags and the sender id. *)
Definition checksum_sum (p : CrossPack) : Z :=
  s32 (fold_right Z.add 0 (map char_val (payload_bytes p))
       + dataID (header p) + payloadSize (header p)
       + char_val (packFlags (header p)) + senderID (footer p)).

(** What the C++ types and the allocation guarantee of a packet. *)
Definition wf (p : CrossPack) : Prop :=
  0 <= dataID (header p) < 65536
  /\ 0 <= payloadSize (header p) <= MAX_PAYLOAD_BYTES
  /\ -2147483648 <= checksum (footer p) < 2147483648
  /\ 0 <= senderID (footer p) < 4294967296
  /\ GetHeaderSize + payloadSize (header p) + sizeof_CrossPackFooter
     <= Z.of_nat (length (payload p)).

(** A packet that owns a buffer of the maximum packet size. *)
Definition full (p : CrossPack) : Prop :=
  wf p /\ length (payload p) = Z.to_nat GetMaxPacketSize.

(** What a packet must satisfy for its payload to be read. *)
Definition readable (p : CrossPack) : Prop :=
  0 <= removeIdx p
  /\ 0 <= payloadSize (header p) <= MAX_PAYLOAD_BYTES
  /\ (6 + Z.to_nat (payloadSize (header p)) <= length (payload p))%nat.

(** ** Frames and sums used to state properties *)

Definition zsum (l : list Z) : Z := fold_right Z.add 0 l.

(** Four bytes read at [o + k], least significant first. *)
Definition read4 (W : list byte) (o k : nat) : Z :=
  le_value [nth (o + k) W x00; nth (o + S k) W x00;
            nth (o + S (S k)) W x00; nth (o + S (S (S k))) W x00].

(** A complete frame at the head of a buffer. *)
Definition complete_frame (le : bool) (inData : list byte) (inLength : Z)
    : Prop :=
  GetHeaderSize <= inLength
  /\ payloadSize (PeakHeader le inData) <= MAX_PAYLOAD_BYTES
  /\ payloadSize (PeakHeader le inData) + GetHeaderSize
     + GetFooterLength (PeakHeader le inData) <= inLength.

(** The packet the receive functions build on a buffer. *)
Definition inPack (le : bool) (inData : list byte) : CrossPack :=
  CrossPack_of_parts (PeakHeader le inData)
    (PeakFooter le inData (PeakHeader le inData)) inData.

(** A frame whose header declares 1487 payload bytes. *)
Definition oversize_frame : list byte :=
  [x07; x00; xcf; x05; x00; x00; x01; x02].

(** The frame of an INIT_CLIENT_ID packet that carries id 7. *)
Definition init_id_frame : list byte :=
  [x01; x00; x04; x00; x00; x00; x07; x00; x00; x00].

(** The frame of an aliveness test that announces 3100 ms. *)
Definition aliveness_frame : list byte :=
  [x06; x00; x04; x00; x00; x00; x00; xc0; x41; x45].

(** The frame of a RECONNECT packet that carries the id 1. *)
Definition reconnect_frame : list byte :=
  [x02; x00; x04; x00; x00; x00; x01; x00; x00; x00].

End Pack.

(** * State passing *)

Definition State (S A : Type) : Type := S -> A * S.

#[global] Instance State_ret {S} : MRet (State S) :=
  fun A (a : A) (s : S) => (a, s).

#[global] Instance State_bind {S} : MBind (State S) :=
  fun A B (k : A -> State S B) (m : State S A) (s : S) =>
    let '(a, s') := m s in k a s'.

Definition gets {S A} (f : S -> A) : State S A := fun s => (f s, s).

Definition modify {S} (f : S -> S) : State S unit := fun s => (tt, f s).

Definition when {S} (b : bool) (m : State S unit) : State S unit :=
  if b then m else mret tt.

(** * The environment: system calls, clock, transmissions *)

Module Net.
Import Sock.

(** What the environment answers to one call. *)
Inductive Response :=
| RSocket (fd : option Z)       (* socket(): a descriptor or a failure *)
| RErrno (e : CrossSockError)   (* the last error after connect() *)
| RResult (n : option N) (e : CrossSockError)  (* bind, send, sendto *)
| RRecv (data : list byte) (e : CrossSockError)
| RRecvFrom (data : list byte) (from : CrossSockAddress) (e : CrossSockError)
| RAccept (fd : option Z) (from : CrossSockAddress) (e : CrossSockError)
| RNow (t : Z)                  (* the clock, in nanoseconds *)
| RAnswer (b : bool)            (* the value a callback returns *)
| RMemory (mem : nat -> byte).  (* what newly allocated storage holds *)

(** What the program did to its sockets.  A send that is retried while
    the socket would block is recorded once, with its final result. *)
Inductive Action :=
| TcpSend (fd : Z) (data : list byte) (result : Z)
| UdpSendTo (fd : Z) (to : CrossSockAddress) (data : list byte) (result : Z)
| Close (fd : Z).

(** The value of a call that reports a count: the count, or -1. *)
Definition result_value (n : option N) : Z :=
  match n with Some k => Z.of_N k | None => -1 end.

(** The answers still to come, in call order, and the actions so far.
    A call takes the first answer when it is of its kind; otherwise it
    fails and leaves the answers in place. *)
Record World := {
  script : list Response;
  actions : list Action
}.

Definition record (a : Action) (w : World) : World :=
  {| script := script w; actions := actions w ++ [a] |}.

Definition rest (w : World) : World :=
  {| script := tl (script w); actions := actions w |}.

(** [std::chrono::high_resolution_clock::now()] *)
Definition sys_now : State World Z :=
  fun w => match script w with
           | RNow t :: _ => (t, rest w)
           | _ => (0, w)
           end.

(** [CrossSockUtil::CreateTCPSocket], [CreateUDPSocket] *)
Definition sys_socket : State World (option Z) :=
  fun w => match script w with
           | RSocket fd :: _ => (fd, rest w)
           | _ => (None, w)
           end.

(** [Connect] followed by [GetLastError] *)
Definition sys_connect : State World CrossSockError :=
  fun w => match script w with
           | RErrno e :: _ => (e, rest w)
           | _ => (INVALID, w)
           end.

(** [Bind] followed by [GetLastError] *)
Definition sys_bind : State World (Z * CrossSockError) :=
  fun w => match script w with
           | RResult n e :: _ => (result_value n, e, rest w)
           | _ => (-1, INVALID, w)
           end.

(** The loop
    [do result = Send(..) while (block && result < 0 && error == WOULDBLOCK)]
    over the answers to come: the final result and the answers left. *)
Fixpoint send_until (block : bool) (s : list Response) : Z * list Response :=
  match s with
  | RResult n e :: s' =>
      if block && (result_value n <? 0) && CrossSockError_eqb e WOULDBLOCK
      then send_until block s'
      else (result_value n, s')
  | _ => (-1, s)
  end.

Definition sys_send (block : bool) (act : Z -> Action) : State World Z :=
  fun w => let '(r, s') := send_until block (script w) in
           (r, record (act r) {| script := s'; actions := actions w |}).

(** [Receive(buffer, capacity)] followed, when nothing was received, by
    [GetLastError]: the bytes stored and the last error.  Bytes beyond
    [capacity] stay with the environment. *)
Definition sys_recv (capacity : Z) : State World (list byte * CrossSockError) :=
  fun w =>
    match script w with
    | RRecv data e :: s' =>
        let got := firstn (Z.to_nat capacity) data in
        let left := skipn (Z.to_nat capacity) data in
        (got, e,
         {| script := match left with [] => s' | _ => RRecv left e :: s' end;
            actions := actions w |})
    | _ => ([], INVALID, w)
    end.

(** [ReceiveFrom(buffer, capacity, from)]: a datagram, cut to [capacity]. *)
Definition sys_recvfrom (capacity : Z)
    : State World (list byte * CrossSockAddress * CrossSockError) :=
  fun w =>
    match script w with
    | RRecvFrom data from e :: _ =>
        (firstn (Z.to_nat capacity) data, from, e, rest w)
    | _ => ([], CrossSockAddress_default, INVALID, w)
    end.

(** [Accept(from)] followed by [GetLastError] *)
Definition sys_accept
    : State World (option Z * CrossSockAddress * CrossSockError) :=
  fun w =>
    match script w with
    | RAccept fd from e :: _ => (fd, from, e, rest w)
    | _ => (None, CrossSockAddress_default, INVALID, w)
    end.

(** The value an application callback returns. *)
Definition sys_answer : State World bool :=
  fun w => match script w with
           | RAnswer b :: _ => (b, rest w)
           | _ => (true, w)
           end.

(** [new CrossPackData[GetMaxPacketSize()]]: what the storage obtained
    holds, cell by cell, before anything is written to it.  The
    environment tells it; the cells hold zeros when it does not. *)
Definition sys_new : State World (nat -> byte) :=
  fun w => match script w with
           | RMemory mem :: _ => (mem, rest w)
           | _ => (Pack.zeros, w)
           end.

(** [Close()] on a socket.  It does not invalidate the handle: the
    destructor of the socket, run when its last owner lets go of it,
    calls [Close()] once more. *)
Definition sys_close (fd : Z) : State World unit :=
  fun w => (tt, record (Close fd) w).

(** [CrossTimer::GetElapsedTime]: nanoseconds since [start], as a
    [double] number of milliseconds. *)
Definition GetElapsedTime (start : Z) : State World CFloat.double :=
  fun w => let '(t, w) := sys_now w in
           (CFloat.ddiv (CFloat.double_of_Z (t - start))
              (CFloat.double_of_Z 1000000), w).

End Net.

(** * CrossClient.h: the client session machine *)

Module Client.
Import Util Sock Pack CFloat Net.

Inductive CrossClientState :=
| CLIENT_NEEDS_TO_CONNECT
| CLIENT_CONNECTING
| CLIENT_RECEIVING_ID
| CLIENT_RECEIVING_DATA_LIST
| CLIENT_RECONNECTING
| CLIENT_REQUESTING_ID
| CLIENT_CONNECTED.

Definition CrossClientState_eqb (a b : CrossClientState) : bool :=
  match a, b with
  | CLIENT_NEEDS_TO_CONNECT, CLIENT_NEEDS_TO_CONNECT
  | CLIENT_CONNECTING, CLIENT_CONNECTING
  | CLIENT_RECEIVING_ID, CLIENT_RECEIVING_ID
  | CLIENT_RECEIVING_DATA_LIST, CLIENT_RECEIVING_DATA_LIST
  | CLIENT_RECONNECTING, CLIENT_RECONNECTING
  | CLIENT_REQUESTING_ID, CLIENT_REQUESTING_ID
  | CLIENT_CONNECTED, CLIENT_CONNECTED => true
  | _, _ => false
  end.

Record CrossClientProperties := {
  allowUDPPackets : bool;
  maxUDPTransmitsPerUpdate : Z;
  maxTCPTransmitsPerUpdate : Z;
  shouldAttemptReconnect : bool;
  maxConnectionAttempts : Z;
  maxReconnectionAttempts : Z;
  connectionDelay : double;
  alivenessTestDelay : double
}.

Definition CrossClientProperties_default : CrossClientProperties :=
  {| allowUDPPackets := true; maxUDPTransmitsPerUpdate := 256;
     maxTCPTransmitsPerUpdate := 4; shouldAttemptReconnect := true;
     maxConnectionAttempts := 50; maxReconnectionAttempts := 100;
     connectionDelay := double_of_Z 200;
     alivenessTestDelay := double_of_Z 1000 |}.

(** The client object.  An event field is [true] when a handler is
    installed and valid; the two hash tables hold positions in
    [dataEvents] where the C++ holds pointers into it; a receive buffer is
    the list of its first [tcpBufferLength] (or [udpBufferLength]) bytes. *)
Record CrossClient := {
  serverSocket : option Z;
  streamSocket : option Z;
  serverAddress : CrossSockAddress;
  addressFamily : Z;
  clientProperties : CrossClientProperties;
  clientState : CrossClientState;
  clientID : Z;
  streamIsBound : bool;
  connectEvent : bool;
  readyEvent : bool;
  disconnectEvent : bool;
  attemptReconnectEvent : bool;
  reconnectEvent : bool;
  failedReconnectEvent : bool;
  handshakeEvent : bool;
  receiveEvent : bool;
  transErrorEvent : bool;
  dataEvents : list CrossDataEvent;
  dataEventsByID : gmap Z nat;
  dataEventsByName : list (list byte * nat);
  connectionAttempts : Z;
  connectionTimer : Z;
  tcpBuffer : list byte;
  udpBuffer : list byte;
  alivenessTestTimer : Z;
  timeoutTimer : Z;
  timeoutDelay : double;
  ping : double
}.

Definition set_serverSocket (v : option Z) (x : CrossClient) : CrossClient :=
  {| serverSocket := v; streamSocket := streamSocket x; serverAddress :=
     serverAddress x; addressFamily := addressFamily x; clientProperties :=
     clientProperties x; clientState := clientState x; clientID := clientID x;
     streamIsBound := streamIsBound x; connectEvent := connectEvent x;
     readyEvent := readyEvent x; disconnectEvent := disconnectEvent x;
     attemptReconnectEvent := attemptReconnectEvent x; reconnectEvent :=
     reconnectEvent x; failedReconnectEvent := failedReconnectEvent x;
     handshakeEvent := handshakeEvent x; receiveEvent := receiveEvent x;
     transErrorEvent := transErrorEvent x; dataEvents := dataEvents x;
     dataEventsByID := dataEventsByID x; dataEventsByName := dataEventsByName
     x; connectionAttempts := connectionAttempts x; connectionTimer :=
     connectionTimer x; tcpBuffer := tcpBuffer x; udpBuffer := udpBuffer x;
     alivenessTestTimer := alivenessTestTimer x; timeoutTimer := timeoutTimer
     x; timeoutDelay := timeoutDelay x; ping := ping x |}.

Definition set_streamSocket (v : option Z) (x : CrossClient) : CrossClient :=
  {| serverSocket := serverSocket x; streamSocket := v; serverAddress :=
     serverAddress x; addressFamily := addressFamily x; clientProperties :=
     clientProperties x; clientState := clientState x; clientID := clientID x;
     streamIsBound := streamIsBound x; connectEvent := connectEvent x;
     readyEvent := readyEvent x; disconnectEvent := disconnectEvent x;
     attemptReconnectEvent := attemptReconnectEvent x; reconnectEvent :=
     reconnectEvent x; failedReconnectEvent := failedReconnectEvent x;
     handshakeEvent := handshakeEvent x; receiveEvent := receiveEvent x;
     transErrorEvent := transErrorEvent x; dataEvents := dataEvents x;
     dataEventsByID := dataEventsByID x; dataEventsByName := dataEventsByName
     x; connectionAttempts := connectionAttempts x; connectionTimer :=
     connectionTimer x; tcpBuffer := tcpBuffer x; udpBuffer := udpBuffer x;
     alivenessTestTimer := alivenessTestTimer x; timeoutTimer := timeoutTimer
     x; timeoutDelay := timeoutDelay x; ping := ping x |}.

Definition set_serverAddress (v : CrossSockAddress) (x : CrossClient) : CrossClient :=
  {| serverSocket := serverSocket x; streamSocket := streamSocket x;
     serverAddress := v; addressFamily := addressFamily x; clientProperties :=
     clientProperties x; clientState := clientState x; clientID := clientID x;
     streamIsBound := streamIsBound x; connectEvent := connectEvent x;
     readyEvent := readyEvent x; disconnectEvent := disconnectEvent x;
     attemptReconnectEvent := attemptReconnectEvent x; reconnectEvent :=
     reconnectEvent x; failedReconnectEvent := failedReconnectEvent x;
     handshakeEvent := handshakeEvent x; receiveEvent := receiveEvent x;
     transErrorEvent := transErrorEvent x; dataEvents := dataEvents x;
     dataEventsByID := dataEventsByID x; dataEventsByName := dataEventsByName
     x; connectionAttempts := connectionAttempts x; connectionTimer :=
     connectionTimer x; tcpBuffer := tcpBuffer x; udpBuffer := udpBuffer x;
     alivenessTestTimer := alivenessTestTimer x; timeoutTimer := timeoutTimer
     x; timeoutDelay := timeoutDelay x; ping := ping x |}.

Definition set_addressFamily (v : Z) (x : CrossClient) : CrossClient :=
  {| serverSocket := serverSocket x; streamSocket := streamSocket x;
     serverAddress := serverAddress x; addressFamily := v; clientProperties :=
     clientProperties x; clientState := clientState x; clientID := clientID x;
     streamIsBound := streamIsBound x; connectEvent := connectEvent x;
     readyEvent := readyEvent x; disconnectEvent := disconnectEvent x;
     attemptReconnectEvent := attemptReconnectEvent x; reconnectEvent :=
     reconnectEvent x; failedReconnectEvent := failedReconnectEvent x;
     handshakeEvent := handshakeEvent x; receiveEvent := receiveEvent x;
     transErrorEvent := transErrorEvent x; dataEvents := dataEvents x;
     dataEventsByID := dataEventsByID x; dataEventsByName := dataEventsByName
     x; connectionAttempts := connectionAttempts x; connectionTimer :=
     connectionTimer x; tcpBuffer := tcpBuffer x; udpBuffer := udpBuffer x;
     alivenessTestTimer := alivenessTestTimer x; timeoutTimer := timeoutTimer
     x; timeoutDelay := timeoutDelay x; ping := ping x |}.

Definition set_clientProperties (v : CrossClientProperties) (x : CrossClient) : CrossClient :=
  {| serverSocket := serverSocket x; streamSocket := streamSocket x;
     serverAddress := serverAddress x; addressFamily := addressFamily x;
     clientProperties := v; clientState := clientState x; clientID := clientID
     x; streamIsBound := streamIsBound x; connectEvent := connectEvent x;
     readyEvent := readyEvent x; disconnectEvent := disconnectEvent x;
     attemptReconnectEvent := attemptReconnectEvent x; reconnectEvent :=
     reconnectEvent x; failedReconnectEvent := failedReconnectEvent x;
     handshakeEvent := handshakeEvent x; receiveEvent := receiveEvent x;
     transErrorEvent := transErrorEvent x; dataEvents := dataEvents x;
     dataEventsByID := dataEventsByID x; dataEventsByName := dataEventsByName
     x; connectionAttempts := connectionAttempts x; connectionTimer :=
     connectionTimer x; tcpBuffer := tcpBuffer x; udpBuffer := udpBuffer x;
     alivenessTestTimer := alivenessTestTimer x; timeoutTimer := timeoutTimer
     x; timeoutDelay := timeoutDelay x; ping := ping x |}.

Definition set_clientState (v : CrossClientState) (x : CrossClient) : CrossClient :=
  {| serverSocket := serverSocket x; streamSocket := streamSocket x;
     serverAddress := serverAddress x; addressFamily := addressFamily x;
     clientProperties := clientProperties x; clientState := v; clientID :=
     clientID x; streamIsBound := streamIsBound x; connectEvent := connectEvent
     x; readyEvent := readyEvent x; disconnectEvent := disconnectEvent x;
     attemptReconnectEvent := attemptReconnectEvent x; reconnectEvent :=
     reconnectEvent x; failedReconnectEvent := failedReconnectEvent x;
     handshakeEvent := handshakeEvent x; receiveEvent := receiveEvent x;
     transErrorEvent := transErrorEvent x; dataEvents := dataEvents x;
     dataEventsByID := dataEventsByID x; dataEventsByName := dataEventsByName
     x; connectionAttempts := connectionAttempts x; connectionTimer :=
     connectionTimer x; tcpBuffer := tcpBuffer x; udpBuffer := udpBuffer x;
     alivenessTestTimer := alivenessTestTimer x; timeoutTimer := timeoutTimer
     x; timeoutDelay := timeoutDelay x; ping := ping x |}.

Definition set_clientID (v : Z) (x : CrossClient) : CrossClient :=
  {| serverSocket := serverSocket x; streamSocket := streamSocket x;
     serverAddress := serverAddress x; addressFamily := addressFamily x;
     clientProperties := clientProperties x; clientState := clientState x;
     clientID := v; streamIsBound := streamIsBound x; connectEvent :=
     connectEvent x; readyEvent := readyEvent x; disconnectEvent :=
     disconnectEvent x; attemptReconnectEvent := attemptReconnectEvent x;
     reconnectEvent := reconnectEvent x; failedReconnectEvent :=
     failedReconnectEvent x; handshakeEvent := handshakeEvent x; receiveEvent
     := receiveEvent x; transErrorEvent := transErrorEvent x; dataEvents :=
     dataEvents x; dataEventsByID := dataEventsByID x; dataEventsByName :=
     dataEventsByName x; connectionAttempts := connectionAttempts x;
     connectionTimer := connectionTimer x; tcpBuffer := tcpBuffer x; udpBuffer
     := udpBuffer x; alivenessTestTimer := alivenessTestTimer x; timeoutTimer
     := timeoutTimer x; timeoutDelay := timeoutDelay x; ping := ping x |}.

Definition set_streamIsBound (v : bool) (x : CrossClient) : CrossClient :=
  {| serverSocket := serverSocket x; streamSocket := streamSocket x;
     serverAddress := serverAddress x; addressFamily := addressFamily x;
     clientProperties := clientProperties x; clientState := clientState x;
     clientID := clientID x; streamIsBound := v; connectEvent := connectEvent
     x; readyEvent := readyEvent x; disconnectEvent := disconnectEvent x;
     attemptReconnectEvent := attemptReconnectEvent x; reconnectEvent :=
     reconnectEvent x; failedReconnectEvent := failedReconnectEvent x;
     handshakeEvent := handshakeEvent x; receiveEvent := receiveEvent x;
     transErrorEvent := transErrorEvent x; dataEvents := dataEvents x;
     dataEventsByID := dataEventsByID x; dataEventsByName := dataEventsByName
     x; connectionAttempts := connectionAttempts x; connectionTimer :=
     connectionTimer x; tcpBuffer := tcpBuffer x; udpBuffer := udpBuffer x;
     alivenessTestTimer := alivenessTestTimer x; timeoutTimer := timeoutTimer
     x; timeoutDelay := timeoutDelay x; ping := ping x |}.

Definition set_dataEvents (v : list CrossDataEvent) (x : CrossClient) : CrossClient :=
  {| serverSocket := serverSocket x; streamSocket := streamSocket x;
     serverAddress := serverAddress x; addressFamily := addressFamily x;
     clientProperties := clientProperties x; clientState := clientState x;
     clientID := clientID x; streamIsBound := streamIsBound x; connectEvent :=
     connectEvent x; readyEvent := readyEvent x; disconnectEvent :=
     disconnectEvent x; attemptReconnectEvent := attemptReconnectEvent x;
     reconnectEvent := reconnectEvent x; failedReconnectEvent :=
     failedReconnectEvent x; handshakeEvent := handshakeEvent x; receiveEvent
     := receiveEvent x; transErrorEvent := transErrorEvent x; dataEvents := v;
     dataEventsByID := dataEventsByID x; dataEventsByName := dataEventsByName
     x; connectionAttempts := connectionAttempts x; connectionTimer :=
     connectionTimer x; tcpBuffer := tcpBuffer x; udpBuffer := udpBuffer x;
     alivenessTestTimer := alivenessTestTimer x; timeoutTimer := timeoutTimer
     x; timeoutDelay := timeoutDelay x; ping := ping x |}.

Definition set_dataEventsByID (v : gmap Z nat) (x : CrossClient) : CrossClient :=
  {| serverSocket := serverSocket x; streamSocket := streamSocket x;
     serverAddress := serverAddress x; addressFamily := addressFamily x;
     clientProperties := clientProperties x; clientState := clientState x;
     clientID := clientID x; streamIsBound := streamIsBound x; connectEvent :=
     connectEvent x; readyEvent := readyEvent x; disconnectEvent :=
     disconnectEvent x; attemptReconnectEvent := attemptReconnectEvent x;
     reconnectEvent := reconnectEvent x; failedReconnectEvent :=
     failedReconnectEvent x; handshakeEvent := handshakeEvent x; receiveEvent
     := receiveEvent x; transErrorEvent := transErrorEvent x; dataEvents :=
     dataEvents x; dataEventsByID := v; dataEventsByName := dataEventsByName x;
     connectionAttempts := connectionAttempts x; connectionTimer :=
     connectionTimer x; tcpBuffer := tcpBuffer x; udpBuffer := udpBuffer x;
     alivenessTestTimer := alivenessTestTimer x; timeoutTimer := timeoutTimer
     x; timeoutDelay := timeoutDelay x; ping := ping x |}.

Definition set_dataEventsByName (v : list (list byte * nat)) (x : CrossClient) : CrossClient :=
  {| serverSocket := serverSocket x; streamSocket := streamSocket x;
     serverAddress := serverAddress x; addressFamily := addressFamily x;
     clientProperties := clientProperties x; clientState := clientState x;
     clientID := clientID x; streamIsBound := streamIsBound x; connectEvent :=
     connectEvent x; readyEvent := readyEvent x; disconnectEvent :=
     disconnectEvent x; attemptReconnectEvent := attemptReconnectEvent x;
     reconnectEvent := reconnectEvent x; failedReconnectEvent :=
     failedReconnectEvent x; handshakeEvent := handshakeEvent x; receiveEvent
     := receiveEvent x; transErrorEvent := transErrorEvent x; dataEvents :=
     dataEvents x; dataEventsByID := dataEventsByID x; dataEventsByName := v;
     connectionAttempts := connectionAttempts x; connectionTimer :=
     connectionTimer x; tcpBuffer := tcpBuffer x; udpBuffer := udpBuffer x;
     alivenessTestTimer := alivenessTestTimer x; timeoutTimer := timeoutTimer
     x; timeoutDelay := timeoutDelay x; ping := ping x |}.

Definition set_connectionAttempts (v : Z) (x : CrossClient) : CrossClient :=
  {| serverSocket := serverSocket x; streamSocket := streamSocket x;
     serverAddress := serverAddress x; addressFamily := addressFamily x;
     clientProperties := clientProperties x; clientState := clientState x;
     clientID := clientID x; streamIsBound := streamIsBound x; connectEvent :=
     connectEvent x; readyEvent := readyEvent x; disconnectEvent :=
     disconnectEvent x; attemptReconnectEvent := attemptReconnectEvent x;
     reconnectEvent := reconnectEvent x; failedReconnectEvent :=
     failedReconnectEvent x; handshakeEvent := handshakeEvent x; receiveEvent
     := receiveEvent x; transErrorEvent := transErrorEvent x; dataEvents :=
     dataEvents x; dataEventsByID := dataEventsByID x; dataEventsByName :=
     dataEventsByName x; connectionAttempts := v; connectionTimer :=
     connectionTimer x; tcpBuffer := tcpBuffer x; udpBuffer := udpBuffer x;
     alivenessTestTimer := alivenessTestTimer x; timeoutTimer := timeoutTimer
     x; timeoutDelay := timeoutDelay x; ping := ping x |}.

Definition set_connectionTimer (v : Z) (x : CrossClient) : CrossClient :=
  {| serverSocket := serverSocket x; streamSocket := streamSocket x;
     serverAddress := serverAddress x; addressFamily := addressFamily x;
     clientProperties := clientProperties x; clientState := clientState x;
     clientID := clientID x; streamIsBound := streamIsBound x; connectEvent :=
     connectEvent x; readyEvent := readyEvent x; disconnectEvent :=
     disconnectEvent x; attemptReconnectEvent := attemptReconnectEvent x;
     reconnectEvent := reconnectEvent x; failedReconnectEvent :=
     failedReconnectEvent x; handshakeEvent := handshakeEvent x; receiveEvent
     := receiveEvent x; transErrorEvent := transErrorEvent x; dataEvents :=
     dataEvents x; dataEventsByID := dataEventsByID x; dataEventsByName :=
     dataEventsByName x; connectionAttempts := connectionAttempts x;
     connectionTimer := v; tcpBuffer := tcpBuffer x; udpBuffer := udpBuffer x;
     alivenessTestTimer := alivenessTestTimer x; timeoutTimer := timeoutTimer
     x; timeoutDelay := timeoutDelay x; ping := ping x |}.

Definition set_tcpBuffer (v : list byte) (x : CrossClient) : CrossClient :=
  {| serverSocket := serverSocket x; streamSocket := streamSocket x;
     serverAddress := serverAddress x; addressFamily := addressFamily x;
     clientProperties := clientProperties x; clientState := clientState x;
     clientID := clientID x; streamIsBound := streamIsBound x; connectEvent :=
     connectEvent x; readyEvent := readyEvent x; disconnectEvent :=
     disconnectEvent x; attemptReconnectEvent := attemptReconnectEvent x;
     reconnectEvent := reconnectEvent x; failedReconnectEvent :=
     failedReconnectEvent x; handshakeEvent := handshakeEvent x; receiveEvent
     := receiveEvent x; transErrorEvent := transErrorEvent x; dataEvents :=
     dataEvents x; dataEventsByID := dataEventsByID x; dataEventsByName :=
     dataEventsByName x; connectionAttempts := connectionAttempts x;
     connectionTimer := connectionTimer x; tcpBuffer := v; udpBuffer :=
     udpBuffer x; alivenessTestTimer := alivenessTestTimer x; timeoutTimer :=
     timeoutTimer x; timeoutDelay := timeoutDelay x; ping := ping x |}.

Definition set_udpBuffer (v : list byte) (x : CrossClient) : CrossClient :=
  {| serverSocket := serverSocket x; streamSocket := streamSocket x;
     serverAddress := serverAddress x; addressFamily := addressFamily x;
     clientProperties := clientProperties x; clientState := clientState x;
     clientID := clientID x; streamIsBound := streamIsBound x; connectEvent :=
     connectEvent x; readyEvent := readyEvent x; disconnectEvent :=
     disconnectEvent x; attemptReconnectEvent := attemptReconnectEvent x;
     reconnectEvent := reconnectEvent x; failedReconnectEvent :=
     failedReconnectEvent x; handshakeEvent := handshakeEvent x; receiveEvent
     := receiveEvent x; transErrorEvent := transErrorEvent x; dataEvents :=
     dataEvents x; dataEventsByID := dataEventsByID x; dataEventsByName :=
     dataEventsByName x; connectionAttempts := connectionAttempts x;
     connectionTimer := connectionTimer x; tcpBuffer := tcpBuffer x; udpBuffer
     := v; alivenessTestTimer := alivenessTestTimer x; timeoutTimer :=
     timeoutTimer x; timeoutDelay := timeoutDelay x; ping := ping x |}.

Definition set_alivenessTestTimer (v : Z) (x : CrossClient) : CrossClient :=
  {| serverSocket := serverSocket x; streamSocket := streamSocket x;
     serverAddress := serverAddress x; addressFamily := addressFamily x;
     clientProperties := clientProperties x; clientState := clientState x;
     clientID := clientID x; streamIsBound := streamIsBound x; connectEvent :=
     connectEvent x; readyEvent := readyEvent x; disconnectEvent :=
     disconnectEvent x; attemptReconnectEvent := attemptReconnectEvent x;
     reconnectEvent := reconnectEvent x; failedReconnectEvent :=
     failedReconnectEvent x; handshakeEvent := handshakeEvent x; receiveEvent
     := receiveEvent x; transErrorEvent := transErrorEvent x; dataEvents :=
     dataEvents x; dataEventsByID := dataEventsByID x; dataEventsByName :=
     dataEventsByName x; connectionAttempts := connectionAttempts x;
     connectionTimer := connectionTimer x; tcpBuffer := tcpBuffer x; udpBuffer
     := udpBuffer x; alivenessTestTimer := v; timeoutTimer := timeoutTimer x;
     timeoutDelay := timeoutDelay x; ping := ping x |}.

Definition set_timeoutTimer (v : Z) (x : CrossClient) : CrossClient :=
  {| serverSocket := serverSocket x; streamSocket := streamSocket x;
     serverAddress := serverAddress x; addressFamily := addressFamily x;
     clientProperties := clientProperties x; clientState := clientState x;
     clientID := clientID x; streamIsBound := streamIsBound x; connectEvent :=
     connectEvent x; readyEvent := readyEvent x; disconnectEvent :=
     disconnectEvent x; attemptReconnectEvent := attemptReconnectEvent x;
     reconnectEvent := reconnectEvent x; failedReconnectEvent :=
     failedReconnectEvent x; handshakeEvent := handshakeEvent x; receiveEvent
     := receiveEvent x; transErrorEvent := transErrorEvent x; dataEvents :=
     dataEvents x; dataEventsByID := dataEventsByID x; dataEventsByName :=
     dataEventsByName x; connectionAttempts := connectionAttempts x;
     connectionTimer := connectionTimer x; tcpBuffer := tcpBuffer x; udpBuffer
     := udpBuffer x; alivenessTestTimer := alivenessTestTimer x; timeoutTimer
     := v; timeoutDelay := timeoutDelay x; ping := ping x |}.

Definition set_timeoutDelay (v : double) (x : CrossClient) : CrossClient :=
  {| serverSocket := serverSocket x; streamSocket := streamSocket x;
     serverAddress := serverAddress x; addressFamily := addressFamily x;
     clientProperties := clientProperties x; clientState := clientState x;
     clientID := clientID x; streamIsBound := streamIsBound x; connectEvent :=
     connectEvent x; readyEvent := readyEvent x; disconnectEvent :=
     disconnectEvent x; attemptReconnectEvent := attemptReconnectEvent x;
     reconnectEvent := reconnectEvent x; failedReconnectEvent :=
     failedReconnectEvent x; handshakeEvent := handshakeEvent x; receiveEvent
     := receiveEvent x; transErrorEvent := transErrorEvent x; dataEvents :=
     dataEvents x; dataEventsByID := dataEventsByID x; dataEventsByName :=
     dataEventsByName x; connectionAttempts := connectionAttempts x;
     connectionTimer := connectionTimer x; tcpBuffer := tcpBuffer x; udpBuffer
     := udpBuffer x; alivenessTestTimer := alivenessTestTimer x; timeoutTimer
     := timeoutTimer x; timeoutDelay := v; ping := ping x |}.

Definition set_ping (v : double) (x : CrossClient) : CrossClient :=
  {| serverSocket := serverSocket x; streamSocket := streamSocket x;
     serverAddress := serverAddress x; addressFamily := addressFamily x;
     clientProperties := clientProperties x; clientState := clientState x;
     clientID := clientID x; streamIsBound := streamIsBound x; connectEvent :=
     connectEvent x; readyEvent := readyEvent x; disconnectEvent :=
     disconnectEvent x; attemptReconnectEvent := attemptReconnectEvent x;
     reconnectEvent := reconnectEvent x; failedReconnectEvent :=
     failedReconnectEvent x; handshakeEvent := handshakeEvent x; receiveEvent
     := receiveEvent x; transErrorEvent := transErrorEvent x; dataEvents :=
     dataEvents x; dataEventsByID := dataEventsByID x; dataEventsByName :=
     dataEventsByName x; connectionAttempts := connectionAttempts x;
     connectionTimer := connectionTimer x; tcpBuffer := tcpBuffer x; udpBuffer
     := udpBuffer x; alivenessTestTimer := alivenessTestTimer x; timeoutTimer
     := timeoutTimer x; timeoutDelay := timeoutDelay x; ping := v |}.

(** [CrossClient::Init], with the members it leaves unset at zero. *)
Definition Init : CrossClient :=
  {| serverSocket := None; streamSocket := None;
     serverAddress := CrossSockAddress_default; addressFamily := AF_INET;
     clientProperties := CrossClientProperties_default;
     clientState := CLIENT_NEEDS_TO_CONNECT; clientID := 0;
     streamIsBound := false;
     connectEvent := false; readyEvent := false; disconnectEvent := false;
     attemptReconnectEvent := false; reconnectEvent := false;
     failedReconnectEvent := false; handshakeEvent := false;
     receiveEvent := false; transErrorEvent := false;
     dataEvents := []; dataEventsByID := ∅; dataEventsByName := [];
     connectionAttempts := 0; connectionTimer := 0;
     tcpBuffer := []; udpBuffer := [];
     alivenessTestTimer := 0; timeoutTimer := 0;
     timeoutDelay := dzero; ping := dzero |}.

(** The callbacks the client executes. *)
Inductive Event :=
| OnConnect
| OnReady
| OnDisconnect
| OnAttemptReconnect
| OnReconnect
| OnReconnectFailed
| OnHandshake
| OnReceiveData (pack : CrossPack) (method : NetTransMethod)
| OnTransmitError (pack : option CrossPack) (method : NetTransMethod)
    (error : NetTransError)
| OnData (dataID : Z) (callback : nat) (pack : CrossPack)
    (method : NetTransMethod).

(** The client with its environment and the callbacks executed so far. *)
Record Sys := {
  obj : CrossClient;
  world : World;
  events : list Event
}.

Definition M := State Sys.

Definition upd (f : CrossClient -> CrossClient) : M unit :=
  modify (fun s => {| obj := f (obj s); world := world s; events := events s |}).

Definition sys {A} (m : State World A) : M A :=
  fun s => let '(a, w) := m (world s) in
           (a, {| obj := obj s; world := w; events := events s |}).

(** [if (event && event->IsValid()) event->Execute(..)] *)
Definition fire (installed : CrossClient -> bool) (e : Event) : M unit :=
  fun s => (tt, if installed (obj s)
                then {| obj := obj s; world := world s;
                        events := events s ++ [e] |}
                else s).

Definition IsRunning (c : CrossClient) : bool :=
  negb (CrossClientState_eqb (clientState c) CLIENT_NEEDS_TO_CONNECT).

Definition IsConnected (c : CrossClient) : bool :=
  IsRunning c
  && negb (CrossClientState_eqb (clientState c) CLIENT_CONNECTING)
  && negb (CrossClientState_eqb (clientState c) CLIENT_RECONNECTING).

Definition IsDisconnected (c : CrossClient) : bool :=
  CrossClientState_eqb (clientState c) CLIENT_NEEDS_TO_CONNECT.

Definition IsReady (c : CrossClient) : bool :=
  CrossClientState_eqb (clientState c) CLIENT_CONNECTED.

Definition GetClientID (c : CrossClient) : Z :=
  if CrossClientState_eqb (clientState c) CLIENT_CONNECTED
     || CrossClientState_eqb (clientState c) CLIENT_RECEIVING_DATA_LIST
  then clientID c else 0.

(** The state test that opens [SendToServer] and [StreamToServer]. *)
Definition not_connected (c : CrossClient) : bool :=
  CrossClientState_eqb (clientState c) CLIENT_NEEDS_TO_CONNECT
  || CrossClientState_eqb (clientState c) CLIENT_CONNECTING
  || CrossClientState_eqb (clientState c) CLIENT_RECONNECTING.

(** [SendToServer(inPack, inShouldBlockUntilSent)]: the value returned
    and the packet as [Serialize] leaves it.  A null [serverSocket] past
    the state test is undefined in C++; the model returns -1 there. *)
Definition SendToServer (le : bool) (inPack : CrossPack)
    (inShouldBlockUntilSent : bool) : M (Z * CrossPack) :=
  c ← gets obj;
  if not_connected c
  then mret (NetTransError_code CLIENT_NOT_CONNECTED, inPack)
  else
    let q := Serialize le inPack in
    match serverSocket c with
    | Some fd =>
        result ← sys (sys_send inShouldBlockUntilSent
                        (TcpSend fd (firstn (Z.to_nat (GetPacketSize q))
                                       (payload q))));
        mret (result, q)
    | None => mret (-1, q)
    end.

(** [StreamToServer(inPack, inShouldBlockUntilSent)] *)
Definition StreamToServer (le : bool) (inPack : CrossPack)
    (inShouldBlockUntilSent : bool) : M (Z * CrossPack) :=
  c ← gets obj;
  if not_connected c
  then mret (NetTransError_code CLIENT_NOT_CONNECTED, inPack)
  else if negb (streamIsBound c)
  then mret (NetTransError_code STREAM_NOT_BOUND, inPack)
  else
    let p := if negb (IsFinalized inPack)
             then Finalize false true (GetClientID c) inPack
             else inPack in
    let q := Serialize le p in
    match streamSocket c with
    | Some fd =>
        result ← sys (sys_send inShouldBlockUntilSent
                        (UdpSendTo fd (serverAddress c)
                           (firstn (Z.to_nat (GetPacketSize q)) (payload q))));
        mret (result, q)
    | None => mret (-1, q)
    end.

(** [ResetDataEventIDs()] *)
Definition ResetDataEventIDs (c : CrossClient) : CrossClient :=
  let c := set_dataEventsByID ∅ c in
  let c := set_dataEventsByName [] c in
  set_dataEvents
    (map (fun d => {| name := name d; de_dataID := UNKNOWN_PACK;
                      callbacks := callbacks d |}) (dataEvents c)) c.

(** [Disconnect(AttemptReconnect)] *)
Definition Disconnect (le : bool) (AttemptReconnect : bool) : M unit :=
  c ← gets obj;
  if IsRunning c then
    upd ResetDataEventIDs;;
    match serverSocket c with
    | Some fd =>
        mem ← sys sys_new;
        SendToServer le (SetDataID DISCONNECT_PACK (CrossPack_new mem)) true;;
        sys (sys_close fd);;
        (* reset(): the destructor of the socket closes it again *)
        sys (sys_close fd);;
        upd (set_serverSocket None)
    | None => mret tt
    end;;
    match streamSocket c with
    | Some fd =>
        sys (sys_close fd);;
        (* reset(): the destructor of the socket closes it again *)
        sys (sys_close fd);;
        upd (set_streamSocket None)
    | None => mret tt
    end;;
    upd (set_streamIsBound false);;
    c ← gets obj;
    if AttemptReconnect && shouldAttemptReconnect (clientProperties c)
       && IsReady c
    then
      upd (set_connectionAttempts 0);;
      upd (set_tcpBuffer []);;
      upd (set_udpBuffer []);;
      upd (set_clientState CLIENT_RECONNECTING);;
      fire attemptReconnectEvent OnAttemptReconnect
    else
      upd (set_clientState CLIENT_NEEDS_TO_CONNECT);;
      fire disconnectEvent OnDisconnect
  else mret tt.

(** The packet the three heartbeat sites build:
    [alivenessTest.SetDataID(ALIVENESS_TEST)] and
    [AddToPayload<float>((float)((delay + ping) * CROSS_SOCK_TIMEOUT_FACTOR))]. *)
Definition alivenessTest (mem : nat -> byte) (le : bool)
    (delay ping : double) : CrossPack :=
  snd (AddToPayload_float le
         (float_of_double (dmul (dadd delay ping) CROSS_SOCK_TIMEOUT_FACTOR))
         (SetDataID ALIVENESS_TEST (CrossPack_new mem))).

(** [FillDataEventMaps()] *)
Definition FillDataEventMaps (c : CrossClient) : CrossClient :=
  fold_left
    (fun c '(d, ev) =>
       let c := set_dataEventsByID
                  (<[de_dataID ev := d]> (dataEventsByID c)) c in
       set_dataEventsByName (name_insert (name ev) d (dataEventsByName c)) c)
    (combine (seq 0 (length (dataEvents c))) (dataEvents c)) c.

(** The calls of the registered callbacks of one data event, last
    registered first, each guarded by [IsDisconnected()]. *)
Fixpoint run_callbacks (dataID : Z) (n : nat) (pack : CrossPack)
    (method : NetTransMethod) : M unit :=
  match n with
  | O => mret tt
  | S c =>
      cl ← gets obj;
      if IsDisconnected cl then mret tt
      else
        fire (fun _ => true) (OnData dataID c pack method);;
        run_callbacks dataID c pack method
  end.

(** The identity request the client sends or repeats: [INIT_CLIENT_ID]
    with an empty payload, or [RECONNECT_PACK] carrying [clientID]. *)
Definition initPack (mem : nat -> byte) : CrossPack :=
  SetDataID INIT_CLIENT_ID (CrossPack_new mem).

Definition reconnectPack (mem : nat -> byte) (le : bool) (c : CrossClient)
    : CrossPack :=
  snd (AddToPayload le 4 (clientID c) true
         (SetDataID RECONNECT_PACK (CrossPack_new mem))).

(** [OnReceiveNewData(inData, inLength, inMethod)]: the number of bytes
    of [inData] used. *)
Definition OnReceiveNewData (le : bool) (inData : list byte) (inLength : Z)
    (inMethod : NetTransMethod) : M Z :=
  if inLength >=? GetHeaderSize then
    let header := PeakHeader le inData in
    if payloadSize header >? MAX_PAYLOAD_BYTES then
      fire transErrorEvent
        (OnTransmitError None inMethod INVALID_PAYLOAD_SIZE);;
      mret inLength
    else if payloadSize header + GetHeaderSize + GetFooterLength header
              <=? inLength then
      let footer := PeakFooter le inData header in
      let inPack := CrossPack_of_parts header footer inData in
      (if GetDataID inPack =? HANDSHAKE then
         c ← gets obj;
         mem ← sys sys_new;
         (if CrossClientState_eqb (clientState c) CLIENT_RECEIVING_ID
             || (clientID c =? 0)
          then SendToServer le (initPack mem) true
          else SendToServer le (reconnectPack mem le c) true);;
         fire handshakeEvent OnHandshake
       else if (GetDataID inPack =? INIT_CLIENT_ID)
               || (GetDataID inPack =? RECONNECT_PACK) then
         (* reset timeout *)
         t ← sys sys_now;
         upd (set_timeoutTimer t);;
         upd (set_timeoutDelay CROSS_SOCK_MAX_TIMEOUT);;
         upd (set_ping dzero);;
         (* send aliveness test *)
         c ← gets obj;
         mem ← sys sys_new;
         SendToServer le
           (alivenessTest mem le (alivenessTestDelay (clientProperties c))
              (ping c))
           true;;
         (* check incoming ID *)
         let newID := fst (RemoveFromPayload_uint le 4 inPack) in
         upd (set_clientState CLIENT_RECEIVING_DATA_LIST);;
         if negb (newID =? 0) then
           upd (set_clientID newID);;
           (if GetDataID inPack =? RECONNECT_PACK then
              fire reconnectEvent OnReconnect
            else
              fire (fun c =>
                      CrossClientState_eqb (clientState c) CLIENT_REQUESTING_ID
                      && failedReconnectEvent c) OnReconnectFailed;;
              fire connectEvent OnConnect);;
           mem ← sys sys_new;
           SendToServer le
             (SetDataID INIT_CUSTOM_DATA_LIST (CrossPack_new mem)) true;;
           mret tt
         else
           (* resend id request packet *)
           c ← gets obj;
           mem ← sys sys_new;
           SendToServer le
             (if CrossClientState_eqb (clientState c) CLIENT_RECEIVING_ID
              then initPack mem else reconnectPack mem le c) true;;
           mret tt
       else if GetDataID inPack =? DISCONNECT_PACK then
         Disconnect le false
       else if GetDataID inPack =? INIT_CUSTOM_DATA_LIST then
         (* get data from packet *)
         let '(numCustomData, p1) := RemoveFromPayload_uint le 2 inPack in
         let '(customDataIndex, p2) := RemoveFromPayload_uint le 2 p1 in
         let '(dataName, p3) := RemoveStringFromPayload le p2 in
         let '(dataID, _) := RemoveFromPayload_uint le 2 p3 in
         (* look for existing data event, add a new one if there is none *)
         upd (fun c =>
                match find_name dataName (dataEvents c) 0 with
                | Some x =>
                    set_dataEvents
                      (set_nth x
                         (fun d => {| name := name d; de_dataID := dataID;
                                      callbacks := callbacks d |})
                         (dataEvents c)) c
                | None =>
                    set_dataEvents
                      (dataEvents c
                         ++ [{| name := dataName; de_dataID := dataID;
                                callbacks := O |}]) c
                end);;
         (* set state to connected if at the end of the custom data *)
         c ← gets obj;
         if IsReady c || (customDataIndex >=? numCustomData - 1) then
           upd FillDataEventMaps;;
           if negb (IsReady c) then
             mem ← sys sys_new;
             SendToServer le (SetDataID HANDSHAKE (CrossPack_new mem)) true;;
             upd (set_clientState CLIENT_CONNECTED);;
             fire readyEvent OnReady
           else mret tt
         else mret tt
       else if GetDataID inPack =? ALIVENESS_TEST then
         (* clock in ping *)
         c ← gets obj;
         elapsed ← sys (GetElapsedTime (timeoutTimer c));
         let ping0 := dsub elapsed (timeoutDelay c) in
         upd (set_ping (if dltb ping0 dzero then dzero else ping0));;
         (* reset timeout timer and update expected timeout delay *)
         t ← sys sys_now;
         upd (set_timeoutTimer t);;
         upd (set_timeoutDelay
                (double_of_float (fst (RemoveFromPayload_float le inPack))))
       else
         (* custom or unknown data *)
         if negb (GetDataID inPack =? UNKNOWN_PACK)
            && (match inMethod with TCP => true | UDP => IsValid inPack end)
         then
           c ← gets obj;
           let dataEvent := dataEventsByID c !! GetDataID inPack in
           fire receiveEvent (OnReceiveData inPack inMethod);;
           c' ← gets obj;
           match dataEvent with
           | Some d =>
               if IsRunning c' then
                 run_callbacks (GetDataID inPack)
                   (match nth_error (dataEvents c) d with
                    | Some ev => callbacks ev
                    | None => O
                    end) inPack inMethod
               else mret tt
           | None => mret tt
           end
         else
           fire transErrorEvent
             (OnTransmitError (Some inPack) inMethod
                (if negb (GetDataID inPack =? UNKNOWN_PACK)
                 then INVALID_DATA_ID else INVALID_CHECKSUM)));;
      (* return packet size *)
      mret (GetPacketSize inPack)
    else mret 0
  else mret 0.

(** The inner loop of [Update] over a receive buffer:
    [do dataUsed = OnReceiveNewData(buffer + bufferPos, length - bufferPos);
        bufferPos += dataUsed;
     while (IsRunning() && more && dataUsed > 0 && bufferPos < length)],
    where [more] is [streamIsBound] on the datagram buffer. *)
Fixpoint dispatch (le : bool) (buffer : CrossClient -> list byte)
    (more : CrossClient -> bool) (method : NetTransMethod)
    (fuel : nat) (bufferPos : Z) : M Z :=
  c ← gets obj;
  dataUsed ← OnReceiveNewData le (skipn (Z.to_nat bufferPos) (buffer c))
               (Z.of_nat (length (buffer c)) - bufferPos) method;
  let bufferPos := bufferPos + dataUsed in
  c ← gets obj;
  if IsRunning c && more c && (dataUsed >? 0)
     && (bufferPos <? Z.of_nat (length (buffer c)))
  then match fuel with
       | O => mret bufferPos
       | S k => dispatch le buffer more method k bufferPos
       end
  else mret bufferPos.

(** One pass of the [do .. while] that reads the stream socket. *)
Fixpoint tcp_loop (le : bool) (fuel : nat) (tcpTransmits : Z) : M unit :=
  let tcpTransmits := tcpTransmits + 1 in
  c ← gets obj;
  '(got, err) ←
    match serverSocket c with
    | Some _ =>
        sys (sys_recv (CROSS_SOCK_BUFFER_SIZE - Z.of_nat (length (tcpBuffer c))))
    | None => mret ([], INVALID)
    end;
  (if (0 <? Z.of_nat (length got)) then
     upd (set_tcpBuffer (tcpBuffer c ++ got));;
     bufferPos ← dispatch le tcpBuffer (fun _ => true) TCP
                   (length (tcpBuffer c ++ got)) 0;
     (* reset buffer to front *)
     upd (fun c => set_tcpBuffer (skipn (Z.to_nat bufferPos) (tcpBuffer c)) c)
   else if CrossSockError_eqb err CONNRESET then Disconnect le true
   else mret tt);;
  c ← gets obj;
  if IsRunning c && (0 <? Z.of_nat (length got))
     && (tcpTransmits <? maxTCPTransmitsPerUpdate (clientProperties c))
  then match fuel with
       | O => mret tt
       | S k => tcp_loop le k tcpTransmits
       end
  else mret tt.

(** One pass of the [do .. while] that reads the datagram socket. *)
Fixpoint udp_loop (le : bool) (fuel : nat) (udpTransmits : Z) : M unit :=
  c ← gets obj;
  if IsDisconnected c then mret tt
  else
    let udpTransmits := udpTransmits + 1 in
    '(got, fromAddress, err) ←
      match streamSocket c with
      | Some _ =>
          sys (sys_recvfrom
                 (CROSS_SOCK_BUFFER_SIZE - Z.of_nat (length (udpBuffer c))))
      | None => mret ([], CrossSockAddress_default, INVALID)
      end;
    (if (0 <? Z.of_nat (length got))
        && operator_eq fromAddress (serverAddress c) then
       upd (set_udpBuffer (udpBuffer c ++ got));;
       bufferPos ← dispatch le udpBuffer streamIsBound UDP
                     (length (udpBuffer c ++ got)) 0;
       upd (fun c => set_udpBuffer (skipn (Z.to_nat bufferPos) (udpBuffer c)) c)
     else if CrossSockError_eqb err CONNRESET then
       upd (set_streamIsBound false);;
       upd (set_udpBuffer []);;
       match streamSocket c with
       | Some fd =>
           sys (sys_close fd);;
           (* reset(): the destructor of the socket closes it again *)
           sys (sys_close fd);;
           upd (set_streamSocket None)
       | None => mret tt
       end
     else mret tt);;
    c ← gets obj;
    if IsRunning c && streamIsBound c && (0 <? Z.of_nat (length got))
       && (udpTransmits <? maxUDPTransmitsPerUpdate (clientProperties c))
    then match fuel with
         | O => mret tt
         | S k => udp_loop le k udpTransmits
         end
    else mret tt.

(** The heartbeat of [Update]: the aliveness test when its timer has
    elapsed; [true] when the send failed or the server has timed out. *)
Definition heartbeat (le : bool) : M bool :=
  c ← gets obj;
  elapsed ← sys (GetElapsedTime (alivenessTestTimer c));
  if dleb (alivenessTestDelay (clientProperties c)) elapsed then
    t ← sys sys_now;
    upd (set_alivenessTestTimer t);;
    mem ← sys sys_new;
    '(result, _) ←
      SendToServer le
        (alivenessTest mem le (alivenessTestDelay (clientProperties c))
           (ping c))
        true;
    if result <? 0 then mret true
    else
      waited ← sys (GetElapsedTime (timeoutTimer c));
      mret (dleb (timeoutDelay c) waited)
  else mret false.

(** [Update()] *)
Definition Update (le : bool) : M unit :=
  c ← gets obj;
  if CrossClientState_eqb (clientState c) CLIENT_CONNECTING
     || CrossClientState_eqb (clientState c) CLIENT_RECONNECTING then
    (* check connection timer *)
    elapsedTime ← sys (GetElapsedTime (connectionTimer c));
    if (connectionAttempts c =? 0)
       || dleb (connectionDelay (clientProperties c)) elapsedTime then
      (* if the socket is invalid, attempt to create a new one *)
      match serverSocket c with
      | None => fd ← sys sys_socket; upd (set_serverSocket fd)
      | Some _ => mret tt
      end;;
      (* if a valid socket, attempt to connect *)
      c ← gets obj;
      err ← match serverSocket c with
            | Some _ => sys sys_connect
            | None => mret INVALID
            end;
      if CrossSockError_eqb err SUCCESS || CrossSockError_eqb err ISCONN then
        upd (set_clientState
               (if CrossClientState_eqb (clientState c) CLIENT_RECONNECTING
                then CLIENT_REQUESTING_ID else CLIENT_RECEIVING_ID));;
        (* reset aliveness and timeout timers *)
        t1 ← sys sys_now;
        upd (set_alivenessTestTimer t1);;
        t2 ← sys sys_now;
        upd (set_timeoutTimer t2);;
        upd (set_timeoutDelay CROSS_SOCK_MAX_TIMEOUT);;
        upd (set_ping dzero)
      else
        upd (set_connectionAttempts (s32 (connectionAttempts c + 1)));;
        t ← sys sys_now;
        upd (set_connectionTimer t);;
        c ← gets obj;
        if (connectionAttempts c
              >=? (if CrossClientState_eqb (clientState c) CLIENT_CONNECTING
                   then maxConnectionAttempts (clientProperties c)
                   else maxReconnectionAttempts (clientProperties c)))
           || (negb (CrossSockError_eqb err WOULDBLOCK)
               && negb (CrossSockError_eqb err ALREADY)
               && negb (CrossSockError_eqb err INPROGRESS))
        then Disconnect le false
        else mret tt
    else mret tt
  else if negb (CrossClientState_eqb (clientState c) CLIENT_NEEDS_TO_CONNECT)
  then
    lost ← heartbeat le;
    if (lost : bool) then
      (* disconnect and get out of this update iteration *)
      Disconnect le true
    else
      (* handle TCP data *)
      tcp_loop le (Z.to_nat (maxTCPTransmitsPerUpdate (clientProperties c))) 0;;
      (* handle UDP data *)
      c ← gets obj;
      if allowUDPPackets (clientProperties c)
         && CrossClientState_eqb (clientState c) CLIENT_CONNECTED then
        if streamIsBound c then
          udp_loop le
            (Z.to_nat (maxUDPTransmitsPerUpdate (clientProperties c))) 0
        else
          (* bind UDP socket if needed *)
          match streamSocket c with
          | None => fd ← sys sys_socket; upd (set_streamSocket fd)
          | Some _ => mret tt
          end;;
          c ← gets obj;
          match streamSocket c with
          | Some _ =>
              '(result, err) ← sys sys_bind;
              when ((result >=? 0) || CrossSockError_eqb err SUCCESS
                    || CrossSockError_eqb err ISCONN)
                (upd (set_streamIsBound true))
          | None => mret tt
          end
      else mret tt
  else mret tt.

(** [Connect(inAddress, inFamily)] *)
Definition Connect (le : bool) (inAddress : CrossSockAddress) (inFamily : Z)
    : M unit :=
  upd (set_serverAddress inAddress);;
  upd (set_addressFamily inFamily);;
  upd (set_connectionAttempts 0);;
  upd (set_tcpBuffer []);;
  upd (set_udpBuffer []);;
  upd (set_ping dzero);;
  upd (set_clientState CLIENT_CONNECTING);;
  Update le.

(** [SetClientProperties(inProperties)] *)
Definition SetClientProperties (le : bool) (inProperties : CrossClientProperties)
    : M unit :=
  c ← gets obj;
  (* consider sending aliveness test if the aliveness test delay is changing *)
  (if IsRunning c
      && negb (deqb (alivenessTestDelay (clientProperties c))
                 (alivenessTestDelay inProperties))
   then
     mem ← sys sys_new;
     SendToServer le
       (alivenessTest mem le (alivenessTestDelay inProperties) (ping c)) true;;
     mret tt
   else mret tt);;
  upd (set_clientProperties inProperties).

(** ** States used to state properties *)

(** A computation that only talks to the environment. *)
Definition world_only {A} (m : M A) : Prop :=
  forall st,
    m st = (fst (m st),
            {| obj := obj st; world := world (snd (m st));
               events := events st |}).

Definition C10_state : Sys :=
  {| obj := set_serverSocket (Some 3)
              (set_clientState CLIENT_RECEIVING_ID Init);
     world := {| script := [RResult (Some 6%N) SUCCESS]; actions := [] |};
     events := [] |}.

(** A client that waits for its old identity, with every handler
    installed. *)
Definition requesting_client : Sys :=
  {| obj :=
       {| serverSocket := Some 3; streamSocket := None;
          serverAddress := CrossSockAddress_default; addressFamily := AF_INET;
          clientProperties := CrossClientProperties_default;
          clientState := CLIENT_REQUESTING_ID; clientID := 3;
          streamIsBound := false;
          connectEvent := true; readyEvent := true; disconnectEvent := true;
          attemptReconnectEvent := true; reconnectEvent := true;
          failedReconnectEvent := true; handshakeEvent := true;
          receiveEvent := true; transErrorEvent := true;
          dataEvents := []; dataEventsByID := ∅; dataEventsByName := [];
          connectionAttempts := 0; connectionTimer := 0;
          tcpBuffer := []; udpBuffer := [];
          alivenessTestTimer := 0; timeoutTimer := 0;
          timeoutDelay := dzero; ping := dzero |};
     world := {| script := [RNow 0]; actions := [] |};
     events := [] |}.

(** A connected client two seconds after its timers were started. *)
Definition connected_client : Sys :=
  {| obj :=
       {| serverSocket := Some 3; streamSocket := None;
          serverAddress := CrossSockAddress_default; addressFamily := AF_INET;
          clientProperties := CrossClientProperties_default;
          clientState := CLIENT_CONNECTED; clientID := 1;
          streamIsBound := false;
          connectEvent := true; readyEvent := true; disconnectEvent := true;
          attemptReconnectEvent := true; reconnectEvent := true;
          failedReconnectEvent := true; handshakeEvent := true;
          receiveEvent := true; transErrorEvent := true;
          dataEvents := []; dataEventsByID := ∅; dataEventsByName := [];
          connectionAttempts := 0; connectionTimer := 0;
          tcpBuffer := []; udpBuffer := [];
          alivenessTestTimer := 0; timeoutTimer := 0;
          timeoutDelay := double_of_Z 1500; ping := dzero |};
     world := {| script := [RNow 2000000000; RNow 2000000001;
                            RResult (Some 10%N) SUCCESS];
                 actions := [] |};
     events := [] |}.

End Client.

(** * CrossServer.h: the server session machine *)

Module Server.
Import Util Sock Pack CFloat Net.

Inductive CrossClientEntryState :=
| CLIENT_ENTRY_INIT
| CLIENT_ENTRY_DATA_LIST_EXCHANGE
| CLIENT_ENTRY_CONNECTED
| CLIENT_ENTRY_DISCONNECTED.

Definition CrossClientEntryState_eqb (a b : CrossClientEntryState) : bool :=
  match a, b with
  | CLIENT_ENTRY_INIT, CLIENT_ENTRY_INIT
  | CLIENT_ENTRY_DATA_LIST_EXCHANGE, CLIENT_ENTRY_DATA_LIST_EXCHANGE
  | CLIENT_ENTRY_CONNECTED, CLIENT_ENTRY_CONNECTED
  | CLIENT_ENTRY_DISCONNECTED, CLIENT_ENTRY_DISCONNECTED => true
  | _, _ => false
  end.

(** A [CrossClientEntryPtr] that is not null: the position of the entry
    in the store of entries.  The null pointer is [None]. *)
Definition CrossClientEntryPtr := nat.

(** A client entry as the server keeps it.  [customData] is the
    application's pointer, 0 when null; [tcpBuffer] is the list of the
    first [tcpBufferLength] bytes of the array. *)
Record CrossClientEntry := {
  address : CrossSockAddress;
  socket : option Z;
  clientID : Z;
  state : CrossClientEntryState;
  tcpBuffer : list byte;
  timeoutDelay : double;
  timeoutTimer : Z;
  customData : Z;
  ping : double
}.

Definition set_e_address (v : CrossSockAddress) (x : CrossClientEntry) : CrossClientEntry :=
  {| address := v; socket := socket x; clientID := clientID x; state :=
     state x; tcpBuffer := tcpBuffer x; timeoutDelay := timeoutDelay x;
     timeoutTimer := timeoutTimer x; customData := customData x; ping := ping x
     |}.

Definition set_e_socket (v : option Z) (x : CrossClientEntry) : CrossClientEntry :=
  {| address := address x; socket := v; clientID := clientID x; state :=
     state x; tcpBuffer := tcpBuffer x; timeoutDelay := timeoutDelay x;
     timeoutTimer := timeoutTimer x; customData := customData x; ping := ping x
     |}.

Definition set_e_clientID (v : Z) (x : CrossClientEntry) : CrossClientEntry :=
  {| address := address x; socket := socket x; clientID := v; state := state
     x; tcpBuffer := tcpBuffer x; timeoutDelay := timeoutDelay x; timeoutTimer
     := timeoutTimer x; customData := customData x; ping := ping x |}.

Definition set_e_state (v : CrossClientEntryState) (x : CrossClientEntry) : CrossClientEntry :=
  {| address := address x; socket := socket x; clientID := clientID x; state
     := v; tcpBuffer := tcpBuffer x; timeoutDelay := timeoutDelay x;
     timeoutTimer := timeoutTimer x; customData := customData x; ping := ping x
     |}.

Definition set_e_tcpBuffer (v : list byte) (x : CrossClientEntry) : CrossClientEntry :=
  {| address := address x; socket := socket x; clientID := clientID x; state
     := state x; tcpBuffer := v; timeoutDelay := timeoutDelay x; timeoutTimer
     := timeoutTimer x; customData := customData x; ping := ping x |}.

Definition set_e_timeoutDelay (v : double) (x : CrossClientEntry) : CrossClientEntry :=
  {| address := address x; socket := socket x; clientID := clientID x; state
     := state x; tcpBuffer := tcpBuffer x; timeoutDelay := v; timeoutTimer :=
     timeoutTimer x; customData := customData x; ping := ping x |}.

Definition set_e_timeoutTimer (v : Z) (x : CrossClientEntry) : CrossClientEntry :=
  {| address := address x; socket := socket x; clientID := clientID x; state
     := state x; tcpBuffer := tcpBuffer x; timeoutDelay := timeoutDelay x;
     timeoutTimer := v; customData := customData x; ping := ping x |}.

Definition set_e_customData (v : Z) (x : CrossClientEntry) : CrossClientEntry :=
  {| address := address x; socket := socket x; clientID := clientID x; state
     := state x; tcpBuffer := tcpBuffer x; timeoutDelay := timeoutDelay x;
     timeoutTimer := timeoutTimer x; customData := v; ping := ping x |}.

Definition set_e_ping (v : double) (x : CrossClientEntry) : CrossClientEntry :=
  {| address := address x; socket := socket x; clientID := clientID x; state
     := state x; tcpBuffer := tcpBuffer x; timeoutDelay := timeoutDelay x;
     timeoutTimer := timeoutTimer x; customData := customData x; ping := v |}.

(** [CrossClientEntry()], at clock reading [now]. *)
Definition CrossClientEntry_new (now : Z) : CrossClientEntry :=
  {| address := CrossSockAddress_default; socket := None; clientID := 0;
     state := CLIENT_ENTRY_INIT; tcpBuffer := [];
     timeoutDelay := CROSS_SOCK_MAX_TIMEOUT; timeoutTimer := now;
     customData := 0; ping := dzero |}.

Definition Entry_IsReady (e : CrossClientEntry) : bool :=
  CrossClientEntryState_eqb (state e) CLIENT_ENTRY_CONNECTED.

Definition Entry_IsRunning (e : CrossClientEntry) : bool :=
  negb (CrossClientEntryState_eqb (state e) CLIENT_ENTRY_DISCONNECTED).

Record CrossServerProperties := {
  newConnectionBacklog : Z;
  maxUDPTransmitsPerUpdate : Z;
  maxTCPTransmitsPerUpdate : Z;
  allowUDPPackets : bool;
  useBlacklist : bool;
  useWhitelist : bool;
  alivenessTestDelay : double;
  shouldFlushDisconnectedClientData : bool;
  disconnectedClientFlushDelay : double
}.

Definition CrossServerProperties_default : CrossServerProperties :=
  {| newConnectionBacklog := 32; maxUDPTransmitsPerUpdate := 256;
     maxTCPTransmitsPerUpdate := 4; allowUDPPackets := true;
     useBlacklist := true; useWhitelist := false;
     alivenessTestDelay := double_of_Z 1000;
     shouldFlushDisconnectedClientData := true;
     disconnectedClientFlushDelay := CROSS_SOCK_MAX_TIMEOUT |}.

Inductive CrossServerState := SERVER_NEEDS_STARTUP | SERVER_BINDING | SERVER_LOOP.

Definition CrossServerState_eqb (a b : CrossServerState) : bool :=
  match a, b with
  | SERVER_NEEDS_STARTUP, SERVER_NEEDS_STARTUP
  | SERVER_BINDING, SERVER_BINDING
  | SERVER_LOOP, SERVER_LOOP => true
  | _, _ => false
  end.

(** The single-target events of the server. *)
Inductive Handler :=
| connectEvent | disconnectEvent | reconnectEvent | readyEvent | rejectEvent
| failedReconnectEvent | destroyClientEvent | initializeClientEvent
| bindEvent | validateEvent | receiveEvent | transErrorEvent.

Definition Handler_eqb (a b : Handler) : bool :=
  match a, b with
  | connectEvent, connectEvent | disconnectEvent, disconnectEvent
  | reconnectEvent, reconnectEvent | readyEvent, readyEvent
  | rejectEvent, rejectEvent | failedReconnectEvent, failedReconnectEvent
  | destroyClientEvent, destroyClientEvent
  | initializeClientEvent, initializeClientEvent
  | bindEvent, bindEvent | validateEvent, validateEvent
  | receiveEvent, receiveEvent | transErrorEvent, transErrorEvent => true
  | _, _ => false
  end.

(** The server object.  [handlers h] is [true] when the event [h] has a
    valid handler installed; the two client tables hold entry pointers;
    [canConnectList] is the policy list, searched with the address
    equality; a table is visited in the order [map_to_list] gives. *)
Record CrossServer := {
  listenSocket : option Z;
  streamSocket : option Z;
  port : Z;
  addressFamily : Z;
  connectedClients : gmap Z CrossClientEntryPtr;
  disconnectedClients : gmap Z CrossClientEntryPtr;
  nextAvailableClientID : Z;
  nextAvailableDataID : Z;
  dataEvents : list CrossDataEvent;
  dataEventsByID : gmap Z nat;
  dataEventsByName : list (list byte * nat);
  serverProperties : CrossServerProperties;
  serverState : CrossServerState;
  handlers : Handler -> bool;
  canConnectList : list (CrossSockAddress * bool);
  streamIsBound : bool;
  udpBuffer : list byte;
  alivenessTestTimer : Z
}.

Definition set_listenSocket (v : option Z) (x : CrossServer) : CrossServer :=
  {| listenSocket := v; streamSocket := streamSocket x; port := port x;
     addressFamily := addressFamily x; connectedClients := connectedClients x;
     disconnectedClients := disconnectedClients x; nextAvailableClientID :=
     nextAvailableClientID x; nextAvailableDataID := nextAvailableDataID x;
     dataEvents := dataEvents x; dataEventsByID := dataEventsByID x;
     dataEventsByName := dataEventsByName x; serverProperties :=
     serverProperties x; serverState := serverState x; handlers := handlers x;
     canConnectList := canConnectList x; streamIsBound := streamIsBound x;
     udpBuffer := udpBuffer x; alivenessTestTimer := alivenessTestTimer x |}.

Definition set_streamSocket (v : option Z) (x : CrossServer) : CrossServer :=
  {| listenSocket := listenSocket x; streamSocket := v; port := port x;
     addressFamily := addressFamily x; connectedClients := connectedClients x;
     disconnectedClients := disconnectedClients x; nextAvailableClientID :=
     nextAvailableClientID x; nextAvailableDataID := nextAvailableDataID x;
     dataEvents := dataEvents x; dataEventsByID := dataEventsByID x;
     dataEventsByName := dataEventsByName x; serverProperties :=
     serverProperties x; serverState := serverState x; handlers := handlers x;
     canConnectList := canConnectList x; streamIsBound := streamIsBound x;
     udpBuffer := udpBuffer x; alivenessTestTimer := alivenessTestTimer x |}.

Definition set_port (v : Z) (x : CrossServer) : CrossServer :=
  {| listenSocket := listenSocket x; streamSocket := streamSocket x; port :=
     v; addressFamily := addressFamily x; connectedClients := connectedClients
     x; disconnectedClients := disconnectedClients x; nextAvailableClientID :=
     nextAvailableClientID x; nextAvailableDataID := nextAvailableDataID x;
     dataEvents := dataEvents x; dataEventsByID := dataEventsByID x;
     dataEventsByName := dataEventsByName x; serverProperties :=
     serverProperties x; serverState := serverState x; handlers := handlers x;
     canConnectList := canConnectList x; streamIsBound := streamIsBound x;
     udpBuffer := udpBuffer x; alivenessTestTimer := alivenessTestTimer x |}.

Definition set_addressFamily (v : Z) (x : CrossServer) : CrossServer :=
  {| listenSocket := listenSocket x; streamSocket := streamSocket x; port :=
     port x; addressFamily := v; connectedClients := connectedClients x;
     disconnectedClients := disconnectedClients x; nextAvailableClientID :=
     nextAvailableClientID x; nextAvailableDataID := nextAvailableDataID x;
     dataEvents := dataEvents x; dataEventsByID := dataEventsByID x;
     dataEventsByName := dataEventsByName x; serverProperties :=
     serverProperties x; serverState := serverState x; handlers := handlers x;
     canConnectList := canConnectList x; streamIsBound := streamIsBound x;
     udpBuffer := udpBuffer x; alivenessTestTimer := alivenessTestTimer x |}.

Definition set_connectedClients (v : gmap Z CrossClientEntryPtr) (x : CrossServer) : CrossServer :=
  {| listenSocket := listenSocket x; streamSocket := streamSocket x; port :=
     port x; addressFamily := addressFamily x; connectedClients := v;
     disconnectedClients := disconnectedClients x; nextAvailableClientID :=
     nextAvailableClientID x; nextAvailableDataID := nextAvailableDataID x;
     dataEvents := dataEvents x; dataEventsByID := dataEventsByID x;
     dataEventsByName := dataEventsByName x; serverProperties :=
     serverProperties x; serverState := serverState x; handlers := handlers x;
     canConnectList := canConnectList x; streamIsBound := streamIsBound x;
     udpBuffer := udpBuffer x; alivenessTestTimer := alivenessTestTimer x |}.

Definition set_disconnectedClients (v : gmap Z CrossClientEntryPtr) (x : CrossServer) : CrossServer :=
  {| listenSocket := listenSocket x; streamSocket := streamSocket x; port :=
     port x; addressFamily := addressFamily x; connectedClients :=
     connectedClients x; disconnectedClients := v; nextAvailableClientID :=
     nextAvailableClientID x; nextAvailableDataID := nextAvailableDataID x;
     dataEvents := dataEvents x; dataEventsByID := dataEventsByID x;
     dataEventsByName := dataEventsByName x; serverProperties :=
     serverProperties x; serverState := serverState x; handlers := handlers x;
     canConnectList := canConnectList x; streamIsBound := streamIsBound x;
     udpBuffer := udpBuffer x; alivenessTestTimer := alivenessTestTimer x |}.

Definition set_nextAvailableClientID (v : Z) (x : CrossServer) : CrossServer :=
  {| listenSocket := listenSocket x; streamSocket := streamSocket x; port :=
     port x; addressFamily := addressFamily x; connectedClients :=
     connectedClients x; disconnectedClients := disconnectedClients x;
     nextAvailableClientID := v; nextAvailableDataID := nextAvailableDataID x;
     dataEvents := dataEvents x; dataEventsByID := dataEventsByID x;
     dataEventsByName := dataEventsByName x; serverProperties :=
     serverProperties x; serverState := serverState x; handlers := handlers x;
     canConnectList := canConnectList x; streamIsBound := streamIsBound x;
     udpBuffer := udpBuffer x; alivenessTestTimer := alivenessTestTimer x |}.

Definition set_nextAvailableDataID (v : Z) (x : CrossServer) : CrossServer :=
  {| listenSocket := listenSocket x; streamSocket := streamSocket x; port :=
     port x; addressFamily := addressFamily x; connectedClients :=
     connectedClients x; disconnectedClients := disconnectedClients x;
     nextAvailableClientID := nextAvailableClientID x; nextAvailableDataID :=
     v; dataEvents := dataEvents x; dataEventsByID := dataEventsByID x;
     dataEventsByName := dataEventsByName x; serverProperties :=
     serverProperties x; serverState := serverState x; handlers := handlers x;
     canConnectList := canConnectList x; streamIsBound := streamIsBound x;
     udpBuffer := udpBuffer x; alivenessTestTimer := alivenessTestTimer x |}.

Definition set_dataEvents (v : list CrossDataEvent) (x : CrossServer) : CrossServer :=
  {| listenSocket := listenSocket x; streamSocket := streamSocket x; port :=
     port x; addressFamily := addressFamily x; connectedClients :=
     connectedClients x; disconnectedClients := disconnectedClients x;
     nextAvailableClientID := nextAvailableClientID x; nextAvailableDataID :=
     nextAvailableDataID x; dataEvents := v; dataEventsByID := dataEventsByID
     x; dataEventsByName := dataEventsByName x; serverProperties :=
     serverProperties x; serverState := serverState x; handlers := handlers x;
     canConnectList := canConnectList x; streamIsBound := streamIsBound x;
     udpBuffer := udpBuffer x; alivenessTestTimer := alivenessTestTimer x |}.

Definition set_dataEventsByID (v : gmap Z nat) (x : CrossServer) : CrossServer :=
  {| listenSocket := listenSocket x; streamSocket := streamSocket x; port :=
     port x; addressFamily := addressFamily x; connectedClients :=
     connectedClients x; disconnectedClients := disconnectedClients x;
     nextAvailableClientID := nextAvailableClientID x; nextAvailableDataID :=
     nextAvailableDataID x; dataEvents := dataEvents x; dataEventsByID := v;
     dataEventsByName := dataEventsByName x; serverProperties :=
     serverProperties x; serverState := serverState x; handlers := handlers x;
     canConnectList := canConnectList x; streamIsBound := streamIsBound x;
     udpBuffer := udpBuffer x; alivenessTestTimer := alivenessTestTimer x |}.

Definition set_dataEventsByName (v : list (list byte * nat)) (x : CrossServer) : CrossServer :=
  {| listenSocket := listenSocket x; streamSocket := streamSocket x; port :=
     port x; addressFamily := addressFamily x; connectedClients :=
     connectedClients x; disconnectedClients := disconnectedClients x;
     nextAvailableClientID := nextAvailableClientID x; nextAvailableDataID :=
     nextAvailableDataID x; dataEvents := dataEvents x; dataEventsByID :=
     dataEventsByID x; dataEventsByName := v; serverProperties :=
     serverProperties x; serverState := serverState x; handlers := handlers x;
     canConnectList := canConnectList x; streamIsBound := streamIsBound x;
     udpBuffer := udpBuffer x; alivenessTestTimer := alivenessTestTimer x |}.

Definition set_serverProperties (v : CrossServerProperties) (x : CrossServer) : CrossServer :=
  {| listenSocket := listenSocket x; streamSocket := streamSocket x; port :=
     port x; addressFamily := addressFamily x; connectedClients :=
     connectedClients x; disconnectedClients := disconnectedClients x;
     nextAvailableClientID := nextAvailableClientID x; nextAvailableDataID :=
     nextAvailableDataID x; dataEvents := dataEvents x; dataEventsByID :=
     dataEventsByID x; dataEventsByName := dataEventsByName x; serverProperties
     := v; serverState := serverState x; handlers := handlers x; canConnectList
     := canConnectList x; streamIsBound := streamIsBound x; udpBuffer :=
     udpBuffer x; alivenessTestTimer := alivenessTestTimer x |}.

Definition set_serverState (v : CrossServerState) (x : CrossServer) : CrossServer :=
  {| listenSocket := listenSocket x; streamSocket := streamSocket x; port :=
     port x; addressFamily := addressFamily x; connectedClients :=
     connectedClients x; disconnectedClients := disconnectedClients x;
     nextAvailableClientID := nextAvailableClientID x; nextAvailableDataID :=
     nextAvailableDataID x; dataEvents := dataEvents x; dataEventsByID :=
     dataEventsByID x; dataEventsByName := dataEventsByName x; serverProperties
     := serverProperties x; serverState := v; handlers := handlers x;
     canConnectList := canConnectList x; streamIsBound := streamIsBound x;
     udpBuffer := udpBuffer x; alivenessTestTimer := alivenessTestTimer x |}.

Definition set_handlers (v : Handler -> bool) (x : CrossServer) : CrossServer :=
  {| listenSocket := listenSocket x; streamSocket := streamSocket x; port :=
     port x; addressFamily := addressFamily x; connectedClients :=
     connectedClients x; disconnectedClients := disconnectedClients x;
     nextAvailableClientID := nextAvailableClientID x; nextAvailableDataID :=
     nextAvailableDataID x; dataEvents := dataEvents x; dataEventsByID :=
     dataEventsByID x; dataEventsByName := dataEventsByName x; serverProperties
     := serverProperties x; serverState := serverState x; handlers := v;
     canConnectList := canConnectList x; streamIsBound := streamIsBound x;
     udpBuffer := udpBuffer x; alivenessTestTimer := alivenessTestTimer x |}.

Definition set_canConnectList (v : list (CrossSockAddress * bool)) (x : CrossServer) : CrossServer :=
  {| listenSocket := listenSocket x; streamSocket := streamSocket x; port :=
     port x; addressFamily := addressFamily x; connectedClients :=
     connectedClients x; disconnectedClients := disconnectedClients x;
     nextAvailableClientID := nextAvailableClientID x; nextAvailableDataID :=
     nextAvailableDataID x; dataEvents := dataEvents x; dataEventsByID :=
     dataEventsByID x; dataEventsByName := dataEventsByName x; serverProperties
     := serverProperties x; serverState := serverState x; handlers := handlers
     x; canConnectList := v; streamIsBound := streamIsBound x; udpBuffer :=
     udpBuffer x; alivenessTestTimer := alivenessTestTimer x |}.

Definition set_streamIsBound (v : bool) (x : CrossServer) : CrossServer :=
  {| listenSocket := listenSocket x; streamSocket := streamSocket x; port :=
     port x; addressFamily := addressFamily x; connectedClients :=
     connectedClients x; disconnectedClients := disconnectedClients x;
     nextAvailableClientID := nextAvailableClientID x; nextAvailableDataID :=
     nextAvailableDataID x; dataEvents := dataEvents x; dataEventsByID :=
     dataEventsByID x; dataEventsByName := dataEventsByName x; serverProperties
     := serverProperties x; serverState := serverState x; handlers := handlers
     x; canConnectList := canConnectList x; streamIsBound := v; udpBuffer :=
     udpBuffer x; alivenessTestTimer := alivenessTestTimer x |}.

Definition set_udpBuffer (v : list byte) (x : CrossServer) : CrossServer :=
  {| listenSocket := listenSocket x; streamSocket := streamSocket x; port :=
     port x; addressFamily := addressFamily x; connectedClients :=
     connectedClients x; disconnectedClients := disconnectedClients x;
     nextAvailableClientID := nextAvailableClientID x; nextAvailableDataID :=
     nextAvailableDataID x; dataEvents := dataEvents x; dataEventsByID :=
     dataEventsByID x; dataEventsByName := dataEventsByName x; serverProperties
     := serverProperties x; serverState := serverState x; handlers := handlers
     x; canConnectList := canConnectList x; streamIsBound := streamIsBound x;
     udpBuffer := v; alivenessTestTimer := alivenessTestTimer x |}.

Definition set_alivenessTestTimer (v : Z) (x : CrossServer) : CrossServer :=
  {| listenSocket := listenSocket x; streamSocket := streamSocket x; port :=
     port x; addressFamily := addressFamily x; connectedClients :=
     connectedClients x; disconnectedClients := disconnectedClients x;
     nextAvailableClientID := nextAvailableClientID x; nextAvailableDataID :=
     nextAvailableDataID x; dataEvents := dataEvents x; dataEventsByID :=
     dataEventsByID x; dataEventsByName := dataEventsByName x; serverProperties
     := serverProperties x; serverState := serverState x; handlers := handlers
     x; canConnectList := canConnectList x; streamIsBound := streamIsBound x;
     udpBuffer := udpBuffer x; alivenessTestTimer := v |}.
(** [CrossServer::Init] *)
Definition Init : CrossServer :=
  {| listenSocket := None; streamSocket := None; port := 0;
     addressFamily := AF_INET;
     connectedClients := ∅; disconnectedClients := ∅;
     nextAvailableClientID := 1; nextAvailableDataID := CUSTOM_DATA_START;
     dataEvents := []; dataEventsByID := ∅; dataEventsByName := [];
     serverProperties := CrossServerProperties_default;
     serverState := SERVER_NEEDS_STARTUP;
     handlers := fun _ => false;
     canConnectList := []; streamIsBound := false; udpBuffer := [];
     alivenessTestTimer := 0 |}.

(** The callbacks the server executes. *)
Inductive Event :=
| OnConnect (client : CrossClientEntryPtr)
| OnDisconnect (client : CrossClientEntryPtr)
| OnReconnect (client : CrossClientEntryPtr)
| OnReady (client : CrossClientEntryPtr)
| OnReject (client : CrossClientEntryPtr)
| OnReconnectFailed (client : CrossClientEntryPtr)
| OnDestroyClient (client : CrossClientEntryPtr)
| OnInitializeClient (client : CrossClientEntryPtr)
| OnBind
| OnValidate (client : CrossClientEntryPtr) (answer : bool)
| OnReceiveData (pack : CrossPack) (client : CrossClientEntryPtr)
    (method : NetTransMethod)
| OnTransmitError (pack : option CrossPack)
    (client : option CrossClientEntryPtr) (method : NetTransMethod)
    (error : NetTransError)
| OnData (dataID : Z) (callback : nat) (pack : CrossPack)
    (client : CrossClientEntryPtr) (method : NetTransMethod).

(** The event a callback execution belongs to. *)
Definition handler_of (e : Event) : option Handler :=
  match e with
  | OnConnect _ => Some connectEvent
  | OnDisconnect _ => Some disconnectEvent
  | OnReconnect _ => Some reconnectEvent
  | OnReady _ => Some readyEvent
  | OnReject _ => Some rejectEvent
  | OnReconnectFailed _ => Some failedReconnectEvent
  | OnDestroyClient _ => Some destroyClientEvent
  | OnInitializeClient _ => Some initializeClientEvent
  | OnBind => Some bindEvent
  | OnValidate _ _ => Some validateEvent
  | OnReceiveData _ _ _ => Some receiveEvent
  | OnTransmitError _ _ _ _ => Some transErrorEvent
  | OnData _ _ _ _ _ => None
  end.

(** The server, the store of the entries it has created, its
    environment and the callbacks executed so far.  [issued] is a history
    variable: the entries accepted as new clients with the id each was
    issued, oldest first. *)
Record Sys := {
  obj : CrossServer;
  heap : list CrossClientEntry;
  world : World;
  events : list Event;
  issued : list (CrossClientEntryPtr * Z)
}.

Definition M := State Sys.

Definition upd (f : CrossServer -> CrossServer) : M unit :=
  modify (fun s => {| obj := f (obj s); heap := heap s; world := world s;
                      events := events s; issued := issued s |}).

Definition sys {A} (m : State World A) : M A :=
  fun s => let '(a, w) := m (world s) in
           (a, {| obj := obj s; heap := heap s; world := w;
                  events := events s; issued := issued s |}).

(** [std::make_shared<CrossClientEntry>()] *)
Definition alloc : M CrossClientEntryPtr :=
  now ← sys sys_now;
  ((fun s => (length (heap s),
              {| obj := obj s; heap := heap s ++ [CrossClientEntry_new now];
                 world := world s; events := events s; issued := issued s |}))
   : M CrossClientEntryPtr).

(** The entry a pointer designates. *)
Definition deref (r : CrossClientEntryPtr) : M CrossClientEntry :=
  gets (fun s => nth r (heap s) (CrossClientEntry_new 0)).

Definition upd_entry (r : CrossClientEntryPtr)
    (f : CrossClientEntry -> CrossClientEntry) : M unit :=
  modify (fun s => {| obj := obj s; heap := set_nth r f (heap s);
                      world := world s; events := events s; issued := issued s |}).

(** The history of issued ids gains an entry. *)
Definition note_issued (r : CrossClientEntryPtr) (id : Z) : M unit :=
  modify (fun s => {| obj := obj s; heap := heap s; world := world s;
                      events := events s; issued := issued s ++ [(r, id)] |}).

(** The execution of a callback. *)
Definition log (e : Event) : M unit :=
  modify (fun s => {| obj := obj s; heap := heap s; world := world s;
                      events := events s ++ [e]; issued := issued s |}).

(** [if (event && event->IsValid()) event->Execute(..)] *)
Definition fire (h : Handler) (e : Event) : M unit :=
  fun s => (tt, if handlers (obj s) h
                then {| obj := obj s; heap := heap s; world := world s;
                        events := events s ++ [e]; issued := issued s |}
                else s).

Fixpoint forM {A} (l : list A) (f : A -> M unit) : M unit :=
  match l with
  | [] => mret tt
  | x :: r => f x;; forM r f
  end.

Definition IsRunning (s : CrossServer) : bool :=
  negb (CrossServerState_eqb (serverState s) SERVER_NEEDS_STARTUP).

Definition IsReady (s : CrossServer) : bool :=
  CrossServerState_eqb (serverState s) SERVER_LOOP.

Definition GetServerID : Z := 0.

(** [GetClientEntry(inClientID)] *)
Definition GetClientEntry (inClientID : Z) (s : CrossServer)
    : option CrossClientEntryPtr :=
  connectedClients s !! inClientID.

(** ** The policy list *)

(** [canConnectList] is a [std::unordered_map] keyed by address, with
    [Hash()] as its hash function and [operator==] as its equality.  A
    lookup meets a stored key when the two hash codes agree, which the
    table tests first, and [operator==] holds with the lookup key as its
    left operand.  The family is part of the hash code and only the
    family of the left operand is tested by [operator==]: a key of a
    family other than [AF_INET] meets no stored key, not even itself.
    The list holds the entries oldest first.  Two stored keys can be met
    by one lookup key only when they differ in family and agree in
    address, port and hash code; the model then takes the older one,
    where the library takes the one its bucket has first. *)
Definition policy_match (key a : CrossSockAddress) : bool :=
  (Hash key =? Hash a) && operator_eq key a.

(** [canConnectList.find(key)] *)
Fixpoint policy_find (key : CrossSockAddress)
    (l : list (CrossSockAddress * bool)) : option bool :=
  match l with
  | [] => None
  | (a, b) :: r => if policy_match key a then Some b else policy_find key r
  end.

(** [canConnectList[key] = value]: the value of the entry the key meets
    is replaced; a key that meets none is added. *)
Fixpoint policy_set (key : CrossSockAddress) (value : bool)
    (l : list (CrossSockAddress * bool)) : list (CrossSockAddress * bool) :=
  match l with
  | [] => [(key, value)]
  | (a, b) :: r =>
      if policy_match key a then (a, value) :: r
      else (a, b) :: policy_set key value r
  end.

(** [canConnectList.erase(key)] *)
Fixpoint policy_erase (key : CrossSockAddress)
    (l : list (CrossSockAddress * bool)) : list (CrossSockAddress * bool) :=
  match l with
  | [] => []
  | (a, b) :: r =>
      if policy_match key a then r else (a, b) :: policy_erase key r
  end.

(** ** Entries *)

(** [CrossClientEntry::ResetTimeout(ExpectedTimeoutDelay)] *)
Definition ResetTimeout (r : CrossClientEntryPtr)
    (ExpectedTimeoutDelay : double) : M unit :=
  e ← deref r;
  elapsed ← sys (GetElapsedTime (timeoutTimer e));
  let ping0 := dsub elapsed (timeoutDelay e) in
  upd_entry r (set_e_ping (if dltb ping0 dzero then dzero else ping0));;
  t ← sys sys_now;
  upd_entry r (set_e_timeoutTimer t);;
  upd_entry r (set_e_timeoutDelay ExpectedTimeoutDelay).

(** [CrossClientEntry::HasTimedOut()] *)
Definition HasTimedOut (r : CrossClientEntryPtr) : M bool :=
  e ← deref r;
  elapsed ← sys (GetElapsedTime (timeoutTimer e));
  mret (dleb (timeoutDelay e) elapsed).

(** ** Sending *)

(** [SendToClient(inPack, inClient, inShouldBlockUntilSent)]: the value
    returned and the packet as [Serialize] leaves it.  A null socket in
    a running entry is undefined in C++; the model returns -1 there. *)
Definition SendToClient (le : bool) (inPack : CrossPack)
    (inClient : option CrossClientEntryPtr) (inShouldBlockUntilSent : bool)
    : M (Z * CrossPack) :=
  match inClient with
  | None => mret (NetTransError_code CLIENT_NOT_CONNECTED, inPack)
  | Some r =>
      e ← deref r;
      if CrossClientEntryState_eqb (state e) CLIENT_ENTRY_DISCONNECTED
      then mret (NetTransError_code CLIENT_NOT_CONNECTED, inPack)
      else
        let q := Serialize le inPack in
        match socket e with
        | Some fd =>
            result ← sys (sys_send inShouldBlockUntilSent
                            (TcpSend fd (firstn (Z.to_nat (GetPacketSize q))
                                           (payload q))));
            mret (result, q)
        | None => mret (-1, q)
        end
  end.

(** The entries of a client table, in the order it is visited. *)
Definition clients_of (m : gmap Z CrossClientEntryPtr)
    : list (Z * CrossClientEntryPtr) := map_to_list m.

(** [SendToAll(inPack, inShouldBlockUntilSent)] *)
Definition SendToAll (le : bool) (inPack : CrossPack)
    (inShouldBlockUntilSent : bool) : M unit :=
  s ← gets obj;
  forM (clients_of (connectedClients s))
    (fun '(_, r) => SendToClient le inPack (Some r) inShouldBlockUntilSent;;
                    mret tt).

(** [StreamToClient(inPack, inClient, inShouldBlockUntilSent)] *)
Definition StreamToClient (le : bool) (inPack : CrossPack)
    (inClient : option CrossClientEntryPtr) (inShouldBlockUntilSent : bool)
    : M (Z * CrossPack) :=
  match inClient with
  | None => mret (NetTransError_code CLIENT_NOT_CONNECTED, inPack)
  | Some r =>
      e ← deref r;
      s ← gets obj;
      if CrossClientEntryState_eqb (state e) CLIENT_ENTRY_DISCONNECTED
      then mret (NetTransError_code CLIENT_NOT_CONNECTED, inPack)
      else if negb (streamIsBound s)
      then mret (NetTransError_code STREAM_NOT_BOUND, inPack)
      else
        let p := if negb (IsFinalized inPack)
                 then Finalize false true GetServerID inPack else inPack in
        let q := Serialize le p in
        match streamSocket s with
        | Some fd =>
            result ← sys (sys_send inShouldBlockUntilSent
                            (UdpSendTo fd (address e)
                               (firstn (Z.to_nat (GetPacketSize q))
                                  (payload q))));
            mret (result, q)
        | None => mret (-1, q)
        end
  end.

(** [StreamToAll(inPack, inShouldBlockUntilSent)].  The C++ loop tests a
    result it never assigns; the model sends once to each running entry. *)
Definition StreamToAll (le : bool) (inPack : CrossPack)
    (inShouldBlockUntilSent : bool) : M unit :=
  s ← gets obj;
  if streamIsBound s then
    let p := if negb (IsFinalized inPack)
             then Finalize false true GetServerID inPack else inPack in
    let q := Serialize le p in
    forM (clients_of (connectedClients s))
      (fun '(_, r) =>
         e ← deref r;
         if negb (CrossClientEntryState_eqb (state e) CLIENT_ENTRY_DISCONNECTED)
         then
           match streamSocket s with
           | Some fd =>
               sys (sys_send false
                      (UdpSendTo fd (address e)
                         (firstn (Z.to_nat (GetPacketSize q)) (payload q))));;
               mret tt
           | None => mret tt
           end
         else mret tt)
  else mret tt.

(** [DisconnectClient(inClient, ShouldSaveDisconnectedClientData)].
    The entry is the last owner of its socket, but for a peer that is
    being rejected, whose socket the accept loop lets go of when
    [DisconnectClient] has returned, with nothing in between: in both
    cases [~TCPSocket] closes the socket a second time right after
    [Close()]. *)
Definition DisconnectClient (le : bool)
    (inClient : option CrossClientEntryPtr)
    (ShouldSaveDisconnectedClientData : bool) : M unit :=
  match inClient with
  | None => mret tt
  | Some r =>
      e ← deref r;
      if negb (CrossClientEntryState_eqb (state e) CLIENT_ENTRY_DISCONNECTED)
      then
        (* add to disconnect list if desired *)
        (if ShouldSaveDisconnectedClientData then
           upd (fun s => set_disconnectedClients
                           (<[clientID e := r]> (disconnectedClients s)) s);;
           s ← gets obj;
           if shouldFlushDisconnectedClientData (serverProperties s)
           then ResetTimeout r
                  (disconnectedClientFlushDelay (serverProperties s))
           else mret tt
         else mret tt);;
        (* disconnect this client *)
        mem ← sys sys_new;
        SendToClient le (SetDataID DISCONNECT_PACK (CrossPack_new mem))
          (Some r) true;;
        upd_entry r (set_e_state CLIENT_ENTRY_DISCONNECTED);;
        fire disconnectEvent (OnDisconnect r);;
        match socket e with
        | Some fd =>
            sys (sys_close fd);;
            (* the socket is let go of: its destructor closes it again *)
            sys (sys_close fd);;
            upd_entry r (set_e_socket None)
        | None => mret tt
        end
      else mret tt
  end.

(** A table has dropped its pointer to the entry [r].  An entry is
    destroyed when neither table points to it any more (the application
    is taken to keep none of the pointers it is handed); the entry then
    lets go of its socket, whose destructor closes it.  The cell of a
    destroyed entry stays in the store of the model.

    This is used where a new entry takes the place of an entry with the
    same id in the table of connected clients.  In the other places
    where a table drops an entry (the sweep that ends [Update], the
    flush of the disconnected clients, a reconnection, [Stop], and
    [DisconnectClient] when it records an entry over an older record)
    the entry dropped is disconnected, and [DisconnectClient], which
    alone marks an entry disconnected, leaves it without a socket. *)
Definition release (r : CrossClientEntryPtr) : M unit :=
  s ← gets obj;
  if bool_decide (r ∈ (map_to_list (connectedClients s)).*2)
     || bool_decide (r ∈ (map_to_list (disconnectedClients s)).*2)
  then mret tt
  else
    e ← deref r;
    match socket e with
    | Some fd => sys (sys_close fd)
    | None => mret tt
    end.

(** [DisconnectAddress(inAddress)]: the number of clients removed. *)
Definition DisconnectAddress (le : bool) (inAddress : CrossSockAddress)
    : M Z :=
  s ← gets obj;
  fold_left
    (fun (m : M Z) '(_, r) =>
       n ← m;
       e ← deref r;
       if operator_eq inAddress (address e)
       then DisconnectClient le (Some r) true;; mret (n + 1)
       else mret n)
    (clients_of (connectedClients s)) (mret 0).

(** The policy list operations of the public interface. *)
Definition AddAddressToBlacklist (le : bool) (inAddress : CrossSockAddress)
    : M unit :=
  upd (fun s => set_canConnectList
                  (policy_set inAddress false (canConnectList s)) s);;
  DisconnectAddress le inAddress;;
  mret tt.

Definition RemoveAddressFromBlacklist (inAddress : CrossSockAddress)
    : M unit :=
  upd (fun s =>
         match policy_find inAddress (canConnectList s) with
         | Some false =>
             set_canConnectList (policy_erase inAddress (canConnectList s)) s
         | _ => s
         end).

Definition AddAddressToWhitelist (inAddress : CrossSockAddress) : M unit :=
  upd (fun s => set_canConnectList
                  (policy_set inAddress true (canConnectList s)) s).

Definition RemoveAddressFromWhitelist (inAddress : CrossSockAddress)
    : M unit :=
  upd (fun s =>
         match policy_find inAddress (canConnectList s) with
         | Some true =>
             set_canConnectList (policy_erase inAddress (canConnectList s)) s
         | _ => s
         end).

(** ** The receive function *)

(** The heartbeat packet: [SetDataID(ALIVENESS_TEST)] and
    [AddToPayload<float>((float)budget)] on a packet. *)
Definition alivenessTest (le : bool) (budget : double) (p : CrossPack)
    : CrossPack :=
  snd (AddToPayload_float le (float_of_double budget) p).

(** A packet of kind [id] that carries one client id. *)
Definition idPack (mem : nat -> byte) (le : bool) (id : Z)
    (inClientID : Z) : CrossPack :=
  snd (AddToPayload le 4 inClientID true (SetDataID id (CrossPack_new mem))).

(** [if (state == CLIENT_ENTRY_INIT) state = CLIENT_ENTRY_DATA_LIST_EXCHANGE] *)
Definition leave_init (e : CrossClientEntry) : CrossClientEntry :=
  if CrossClientEntryState_eqb (state e) CLIENT_ENTRY_INIT
  then set_e_state CLIENT_ENTRY_DATA_LIST_EXCHANGE e else e.

(** [HANDSHAKE] from a known client. *)
Definition on_handshake (r : CrossClientEntryPtr) : M unit :=
  e ← deref r;
  if CrossClientEntryState_eqb (state e) CLIENT_ENTRY_DATA_LIST_EXCHANGE then
    upd_entry r (set_e_state CLIENT_ENTRY_CONNECTED);;
    fire readyEvent (OnReady r)
  else mret tt.

(** [INIT_CLIENT_ID] from a known client. *)
Definition on_init_client_id (le : bool) (r : CrossClientEntryPtr) : M unit :=
  (* reset timeout *)
  ResetTimeout r CROSS_SOCK_MAX_TIMEOUT;;
  (* send aliveness test *)
  s ← gets obj;
  e ← deref r;
  mem ← sys sys_new;
  SendToClient le
    (alivenessTest le
       (dmul (dadd (alivenessTestDelay (serverProperties s)) (ping e))
          CROSS_SOCK_TIMEOUT_FACTOR)
       (SetDataID ALIVENESS_TEST (CrossPack_new mem)))
    (Some r) true;;
  mem ← sys sys_new;
  SendToClient le (idPack mem le INIT_CLIENT_ID (clientID e)) (Some r) true;;
  upd_entry r leave_init;;
  (* execute callbacks *)
  fire connectEvent (OnConnect r);;
  fire initializeClientEvent (OnInitializeClient r).

(** [RECONNECT_PACK] from a known client. *)
Definition on_reconnect (le : bool) (r : CrossClientEntryPtr)
    (inPack : CrossPack) : M unit :=
  (* reset timeout *)
  ResetTimeout r CROSS_SOCK_MAX_TIMEOUT;;
  (* send aliveness test *)
  s ← gets obj;
  mem ← sys sys_new;
  SendToClient le
    (alivenessTest le
       (dmul (alivenessTestDelay (serverProperties s)) CROSS_SOCK_TIMEOUT_FACTOR)
       (SetDataID ALIVENESS_TEST (CrossPack_new mem)))
    (Some r) true;;
  (* check if we can reconnect *)
  let oldID := fst (RemoveFromPayload_uint le 4 inPack) in
  e ← deref r;
  if (oldID =? 0) || bool_decide (is_Some (connectedClients s !! oldID)) then
    mem ← sys sys_new;
    SendToClient le (idPack mem le INIT_CLIENT_ID (clientID e)) (Some r) true;;
    upd_entry r leave_init;;
    (* execute callbacks *)
    fire failedReconnectEvent (OnReconnectFailed r);;
    fire connectEvent (OnConnect r);;
    fire initializeClientEvent (OnInitializeClient r)
  else
    (* erase the client to update its id *)
    upd (fun s => set_connectedClients
                    (delete (clientID e) (connectedClients s)) s);;
    (* update this clients id and add back to the list *)
    upd_entry r (set_e_clientID oldID);;
    upd (fun s => set_connectedClients
                    (<[oldID := r]> (connectedClients s)) s);;
    (* try and find the old client in the disconnect list *)
    s ← gets obj;
    match disconnectedClients s !! oldID with
    | Some oldClientEntry =>
        (* copy custom data and remove from the disconnected clients list *)
        old ← deref oldClientEntry;
        upd_entry r (set_e_customData (customData old));;
        upd (fun s => set_disconnectedClients
                        (delete oldID (disconnectedClients s)) s)
    | None =>
        (* otherwise re-initialize this client *)
        fire initializeClientEvent (OnInitializeClient r)
    end;;
    (* finish reconnect and execute callback *)
    mem ← sys sys_new;
    SendToClient le (idPack mem le RECONNECT_PACK oldID) (Some r) true;;
    upd_entry r leave_init;;
    fire reconnectEvent (OnReconnect r).

(** [INIT_CUSTOM_DATA_LIST] from a known client: one packet per data
    event, built on the one [outPack]. *)
Definition on_data_list (le : bool) (r : CrossClientEntryPtr) : M unit :=
  s ← gets obj;
  let numTotalCustomData := u16 (Z.of_nat (length (dataEvents s))) in
  mem ← sys sys_new;
  fold_left
    (fun (m : M CrossPack) '(x, dataEvent) =>
       outPack ← m;
       let outPack := ClearPayload outPack in
       let outPack := snd (AddToPayload le 2 numTotalCustomData true outPack) in
       let outPack := snd (AddToPayload le 2 (Z.of_nat x) true outPack) in
       let outPack := snd (AddStringToPayload le (name dataEvent) outPack) in
       let outPack :=
         snd (AddToPayload le 2 (de_dataID dataEvent) true outPack) in
       '(_, outPack) ← SendToClient le outPack (Some r) true;
       mret outPack)
    (firstn (Z.to_nat numTotalCustomData)
       (combine (seq 0 (length (dataEvents s))) (dataEvents s)))
    (mret (SetDataID INIT_CUSTOM_DATA_LIST (CrossPack_new mem)));;
  mret tt.

(** [ALIVENESS_TEST] from a known client. *)
Definition on_aliveness (le : bool) (r : CrossClientEntryPtr)
    (inPack : CrossPack) : M unit :=
  (* reset timeout timer and update expected timeout delay *)
  let timeoutDelay := fst (RemoveFromPayload_float le inPack) in
  ResetTimeout r (double_of_float timeoutDelay).

(** The calls of the registered callbacks of one data event, last
    registered first, while the server and the client are running. *)
Fixpoint run_callbacks (dataID : Z) (n : nat) (pack : CrossPack)
    (r : CrossClientEntryPtr) (method : NetTransMethod) : M unit :=
  match n with
  | O => mret tt
  | S c =>
      s ← gets obj;
      e ← deref r;
      if negb (IsRunning s) || negb (Entry_IsRunning e) then mret tt
      else
        log (OnData dataID c pack r method);;
        run_callbacks dataID c pack r method
  end.

(** Custom or unknown data, or an unknown client. *)
Definition on_custom (inClient : option CrossClientEntryPtr)
    (inPack : CrossPack) (inMethod : NetTransMethod) : M unit :=
  match inClient with
  | Some r =>
      if negb (GetDataID inPack =? UNKNOWN_PACK)
         && (match inMethod with TCP => true | UDP => IsValid inPack end)
      then
        (* find the data event if it exists *)
        s ← gets obj;
        let dataEvent := dataEventsByID s !! GetDataID inPack in
        (* call receive event if it is valid *)
        fire receiveEvent (OnReceiveData inPack r inMethod);;
        (* call custom event callbacks if any exists *)
        match dataEvent with
        | Some d =>
            run_callbacks (GetDataID inPack)
              (match nth_error (dataEvents s) d with
               | Some ev => callbacks ev
               | None => O
               end) inPack r inMethod
        | None => mret tt
        end
      else
        fire transErrorEvent
          (OnTransmitError (Some inPack) inClient inMethod
             (if GetDataID inPack =? UNKNOWN_PACK
              then INVALID_DATA_ID else INVALID_CHECKSUM))
  | None =>
      fire transErrorEvent
        (OnTransmitError (Some inPack) None inMethod CLIENT_NOT_FOUND)
  end.

(** [OnReceiveNewData(inData, inLength, inClient, inMethod)]: the number
    of bytes of [inData] used. *)
Definition OnReceiveNewData (le : bool) (inData : list byte) (inLength : Z)
    (inClient : option CrossClientEntryPtr) (inMethod : NetTransMethod)
    : M Z :=
  if inLength >=? GetHeaderSize then
    let header := PeakHeader le inData in
    if payloadSize header >? MAX_PAYLOAD_BYTES then
      fire transErrorEvent
        (OnTransmitError None inClient inMethod INVALID_PAYLOAD_SIZE);;
      mret inLength
    else if payloadSize header + GetHeaderSize + GetFooterLength header
              <=? inLength then
      let footer := PeakFooter le inData header in
      let inPack := CrossPack_of_parts header footer inData in
      s ← gets obj;
      let inClient :=
        match inMethod with
        | UDP => if GetPacketFlag inPack UDP_SUPPORT_FLAG
                 then GetClientEntry (GetSenderID inPack) s else inClient
        | TCP => inClient
        end in
      match inClient with
      | Some r =>
          if GetDataID inPack =? HANDSHAKE then on_handshake r
          else if GetDataID inPack =? INIT_CLIENT_ID then on_init_client_id le r
          else if GetDataID inPack =? DISCONNECT_PACK
          then DisconnectClient le (Some r) true
          else if GetDataID inPack =? RECONNECT_PACK
          then on_reconnect le r inPack
          else if GetDataID inPack =? INIT_CUSTOM_DATA_LIST
          then on_data_list le r
          else if GetDataID inPack =? ALIVENESS_TEST
          then on_aliveness le r inPack
          else on_custom inClient inPack inMethod
      | None => on_custom None inPack inMethod
      end;;
      (* return packet size *)
      mret (GetPacketSize inPack)
    else mret 0
  else mret 0.

(** ** The update step *)

(** The answer of [canConnectList.find] as the accept loop reads it:
    [(canConnect, onList)]. *)
Definition connection_list_entry (a : CrossSockAddress) (s : CrossServer)
    : bool * bool :=
  match policy_find a (canConnectList s) with
  | Some b => (b, true)
  | None => (false, false)
  end.

(** [rejectEvent] then [DisconnectClient(newEntry)] *)
Definition reject (le : bool) (newEntry : CrossClientEntryPtr) : M unit :=
  (* execute callback *)
  fire rejectEvent (OnReject newEntry);;
  (* reject connection *)
  DisconnectClient le (Some newEntry) true.

(** The body of the accept loop for one accepted socket. *)
Definition accept_one (le : bool) (newSocket : option Z)
    (newClientAddress : CrossSockAddress) : M unit :=
  (* assemble new client entry *)
  newEntry ← alloc;
  s ← gets obj;
  upd_entry newEntry (set_e_address newClientAddress);;
  upd_entry newEntry (set_e_socket newSocket);;
  upd_entry newEntry (set_e_clientID (nextAvailableClientID s));;
  (* get connection list entry *)
  let '(canConnect, onList) := connection_list_entry newClientAddress s in
  (* validate against blacklist *)
  if negb (useBlacklist (serverProperties s)) || negb onList || canConnect then
    (* validate against whitelist *)
    if negb (useWhitelist (serverProperties s)) || canConnect then
      (* do custom client connection validation *)
      valid ← (if handlers s validateEvent
               then answer ← sys sys_answer;
                    log (OnValidate newEntry answer);;
                    mret answer
               else mret true);
      if (valid : bool) then
        (* accept connection *)
        note_issued newEntry (nextAvailableClientID s);;
        upd (set_nextAvailableClientID (u32 (nextAvailableClientID s + 1)));;
        upd (fun s' => set_connectedClients
                         (<[nextAvailableClientID s := newEntry]>
                            (connectedClients s')) s');;
        (* an entry that held this id is dropped by the table *)
        match connectedClients s !! nextAvailableClientID s with
        | Some old => release old
        | None => mret tt
        end;;
        (* send init packet *)
        mem ← sys sys_new;
        SendToClient le (SetDataID HANDSHAKE (CrossPack_new mem))
          (Some newEntry) true;;
        mret tt
      else reject le newEntry
    else reject le newEntry
  else reject le newEntry.

(** The [do .. while (newConnections < newConnectionBacklog)] loop. *)
Fixpoint accept_loop (le : bool) (fuel : nat) (newConnections : Z) : M unit :=
  (* increment connections counter *)
  let newConnections := newConnections + 1 in
  (* accept new clients *)
  '(newSocket, newClientAddress, err) ← sys sys_accept;
  if CrossSockError_eqb err SUCCESS then
    accept_one le newSocket newClientAddress;;
    s ← gets obj;
    if newConnections <? newConnectionBacklog (serverProperties s)
    then match fuel with
         | O => mret tt
         | S k => accept_loop le k newConnections
         end
    else mret tt
  else
    (* a socket that was accepted all the same is let go of: its
       destructor closes it *)
    match newSocket with
    | Some fd => sys (sys_close fd)
    | None => mret tt
    end.

(** The aliveness test of [Update], on the one [alivenessTest] packet,
    and the flush of the disconnected clients. *)
Definition heartbeat (le : bool) : M unit :=
  s ← gets obj;
  elapsed ← sys (GetElapsedTime (alivenessTestTimer s));
  if dleb (alivenessTestDelay (serverProperties s)) elapsed then
    (* reset timer and assemble packet *)
    t ← sys sys_now;
    upd (set_alivenessTestTimer t);;
    mem ← sys sys_new;
    (* iterate through each client *)
    fold_left
      (fun (m : M CrossPack) '(_, r) =>
         pack ← m;
         e ← deref r;
         (* set aliveness test delay *)
         let pack :=
           alivenessTest le
             (dmul (dadd (alivenessTestDelay (serverProperties s)) (ping e))
                CROSS_SOCK_TIMEOUT_FACTOR)
             (ClearPayload pack) in
         (* do aliveness test *)
         '(result, pack) ← SendToClient le pack (Some r) true;
         lost ← (if result <? 0 then mret true else HasTimedOut r);
         (if (lost : bool) then DisconnectClient le (Some r) true
          else mret tt);;
         mret pack)
      (clients_of (connectedClients s))
      (mret (SetDataID ALIVENESS_TEST (CrossPack_new mem)));;
    (* delete disconnect client data if possible *)
    if shouldFlushDisconnectedClientData (serverProperties s) then
      s ← gets obj;
      forM (clients_of (disconnectedClients s))
        (fun '(id, r) =>
           old ← HasTimedOut r;
           if (old : bool) then
             fire destroyClientEvent (OnDestroyClient r);;
             upd (fun s => set_disconnectedClients
                             (delete id (disconnectedClients s)) s)
           else mret tt)
    else mret tt
  else mret tt.

(** The inner loop over a client's stream buffer. *)
Fixpoint dispatch_tcp (le : bool) (client : CrossClientEntryPtr)
    (fuel : nat) (bufferPos : Z) : M Z :=
  e ← deref client;
  dataUsed ← OnReceiveNewData le (skipn (Z.to_nat bufferPos) (tcpBuffer e))
               (Z.of_nat (length (tcpBuffer e)) - bufferPos) (Some client) TCP;
  let bufferPos := bufferPos + dataUsed in
  s ← gets obj;
  e ← deref client;
  if IsRunning s && Entry_IsRunning e && (dataUsed >? 0)
     && (bufferPos <? Z.of_nat (length (tcpBuffer e)))
  then match fuel with
       | O => mret bufferPos
       | S k => dispatch_tcp le client k bufferPos
       end
  else mret bufferPos.

(** The [do .. while] that reads one client's stream socket. *)
Fixpoint tcp_loop (le : bool) (client : CrossClientEntryPtr) (fuel : nat)
    (tcpTransmits : Z) : M unit :=
  let tcpTransmits := tcpTransmits + 1 in
  e ← deref client;
  '(got, err) ←
    match socket e with
    | Some _ =>
        sys (sys_recv (CROSS_SOCK_BUFFER_SIZE - Z.of_nat (length (tcpBuffer e))))
    | None => mret ([], INVALID)
    end;
  (if (0 <? Z.of_nat (length got)) then
     upd_entry client (set_e_tcpBuffer (tcpBuffer e ++ got));;
     bufferPos ← dispatch_tcp le client (length (tcpBuffer e ++ got)) 0;
     (* reset buffer to front *)
     upd_entry client
       (fun e => set_e_tcpBuffer (skipn (Z.to_nat bufferPos) (tcpBuffer e)) e)
   else if CrossSockError_eqb err CONNRESET
   then DisconnectClient le (Some client) true
   else mret tt);;
  s ← gets obj;
  e ← deref client;
  if IsRunning s && Entry_IsRunning e && (0 <? Z.of_nat (length got))
     && (tcpTransmits <? maxTCPTransmitsPerUpdate (serverProperties s))
  then match fuel with
       | O => mret tt
       | S k => tcp_loop le client k tcpTransmits
       end
  else mret tt.

(** The inner loop over the datagram buffer. *)
Fixpoint dispatch_udp (le : bool) (fuel : nat) (bufferPos : Z) : M Z :=
  s ← gets obj;
  dataUsed ← OnReceiveNewData le (skipn (Z.to_nat bufferPos) (udpBuffer s))
               (Z.of_nat (length (udpBuffer s)) - bufferPos) None UDP;
  let bufferPos := bufferPos + dataUsed in
  s ← gets obj;
  if IsRunning s && streamIsBound s && (dataUsed >? 0)
     && (bufferPos <? Z.of_nat (length (udpBuffer s)))
  then match fuel with
       | O => mret bufferPos
       | S k => dispatch_udp le k bufferPos
       end
  else mret bufferPos.

(** The [do .. while] that reads the datagram socket. *)
Fixpoint udp_loop (le : bool) (fuel : nat) (udpTransmits : Z) : M unit :=
  let udpTransmits := udpTransmits + 1 in
  s ← gets obj;
  '(got, fromAddress, err) ←
    match streamSocket s with
    | Some _ =>
        sys (sys_recvfrom
               (CROSS_SOCK_BUFFER_SIZE - Z.of_nat (length (udpBuffer s))))
    | None => mret ([], CrossSockAddress_default, INVALID)
    end;
  (if (0 <? Z.of_nat (length got)) then
     upd (set_udpBuffer (udpBuffer s ++ got));;
     bufferPos ← dispatch_udp le (length (udpBuffer s ++ got)) 0;
     upd (fun s => set_udpBuffer (skipn (Z.to_nat bufferPos) (udpBuffer s)) s)
   else if CrossSockError_eqb err CONNRESET then
     upd (set_streamIsBound false);;
     upd (set_udpBuffer []);;
     match streamSocket s with
     | Some fd =>
         sys (sys_close fd);;
         (* reset(): the destructor of the socket closes it again *)
         sys (sys_close fd);;
         upd (set_streamSocket None)
     | None => mret tt
     end
   else mret tt);;
  s ← gets obj;
  if IsRunning s && streamIsBound s && (0 <? Z.of_nat (length got))
     && (udpTransmits <? maxUDPTransmitsPerUpdate (serverProperties s))
  then match fuel with
       | O => mret tt
       | S k => udp_loop le k udpTransmits
       end
  else mret tt.

(** The last loop of [Update]: the entries that are no longer running
    leave the table of connected clients. *)
Definition sweep : M unit :=
  fun st =>
    (tt,
     {| obj := set_connectedClients
                 (filter
                    (fun kv => Is_true
                       (Entry_IsRunning
                          (nth (snd kv) (heap st) (CrossClientEntry_new 0))))
                    (connectedClients (obj st))) (obj st);
        heap := heap st; world := world st; events := events st; issued := issued st |}).

(** The continuation of the accept loop after one accepted socket:
    the loop test and the iterations that follow. *)
Definition accept_next (le : bool) (fuel : nat) (newConnections : Z)
    : M unit :=
  s ← gets obj;
  if newConnections <? newConnectionBacklog (serverProperties s)
  then match fuel with
       | O => mret tt
       | S k => accept_loop le k newConnections
       end
  else mret tt.

(** [Update()] in state [SERVER_LOOP], after the accept loop. *)
Definition after_accept (le : bool) : M unit :=
  (* do aliveness test if possible *)
  heartbeat le;;
  (* handle TCP data *)
  s ← gets obj;
  forM (clients_of (connectedClients s))
    (fun '(_, client) =>
       e ← deref client;
       s ← gets obj;
       if Entry_IsRunning e
       then tcp_loop le client
              (Z.to_nat (maxTCPTransmitsPerUpdate (serverProperties s))) 0
       else mret tt);;
  (* handle UDP data *)
  s ← gets obj;
  (if allowUDPPackets (serverProperties s) then
     if streamIsBound s then
       udp_loop le (Z.to_nat (maxUDPTransmitsPerUpdate (serverProperties s))) 0
     else
       (* bind UDP socket if needed *)
       match streamSocket s with
       | None => fd ← sys sys_socket; upd (set_streamSocket fd)
       | Some _ => mret tt
       end;;
       s ← gets obj;
       match streamSocket s with
       | Some _ =>
           '(result, err) ← sys sys_bind;
           when ((result >=? 0) || CrossSockError_eqb err SUCCESS
                 || CrossSockError_eqb err ISCONN)
             (upd (set_streamIsBound true))
       | None => mret tt
       end
   else mret tt);;
  (* consider disconnecting clients *)
  sweep.

(** [Update()] *)
Definition Update (le : bool) : M unit :=
  s ← gets obj;
  if CrossServerState_eqb (serverState s) SERVER_BINDING then
    (* if the listen socket is invalid *)
    match listenSocket s with
    | None => fd ← sys sys_socket; upd (set_listenSocket fd)
    | Some _ => mret tt
    end;;
    (* if the listen socket is valid *)
    s ← gets obj;
    match listenSocket s with
    | Some _ =>
        (* attempt to bind the address *)
        '(result, err) ← sys sys_bind;
        if (result >=? 0) || CrossSockError_eqb err SUCCESS
           || CrossSockError_eqb err ALREADY then
          upd (set_serverState SERVER_LOOP);;
          t ← sys sys_now;
          upd (set_alivenessTestTimer t);;
          fire bindEvent OnBind
        else mret tt
    | None => mret tt
    end
  else if CrossServerState_eqb (serverState s) SERVER_LOOP then
    (* accept and validate new connections *)
    accept_loop le (Z.to_nat (newConnectionBacklog (serverProperties s))) 0;;
    after_accept le
  else mret tt.

(** [FillDataEventMaps()] *)
Definition FillDataEventMaps (s : CrossServer) : CrossServer :=
  fold_left
    (fun s '(d, ev) =>
       let s := set_dataEventsByID
                  (<[de_dataID ev := d]> (dataEventsByID s)) s in
       set_dataEventsByName (name_insert (name ev) d (dataEventsByName s)) s)
    (combine (seq 0 (length (dataEvents s))) (dataEvents s))
    (set_dataEventsByName [] (set_dataEventsByID ∅ s)).

(** [Start(inPort, inFamily)] *)
Definition Start (le : bool) (inPort : Z) (inFamily : Z) : M unit :=
  upd (set_port inPort);;
  upd (set_addressFamily inFamily);;
  upd FillDataEventMaps;;
  upd (set_serverState SERVER_BINDING);;
  Update le.

(** [Stop()] *)
Definition Stop (le : bool) : M unit :=
  s ← gets obj;
  if negb (CrossServerState_eqb (serverState s) SERVER_NEEDS_STARTUP) then
    forM (clients_of (connectedClients s))
      (fun '(_, r) => DisconnectClient le (Some r) false);;
    upd (set_connectedClients ∅);;
    s ← gets obj;
    forM (clients_of (disconnectedClients s))
      (fun '(_, r) => fire destroyClientEvent (OnDestroyClient r));;
    upd (set_disconnectedClients ∅);;
    match listenSocket s with
    | Some fd =>
        sys (sys_close fd);;
        (* reset(): the destructor of the socket closes it again *)
        sys (sys_close fd);;
        upd (set_listenSocket None)
    | None => mret tt
    end;;
    match streamSocket s with
    | Some fd =>
        sys (sys_close fd);;
        (* reset(): the destructor of the socket closes it again *)
        sys (sys_close fd);;
        upd (set_streamSocket None)
    | None => mret tt
    end;;
    upd (set_streamIsBound false);;
    upd (set_udpBuffer []);;
    upd (set_serverState SERVER_NEEDS_STARTUP)
  else mret tt.

(** [SetServerProperties(inProperties)] *)
Definition SetServerProperties (le : bool)
    (inProperties : CrossServerProperties) : M unit :=
  s ← gets obj;
  (if IsRunning s
      && negb (deqb (alivenessTestDelay (serverProperties s))
                 (alivenessTestDelay inProperties))
   then
     mem ← sys sys_new;
     SendToAll le
       (alivenessTest le
          (dmul (alivenessTestDelay inProperties) CROSS_SOCK_TIMEOUT_FACTOR)
          (SetDataID ALIVENESS_TEST (CrossPack_new mem))) true
   else mret tt);;
  upd (set_serverProperties inProperties).

(** [AddDataType(inDataName)] and [AddDataHandler(inDataName, inFunction)]:
    [handler] tells whether a callback is added ([None] for [AddDataType],
    [Some false] for a null function). *)
Definition AddDataHandler (inDataName : list byte) (handler : option bool)
    : M bool :=
  (* truncate name if too long *)
  let inDataName :=
    firstn (Z.to_nat CROSS_SOCK_MAX_DATA_NAME_LENGTH) inDataName in
  let added := match handler with Some true => 1%nat | _ => 0%nat end in
  s ← gets obj;
  match find_name inDataName (dataEvents s) 0 with
  | Some d =>
      (* if this data exists, add this callback to the event *)
      upd (set_dataEvents
             (set_nth d
                (fun ev => {| name := name ev; de_dataID := de_dataID ev;
                              callbacks := (callbacks ev + added)%nat |})
                (dataEvents s)));;
      mret true
  | None =>
      (* a new event is needed - add if possible *)
      if CrossServerState_eqb (serverState s) SERVER_NEEDS_STARTUP then
        upd (set_dataEvents
               (dataEvents s
                  ++ [{| name := inDataName;
                         de_dataID := u16 (nextAvailableDataID s);
                         callbacks := added |}]));;
        upd (set_nextAvailableDataID (u32 (nextAvailableDataID s + 1)));;
        mret true
      else mret false
  end.

(** [GetDataIDFromName(inDataName)].  The tables hold pointers to the
    data events; the model holds their positions in [dataEvents]. *)
Definition GetDataIDFromName (inDataName : list byte) (s : CrossServer)
    : Z :=
  let inDataName :=
    firstn (Z.to_nat CROSS_SOCK_MAX_DATA_NAME_LENGTH) inDataName in
  let found :=
    if IsRunning s then name_find inDataName (dataEventsByName s)
    else find_name inDataName (dataEvents s) 0 in
  match found with
  | Some d =>
      match nth_error (dataEvents s) d with
      | Some ev => de_dataID ev
      | None => UNKNOWN_PACK
      end
  | None => UNKNOWN_PACK
  end.

(** The first event of [dataEvents] with the data id [inDataID]. *)
Fixpoint find_id (inDataID : Z) (l : list CrossDataEvent) (i : nat)
    : option nat :=
  match l with
  | [] => None
  | d :: r => if de_dataID d =? inDataID then Some i
              else find_id inDataID r (S i)
  end.

(** [GetNameFromDataID(inDataID)] *)
Definition GetNameFromDataID (inDataID : Z) (s : CrossServer) : list byte :=
  let found :=
    if IsRunning s then dataEventsByID s !! inDataID
    else find_id inDataID (dataEvents s) 0 in
  match found with
  | Some d =>
      match nth_error (dataEvents s) d with
      | Some ev => name ev
      | None => []
      end
  | None => []
  end.

(** [CreatePack(inDataName)] *)
Definition CreatePack (mem : nat -> byte) (inDataName : list byte)
    (s : CrossServer) : CrossPack :=
  CrossPack_of_dataID mem (GetDataIDFromName inDataName s).

(** ** Runs of the server *)

(** The calls an application makes on a server and on the entries it is
    handed. *)
Inductive Call :=
| CallStart (inPort inFamily : Z)
| CallStop
| CallUpdate
| CallSetServerProperties (inProperties : CrossServerProperties)
| CallSendToClient (inPack : CrossPack) (inClient : option CrossClientEntryPtr)
    (block : bool)
| CallSendToAll (inPack : CrossPack) (block : bool)
| CallStreamToClient (inPack : CrossPack)
    (inClient : option CrossClientEntryPtr) (block : bool)
| CallStreamToAll (inPack : CrossPack) (block : bool)
| CallAddDataHandler (inDataName : list byte) (handler : option bool)
| CallAddAddressToBlacklist (inAddress : CrossSockAddress)
| CallRemoveAddressFromBlacklist (inAddress : CrossSockAddress)
| CallAddAddressToWhitelist (inAddress : CrossSockAddress)
| CallRemoveAddressFromWhitelist (inAddress : CrossSockAddress)
| CallDisconnectClient (inClient : option CrossClientEntryPtr) (save : bool)
| CallDisconnectAddress (inAddress : CrossSockAddress)
| CallSetHandler (h : Handler) (valid : bool)
| CallSetCustomData (client : CrossClientEntryPtr) (inData : Z)
| CallResetTimeout (client : CrossClientEntryPtr) (delay : double).

Definition call (le : bool) (c : Call) : M unit :=
  match c with
  | CallStart inPort inFamily => Start le inPort inFamily
  | CallStop => Stop le
  | CallUpdate => Update le
  | CallSetServerProperties p => SetServerProperties le p
  | CallSendToClient p r b => SendToClient le p r b;; mret tt
  | CallSendToAll p b => SendToAll le p b
  | CallStreamToClient p r b => StreamToClient le p r b;; mret tt
  | CallStreamToAll p b => StreamToAll le p b
  | CallAddDataHandler n h => AddDataHandler n h;; mret tt
  | CallAddAddressToBlacklist a => AddAddressToBlacklist le a
  | CallRemoveAddressFromBlacklist a => RemoveAddressFromBlacklist a
  | CallAddAddressToWhitelist a => AddAddressToWhitelist a
  | CallRemoveAddressFromWhitelist a => RemoveAddressFromWhitelist a
  | CallDisconnectClient r save => DisconnectClient le r save
  | CallDisconnectAddress a => DisconnectAddress le a;; mret tt
  | CallSetHandler h valid =>
      upd (fun s => set_handlers
                      (fun h' => if Handler_eqb h' h then valid
                                 else handlers s h') s)
  | CallSetCustomData r d => upd_entry r (set_e_customData d)
  | CallResetTimeout r d => ResetTimeout r d
  end.

(** A fresh server in an environment that will answer with [script]. *)
Definition fresh (script : list Response) : Sys :=
  {| obj := Init; heap := [];
     world := {| Net.script := script; actions := [] |}; events := [];
     issued := [] |}.

(** The state after a sequence of calls. *)
Definition run (le : bool) (calls : list Call) (st : Sys) : Sys :=
  fold_left (fun st c => snd (call le c st)) calls st.

End Server.

(** * Invariants of the server *)

Module ServerInv.
Import Util Sock Pack CFloat Net Server.

(** The entry a pointer designates in a state. *)
Definition ent (st : Sys) (r : CrossClientEntryPtr) : CrossClientEntry :=
  nth r (heap st) (CrossClientEntry_new 0).

(** A computation keeps a property of the state. *)
Definition keeps {A} (I : Sys -> Prop) (m : M A) : Prop :=
  forall st, I st -> I (snd (m st)).

(** An update of an entry that leaves a disconnected entry disconnected. *)
Definition absorbing (f : CrossClientEntry -> CrossClientEntry) : Prop :=
  forall e, state e = CLIENT_ENTRY_DISCONNECTED ->
            state (f e) = CLIENT_ENTRY_DISCONNECTED.

(** An update of the server object that leaves the table of connected
    clients and the id counter alone. *)
Definition frame_obj (f : CrossServer -> CrossServer) : Prop :=
  forall s, connectedClients (f s) = connectedClients s
            /\ nextAvailableClientID (f s) = nextAvailableClientID s.

(** What a property must tolerate to be kept by the code that serves the
    clients: [ok] tells which pointers may be served as connected
    clients. *)
Record stable (ok : CrossClientEntryPtr -> Prop) (I : Sys -> Prop)
    : Prop := {
  st_world : forall st w,
    I st ->
    I {| obj := obj st; heap := heap st; world := w; events := events st;
         issued := issued st |};
  st_events : forall st ev,
    I st ->
    I {| obj := obj st; heap := heap st; world := world st; events := ev;
         issued := issued st |};
  st_obj : forall st f,
    frame_obj f -> I st ->
    I {| obj := f (obj st); heap := heap st; world := world st;
         events := events st; issued := issued st |};
  st_map : forall st m,
    (forall k r, m !! k = Some r ->
                 ok r \/ exists k', connectedClients (obj st) !! k' = Some r) ->
    I st ->
    I {| obj := set_connectedClients m (obj st); heap := heap st;
         world := world st; events := events st; issued := issued st |};
  st_entry : forall st r f,
    absorbing f \/ ok r -> I st ->
    I {| obj := obj st; heap := set_nth r f (heap st); world := world st;
         events := events st; issued := issued st |}
}.

(** A family of properties in which the pointers found in the table of
    connected clients may be served. *)
Definition snapshot {P : Type} (ok : P -> CrossClientEntryPtr -> Prop)
    (I : P -> Sys -> Prop) : Prop :=
  forall p st,
    I p st ->
    exists p',
      I p' st
      /\ (forall r, ok p r -> ok p' r)
      /\ (forall k r, connectedClients (obj st) !! k = Some r -> ok p' r)
      /\ (forall st', I p' st' -> I p st').

(** The callbacks among [l] that are executed: those of the events that
    have a valid handler. *)
Definition fired (s : CrossServer) (l : list Event) : list Event :=
  List.filter
    (fun e => match handler_of e with
              | Some h => handlers s h
              | None => true
              end) l.

(** A computation leads from one property of the state to another. *)
Definition leads {A} (I J : Sys -> Prop) (m : M A) : Prop :=
  forall st, I st -> J (snd (m st)).

(** ** The ids issued *)

(** The id counter and the history of issued ids. *)
Definition ids_of (st : Sys) : Z * list (CrossClientEntryPtr * Z) :=
  (nextAvailableClientID (obj st), issued st).

Definition same_ids (k : Z * list (CrossClientEntryPtr * Z)) (st : Sys)
    : Prop :=
  ids_of st = k.

(** The [i]-th id issued is [1 + i] in 32-bit unsigned arithmetic, and
    the counter is the id to issue next. *)
Definition ids_ok (st : Sys) : Prop :=
  nextAvailableClientID (obj st)
  = u32 (1 + Z.of_nat (length (issued st)))
  /\ forall i, (i < length (issued st))%nat ->
               snd (nth i (issued st) (O, 0)) = u32 (1 + Z.of_nat i).

(** ** The data events *)

(** The data events as registration leaves them: the [i]-th event has
    the data id [CUSTOM_DATA_START + i] in 16-bit unsigned arithmetic,
    the names are distinct and no longer than the maximum, and the
    counter is the id to give next. *)
Definition data_ok (s : CrossServer) : Prop :=
  nextAvailableDataID s
  = u32 (CUSTOM_DATA_START + Z.of_nat (length (dataEvents s)))
  /\ (forall i ev, nth_error (dataEvents s) i = Some ev ->
                   de_dataID ev = u16 (CUSTOM_DATA_START + Z.of_nat i)
                   /\ Z.of_nat (length (name ev))
                      <= CROSS_SOCK_MAX_DATA_NAME_LENGTH)
  /\ NoDup (map name (dataEvents s)).

(** ** The policy list *)

(** The address is refused by the policy list: mapped to [false] while
    the blacklist is in use, or not mapped to [true] while the whitelist
    is in use. *)
Definition policy_rejects (a : CrossSockAddress) (s : CrossServer) : Prop :=
  (useBlacklist (serverProperties s) = true
   /\ policy_find a (canConnectList s) = Some false)
  \/ (useWhitelist (serverProperties s) = true
      /\ policy_find a (canConnectList s) <> Some true).

(** The pointers in the table of connected clients designate entries of
    the store. *)
Definition heap_closed (st : Sys) : Prop :=
  forall k r, connectedClients (obj st) !! k = Some r ->
              (r < length (heap st))%nat.

(** The entries [T] stay refused: they are disconnected and the table of
    connected clients does not hold them ([n] is a lower bound on the
    size of the store). *)
Definition refused (T : list CrossClientEntryPtr) (n : nat) (st : Sys)
    : Prop :=
  (n <= length (heap st))%nat
  /\ (forall k r, connectedClients (obj st) !! k = Some r ->
                  (r < length (heap st))%nat /\ ~ In r T)
  /\ (forall r, In r T ->
                (r < length (heap st))%nat
                /\ state (ent st r) = CLIENT_ENTRY_DISCONNECTED).

(** The pointers that may be served while [T] stays refused. *)
Definition served (T : list CrossClientEntryPtr) (n : nat)
    (r : CrossClientEntryPtr) : Prop :=
  (r < n)%nat /\ ~ In r T.

(** ** A server that accepts 2^32 peers *)

(** The properties of a server that accepts up to 2^30 sockets in one
    update and reads no datagrams. *)
Definition flood_properties : CrossServerProperties :=
  {| newConnectionBacklog := 1073741824; maxUDPTransmitsPerUpdate := 256;
     maxTCPTransmitsPerUpdate := 4; allowUDPPackets := false;
     useBlacklist := true; useWhitelist := false;
     alivenessTestDelay := double_of_Z 1000;
     shouldFlushDisconnectedClientData := true;
     disconnectedClientFlushDelay := CROSS_SOCK_MAX_TIMEOUT |}.

(** The answers of the environment to the acceptance of [k] peers: the
    accepted socket, the clock read for the new entry, the result of
    sending HANDSHAKE. *)
Fixpoint accepts (k : nat) (tail : list Response) : list Response :=
  match k with
  | O => tail
  | S k =>
      RAccept (Some 4) CrossSockAddress_default SUCCESS
        :: RNow 0 :: RResult (Some 6%N) SUCCESS :: accepts k tail
  end.

(** The socket is created and bound, then 2^32 peers connect. *)
Definition flood_script : list Response :=
  RSocket (Some 3) :: RResult (Some 0%N) SUCCESS :: RNow 0
    :: accepts (Z.to_nat 4294967296) [].

Definition flood_calls : list Call :=
  [CallSetServerProperties flood_properties; CallStart 5000 AF_INET;
   CallUpdate; CallUpdate; CallUpdate; CallUpdate].

(** The state of the flooded server that matters: [j] ids were issued
    and the environment will answer with [s]. *)
Definition flooding (j : Z) (s : list Response) (st : Sys) : Prop :=
  Z.of_nat (length (issued st)) = j
  /\ serverState (obj st) = SERVER_LOOP
  /\ serverProperties (obj st) = flood_properties
  /\ handlers (obj st) validateEvent = false
  /\ canConnectList (obj st) = []
  /\ alivenessTestTimer (obj st) = 0
  /\ script (world st) = s.

(** No answer to a clock, a receive or a send is at the head. *)
Definition idle (s : list Response) : Prop :=
  s = [] \/ exists fd a e s', s = RAccept fd a e :: s'.

(** ** Scenarios *)

(** What the acceptance of a socket does to the counter and the history:
    nothing, or the counter is issued to the new entry and incremented. *)
Definition accepted (st : Sys) (k : Z * list (CrossClientEntryPtr * Z))
    : Prop :=
  k = ids_of st
  \/ k = (u32 (nextAvailableClientID (obj st) + 1),
          issued st ++ [(length (heap st), nextAvailableClientID (obj st))]).

(** Two peers accepted in one update. *)
Definition two_accepts : list Response :=
  [RSocket (Some 3); RResult (Some 0%N) SUCCESS; RNow 0;
   RAccept (Some 4) CrossSockAddress_default SUCCESS; RNow 1;
   RResult (Some 6%N) SUCCESS;
   RAccept (Some 5) CrossSockAddress_default SUCCESS; RNow 2;
   RResult (Some 6%N) SUCCESS].

(** The aliveness test that answers a RECONNECT packet. *)
Definition reconnect_test (mem : nat -> byte) (le : bool) (s : CrossServer)
    : CrossPack :=
  alivenessTest le
    (dmul (alivenessTestDelay (serverProperties s)) CROSS_SOCK_TIMEOUT_FACTOR)
    (SetDataID ALIVENESS_TEST (CrossPack_new mem)).

(** A server with a live peer under the provisional id 2 and a
    disconnected record under the id 1. *)
Definition reconnecting_server : Sys :=
  {| obj := set_connectedClients {[2 := 0%nat]}
              (set_disconnectedClients {[1 := 1%nat]}
                 (set_nextAvailableClientID 3
                    (set_serverState SERVER_LOOP Init)));
     heap := [set_e_clientID 2 (set_e_socket (Some 4) (CrossClientEntry_new 0));
              set_e_customData 77
                (set_e_clientID 1
                   (set_e_state CLIENT_ENTRY_DISCONNECTED
                      (CrossClientEntry_new 0)))];
     world := {| script := [RNow 5; RNow 6; RResult (Some 10%N) SUCCESS;
                            RResult (Some 10%N) SUCCESS];
                 actions := [] |};
     events := [];
     issued := [(0%nat, 1); (1%nat, 2)] |}.

(** An address on the blacklist of a started server. *)
Definition blocked : CrossSockAddress :=
  {| sa_family := AF_INET; sin_port := 4000; sin_addr := 2130706433 |}.

Definition blacklist_server : Sys :=
  run true [CallAddAddressToBlacklist blocked; CallStart 5000 AF_INET]
    (fresh [RSocket (Some 3); RResult (Some 0%N) SUCCESS; RNow 0;
            RNow 1; RNow 2; RNow 3; RResult (Some 6%N) SUCCESS]).

(** The same address with the family [AF_INET6], on the blacklist of a
    started server. *)
Definition blocked6 : CrossSockAddress :=
  {| sa_family := AF_INET6; sin_port := 4000; sin_addr := 2130706433 |}.

Definition blacklist6_server : Sys :=
  run true [CallAddAddressToBlacklist blocked6; CallStart 5000 AF_INET6]
    (fresh [RSocket (Some 3); RResult (Some 0%N) SUCCESS; RNow 0;
            RNow 1; RNow 2; RNow 3; RResult (Some 6%N) SUCCESS]).

(** One step of the loop of [FillDataEventMaps]. *)
Definition fill_step (s : CrossServer) (x : nat * CrossDataEvent)
    : CrossServer :=
  let '(d, ev) := x in
  let s := set_dataEventsByID (<[de_dataID ev := d]> (dataEventsByID s)) s in
  set_dataEventsByName (name_insert (name ev) d (dataEventsByName s)) s.

End ServerInv.

(** * The states after a header that declares too large a payload *)

Import Util Sock Pack CFloat Net.

(** The client after the transmit-error callback for such a header. *)
Definition client_size_error (method : NetTransMethod) (st : Client.Sys)
    : Client.Sys :=
  {| Client.obj := Client.obj st; Client.world := Client.world st;
     Client.events :=
       Client.events st
       ++ (if Client.transErrorEvent (Client.obj st)
           then [Client.OnTransmitError None method INVALID_PAYLOAD_SIZE]
           else []) |}.

(** The server after the transmit-error callback for such a header. *)
Definition server_size_error (inClient : option Server.CrossClientEntryPtr)
    (method : NetTransMethod) (st : Server.Sys) : Server.Sys :=
  {| Server.obj := Server.obj st; Server.heap := Server.heap st;
     Server.world := Server.world st;
     Server.events :=
       Server.events st
       ++ (if Server.handlers (Server.obj st) Server.transErrorEvent
           then [Server.OnTransmitError None inClient method
                   INVALID_PAYLOAD_SIZE]
           else []);
     Server.issued := Server.issued st |}.

(** * Proofs *)

(** * Bytes and machine integers *)

Lemma Z_of_byte_range (b : byte) : 0 <= Z_of_byte b < 256.
Proof.
  unfold Z_of_byte. pose proof (Byte.to_N_bounded b). lia.
Qed.

Lemma Z_of_byte_of_Z (z : Z) : Z_of_byte (byte_of_Z z) = z mod 256.
Proof.
  unfold byte_of_Z, u8, Z_of_byte.
  assert (H : 0 <= z mod 256 < 256) by (apply Z.mod_pos_bound; lia).
  destruct (Byte.of_N (Z.to_N (z mod 256))) as [b|] eqn:E.
  - apply Byte.to_of_N in E. rewrite E. rewrite Z2N.id; lia.
  - apply Byte.of_N_None_iff in E. lia.
Qed.

Lemma byte_of_Z_of_byte (b : byte) : byte_of_Z (Z_of_byte b) = b.
Proof.
  unfold byte_of_Z, u8.
  rewrite Z.mod_small by apply Z_of_byte_range.
  unfold Z_of_byte. rewrite N2Z.id, Byte.of_to_N. reflexivity.
Qed.

Lemma char_val_range (b : byte) : -128 <= char_val b < 128.
Proof.
  unfold char_val. pose proof (Z_of_byte_range b).
  destruct (Z_of_byte b <? 128) eqn:E; [apply Z.ltb_lt in E | apply Z.ltb_ge in E]; lia.
Qed.

Lemma s32_idem (a b : Z) : s32 (s32 a + b) = s32 (a + b).
Proof.
  unfold s32. f_equal.
  rewrite (Z.mod_eq (a + 2147483648) 4294967296) by lia.
  replace (a + 2147483648
           - 4294967296 * ((a + 2147483648) / 4294967296)
           - 2147483648 + b + 2147483648)
    with (a + b + 2147483648
          + (- ((a + 2147483648) / 4294967296)) * 4294967296) by ring.
  apply Z.mod_add. lia.
Qed.

Lemma s32_small (z : Z) : -2147483648 <= z < 2147483648 -> s32 z = z.
Proof.
  intros H. unfold s32. rewrite Z.mod_small; lia.
Qed.

Lemma s32_range (z : Z) : -2147483648 <= s32 z < 2147483648.
Proof.
  unfold s32.
  pose proof (Z.mod_pos_bound (z + 2147483648) 4294967296). lia.
Qed.

(** * C8: equality of socket addresses *)

Import Sock.

Lemma operator_eq_spec (a b : CrossSockAddress) :
  operator_eq a b = true <->
  sa_family a = AF_INET /\ sin_port a = sin_port b /\ sin_addr a = sin_addr b.
Proof.
  unfold operator_eq.
  rewrite !andb_true_iff, !Z.eqb_eq. tauto.
Qed.

(** C8, as stated, fails: two addresses of family [AF_INET6] that agree
    on family, address and port are not equal for [operator==]. *)
Lemma C8_counterexample :
  let a := {| sa_family := AF_INET6; sin_port := 80; sin_addr := 1 |} in
  (sa_family a = sa_family a /\ sin_addr a = sin_addr a
   /\ sin_port a = sin_port a)
  /\ operator_eq a a = false.
Proof. repeat split. Qed.

(** C8, amended: between two addresses of family [AF_INET], [operator==]
    is true exactly when family, IPv4 address and port all agree; when the
    left address is of another family it is false. *)
Theorem C8_operator_eq_inet (a b : CrossSockAddress) :
  (sa_family a = AF_INET -> sa_family b = AF_INET ->
   (operator_eq a b = true <->
    sa_family a = sa_family b /\ sin_addr a = sin_addr b
    /\ sin_port a = sin_port b))
  /\ (sa_family a <> AF_INET -> operator_eq a b = false).
Proof.
  split.
  - intros Ha Hb. rewrite operator_eq_spec. rewrite Ha, Hb. tauto.
  - intros Ha. destruct (operator_eq a b) eqn:E; [|reflexivity].
    apply operator_eq_spec in E. tauto.
Qed.

Lemma C8_witness :
  let a := {| sa_family := AF_INET; sin_port := 80; sin_addr := 1 |} in
  let b := {| sa_family := AF_INET6; sin_port := 80; sin_addr := 1 |} in
  (operator_eq a a = true <->
   sa_family a = sa_family a /\ sin_addr a = sin_addr a
   /\ sin_port a = sin_port a)
  /\ operator_eq b a = false.
Proof.
  intros a b. split.
  - apply (proj1 (C8_operator_eq_inet a a)); reflexivity.
  - apply (proj2 (C8_operator_eq_inet b a)). discriminate.
Defined.

(** * C2: the checksum *)

Import Util Pack.

Lemma fold_s32_sum (f : nat -> Z) (l : list nat) (a : Z) :
  s32 (fold_left (fun acc x => s32 (acc + f x)) l a)
  = s32 (a + zsum (map f l)).
Proof.
  revert a. induction l as [|x l IH]; intros a; simpl.
  - f_equal. lia.
  - rewrite IH. rewrite s32_idem. f_equal. lia.
Qed.

Lemma fold_s32_range (f : nat -> Z) (l : list nat) (a : Z) :
  -2147483648 <= a < 2147483648 ->
  -2147483648 <= fold_left (fun acc x => s32 (acc + f x)) l a < 2147483648.
Proof.
  revert a. induction l as [|x l IH]; intros a Ha; simpl.
  - exact Ha.
  - apply IH. apply s32_range.
Qed.

Lemma char_val_x00 : char_val x00 = 0.
Proof. reflexivity. Qed.

Lemma zsum_nth_nil (s : list nat) :
  zsum (map (fun x => char_val (nth x [] x00)) s) = 0.
Proof.
  unfold zsum. induction s as [|x s IH]; [reflexivity|].
  cbn [map fold_right]. rewrite IH. destruct x; reflexivity.
Qed.

Lemma zsum_nth_firstn (l : list byte) (n : nat) :
  zsum (map (fun x => char_val (nth x l x00)) (seq 0 n))
  = zsum (map char_val (firstn n l)).
Proof.
  revert l. induction n as [|n IH]; intros l.
  - reflexivity.
  - destruct l as [|b l].
    + rewrite zsum_nth_nil, firstn_nil. reflexivity.
    + rewrite <- cons_seq, <- seq_shift, map_cons, map_map.
      unfold zsum in *. cbn [fold_right firstn map nth].
      rewrite (IH l). reflexivity.
Qed.

Lemma nth_add_skipn {A} (l : list A) (k x : nat) (d : A) :
  nth (x + k) l d = nth x (skipn k l) d.
Proof.
  revert l. induction k as [|k IH]; intros l.
  - rewrite Nat.add_0_r. reflexivity.
  - destruct l as [|a l].
    + rewrite skipn_nil. destruct x; reflexivity.
    + rewrite Nat.add_succ_r. simpl. apply IH.
Qed.

Lemma s32_idem2 (a b c : Z) : s32 (s32 a + b + c) = s32 (a + b + c).
Proof.
  replace (s32 a + b + c) with (s32 a + (b + c)) by ring.
  rewrite s32_idem. f_equal. ring.
Qed.

Lemma s32_idem3 (a b c d : Z) : s32 (s32 a + b + c + d) = s32 (a + b + c + d).
Proof.
  replace (s32 a + b + c + d) with (s32 a + (b + c + d)) by ring.
  rewrite s32_idem. f_equal. ring.
Qed.

Lemma s32_idem4 (a b c d e : Z) :
  s32 (s32 a + b + c + d + e) = s32 (a + b + c + d + e).
Proof.
  replace (s32 a + b + c + d + e) with (s32 a + (b + c + d + e)) by ring.
  rewrite s32_idem. f_equal. ring.
Qed.

Lemma CalculateChecksum_sum (p : CrossPack) :
  CalculateChecksum p = checksum_sum p.
Proof.
  unfold CalculateChecksum, checksum_sum, payload_bytes.
  rewrite s32_idem, s32_idem2, s32_idem3.
  rewrite <- s32_idem4.
  rewrite fold_s32_sum, s32_idem4.
  f_equal.
  rewrite <- zsum_nth_firstn.
  rewrite (map_ext
             (fun x : nat =>
                char_val (nth (x + Z.to_nat GetHeaderSize) (payload p) x00))
             (fun x => char_val
                         (nth x (skipn (Z.to_nat GetHeaderSize) (payload p))
                            x00))).
  - unfold zsum. lia.
  - intros x. rewrite nth_add_skipn. reflexivity.
Qed.

(** C2: the checksum is the wrapping 32-bit sum of the payload bytes read
    as signed 8-bit values, the data id, the payload size, the flags and
    the sender id; [IsValid] is true when the checksum flag is clear, and
    otherwise exactly when the stored checksum equals that sum. *)
Theorem C2_checksum_IsValid (p : CrossPack) :
  CalculateChecksum p
  = s32 (fold_right Z.add 0 (map char_val (payload_bytes p))
         + dataID (header p) + payloadSize (header p)
         + char_val (packFlags (header p)) + senderID (footer p))
  /\ IsValid p
     = (if GetPacketFlag p CHECKSUM_FLAG
        then checksum (footer p) =? checksum_sum p
        else true).
Proof.
  split.
  - apply CalculateChecksum_sum.
  - unfold IsValid. rewrite CalculateChecksum_sum.
    destruct (GetPacketFlag p CHECKSUM_FLAG); reflexivity.
Qed.

Import Util Pack.

(** * Buffers *)

Lemma length_memcpy (dst src : list byte) (off : Z) :
  (Z.to_nat off + length src <= length dst)%nat ->
  length (memcpy dst off src) = length dst.
Proof.
  intros H. unfold memcpy.
  rewrite !length_app, length_firstn, length_skipn. lia.
Qed.

Lemma nth_memcpy_in (dst src : list byte) (off : Z) (i : nat) (d : byte) :
  (Z.to_nat off <= i < Z.to_nat off + length src)%nat ->
  (Z.to_nat off <= length dst)%nat ->
  nth i (memcpy dst off src) d = nth (i - Z.to_nat off) src d.
Proof.
  intros Hi Hl. unfold memcpy.
  rewrite app_nth2 by (rewrite length_firstn; lia).
  rewrite length_firstn, Nat.min_l by lia.
  rewrite app_nth1 by lia. reflexivity.
Qed.

Lemma nth_memcpy_out (dst src : list byte) (off : Z) (i : nat) (d : byte) :
  (i < Z.to_nat off \/ Z.to_nat off + length src <= i)%nat ->
  (Z.to_nat off + length src <= length dst)%nat ->
  nth i (memcpy dst off src) d = nth i dst d.
Proof.
  intros Hi Hl. unfold memcpy. destruct Hi as [Hi|Hi].
  - rewrite app_nth1 by (rewrite length_firstn; lia).
    rewrite nth_firstn.
    destruct (i <? Z.to_nat off)%nat eqn:E; [reflexivity|].
    apply Nat.ltb_ge in E. lia.
  - rewrite app_nth2 by (rewrite length_firstn; lia).
    rewrite length_firstn, Nat.min_l by lia.
    rewrite app_nth2 by lia.
    rewrite nth_skipn. f_equal. lia.
Qed.

Lemma length_SwapEndian {A} (l : list A) (s n : nat) :
  (s + n <= length l)%nat -> length (SwapEndian l s n) = length l.
Proof.
  intros H. unfold SwapEndian.
  rewrite !length_app, length_rev, !length_firstn, !length_skipn. lia.
Qed.

Lemma nth_SwapEndian_in {A} (l : list A) (s n i : nat) (d : A) :
  (s <= i < s + n)%nat -> (s + n <= length l)%nat ->
  nth i (SwapEndian l s n) d = nth (s + (s + n - 1 - i)) l d.
Proof.
  intros Hi Hl. unfold SwapEndian.
  rewrite app_nth2 by (rewrite length_firstn; lia).
  rewrite length_firstn, Nat.min_l by lia.
  assert (Hn : length (firstn n (skipn s l)) = n)
    by (rewrite length_firstn, length_skipn; lia).
  rewrite app_nth1 by (rewrite length_rev; lia).
  rewrite rev_nth by lia. rewrite Hn.
  rewrite nth_firstn.
  destruct (n - S (i - s) <? n)%nat eqn:E;
    [|apply Nat.ltb_ge in E; lia].
  rewrite nth_skipn. f_equal. lia.
Qed.

Lemma nth_SwapEndian_out {A} (l : list A) (s n i : nat) (d : A) :
  (i < s \/ s + n <= i)%nat -> (s + n <= length l)%nat ->
  nth i (SwapEndian l s n) d = nth i l d.
Proof.
  intros Hi Hl. unfold SwapEndian. destruct Hi as [Hi|Hi].
  - rewrite app_nth1 by (rewrite length_firstn; lia).
    rewrite nth_firstn.
    destruct (i <? s)%nat eqn:E; [reflexivity|apply Nat.ltb_ge in E; lia].
  - rewrite app_nth2 by (rewrite length_firstn; lia).
    rewrite length_firstn, Nat.min_l by lia.
    rewrite app_nth2
      by (rewrite length_rev, length_firstn, length_skipn; lia).
    rewrite length_rev, length_firstn, length_skipn.
    rewrite nth_skipn. f_equal. lia.
Qed.

Lemma length_le_bytes (n : nat) (z : Z) : length (le_bytes n z) = n.
Proof.
  revert z. induction n as [|n IH]; intros z; simpl; [reflexivity|].
  rewrite IH. reflexivity.
Qed.

Lemma length_object_bytes (le : bool) (n : nat) (z : Z) :
  length (object_bytes le n z) = n.
Proof.
  unfold object_bytes. destruct le.
  - apply length_le_bytes.
  - rewrite length_rev. apply length_le_bytes.
Qed.

Lemma le_value_le_bytes (n : nat) (z : Z) :
  le_value (le_bytes n z) = z mod 256 ^ Z.of_nat n.
Proof.
  revert z. induction n as [|n IH]; intros z.
  - simpl. rewrite Z.mod_1_r. reflexivity.
  - cbn [le_bytes le_value]. rewrite IH, Z_of_byte_of_Z.
    rewrite Nat2Z.inj_succ, Z.pow_succ_r by lia.
    rewrite Z.rem_mul_r by lia. reflexivity.
Qed.

Lemma object_value_object_bytes (le : bool) (n : nat) (z : Z) :
  object_value le (object_bytes le n z) = z mod 256 ^ Z.of_nat n.
Proof.
  unfold object_value, object_bytes. destruct le.
  - apply le_value_le_bytes.
  - rewrite rev_involutive. apply le_value_le_bytes.
Qed.

(** Lengths of buffers built by [memcpy] and [SwapEndian]. *)
Ltac len :=
  repeat first
    [ rewrite length_memcpy by len
    | rewrite length_SwapEndian by len
    | rewrite length_object_bytes
    | rewrite length_le_bytes
    | rewrite length_rev ];
  cbn [length]; lia.

(** One read through a write or a swap. *)
Ltac rd :=
  repeat first
    [ rewrite nth_memcpy_out by len
    | rewrite nth_memcpy_in by len
    | rewrite nth_SwapEndian_out by len
    | rewrite nth_SwapEndian_in by len ].

(** The index of a read in a scalar's bytes, as a numeral. *)
Ltac idx :=
  repeat match goal with
  | |- context [nth ?e (object_bytes _ _ _) _] =>
      lazymatch e with
      | O => fail
      | S _ => fail
      | _ => first [ replace e with 0%nat by lia
                   | replace e with 1%nat by lia
                   | replace e with 2%nat by lia
                   | replace e with 3%nat by lia ]
      end
  | |- context [nth ?e [_] _] =>
      lazymatch e with
      | O => fail
      | _ => replace e with 0%nat by lia
      end
  end.

Lemma Serialize_header (le : bool) (p : CrossPack) :
  wf p -> hasBeenSerialized p = false ->
  let B := payload (Serialize le p) in
  length B = length (payload p)
  /\ nth 0 B x00 = byte_of_Z (dataID (header p))
  /\ nth 1 B x00 = byte_of_Z (dataID (header p) / 256)
  /\ nth 2 B x00 = byte_of_Z (payloadSize (header p))
  /\ nth 3 B x00 = byte_of_Z (payloadSize (header p) / 256)
  /\ nth 4 B x00 = packFlags (header p).
Proof.
  intros (Hd & Hs & Hc & Hi & Hl) Hser.
  unfold Serialize. rewrite Hser. cbn [negb].
  unfold GetPacketFlag, GetHeaderSize, sizeof_CrossPackDataID,
    sizeof_CrossPackPayloadLen, sizeof_CrossPackChecksum,
    sizeof_CrossPackHeader, sizeof_CrossPackFooter, MAX_PAYLOAD_BYTES in *.
  destruct (CheckBit (packFlags (header p)) CHECKSUM_FLAG),
    (CheckBit (packFlags (header p)) UDP_SUPPORT_FLAG), le;
    cbn [negb payload set_payload set_hasBeenSerialized];
    (split; [len|]);
    repeat split; rd; idx; reflexivity.
Qed.

Lemma Serialize_payload (le : bool) (p : CrossPack) (i : nat) :
  wf p -> hasBeenSerialized p = false ->
  (6 <= i < 6 + Z.to_nat (payloadSize (header p)))%nat ->
  nth i (payload (Serialize le p)) x00 = nth i (payload p) x00.
Proof.
  intros (Hd & Hs & Hc & Hi & Hl) Hser Hrange.
  unfold Serialize. rewrite Hser. cbn [negb].
  unfold GetPacketFlag, GetHeaderSize, sizeof_CrossPackDataID,
    sizeof_CrossPackPayloadLen, sizeof_CrossPackChecksum,
    sizeof_CrossPackHeader, sizeof_CrossPackFooter, MAX_PAYLOAD_BYTES in *.
  destruct (CheckBit (packFlags (header p)) CHECKSUM_FLAG),
    (CheckBit (packFlags (header p)) UDP_SUPPORT_FLAG), le;
    cbn [negb payload set_payload set_hasBeenSerialized];
    rd; reflexivity.
Qed.

Lemma Serialize_footer (le : bool) (p : CrossPack) (k : nat) :
  wf p -> hasBeenSerialized p = false -> (k < 4)%nat ->
  let B := payload (Serialize le p) in
  let o := Z.to_nat (6 + payloadSize (header p)) in
  (GetPacketFlag p CHECKSUM_FLAG = true ->
   nth (o + k) B x00 = nth k (le_bytes 4 (checksum (footer p))) x00)
  /\ (GetPacketFlag p CHECKSUM_FLAG = true ->
      GetPacketFlag p UDP_SUPPORT_FLAG = true ->
      nth (o + 4 + k) B x00 = nth k (le_bytes 4 (senderID (footer p))) x00)
  /\ (GetPacketFlag p CHECKSUM_FLAG = false ->
      GetPacketFlag p UDP_SUPPORT_FLAG = true ->
      nth (o + k) B x00 = nth k (le_bytes 4 (senderID (footer p))) x00).
Proof.
  intros (Hd & Hs & Hc & Hi & Hl) Hser Hk.
  unfold Serialize. rewrite Hser. cbn [negb].
  unfold GetPacketFlag, GetHeaderSize, sizeof_CrossPackDataID,
    sizeof_CrossPackPayloadLen, sizeof_CrossPackChecksum,
    sizeof_CrossPackHeader, sizeof_CrossPackFooter, MAX_PAYLOAD_BYTES in *.
  destruct k as [|[|[|[|k]]]]; [| | | |lia];
  (destruct (CheckBit (packFlags (header p)) CHECKSUM_FLAG),
     (CheckBit (packFlags (header p)) UDP_SUPPORT_FLAG), le;
   cbn [negb payload set_payload set_hasBeenSerialized];
   repeat split; intros; try discriminate; rd; idx; reflexivity).
Qed.

(** * Decoding *)

Lemma PeakHeader_bytes (le : bool) (W : list byte) :
  PeakHeader le W
  = {| dataID := le_value [nth 0 W x00; nth 1 W x00];
       payloadSize := le_value [nth 2 W x00; nth 3 W x00];
       packFlags := nth 4 W x00 |}.
Proof. destruct le; reflexivity. Qed.

Lemma PeakFooter_bytes (le : bool) (W : list byte) (h : CrossPackHeader) :
  let o := Z.to_nat (u16 (sizeof_CrossPackHeader + payloadSize h)) in
  let ck := CheckBit (packFlags h) CHECKSUM_FLAG in
  let udp := CheckBit (packFlags h) UDP_SUPPORT_FLAG in
  PeakFooter le W h
  = {| checksum := if ck then s32 (read4 W o 0) else 0;
       senderID := if udp then read4 W o (if ck then 4 else 0) else 0 |}.
Proof.
  unfold PeakFooter, GetFooterLength, read4.
  destruct (CheckBit (packFlags h) CHECKSUM_FLAG),
    (CheckBit (packFlags h) UDP_SUPPORT_FLAG), le; reflexivity.
Qed.

Lemma read4_le_bytes (W : list byte) (o k : nat) (z : Z) :
  (forall j, (j < 4)%nat ->
             nth (o + (k + j)) W x00 = nth j (le_bytes 4 z) x00) ->
  read4 W o k = z mod 4294967296.
Proof.
  intros H. unfold read4.
  pose proof (H 0%nat ltac:(lia)) as E0.
  pose proof (H 1%nat ltac:(lia)) as E1.
  pose proof (H 2%nat ltac:(lia)) as E2.
  pose proof (H 3%nat ltac:(lia)) as E3.
  replace (k + 0)%nat with k in E0 by lia.
  replace (k + 1)%nat with (S k) in E1 by lia.
  replace (k + 2)%nat with (S (S k)) in E2 by lia.
  replace (k + 3)%nat with (S (S (S k))) in E3 by lia.
  rewrite E0, E1, E2, E3.
  change (le_value (le_bytes 4 z) = z mod 256 ^ Z.of_nat 4).
  apply le_value_le_bytes.
Qed.

Import Util Pack.

Lemma header_Serialize (le : bool) (p : CrossPack) :
  header (Serialize le p) = header p.
Proof. unfold Serialize. destruct (negb (hasBeenSerialized p)); reflexivity. Qed.

Lemma footer_Serialize (le : bool) (p : CrossPack) :
  footer (Serialize le p) = footer p.
Proof. unfold Serialize. destruct (negb (hasBeenSerialized p)); reflexivity. Qed.

Lemma GetFooterLength_cases (h : CrossPackHeader) :
  GetFooterLength h
  = (if CheckBit (packFlags h) CHECKSUM_FLAG then 4 else 0)
    + (if CheckBit (packFlags h) UDP_SUPPORT_FLAG then 4 else 0).
Proof.
  unfold GetFooterLength.
  destruct (CheckBit (packFlags h) CHECKSUM_FLAG),
    (CheckBit (packFlags h) UDP_SUPPORT_FLAG); reflexivity.
Qed.

Lemma GetPacketSize_wf (p : CrossPack) :
  wf p ->
  GetPacketSize p
  = payloadSize (header p) + 6 + GetFooterLength (header p).
Proof.
  intros (Hd & Hs & Hc & Hi & Hl).
  unfold GetPacketSize, GetPayloadSize, GetFooterSize, GetHeaderSize,
    sizeof_CrossPackHeader, u16, MAX_PAYLOAD_BYTES,
    sizeof_CrossPackHeader, sizeof_CrossPackFooter in *.
  rewrite GetFooterLength_cases.
  destruct (CheckBit (packFlags (header p)) CHECKSUM_FLAG),
    (CheckBit (packFlags (header p)) UDP_SUPPORT_FLAG);
    rewrite Z.mod_small; lia.
Qed.

Lemma firstn_skipn_ext (l1 l2 : list byte) (k n : nat) :
  (k + n <= length l1)%nat -> (k + n <= length l2)%nat ->
  (forall i, (k <= i < k + n)%nat -> nth i l1 x00 = nth i l2 x00) ->
  firstn n (skipn k l1) = firstn n (skipn k l2).
Proof.
  intros H1 H2 H.
  apply (nth_ext _ _ x00 x00).
  - rewrite !length_firstn, !length_skipn. lia.
  - intros i Hi. rewrite length_firstn, length_skipn in Hi.
    rewrite !nth_firstn.
    destruct (i <? n)%nat eqn:E; [|reflexivity].
    apply Nat.ltb_lt in E.
    rewrite !nth_skipn. apply H. lia.
Qed.

Lemma s32_u32 (z : Z) : s32 (z mod 4294967296) = s32 z.
Proof.
  unfold s32. rewrite Zplus_mod_idemp_l. reflexivity.
Qed.

Lemma wf_Serialize (le : bool) (p : CrossPack) :
  wf p -> hasBeenSerialized p = false -> wf (Serialize le p).
Proof.
  intros Hwf Hser.
  destruct (Serialize_header le p Hwf Hser) as (Hlen & _).
  destruct Hwf as (Hd & Hs & Hc & Hi & Hl).
  unfold wf. rewrite header_Serialize, footer_Serialize, Hlen. tauto.
Qed.

(** The decoded packet, field by field. *)
Lemma decode_wire (le : bool) (p : CrossPack) :
  wf p -> hasBeenSerialized p = false ->
  let q := CrossPack_of_data le (wire le p) in
  header q = header p
  /\ payload_bytes q = payload_bytes p
  /\ checksum (footer q)
     = (if GetPacketFlag p CHECKSUM_FLAG then checksum (footer p) else 0)
  /\ senderID (footer q)
     = (if GetPacketFlag p UDP_SUPPORT_FLAG then senderID (footer p) else 0).
Proof.
  intros Hwf Hser.
  pose proof (Serialize_header le p Hwf Hser) as (Hlen & H0 & H1 & H2 & H3 & H4).
  pose proof (Serialize_payload le p) as Hpay.
  pose proof (fun k => Serialize_footer le p k Hwf Hser) as Hfoot.
  pose proof (GetPacketSize_wf _ (wf_Serialize le p Hwf Hser)) as Hsize.
  rewrite header_Serialize in Hsize.
  pose proof (GetFooterLength_cases (header p)) as Hfl.
  destruct Hwf as (Hd & Hs & Hc & Hi & Hl).
  unfold MAX_PAYLOAD_BYTES, GetHeaderSize, sizeof_CrossPackHeader,
    sizeof_CrossPackFooter in *.
  set (B := payload (Serialize le p)) in *.
  assert (HW : forall i,
             (i < Z.to_nat (GetPacketSize (Serialize le p)))%nat ->
             nth i (wire le p) x00 = nth i B x00).
  { intros i Hi'. unfold wire. cbv zeta. rewrite nth_firstn.
    destruct (i <? _)%nat eqn:E; [reflexivity|].
    apply Nat.ltb_ge in E. lia. }
  assert (Hh : header (CrossPack_of_data le (wire le p)) = header p).
  { unfold CrossPack_of_data, CrossPack_of_parts. cbn [header].
    rewrite PeakHeader_bytes.
    rewrite !HW by (rewrite Hsize, Hfl;
      destruct (CheckBit _ CHECKSUM_FLAG), (CheckBit _ UDP_SUPPORT_FLAG); lia).
    rewrite H0, H1, H2, H3, H4.
    change [byte_of_Z (dataID (header p));
            byte_of_Z (dataID (header p) / 256)]
      with (le_bytes 2 (dataID (header p))).
    change [byte_of_Z (payloadSize (header p));
            byte_of_Z (payloadSize (header p) / 256)]
      with (le_bytes 2 (payloadSize (header p))).
    rewrite !le_value_le_bytes.
    change (256 ^ Z.of_nat 2) with 65536.
    rewrite !Z.mod_small by lia.
    destruct (header p); reflexivity. }
  cbv zeta. split; [exact Hh|].
  split.
  { unfold payload_bytes. rewrite Hh.
    unfold CrossPack_of_data, CrossPack_of_parts. cbn [payload].
    unfold GetHeaderSize, sizeof_CrossPackHeader.
    apply firstn_skipn_ext.
    - unfold wire. cbv zeta. fold B. rewrite length_firstn.
      rewrite Hsize, Hfl.
      destruct (CheckBit _ CHECKSUM_FLAG), (CheckBit _ UDP_SUPPORT_FLAG); lia.
    - lia.
    - intros i Hi'. rewrite HW.
      + apply Hpay; [unfold wf, MAX_PAYLOAD_BYTES, GetHeaderSize,
                       sizeof_CrossPackHeader, sizeof_CrossPackFooter; tauto
                    | exact Hser | lia].
      + rewrite Hsize, Hfl.
        destruct (CheckBit _ CHECKSUM_FLAG), (CheckBit _ UDP_SUPPORT_FLAG);
          lia. }
  assert (Hh' : PeakHeader le (wire le p) = header p) by exact Hh.
  unfold CrossPack_of_data, CrossPack_of_parts. cbn [footer].
  rewrite PeakFooter_bytes, Hh'. cbv zeta. cbn [checksum senderID].
  unfold GetPacketFlag in *.
  replace (u16 (sizeof_CrossPackHeader + payloadSize (header p)))
    with (6 + payloadSize (header p))
    by (unfold u16, sizeof_CrossPackHeader; rewrite Z.mod_small; lia).
  assert (Hck : CheckBit (packFlags (header p)) CHECKSUM_FLAG = true ->
                read4 (wire le p) (Z.to_nat (6 + payloadSize (header p))) 0
                = checksum (footer p) mod 4294967296).
  { intros E. apply read4_le_bytes. intros k Hk.
    rewrite HW by (rewrite Hsize, Hfl, E;
                   destruct (CheckBit _ UDP_SUPPORT_FLAG); lia).
    apply (Hfoot k Hk). exact E. }
  assert (Hu1 : CheckBit (packFlags (header p)) CHECKSUM_FLAG = true ->
                CheckBit (packFlags (header p)) UDP_SUPPORT_FLAG = true ->
                read4 (wire le p) (Z.to_nat (6 + payloadSize (header p))) 4
                = senderID (footer p) mod 4294967296).
  { intros E1 E2. apply read4_le_bytes. intros k Hk.
    rewrite HW by (rewrite Hsize, Hfl, E1, E2; lia).
    rewrite Nat.add_assoc.
    apply (Hfoot k Hk); assumption. }
  assert (Hu2 : CheckBit (packFlags (header p)) CHECKSUM_FLAG = false ->
                CheckBit (packFlags (header p)) UDP_SUPPORT_FLAG = true ->
                read4 (wire le p) (Z.to_nat (6 + payloadSize (header p))) 0
                = senderID (footer p) mod 4294967296).
  { intros E1 E2. apply read4_le_bytes. intros k Hk.
    rewrite HW by (rewrite Hsize, Hfl, E1, E2; lia).
    apply (Hfoot k Hk); assumption. }
  destruct (CheckBit (packFlags (header p)) CHECKSUM_FLAG) eqn:E1,
    (CheckBit (packFlags (header p)) UDP_SUPPORT_FLAG) eqn:E2;
    rewrite ?Hck, ?Hu1, ?Hu2, ?s32_u32 by reflexivity;
    rewrite ?s32_small, ?Z.mod_small by lia; split; reflexivity.
Qed.

(** * Finalization *)

Lemma CheckBit_flag1 (b : byte) (v : bool) :
  CheckBit (if v then SetBit b UDP_SUPPORT_FLAG
            else ClearBit b UDP_SUPPORT_FLAG) UDP_SUPPORT_FLAG = v
  /\ CheckBit (if v then SetBit b UDP_SUPPORT_FLAG
               else ClearBit b UDP_SUPPORT_FLAG) CHECKSUM_FLAG
     = CheckBit b CHECKSUM_FLAG.
Proof. destruct v, b; split; reflexivity. Qed.

Lemma CheckBit_flag0 (b : byte) (v : bool) :
  CheckBit (if v then SetBit b CHECKSUM_FLAG
            else ClearBit b CHECKSUM_FLAG) CHECKSUM_FLAG = v.
Proof. destruct v, b; reflexivity. Qed.

Lemma Finalize_fields (ck udp : bool) (id : Z) (p0 : CrossPack) :
  let p := Finalize ck udp id p0 in
  dataID (header p) = dataID (header p0)
  /\ payloadSize (header p) = payloadSize (header p0)
  /\ payload p = payload p0
  /\ GetPacketFlag p CHECKSUM_FLAG = ck
  /\ GetPacketFlag p UDP_SUPPORT_FLAG = udp
  /\ senderID (footer p) = (if udp then id else senderID (footer p0))
  /\ hasBeenSerialized p = false
  /\ hasBeenFinalized p = true
  /\ (ck = true -> checksum (footer p) = CalculateChecksum p).
Proof.
  unfold Finalize, SetPacketFlag, GetPacketFlag, CalculateChecksum.
  cbn [hasBeenFinalized set_hasBeenFinalized andb snd header set_header
       set_hasBeenSerialized packFlags set_packFlags].
  pose proof (CheckBit_flag1
                (if ck then SetBit (packFlags (header p0)) CHECKSUM_FLAG
                 else ClearBit (packFlags (header p0)) CHECKSUM_FLAG) udp)
    as [F1 F0].
  pose proof (CheckBit_flag0 (packFlags (header p0)) ck) as F2.
  destruct ck, udp; cbn in *; repeat split; try assumption; congruence.
Qed.

Lemma checksum_sum_ext (p q : CrossPack) :
  header q = header p -> payload_bytes q = payload_bytes p ->
  senderID (footer q) = senderID (footer p) ->
  checksum_sum q = checksum_sum p.
Proof.
  intros Hh Hp Hs. unfold checksum_sum. rewrite Hh, Hp, Hs. reflexivity.
Qed.

(** C1, as stated, fails: a packet finalized with a sender id, then again
    without one but with a checksum, keeps the sender id in its footer and
    in its checksum; the image carries no sender id, so the decoded packet
    has sender id 0 and does not pass [IsValid]. *)
Lemma C1_counterexample :
  let P := Finalize true false 0 (Finalize false true 5 (CrossPack_new zeros)) in
  let Q := CrossPack_of_data true (wire true P) in
  (hasBeenFinalized P = true /\ GetPacketFlag P CHECKSUM_FLAG = true)
  /\ senderID (footer P) = 5
  /\ senderID (footer Q) = 0
  /\ IsValid Q = false.
Proof. vm_compute. repeat split. Qed.

(** C1, amended: for a packet within the ranges of its types whose image
    is not flagged current, decoding the serialized image gives back the
    data id, the payload size, the flags and the payload bytes; the
    checksum and the sender id come back when their flag is set and are 0
    otherwise; and the decoded image of a packet just finalized with a
    checksum passes [IsValid] when it carries its sender id or that id
    is 0. *)
Theorem C1_roundtrip (le : bool) (p : CrossPack) :
  wf p -> hasBeenSerialized p = false ->
  let q := CrossPack_of_data le (wire le p) in
  dataID (header q) = dataID (header p)
  /\ payloadSize (header q) = payloadSize (header p)
  /\ packFlags (header q) = packFlags (header p)
  /\ payload_bytes q = payload_bytes p
  /\ checksum (footer q)
     = (if GetPacketFlag p CHECKSUM_FLAG then checksum (footer p) else 0)
  /\ senderID (footer q)
     = (if GetPacketFlag p UDP_SUPPORT_FLAG then senderID (footer p) else 0)
  /\ (forall p0 udp id,
        p = Finalize true udp id p0 ->
        udp = true \/ senderID (footer p0) = 0 ->
        IsValid q = true).
Proof.
  intros Hwf Hser.
  destruct (decode_wire le p Hwf Hser) as (Hh & Hp & Hc & Hs).
  cbv zeta. rewrite Hh. repeat split; try assumption.
  intros p0 udp id Hfin Hudp.
  destruct (Finalize_fields true udp id p0)
    as (_ & _ & _ & Fck & Fudp & Fs & _ & _ & Fsum).
  rewrite <- Hfin in Fck, Fudp, Fs, Fsum.
  unfold IsValid, GetPacketFlag in *. rewrite Hh, Fck. cbn [negb].
  rewrite Hc, Fck, (Fsum eq_refl), !CalculateChecksum_sum.
  apply Z.eqb_eq. symmetry. apply checksum_sum_ext; try assumption.
  rewrite Hs, Fudp, Fs. destruct Hudp as [->| ->]; [reflexivity|].
  destruct udp; reflexivity.
Qed.

Lemma C1_witness :
  let P := Finalize true true 77
             (snd (AddToPayload true 4 16909060 true (CrossPack_of_dataID zeros 7))) in
  let Q := CrossPack_of_data true (wire true P) in
  wf P /\ hasBeenSerialized P = false
  /\ dataID (header Q) = 7 /\ payloadSize (header Q) = 4
  /\ payload_bytes Q = payload_bytes P
  /\ senderID (footer Q) = 77
  /\ IsValid Q = true.
Proof.
  intros P Q.
  assert (Hwf : wf P) by (vm_compute; repeat split; easy).
  assert (Hser : hasBeenSerialized P = false) by reflexivity.
  destruct (C1_roundtrip true P Hwf Hser) as (H1 & H2 & _ & H4 & _ & H6 & H7).
  split; [exact Hwf|]. split; [exact Hser|].
  split; [exact H1|]. split; [exact H2|]. split; [exact H4|].
  split; [exact H6|].
  exact (H7 _ true 77 eq_refl (or_introl eq_refl)).
Defined.

(** * The environment *)

Lemma result_value_ge (n : option N) : -1 <= result_value n.
Proof. destruct n; simpl; lia. Qed.

Lemma send_until_ge (block : bool) (s : list Response) :
  -1 <= fst (send_until block s).
Proof.
  induction s as [|r s IH]; simpl; [lia|].
  destruct r; simpl; try lia.
  destruct (block && (result_value n <? 0) && CrossSockError_eqb e WOULDBLOCK).
  - exact IH.
  - simpl. apply result_value_ge.
Qed.

(** * C10: the state gate of the client's send functions *)

Section ClientSend.
Import Client.

Lemma not_connected_iff (c : CrossClient) :
  not_connected c = true <->
  clientState c = CLIENT_NEEDS_TO_CONNECT
  \/ clientState c = CLIENT_CONNECTING
  \/ clientState c = CLIENT_RECONNECTING.
Proof.
  unfold not_connected. destruct (clientState c); simpl; split; intros H;
    try discriminate; try reflexivity; try tauto;
    destruct H as [H|[H|H]]; discriminate.
Qed.

Lemma SendToServer_gated (le : bool) (p : CrossPack) (b : bool) (st : Sys) :
  not_connected (obj st) = true ->
  SendToServer le p b st = (NetTransError_code CLIENT_NOT_CONNECTED, p, st).
Proof.
  intros H. unfold SendToServer, mbind, State_bind, gets. rewrite H.
  reflexivity.
Qed.

Lemma SendToServer_sends (le : bool) (p : CrossPack) (b : bool) (st : Sys)
    (fd : Z) :
  not_connected (obj st) = false -> serverSocket (obj st) = Some fd ->
  SendToServer le p b st
  = (fst (send_until b (script (world st))), Serialize le p,
     {| obj := obj st;
        world := {| script := snd (send_until b (script (world st)));
                    actions := actions (world st)
                               ++ [TcpSend fd (wire le p)
                                     (fst (send_until b (script (world st))))] |};
        events := events st |}).
Proof.
  intros H Hfd. unfold SendToServer, mbind, State_bind, gets. rewrite H, Hfd.
  unfold sys, sys_send, mret, State_ret. cbn [world].
  destruct (send_until b (script (world st))) as [r s'].
  reflexivity.
Qed.

Lemma StreamToServer_result (le : bool) (p : CrossPack) (b : bool) (st : Sys) :
  let r := fst (fst (StreamToServer le p b st)) in
  (not_connected (obj st) = true ->
   r = NetTransError_code CLIENT_NOT_CONNECTED)
  /\ (not_connected (obj st) = false -> streamIsBound (obj st) = false ->
      r = NetTransError_code STREAM_NOT_BOUND)
  /\ (not_connected (obj st) = false -> -3 <= r).
Proof.
  unfold StreamToServer, mbind, State_bind, gets.
  destruct (not_connected (obj st)); cbn [fst];
    [repeat split; intros; try discriminate; reflexivity|].
  destruct (streamIsBound (obj st)); cbn [negb fst];
    [|repeat split; intros; try discriminate; try reflexivity; simpl; lia].
  repeat split; intros; try discriminate.
  destruct (streamSocket (obj st)); [|simpl; lia].
  unfold sys, sys_send, mret, State_ret.
  match goal with
  | |- context [send_until ?b ?s] =>
      pose proof (send_until_ge b s); destruct (send_until b s)
  end.
  cbn in *. lia.
Qed.

(** C10: [SendToServer] returns [CLIENT_NOT_CONNECTED] exactly in the
    states [NEEDS_TO_CONNECT], [CONNECTING] and [RECONNECTING]; in every
    other state it sends the serialized packet on the stream socket and
    returns the socket's result; [StreamToServer] has the same gate and,
    past it, returns [STREAM_NOT_BOUND] while the datagram socket is not
    bound. *)
Theorem C10_send_gate (le : bool) (p : CrossPack) (b : bool) (st : Sys) :
  let gate :=
    clientState (obj st) = CLIENT_NEEDS_TO_CONNECT
    \/ clientState (obj st) = CLIENT_CONNECTING
    \/ clientState (obj st) = CLIENT_RECONNECTING in
  let r := fst (fst (SendToServer le p b st)) in
  let st' := snd (SendToServer le p b st) in
  let r' := fst (fst (StreamToServer le p b st)) in
  (r = NetTransError_code CLIENT_NOT_CONNECTED <-> gate)
  /\ (forall fd, ~ gate -> serverSocket (obj st) = Some fd ->
      r = fst (send_until b (script (world st)))
      /\ actions (world st')
         = actions (world st) ++ [TcpSend fd (wire le p) r])
  /\ (r' = NetTransError_code CLIENT_NOT_CONNECTED <-> gate)
  /\ (~ gate -> streamIsBound (obj st) = false ->
      r' = NetTransError_code STREAM_NOT_BOUND).
Proof.
  cbv zeta.
  pose proof (not_connected_iff (obj st)) as Hiff.
  pose proof (StreamToServer_result le p b st) as (S1 & S2 & S3).
  cbv zeta in S1, S2, S3.
  destruct (not_connected (obj st)) eqn:E.
  - assert (G := proj1 Hiff eq_refl).
    rewrite (SendToServer_gated le p b st E).
    split; [|split; [|split]].
    + split; [intros _; exact G|reflexivity].
    + intros fd Hn. contradiction.
    + split; [intros _; exact G|]. intros _. apply S1. reflexivity.
    + intros Hn. contradiction.
  - assert (G : ~ (clientState (obj st) = CLIENT_NEEDS_TO_CONNECT
                   \/ clientState (obj st) = CLIENT_CONNECTING
                   \/ clientState (obj st) = CLIENT_RECONNECTING))
      by (intros H; apply Hiff in H; discriminate H).
    split; [|split; [|split]].
    + split; [|intros H; contradiction]. intros H. exfalso.
      unfold SendToServer, mbind, State_bind, gets in H. rewrite E in H.
      destruct (serverSocket (obj st)); [|discriminate H].
      unfold sys, sys_send, mret, State_ret in H.
      match type of H with
      | context [send_until ?b ?s] =>
          pose proof (send_until_ge b s); destruct (send_until b s)
      end.
      cbn in *. lia.
    + intros fd _ Hfd. rewrite (SendToServer_sends le p b st fd E Hfd).
      split; reflexivity.
    + split; [|intros H; contradiction]. intros H. specialize (S3 eq_refl).
      rewrite H in S3. simpl in S3. lia.
    + intros _ Hb. apply S2; [reflexivity|exact Hb].
Qed.

Lemma C10_witness :
  let st := C10_state in
  let p := SetDataID INIT_CLIENT_ID (CrossPack_new zeros) in
  ~ (clientState (obj st) = CLIENT_NEEDS_TO_CONNECT
     \/ clientState (obj st) = CLIENT_CONNECTING
     \/ clientState (obj st) = CLIENT_RECONNECTING)
  /\ serverSocket (obj st) = Some 3
  /\ streamIsBound (obj st) = false
  /\ fst (fst (SendToServer true p true st)) = 6
  /\ fst (fst (StreamToServer true p true st))
     = NetTransError_code STREAM_NOT_BOUND.
Proof.
  intros st p.
  assert (Hg : ~ (clientState (obj st) = CLIENT_NEEDS_TO_CONNECT
                  \/ clientState (obj st) = CLIENT_CONNECTING
                  \/ clientState (obj st) = CLIENT_RECONNECTING))
    by (intros [H|[H|H]]; discriminate H).
  destruct (C10_send_gate true p true st) as (_ & H2 & _ & H4).
  split; [exact Hg|]. split; [reflexivity|]. split; [reflexivity|].
  split.
  - exact (proj1 (H2 3 Hg eq_refl)).
  - exact (H4 Hg eq_refl).
Defined.

End ClientSend.

(** * C3: a header that declares too large a payload *)

Lemma client_fire_size_error (method : NetTransMethod) (st : Client.Sys) :
  Client.fire Client.transErrorEvent
    (Client.OnTransmitError None method INVALID_PAYLOAD_SIZE) st
  = (tt, client_size_error method st).
Proof.
  unfold Client.fire, client_size_error. destruct st as [o w ev]. cbn.
  destruct (Client.transErrorEvent o); [reflexivity|].
  rewrite app_nil_r. reflexivity.
Qed.

Lemma server_fire_size_error (inClient : option Server.CrossClientEntryPtr)
    (method : NetTransMethod) (st : Server.Sys) :
  Server.fire Server.transErrorEvent
    (Server.OnTransmitError None inClient method INVALID_PAYLOAD_SIZE) st
  = (tt, server_size_error inClient method st).
Proof.
  unfold Server.fire, server_size_error. destruct st as [o h w ev iss]. cbn.
  destruct (Server.handlers o Server.transErrorEvent); [reflexivity|].
  rewrite app_nil_r. reflexivity.
Qed.

Lemma client_OnReceiveNewData_oversize (le : bool) (inData : list byte)
    (inLength : Z) (method : NetTransMethod) (st : Client.Sys) :
  GetHeaderSize <= inLength ->
  MAX_PAYLOAD_BYTES < payloadSize (PeakHeader le inData) ->
  Client.OnReceiveNewData le inData inLength method st
  = (inLength, client_size_error method st).
Proof.
  intros Hlen Hbig. unfold Client.OnReceiveNewData.
  rewrite (proj2 (Z.geb_le _ _) Hlen).
  rewrite (proj2 (Z.gtb_lt _ _) Hbig).
  unfold mbind, State_bind. rewrite client_fire_size_error. reflexivity.
Qed.

Lemma server_OnReceiveNewData_oversize (le : bool) (inData : list byte)
    (inLength : Z) (inClient : option Server.CrossClientEntryPtr)
    (method : NetTransMethod) (st : Server.Sys) :
  GetHeaderSize <= inLength ->
  MAX_PAYLOAD_BYTES < payloadSize (PeakHeader le inData) ->
  Server.OnReceiveNewData le inData inLength inClient method st
  = (inLength, server_size_error inClient method st).
Proof.
  intros Hlen Hbig. unfold Server.OnReceiveNewData.
  rewrite (proj2 (Z.geb_le _ _) Hlen).
  rewrite (proj2 (Z.gtb_lt _ _) Hbig).
  unfold mbind, State_bind. rewrite server_fire_size_error. reflexivity.
Qed.

Lemma client_dispatch_oversize (le : bool)
    (buffer : Client.CrossClient -> list byte)
    (more : Client.CrossClient -> bool) (method : NetTransMethod)
    (fuel : nat) (bufferPos : Z) (st : Client.Sys) :
  let buf := buffer (Client.obj st) in
  0 <= bufferPos ->
  bufferPos + GetHeaderSize <= Z.of_nat (length buf) ->
  MAX_PAYLOAD_BYTES
    < payloadSize (PeakHeader le (skipn (Z.to_nat bufferPos) buf)) ->
  Client.dispatch le buffer more method fuel bufferPos st
  = (Z.of_nat (length buf), client_size_error method st).
Proof.
  intros buf Hpos Hlen Hbig.
  assert (E : forall k,
             (c ← gets Client.obj;
              dataUsed ← Client.OnReceiveNewData le
                           (skipn (Z.to_nat bufferPos) (buffer c))
                           (Z.of_nat (length (buffer c)) - bufferPos) method;
              let bufferPos := bufferPos + dataUsed in
              c ← gets Client.obj;
              if Client.IsRunning c && more c && (dataUsed >? 0)
                 && (bufferPos <? Z.of_nat (length (buffer c)))
              then k bufferPos else mret bufferPos) st
             = (Z.of_nat (length buf), client_size_error method st)).
  { intros k. unfold mbind, State_bind, gets. 
    rewrite client_OnReceiveNewData_oversize by (fold buf; lia || exact Hbig).
    cbn [Client.obj client_size_error]. fold buf.
    replace (bufferPos + (Z.of_nat (length buf) - bufferPos))
      with (Z.of_nat (length buf)) by lia.
    rewrite Z.ltb_irrefl, andb_false_r. reflexivity. }
  destruct fuel; cbn [Client.dispatch]; apply E.
Qed.

Lemma server_dispatch_tcp_oversize (le : bool)
    (client : Server.CrossClientEntryPtr) (fuel : nat) (bufferPos : Z)
    (st : Server.Sys) :
  let buf := Server.tcpBuffer
               (nth client (Server.heap st) (Server.CrossClientEntry_new 0)) in
  0 <= bufferPos ->
  bufferPos + GetHeaderSize <= Z.of_nat (length buf) ->
  MAX_PAYLOAD_BYTES
    < payloadSize (PeakHeader le (skipn (Z.to_nat bufferPos) buf)) ->
  Server.dispatch_tcp le client fuel bufferPos st
  = (Z.of_nat (length buf), server_size_error (Some client) TCP st).
Proof.
  intros buf Hpos Hlen Hbig.
  assert (E : forall k,
             (e ← Server.deref client;
              dataUsed ← Server.OnReceiveNewData le
                           (skipn (Z.to_nat bufferPos) (Server.tcpBuffer e))
                           (Z.of_nat (length (Server.tcpBuffer e)) - bufferPos)
                           (Some client) TCP;
              let bufferPos := bufferPos + dataUsed in
              s ← gets Server.obj;
              e ← Server.deref client;
              if Server.IsRunning s && Server.Entry_IsRunning e
                 && (dataUsed >? 0)
                 && (bufferPos <? Z.of_nat (length (Server.tcpBuffer e)))
              then k bufferPos else mret bufferPos) st
             = (Z.of_nat (length buf),
                server_size_error (Some client) TCP st)).
  { intros k. unfold mbind, State_bind, Server.deref, gets.
    rewrite server_OnReceiveNewData_oversize by (fold buf; lia || exact Hbig).
    cbn [Server.obj Server.heap server_size_error]. fold buf.
    replace (bufferPos + (Z.of_nat (length buf) - bufferPos))
      with (Z.of_nat (length buf)) by lia.
    rewrite Z.ltb_irrefl, andb_false_r. reflexivity. }
  destruct fuel; cbn [Server.dispatch_tcp]; apply E.
Qed.

Lemma server_dispatch_udp_oversize (le : bool) (fuel : nat) (bufferPos : Z)
    (st : Server.Sys) :
  let buf := Server.udpBuffer (Server.obj st) in
  0 <= bufferPos ->
  bufferPos + GetHeaderSize <= Z.of_nat (length buf) ->
  MAX_PAYLOAD_BYTES
    < payloadSize (PeakHeader le (skipn (Z.to_nat bufferPos) buf)) ->
  Server.dispatch_udp le fuel bufferPos st
  = (Z.of_nat (length buf), server_size_error None UDP st).
Proof.
  intros buf Hpos Hlen Hbig.
  assert (E : forall k,
             (s ← gets Server.obj;
              dataUsed ← Server.OnReceiveNewData le
                           (skipn (Z.to_nat bufferPos) (Server.udpBuffer s))
                           (Z.of_nat (length (Server.udpBuffer s)) - bufferPos)
                           None UDP;
              let bufferPos := bufferPos + dataUsed in
              s ← gets Server.obj;
              if Server.IsRunning s && Server.streamIsBound s
                 && (dataUsed >? 0)
                 && (bufferPos <? Z.of_nat (length (Server.udpBuffer s)))
              then k bufferPos else mret bufferPos) st
             = (Z.of_nat (length buf), server_size_error None UDP st)).
  { intros k. unfold mbind, State_bind, gets.
    rewrite server_OnReceiveNewData_oversize by (fold buf; lia || exact Hbig).
    cbn [Server.obj Server.heap server_size_error]. fold buf.
    replace (bufferPos + (Z.of_nat (length buf) - bufferPos))
      with (Z.of_nat (length buf)) by lia.
    rewrite Z.ltb_irrefl, andb_false_r. reflexivity. }
  destruct fuel; cbn [Server.dispatch_udp]; apply E.
Qed.

(** C3: on the client and on the server, when the buffer holds a full
    header whose declared payload size exceeds the maximum, the receive
    function executes the transmit-error callback with a null packet and
    [INVALID_PAYLOAD_SIZE], changes nothing else, and returns the whole
    input length; the dispatch loop over a receive buffer that meets such
    a header stops there with the whole buffer used. *)
Theorem C3_invalid_payload_size (le : bool) (inData : list byte)
    (inLength : Z) (method : NetTransMethod) :
  GetHeaderSize <= inLength ->
  MAX_PAYLOAD_BYTES < payloadSize (PeakHeader le inData) ->
  (forall st,
     Client.OnReceiveNewData le inData inLength method st
     = (inLength, client_size_error method st))
  /\ (forall st inClient,
        Server.OnReceiveNewData le inData inLength inClient method st
        = (inLength, server_size_error inClient method st))
  /\ (forall st fuel bufferPos,
        0 <= bufferPos ->
        skipn (Z.to_nat bufferPos) (Client.tcpBuffer (Client.obj st)) = inData ->
        Z.of_nat (length inData) = inLength ->
        Client.dispatch le Client.tcpBuffer (fun _ => true) TCP fuel
          bufferPos st
        = (Z.of_nat (length (Client.tcpBuffer (Client.obj st))),
           client_size_error TCP st))
  /\ (forall st client fuel bufferPos,
        0 <= bufferPos ->
        skipn (Z.to_nat bufferPos)
          (Server.tcpBuffer
             (nth client (Server.heap st) (Server.CrossClientEntry_new 0)))
        = inData ->
        Z.of_nat (length inData) = inLength ->
        Server.dispatch_tcp le client fuel bufferPos st
        = (Z.of_nat
             (length
                (Server.tcpBuffer
                   (nth client (Server.heap st)
                      (Server.CrossClientEntry_new 0)))),
           server_size_error (Some client) TCP st)).
Proof.
  intros Hlen Hbig. split; [|split; [|split]].
  - intros st. apply client_OnReceiveNewData_oversize; assumption.
  - intros st inClient. apply server_OnReceiveNewData_oversize; assumption.
  - intros st fuel bufferPos Hpos Hbuf Hl.
    apply client_dispatch_oversize; [exact Hpos| |rewrite Hbuf; exact Hbig].
    rewrite <- Hl, <- Hbuf, length_skipn in Hlen.
    unfold GetHeaderSize, sizeof_CrossPackHeader in *. lia.
  - intros st client fuel bufferPos Hpos Hbuf Hl.
    apply server_dispatch_tcp_oversize;
      [exact Hpos| |rewrite Hbuf; exact Hbig].
    rewrite <- Hl, <- Hbuf, length_skipn in Hlen.
    unfold GetHeaderSize, sizeof_CrossPackHeader in *. lia.
Qed.

Lemma C3_witness :
  let st := {| Client.obj := Client.Init;
               Client.world := {| script := []; actions := [] |};
               Client.events := [] |} in
  (GetHeaderSize <= 8
   /\ MAX_PAYLOAD_BYTES < payloadSize (PeakHeader true oversize_frame))
  /\ Client.OnReceiveNewData true oversize_frame 8 TCP st
     = (8, client_size_error TCP st).
Proof.
  intros st.
  assert (H1 : GetHeaderSize <= 8) by (vm_compute; discriminate).
  assert (H2 : MAX_PAYLOAD_BYTES < payloadSize (PeakHeader true oversize_frame))
    by reflexivity.
  split; [split; assumption|].
  exact (proj1 (C3_invalid_payload_size true oversize_frame 8 TCP H1 H2) st).
Defined.

(** * Stepping through the client *)

Section ClientSteps.
Import Client.

Lemma world_only_sys {A} (m : State World A) : world_only (sys m).
Proof.
  intros st. unfold sys. destruct (m (world st)). reflexivity.
Qed.

Lemma world_only_SendToServer (le : bool) (p : CrossPack) (b : bool) :
  world_only (SendToServer le p b).
Proof.
  intros st. unfold SendToServer, mbind, State_bind, gets.
  destruct (not_connected (obj st)); [destruct st; reflexivity|].
  destruct (serverSocket (obj st)); [|destruct st; reflexivity].
  rewrite (world_only_sys _ st). reflexivity.
Qed.

Lemma sys_frame {A} (m : State World A) (st : Sys) :
  obj (snd (sys m st)) = obj st /\ events (snd (sys m st)) = events st.
Proof. rewrite (world_only_sys m st). split; reflexivity. Qed.

Lemma SendToServer_frame (le : bool) (p : CrossPack) (b : bool) (st : Sys) :
  obj (snd (SendToServer le p b st)) = obj st
  /\ events (snd (SendToServer le p b st)) = events st.
Proof. rewrite (world_only_SendToServer le p b st). split; reflexivity. Qed.

(** Symbolic execution: environment calls are replaced by an unknown
    answer and an unknown next world. *)
Ltac client_proj :=
  cbn [obj world events fst snd clientState clientID set_clientID
       set_clientState set_ping set_timeoutDelay set_timeoutTimer
       failedReconnectEvent connectEvent timeoutTimer timeoutDelay ping
       clientProperties CrossClientState_eqb andb] in *.

Ltac step_env :=
  match goal with
  | |- context [SendToServer ?le ?p ?b ?s] =>
      let H := fresh in
      pose proof (SendToServer_frame le p b s) as H;
      destruct (SendToServer le p b s) as [? [? ? ?]];
      cbn [obj events snd] in H; destruct H; subst
  | |- context [sys ?m ?s] =>
      let H := fresh in
      pose proof (sys_frame m s) as H;
      destruct (sys m s) as [? [? ? ?]];
      cbn [obj events snd] in H; destruct H; subst
  end.

Ltac run_client :=
  unfold mbind, State_bind, upd, modify, gets, mret, State_ret, fire;
  client_proj; repeat (step_env; client_proj).

Lemma OnReceiveNewData_INIT_CLIENT_ID (le : bool) (inData : list byte)
    (inLength : Z) (method : NetTransMethod) (st : Sys) :
  complete_frame le inData inLength ->
  GetDataID (inPack le inData) = INIT_CLIENT_ID ->
  fst (RemoveFromPayload_uint le 4 (inPack le inData)) <> 0 ->
  let st' := snd (OnReceiveNewData le inData inLength method st) in
  events st'
  = events st ++ (if connectEvent (obj st) then [OnConnect] else [])
  /\ clientState (obj st') = CLIENT_RECEIVING_DATA_LIST
  /\ clientID (obj st') = fst (RemoveFromPayload_uint le 4 (inPack le inData)).
Proof.
  intros (H1 & H2 & H3) Hid Hnew.
  unfold OnReceiveNewData.
  rewrite (proj2 (Z.geb_le _ _) H1).
  destruct (payloadSize (PeakHeader le inData) >? MAX_PAYLOAD_BYTES) eqn:E;
    [apply Z.gtb_lt in E; lia|].
  rewrite (proj2 (Z.leb_le _ _) H3).
  fold (inPack le inData). rewrite Hid.
  change (INIT_CLIENT_ID =? HANDSHAKE) with false.
  change (INIT_CLIENT_ID =? INIT_CLIENT_ID) with true.
  cbn [orb]. cbv iota.
  change (INIT_CLIENT_ID =? RECONNECT_PACK) with false. cbv iota.
  rewrite (proj2 (Z.eqb_neq _ _) Hnew). cbn [negb]. cbv iota.
  run_client.
  destruct (connectEvent (obj st)); cbn [obj world events];
    rewrite ?app_nil_r; repeat split; reflexivity.
Qed.

(** C4: what the code does when resumption is denied.  A client in state
    REQUESTING_ID with both handlers installed that receives an
    INIT_CLIENT_ID packet with a non-zero id adopts the id and proceeds to
    RECEIVING_DATA_LIST, but executes the Connect callback only: the
    state is overwritten before the test that guards ReconnectFailed. *)
Theorem C4_reconnect_denied (le : bool) (inData : list byte) (inLength : Z)
    (method : NetTransMethod) (st : Sys) :
  complete_frame le inData inLength ->
  GetDataID (inPack le inData) = INIT_CLIENT_ID ->
  fst (RemoveFromPayload_uint le 4 (inPack le inData)) <> 0 ->
  clientState (obj st) = CLIENT_REQUESTING_ID ->
  failedReconnectEvent (obj st) = true ->
  connectEvent (obj st) = true ->
  let st' := snd (OnReceiveNewData le inData inLength method st) in
  events st' = events st ++ [OnConnect]
  /\ clientState (obj st') = CLIENT_RECEIVING_DATA_LIST
  /\ clientID (obj st') = fst (RemoveFromPayload_uint le 4 (inPack le inData)).
Proof.
  intros Hf Hid Hnew _ _ Hcon.
  pose proof (OnReceiveNewData_INIT_CLIENT_ID le inData inLength method st
                Hf Hid Hnew) as H.
  cbv zeta in H. rewrite Hcon in H. exact H.
Qed.

Lemma C4_witness :
  complete_frame true init_id_frame 10
  /\ GetDataID (inPack true init_id_frame) = INIT_CLIENT_ID
  /\ fst (RemoveFromPayload_uint true 4 (inPack true init_id_frame)) = 7
  /\ clientState (obj requesting_client) = CLIENT_REQUESTING_ID
  /\ failedReconnectEvent (obj requesting_client) = true
  /\ connectEvent (obj requesting_client) = true
  /\ events (snd (OnReceiveNewData true init_id_frame 10 TCP requesting_client))
     = [OnConnect].
Proof.
  assert (Hf : complete_frame true init_id_frame 10)
    by (repeat split; intros H; discriminate H).
  assert (Hn : fst (RemoveFromPayload_uint true 4 (inPack true init_id_frame))
               <> 0) by (intros H; discriminate H).
  split; [exact Hf|]. do 5 (split; [reflexivity|]).
  exact (proj1 (C4_reconnect_denied true init_id_frame 10 TCP
                  requesting_client Hf eq_refl Hn eq_refl eq_refl eq_refl)).
Defined.

End ClientSteps.

(** * C9: the aliveness test of the client *)

Section ClientAliveness.
Import Client.

Lemma alivenessTest_fields (mem : nat -> byte) (le : bool)
    (delay ping : double) :
  let p := alivenessTest mem le delay ping in
  GetDataID p = ALIVENESS_TEST
  /\ payloadSize (header p) = 4
  /\ payload_bytes p
     = le_bytes 4 (bits_of_float
                     (float_of_double
                        (dmul (dadd delay ping) CROSS_SOCK_TIMEOUT_FACTOR))).
Proof.
  unfold alivenessTest, AddToPayload_float.
  generalize (bits_of_float
                (float_of_double
                   (dmul (dadd delay ping) CROSS_SOCK_TIMEOUT_FACTOR))).
  intros z. cbv zeta.
  split; [reflexivity|]. split; [reflexivity|].
  destruct le; cbv -[Z.modulo Z.div byte_of_Z]; reflexivity.
Qed.

Lemma sys_now_actions (w : World) : actions (snd (sys_now w)) = actions w.
Proof. unfold sys_now. destruct (script w) as [|[]]; reflexivity. Qed.

Lemma sys_new_actions (w : World) : actions (snd (sys_new w)) = actions w.
Proof. unfold sys_new. destruct (script w) as [|[]]; reflexivity. Qed.

Lemma GetElapsedTime_actions (start : Z) (w : World) :
  actions (snd (GetElapsedTime start w)) = actions w.
Proof.
  unfold GetElapsedTime. pose proof (sys_now_actions w) as H.
  destruct (sys_now w). exact H.
Qed.

Lemma sys_eq {A} (m : State World A) (st : Sys) :
  sys m st
  = (fst (m (world st)),
     {| obj := obj st; world := snd (m (world st)); events := events st |}).
Proof. unfold sys. destruct (m (world st)). reflexivity. Qed.

Ltac unfold_client :=
  unfold mbind, State_bind, upd, modify, gets, mret, State_ret, fire;
  rewrite ?sys_eq;
  cbn [obj world events fst snd].

(** The receive branch. *)
Lemma OnReceiveNewData_ALIVENESS_TEST (le : bool) (inData : list byte)
    (inLength : Z) (method : NetTransMethod) (st : Sys) :
  complete_frame le inData inLength ->
  GetDataID (inPack le inData) = ALIVENESS_TEST ->
  let c := obj st in
  let elapsed := fst (GetElapsedTime (timeoutTimer c) (world st)) in
  let now := fst (sys_now (snd (GetElapsedTime (timeoutTimer c) (world st)))) in
  let ping0 := dsub elapsed (timeoutDelay c) in
  let st' := snd (OnReceiveNewData le inData inLength method st) in
  obj st'
  = set_timeoutDelay
      (double_of_float (fst (RemoveFromPayload_float le (inPack le inData))))
      (set_timeoutTimer now
         (set_ping (if dltb ping0 dzero then dzero else ping0) c))
  /\ events st' = events st
  /\ actions (world st') = actions (world st).
Proof.
  intros (H1 & H2 & H3) Hid.
  unfold OnReceiveNewData.
  rewrite (proj2 (Z.geb_le _ _) H1).
  destruct (payloadSize (PeakHeader le inData) >? MAX_PAYLOAD_BYTES) eqn:E;
    [apply Z.gtb_lt in E; lia|].
  rewrite (proj2 (Z.leb_le _ _) H3).
  fold (inPack le inData). rewrite Hid.
  change (ALIVENESS_TEST =? HANDSHAKE) with false.
  change (ALIVENESS_TEST =? INIT_CLIENT_ID) with false.
  change (ALIVENESS_TEST =? RECONNECT_PACK) with false.
  change (ALIVENESS_TEST =? DISCONNECT_PACK) with false.
  change (ALIVENESS_TEST =? INIT_CUSTOM_DATA_LIST) with false.
  change (ALIVENESS_TEST =? ALIVENESS_TEST) with true.
  cbn [orb]. cbv iota.
  unfold_client.
  repeat (rewrite sys_now_actions || rewrite GetElapsedTime_actions).
  repeat split; reflexivity.
Qed.

Ltac quiet :=
  repeat (rewrite sys_now_actions || rewrite GetElapsedTime_actions
          || rewrite sys_new_actions).

Ltac send_step fd :=
  match goal with
  | |- context [SendToServer ?le ?p ?b ?s] =>
      rewrite (SendToServer_sends le p b s fd)
        by (first [reflexivity | match goal with H : _ |- _ => exact H end])
  end;
  cbn [obj world events fst snd script actions].

(** The periodic test of [Update]. *)
Lemma heartbeat_sends (le : bool) (st : Sys) (fd : Z) :
  not_connected (obj st) = false -> serverSocket (obj st) = Some fd ->
  let c := obj st in
  let elapsed := fst (GetElapsedTime (alivenessTestTimer c) (world st)) in
  let acts := actions (world (snd (heartbeat le st))) in
  (dleb (alivenessTestDelay (clientProperties c)) elapsed = true ->
   exists mem r,
     acts = actions (world st)
            ++ [TcpSend fd
                  (wire le (alivenessTest mem le
                              (alivenessTestDelay (clientProperties c))
                              (ping c))) r])
  /\ (dleb (alivenessTestDelay (clientProperties c)) elapsed = false ->
      acts = actions (world st)).
Proof.
  intros Hc Hfd. cbv zeta. unfold heartbeat. unfold_client.
  split; intros Hd; rewrite Hd.
  - unfold_client.
    assert (Hc' : not_connected (set_alivenessTestTimer
       (fst (sys_now (snd (GetElapsedTime (alivenessTestTimer (obj st))
                             (world st))))) (obj st)) = false) by exact Hc.
    assert (Hfd' : serverSocket (set_alivenessTestTimer
       (fst (sys_now (snd (GetElapsedTime (alivenessTestTimer (obj st))
                             (world st))))) (obj st)) = Some fd) by exact Hfd.
    send_step fd.
    match goal with
    | |- context [TcpSend fd (wire le (alivenessTest ?m _ _ _)) ?r] =>
        exists m, r
    end.
    match goal with
    | |- context [if ?b then _ else _] => destruct b
    end; unfold_client; cbn [actions]; quiet; reflexivity.
  - unfold_client. quiet. reflexivity.
Qed.

(** The test sent when the delay is changed. *)
Lemma SetClientProperties_sends (le : bool) (inProperties : CrossClientProperties)
    (st : Sys) (fd : Z) :
  not_connected (obj st) = false -> serverSocket (obj st) = Some fd ->
  let c := obj st in
  let changed :=
    IsRunning c
    && negb (deqb (alivenessTestDelay (clientProperties c))
               (alivenessTestDelay inProperties)) in
  let acts := actions (world (snd (SetClientProperties le inProperties st))) in
  (changed = true ->
   exists mem r,
     acts = actions (world st)
            ++ [TcpSend fd
                  (wire le (alivenessTest mem le
                              (alivenessTestDelay inProperties) (ping c))) r])
  /\ (changed = false -> acts = actions (world st)).
Proof.
  intros Hc Hfd. cbv zeta. unfold SetClientProperties. unfold_client.
  split; intros Hd; rewrite Hd.
  - unfold_client. send_step fd.
    match goal with
    | |- context [TcpSend fd (wire le (alivenessTest ?m _ _ _)) ?r] =>
        exists m, r
    end.
    quiet. reflexivity.
  - reflexivity.
Qed.

(** The test sent when the server's answer to the id request arrives. *)
Lemma OnReceiveNewData_id_sends (le : bool) (inData : list byte)
    (inLength : Z) (method : NetTransMethod) (st : Sys) (fd : Z) :
  complete_frame le inData inLength ->
  GetDataID (inPack le inData) = INIT_CLIENT_ID
  \/ GetDataID (inPack le inData) = RECONNECT_PACK ->
  not_connected (obj st) = false -> serverSocket (obj st) = Some fd ->
  let c := obj st in
  let st' := snd (OnReceiveNewData le inData inLength method st) in
  exists mem r q r',
    actions (world st')
    = actions (world st)
      ++ [TcpSend fd
            (wire le (alivenessTest mem le
                        (alivenessTestDelay (clientProperties c)) dzero)) r;
          TcpSend fd (wire le q) r']
    /\ GetDataID q <> ALIVENESS_TEST.
Proof.
  intros (H1 & H2 & H3) Hid Hc Hfd.
  cbv zeta. unfold OnReceiveNewData.
  rewrite (proj2 (Z.geb_le _ _) H1).
  destruct (payloadSize (PeakHeader le inData) >? MAX_PAYLOAD_BYTES) eqn:E;
    [apply Z.gtb_lt in E; lia|].
  rewrite (proj2 (Z.leb_le _ _) H3).
  fold (inPack le inData).
  assert (Hh : (GetDataID (inPack le inData) =? HANDSHAKE) = false)
    by (destruct Hid as [-> | ->]; reflexivity).
  assert (Hi : (GetDataID (inPack le inData) =? INIT_CLIENT_ID)
               || (GetDataID (inPack le inData) =? RECONNECT_PACK) = true)
    by (destruct Hid as [-> | ->]; reflexivity).
  rewrite Hh, Hi. clear Hh Hi.
  destruct (negb (fst (RemoveFromPayload_uint le 4 (inPack le inData)) =? 0));
    [destruct (GetDataID (inPack le inData) =? RECONNECT_PACK)|];
    unfold_client; send_step fd;
    cbn [obj world events fst snd clientState clientID set_clientID
         set_clientState set_ping set_timeoutDelay set_timeoutTimer
         failedReconnectEvent connectEvent reconnectEvent
         clientProperties ping CrossClientState_eqb andb];
    repeat match goal with
           | |- context [if ?b then _ else _] => destruct b
           end;
    cbn [obj world events fst snd];
    rewrite ?sys_eq; cbn [obj world events fst snd];
    send_step fd; quiet; cbn [actions];
    do 4 eexists; (split; [rewrite <- app_assoc; reflexivity|discriminate]).
Qed.

(** C9: every aliveness test the client builds carries, as a binary32
    image in network order, the value (alivenessTestDelay + ping) * 3.1
    computed in double precision; the three places that send one (the
    periodic test of [Update], the change of the delay in
    [SetClientProperties], the arrival of the server's answer to the id
    request) send exactly this packet; and on an incoming aliveness test
    the client sets ping to the time elapsed since the last timeout reset
    minus the expected timeout delay, replaced by 0 when negative, resets
    the timeout timer and takes the incoming value as the new expected
    timeout delay. *)
Theorem C9_aliveness (le : bool) (st : Sys) (fd : Z)
    (inProperties : CrossClientProperties) (inData : list byte)
    (inLength : Z) (method : NetTransMethod) :
  not_connected (obj st) = false -> serverSocket (obj st) = Some fd ->
  let c := obj st in
  let delay := alivenessTestDelay (clientProperties c) in
  let test mem d p := TcpSend fd (wire le (alivenessTest mem le d p)) in
  (* the packet, whatever its storage held *)
  (forall mem d p,
     GetDataID (alivenessTest mem le d p) = ALIVENESS_TEST
     /\ payloadSize (header (alivenessTest mem le d p)) = 4
     /\ payload_bytes (alivenessTest mem le d p)
        = le_bytes 4 (bits_of_float
                        (float_of_double
                           (dmul (dadd d p) CROSS_SOCK_TIMEOUT_FACTOR))))
  (* Update *)
  /\ (let elapsed := fst (GetElapsedTime (alivenessTestTimer c) (world st)) in
      let acts := actions (world (snd (heartbeat le st))) in
      (dleb delay elapsed = true ->
       exists mem r, acts = actions (world st) ++ [test mem delay (ping c) r])
      /\ (dleb delay elapsed = false -> acts = actions (world st)))
  (* SetClientProperties *)
  /\ (let changed :=
        IsRunning c && negb (deqb delay (alivenessTestDelay inProperties)) in
      let acts :=
        actions (world (snd (SetClientProperties le inProperties st))) in
      (changed = true ->
       exists mem r,
         acts = actions (world st)
                ++ [test mem (alivenessTestDelay inProperties) (ping c) r])
      /\ (changed = false -> acts = actions (world st)))
  (* OnReceiveNewData *)
  /\ (complete_frame le inData inLength ->
      let st' := snd (OnReceiveNewData le inData inLength method st) in
      (GetDataID (inPack le inData) = INIT_CLIENT_ID
       \/ GetDataID (inPack le inData) = RECONNECT_PACK ->
       exists mem r q r',
         actions (world st')
         = actions (world st)
           ++ [test mem delay dzero r; TcpSend fd (wire le q) r']
         /\ GetDataID q <> ALIVENESS_TEST)
      /\ (GetDataID (inPack le inData) = ALIVENESS_TEST ->
          let elapsed := fst (GetElapsedTime (timeoutTimer c) (world st)) in
          let now :=
            fst (sys_now (snd (GetElapsedTime (timeoutTimer c) (world st)))) in
          let ping0 := dsub elapsed (timeoutDelay c) in
          ping (obj st') = (if dltb ping0 dzero then dzero else ping0)
          /\ timeoutTimer (obj st') = now
          /\ timeoutDelay (obj st')
             = double_of_float
                 (fst (RemoveFromPayload_float le (inPack le inData)))
          /\ actions (world st') = actions (world st))).
Proof.
  intros Hc Hfd. cbv zeta.
  split; [intros mem d p; apply alivenessTest_fields|].
  split; [apply (heartbeat_sends le st fd Hc Hfd)|].
  split; [apply (SetClientProperties_sends le inProperties st fd Hc Hfd)|].
  intros Hframe. split.
  - intros Hid.
    apply (OnReceiveNewData_id_sends le inData inLength method st fd
             Hframe Hid Hc Hfd).
  - intros Hid.
    destruct (OnReceiveNewData_ALIVENESS_TEST le inData inLength method st
                Hframe Hid) as (Ho & _ & Ha).
    rewrite Ho. repeat split; try reflexivity. exact Ha.
Qed.

Lemma C9_witness :
  not_connected (obj connected_client) = false
  /\ serverSocket (obj connected_client) = Some 3
  /\ complete_frame true aliveness_frame 10
  /\ GetDataID (inPack true aliveness_frame) = ALIVENESS_TEST
  /\ payload_bytes (alivenessTest zeros true (double_of_Z 1000) dzero)
     = [x00; xc0; x41; x45]
  /\ (let st' := snd (OnReceiveNewData true aliveness_frame 10 TCP
                        connected_client) in
      ping (obj st') = double_of_Z 500
      /\ timeoutTimer (obj st') = 2000000001
      /\ timeoutDelay (obj st') = double_of_Z 3100).
Proof.
  assert (Hf : complete_frame true aliveness_frame 10)
    by (repeat split; intros H; discriminate H).
  pose proof (C9_aliveness true connected_client 3
                CrossClientProperties_default aliveness_frame 10 TCP
                eq_refl eq_refl) as (Hp & _ & _ & Hr).
  destruct (Hr Hf) as (_ & Ha). destruct (Ha eq_refl) as (A1 & A2 & A3 & _).
  split; [reflexivity|]. split; [reflexivity|]. split; [exact Hf|].
  split; [reflexivity|]. split.
  - rewrite (proj2 (proj2 (Hp zeros (double_of_Z 1000) dzero))). reflexivity.
  - cbv zeta. rewrite A1, A2, A3. repeat split.
Defined.

End ClientAliveness.

(** * Properties kept by the server's code *)

Section Keeps.
Import Server ServerInv.

Lemma keeps_ret {A} (I : Sys -> Prop) (x : A) : keeps I (mret x : M A).
Proof. intros st H. exact H. Qed.

Lemma keeps_bind {A B} (I : Sys -> Prop) (m : M A) (f : A -> M B) :
  keeps I m -> (forall a, keeps I (f a)) -> keeps I (m ≫= f).
Proof.
  intros Hm Hf st H. unfold mbind, State_bind.
  specialize (Hm st H). destruct (m st) as [a st1]. apply Hf. exact Hm.
Qed.

Lemma keeps_gets {A} (I : Sys -> Prop) (g : Sys -> A) : keeps I (gets g).
Proof. intros st H. exact H. Qed.

(** A value read from the state may be used with what the property tells
    about the state it was read in. *)
Lemma keeps_gets_bind {A B} (I : Sys -> Prop) (g : Sys -> A) (f : A -> M B) :
  (forall st x, I st -> x = g st -> I (snd (f x st))) ->
  keeps I (gets g ≫= f).
Proof.
  intros Hf st H. unfold mbind, State_bind, gets. apply Hf; [exact H|reflexivity].
Qed.

Lemma keeps_forM {A} (I : Sys -> Prop) (l : list A) (f : A -> M unit) :
  (forall x, In x l -> keeps I (f x)) -> keeps I (forM l f).
Proof.
  induction l as [|x l IH]; intros Hf; cbn [forM].
  - apply keeps_ret.
  - apply keeps_bind; [apply Hf; left; reflexivity|].
    intros _. apply IH. intros y Hy. apply Hf. right. exact Hy.
Qed.

Lemma keeps_fold_left {A B} (I : Sys -> Prop) (l : list A)
    (f : M B -> A -> M B) (m0 : M B) :
  keeps I m0 ->
  (forall m x, In x l -> keeps I m -> keeps I (f m x)) ->
  keeps I (fold_left f l m0).
Proof.
  revert m0. induction l as [|x l IH]; intros m0 H0 Hf; cbn [fold_left].
  - exact H0.
  - apply IH.
    + apply Hf; [left; reflexivity|exact H0].
    + intros m y Hy. apply Hf. right. exact Hy.
Qed.

Lemma keeps_weaken {A} (I J : Sys -> Prop) (m : M A) (st : Sys) :
  keeps J m -> I st -> (I st -> J st) -> (forall st', J st' -> I st') ->
  I (snd (m st)).
Proof. intros Hm H HIJ HJI. apply HJI, Hm, HIJ, H. Qed.

End Keeps.

Create HintDb keepsdb.

(** One step through a computation of the server. *)
Ltac kstep :=
  cbv beta;
  lazymatch goal with
  | |- ServerInv.keeps _ (mret _) => apply keeps_ret
  | |- ServerInv.keeps _ (mbind _ (gets _)) =>
      apply keeps_gets_bind;
      let st := fresh "st" in
      let x := fresh "x" in
      let H := fresh "Hst" in
      let Hx := fresh "Hx" in
      intros st x H Hx;
      lazymatch goal with
      | |- ?Ip (snd (?m st)) =>
          apply (fun K : ServerInv.keeps Ip m => K st H)
      end
  | |- ServerInv.keeps _ (mbind _ _) =>
      apply keeps_bind; [|intros ?]
  | |- ServerInv.keeps _ (if ?b then _ else _) => destruct b eqn:?
  | |- ServerInv.keeps _ (match ?x with _ => _ end) => destruct x eqn:?
  | |- ServerInv.keeps _ (when _ _) => unfold when
  | |- ServerInv.keeps _ (Server.forM _ _) => apply keeps_forM; intros ? ?
  | |- ServerInv.keeps _ (fold_left _ _ _) =>
      apply keeps_fold_left; [|intros ? ? ? ?]
  end.

Ltac kleaf := solve [assumption | eauto 4 with keepsdb].

Ltac kgo := repeat first [kleaf | kstep].

#[global] Hint Extern 1 (ServerInv.absorbing _) =>
  (let e := fresh in let He := fresh in
   intros e He; first [exact He | reflexivity]) : keepsdb.
#[global] Hint Extern 1 (ServerInv.frame_obj _) =>
  (let s := fresh in intros s; split; reflexivity) : keepsdb.
#[global] Hint Resolve or_introl or_intror : keepsdb.

Section KeepsServe.
Import Server ServerInv.
Context {P : Type} (ok : P -> CrossClientEntryPtr -> Prop)
  (I : P -> Sys -> Prop).
Hypothesis Hstable : forall p, stable (ok p) (I p).
Hypothesis Hsnap : snapshot ok I.

Lemma keeps_sys {A} (p : P) (m : State World A) : keeps (I p) (sys m).
Proof.
  intros st H. unfold sys. destruct (m (world st)) as [a w]. cbn [snd].
  apply (st_world _ _ (Hstable p)). exact H.
Qed.

Lemma keeps_upd (p : P) (f : CrossServer -> CrossServer) :
  frame_obj f -> keeps (I p) (upd f).
Proof.
  intros Hf st H. unfold upd, modify. cbn [snd].
  apply (st_obj _ _ (Hstable p)); assumption.
Qed.

Lemma keeps_upd_entry (p : P) (r : CrossClientEntryPtr)
    (f : CrossClientEntry -> CrossClientEntry) :
  absorbing f \/ ok p r -> keeps (I p) (upd_entry r f).
Proof.
  intros Hf st H. unfold upd_entry, modify. cbn [snd].
  apply (st_entry _ _ (Hstable p)); assumption.
Qed.

Lemma keeps_log (p : P) (e : Event) : keeps (I p) (log e).
Proof.
  intros st H. unfold log, modify. cbn [snd].
  apply (st_events _ _ (Hstable p)). exact H.
Qed.

Lemma keeps_fire (p : P) (h : Handler) (e : Event) : keeps (I p) (fire h e).
Proof.
  intros st H. unfold fire. cbn [snd]. destruct (handlers (obj st) h).
  - apply (st_events _ _ (Hstable p)). exact H.
  - exact H.
Qed.

Lemma keeps_deref (p : P) (r : CrossClientEntryPtr) : keeps (I p) (deref r).
Proof. apply keeps_gets. Qed.

Lemma keeps_set_map (p : P) (g : CrossServer -> gmap Z CrossClientEntryPtr) :
  (forall s k r, g s !! k = Some r ->
                 ok p r \/ exists k', connectedClients s !! k' = Some r) ->
  keeps (I p) (upd (fun s => set_connectedClients (g s) s)).
Proof.
  intros Hg st H. unfold upd, modify. cbn [snd].
  apply (st_map _ _ (Hstable p)); [|exact H].
  intros k r Hk. apply (Hg _ _ _ Hk).
Qed.

Lemma frame_obj_other (f : CrossServer -> CrossServer) :
  (forall s, connectedClients (f s) = connectedClients s) ->
  (forall s, nextAvailableClientID (f s) = nextAvailableClientID s) ->
  frame_obj f.
Proof. intros H1 H2 s. split; [apply H1|apply H2]. Qed.

Lemma absorbing_leave_init : absorbing leave_init.
Proof.
  intros e He. unfold leave_init. rewrite He. cbn. exact He.
Qed.

Ltac side :=
  first
    [ left;
      first [ exact absorbing_leave_init
            | let e := fresh in let He := fresh in intros e He; exact He
            | let e := fresh in let He := fresh in intros e He; reflexivity ]
    | right; solve [eauto]
    | apply frame_obj_other; intros ?; reflexivity ].

#[local] Hint Resolve keeps_sys keeps_log keeps_fire keeps_deref keeps_ret
  keeps_gets : keepsdb.
#[local] Hint Extern 1 (keeps _ (upd _)) =>
  (apply keeps_upd; side) : keepsdb.
#[local] Hint Extern 1 (keeps _ (upd_entry _ _)) =>
  (apply keeps_upd_entry; side) : keepsdb.

Lemma keeps_ResetTimeout (p : P) (r : CrossClientEntryPtr) (d : double) :
  keeps (I p) (ResetTimeout r d).
Proof. unfold ResetTimeout. kgo. Qed.

Lemma keeps_HasTimedOut (p : P) (r : CrossClientEntryPtr) :
  keeps (I p) (HasTimedOut r).
Proof. unfold HasTimedOut. kgo. Qed.

Lemma keeps_SendToClient (p : P) (le : bool) (q : CrossPack)
    (c : option CrossClientEntryPtr) (b : bool) :
  keeps (I p) (SendToClient le q c b).
Proof. unfold SendToClient. kgo. Qed.

#[local] Hint Resolve keeps_ResetTimeout keeps_HasTimedOut
  keeps_SendToClient : keepsdb.

Lemma keeps_StreamToClient (p : P) (le : bool) (q : CrossPack)
    (c : option CrossClientEntryPtr) (b : bool) :
  keeps (I p) (StreamToClient le q c b).
Proof. unfold StreamToClient. kgo. Qed.

Lemma keeps_SendToAll (p : P) (le : bool) (q : CrossPack) (b : bool) :
  keeps (I p) (SendToAll le q b).
Proof. unfold SendToAll. kgo. Qed.

Lemma keeps_StreamToAll (p : P) (le : bool) (q : CrossPack) (b : bool) :
  keeps (I p) (StreamToAll le q b).
Proof. unfold StreamToAll. kgo. Qed.

Lemma keeps_DisconnectClient (p : P) (le : bool)
    (c : option CrossClientEntryPtr) (save : bool) :
  keeps (I p) (DisconnectClient le c save).
Proof. unfold DisconnectClient. kgo. Qed.

#[local] Hint Resolve keeps_StreamToClient keeps_SendToAll keeps_StreamToAll
  keeps_DisconnectClient : keepsdb.

Lemma keeps_release (p : P) (r : CrossClientEntryPtr) :
  keeps (I p) (release r).
Proof. unfold release. kgo. Qed.

Lemma keeps_DisconnectAddress (p : P) (le : bool) (a : CrossSockAddress) :
  keeps (I p) (DisconnectAddress le a).
Proof. unfold DisconnectAddress. kgo. Qed.

#[local] Hint Resolve keeps_DisconnectAddress : keepsdb.

Lemma keeps_AddAddressToBlacklist (p : P) (le : bool) (a : CrossSockAddress) :
  keeps (I p) (AddAddressToBlacklist le a).
Proof. unfold AddAddressToBlacklist. kgo. Qed.

Lemma keeps_RemoveAddressFromBlacklist (p : P) (a : CrossSockAddress) :
  keeps (I p) (RemoveAddressFromBlacklist a).
Proof.
  unfold RemoveAddressFromBlacklist. apply keeps_upd.
  apply frame_obj_other; intros s;
    destruct (policy_find a (canConnectList s)) as [[]|]; reflexivity.
Qed.

Lemma keeps_AddAddressToWhitelist (p : P) (a : CrossSockAddress) :
  keeps (I p) (AddAddressToWhitelist a).
Proof. unfold AddAddressToWhitelist. kgo. Qed.

Lemma keeps_RemoveAddressFromWhitelist (p : P) (a : CrossSockAddress) :
  keeps (I p) (RemoveAddressFromWhitelist a).
Proof.
  unfold RemoveAddressFromWhitelist. apply keeps_upd.
  apply frame_obj_other; intros s;
    destruct (policy_find a (canConnectList s)) as [[]|]; reflexivity.
Qed.

(** The branches of the receive function, for a pointer that may be
    served. *)
Lemma keeps_on_handshake (p : P) (r : CrossClientEntryPtr) :
  ok p r -> keeps (I p) (on_handshake r).
Proof. intros Hr. unfold on_handshake. kgo. Qed.

Lemma keeps_on_init_client_id (p : P) (le : bool) (r : CrossClientEntryPtr) :
  keeps (I p) (on_init_client_id le r).
Proof. unfold on_init_client_id. kgo. Qed.

Lemma keeps_on_reconnect (p : P) (le : bool) (r : CrossClientEntryPtr)
    (q : CrossPack) :
  ok p r -> keeps (I p) (on_reconnect le r q).
Proof.
  intros Hr. unfold on_reconnect. kgo.
  - apply keeps_set_map. intros s k r' Hk. right.
    apply lookup_delete_Some in Hk. exists k. apply Hk.
  - apply keeps_set_map. intros s k r' Hk.
    apply lookup_insert_Some in Hk. destruct Hk as [[_ <-]|[_ Hk]].
    + left. exact Hr.
    + right. exists k. exact Hk.
Qed.

Lemma keeps_on_data_list (p : P) (le : bool) (r : CrossClientEntryPtr) :
  keeps (I p) (on_data_list le r).
Proof. unfold on_data_list. kgo. Qed.

Lemma keeps_on_aliveness (p : P) (le : bool) (r : CrossClientEntryPtr)
    (q : CrossPack) :
  keeps (I p) (on_aliveness le r q).
Proof. unfold on_aliveness. kgo. Qed.

Lemma keeps_run_callbacks (p : P) (id : Z) (n : nat) (q : CrossPack)
    (r : CrossClientEntryPtr) (method : NetTransMethod) :
  keeps (I p) (run_callbacks id n q r method).
Proof. induction n as [|n IH]; cbn [run_callbacks]; kgo. Qed.

#[local] Hint Resolve keeps_on_handshake keeps_on_init_client_id
  keeps_on_reconnect keeps_on_data_list keeps_on_aliveness
  keeps_run_callbacks : keepsdb.

Lemma keeps_on_custom (p : P) (c : option CrossClientEntryPtr)
    (q : CrossPack) (method : NetTransMethod) :
  keeps (I p) (on_custom c q method).
Proof. unfold on_custom. kgo. Qed.

#[local] Hint Resolve keeps_on_custom : keepsdb.

(** Reading the table of connected clients: its pointers may be served
    from there on. *)
Lemma keeps_snap {B} (p : P) (f : CrossServer -> M B) :
  (forall p' s,
     (forall r, ok p r -> ok p' r) ->
     (forall k r, connectedClients s !! k = Some r -> ok p' r) ->
     keeps (I p') (f s)) ->
  keeps (I p) (gets obj ≫= f).
Proof.
  intros Hf. apply keeps_gets_bind. intros st s H ->.
  destruct (Hsnap p st H) as (p' & H' & Hmono & Hok & Hback).
  apply Hback. apply (Hf p' (obj st) Hmono Hok st H').
Qed.

Lemma keeps_OnReceiveNewData (p : P) (le : bool) (inData : list byte)
    (inLength : Z) (inClient : option CrossClientEntryPtr)
    (inMethod : NetTransMethod) :
  (forall r, inClient = Some r -> ok p r) ->
  keeps (I p) (OnReceiveNewData le inData inLength inClient inMethod).
Proof.
  intros Hc. unfold OnReceiveNewData.
  destruct (inLength >=? GetHeaderSize); [|kgo].
  cbv zeta.
  destruct (payloadSize (PeakHeader le inData) >? MAX_PAYLOAD_BYTES); [kgo|].
  match goal with |- keeps _ (if ?b then _ else _) => destruct b end; [|kgo].
  apply keeps_snap. intros p' s Hmono Hok.
  apply keeps_bind; [|kgo].
  match goal with
  | |- keeps _ (match ?c with Some _ => _ | None => _ end) =>
      assert (Hc' : forall r, c = Some r -> ok p' r)
  end.
  { intros r Hr. destruct inMethod.
    - apply Hmono, Hc, Hr.
    - match type of Hr with
      | (if ?b then _ else _) = _ => destruct b
      end; [apply (Hok _ _ Hr)|apply Hmono, Hc, Hr]. }
  match goal with
  | |- keeps _ (match ?c with Some _ => _ | None => _ end) =>
      destruct c as [r|]
  end; [|kgo].
  specialize (Hc' r eq_refl). kgo.
Qed.

#[local] Hint Resolve keeps_OnReceiveNewData : keepsdb.

Lemma keeps_heartbeat (p : P) (le : bool) : keeps (I p) (heartbeat le).
Proof. unfold heartbeat. kgo. Qed.

Lemma keeps_dispatch_tcp (p : P) (le : bool) (client : CrossClientEntryPtr)
    (fuel : nat) (bufferPos : Z) :
  ok p client -> keeps (I p) (dispatch_tcp le client fuel bufferPos).
Proof.
  intros Hc. revert bufferPos.
  induction fuel as [|fuel IH]; intros bufferPos; cbn [dispatch_tcp]; kgo;
    apply keeps_OnReceiveNewData; intros r [= <-]; exact Hc.
Qed.

#[local] Hint Resolve keeps_dispatch_tcp : keepsdb.

Lemma keeps_tcp_loop (p : P) (le : bool) (client : CrossClientEntryPtr)
    (fuel : nat) (tcpTransmits : Z) :
  ok p client -> keeps (I p) (tcp_loop le client fuel tcpTransmits).
Proof.
  intros Hc. revert tcpTransmits.
  induction fuel as [|fuel IH]; intros tcpTransmits; cbn [tcp_loop]; kgo.
Qed.

Lemma keeps_dispatch_udp (p : P) (le : bool) (fuel : nat) (bufferPos : Z) :
  keeps (I p) (dispatch_udp le fuel bufferPos).
Proof.
  revert bufferPos.
  induction fuel as [|fuel IH]; intros bufferPos; cbn [dispatch_udp]; kgo;
    apply keeps_OnReceiveNewData; intros r [=].
Qed.

#[local] Hint Resolve keeps_tcp_loop keeps_dispatch_udp : keepsdb.

Lemma keeps_udp_loop (p : P) (le : bool) (fuel : nat) (udpTransmits : Z) :
  keeps (I p) (udp_loop le fuel udpTransmits).
Proof.
  revert udpTransmits.
  induction fuel as [|fuel IH]; intros udpTransmits; cbn [udp_loop]; kgo.
Qed.

Lemma keeps_sweep (p : P) : keeps (I p) sweep.
Proof.
  intros st H. unfold sweep. cbn [snd].
  apply (st_map _ _ (Hstable p)); [|exact H].
  intros k r Hk. right. exists k.
  apply map_lookup_filter_Some in Hk. apply Hk.
Qed.

#[local] Hint Resolve keeps_heartbeat keeps_udp_loop keeps_sweep : keepsdb.

Lemma keeps_after_accept (p : P) (le : bool) : keeps (I p) (after_accept le).
Proof.
  unfold after_accept. apply keeps_bind; [kgo|]. intros _.
  apply keeps_snap. intros p' s Hmono Hok.
  apply keeps_bind; [|intros _; kgo].
  apply keeps_forM. intros [k client] Hin.
  assert (Hc : ok p' client).
  { apply (Hok k). apply elem_of_map_to_list, list_elem_of_In. exact Hin. }
  kgo.
Qed.

(** ** The whole interface, for a property that accepting a socket
    keeps *)

Hypothesis Haccept : forall p le fd a, keeps (I p) (accept_one le fd a).

#[local] Hint Resolve Haccept keeps_after_accept : keepsdb.

Lemma keeps_accept_loop (p : P) (le : bool) (fuel : nat) (n : Z) :
  keeps (I p) (accept_loop le fuel n).
Proof.
  revert n. induction fuel as [|fuel IH]; intros n; cbn [accept_loop]; kgo.
Qed.

#[local] Hint Resolve keeps_accept_loop : keepsdb.

Lemma keeps_accept_next (p : P) (le : bool) (fuel : nat) (n : Z) :
  keeps (I p) (accept_next le fuel n).
Proof. unfold accept_next. kgo. Qed.

Lemma keeps_Update (p : P) (le : bool) : keeps (I p) (Update le).
Proof. unfold Update. kgo. Qed.

#[local] Hint Resolve keeps_Update : keepsdb.

Lemma frame_obj_FillDataEventMaps : frame_obj FillDataEventMaps.
Proof.
  assert (H : forall l s,
    connectedClients
      (fold_left
         (fun s '(d, ev) =>
            let s := set_dataEventsByID
                       (<[de_dataID ev := d]> (dataEventsByID s)) s in
            set_dataEventsByName
              (name_insert (name ev) d (dataEventsByName s)) s) l s)
    = connectedClients s
    /\ nextAvailableClientID
      (fold_left
         (fun s '(d, ev) =>
            let s := set_dataEventsByID
                       (<[de_dataID ev := d]> (dataEventsByID s)) s in
            set_dataEventsByName
              (name_insert (name ev) d (dataEventsByName s)) s) l s)
    = nextAvailableClientID s).
  { induction l as [|[d ev] l IH]; intros s; cbn [fold_left].
    - split; reflexivity.
    - match goal with
      | |- context [fold_left _ l ?s'] => destruct (IH s') as [E1 E2]
      end.
      split; (etransitivity; [first [exact E1|exact E2]|reflexivity]). }
  intros s. unfold FillDataEventMaps.
  match goal with
  | |- context [fold_left _ ?l ?s'] => destruct (H l s') as [E1 E2]
  end.
  split; [exact E1|exact E2].
Qed.

Lemma keeps_Start (p : P) (le : bool) (inPort inFamily : Z) :
  keeps (I p) (Start le inPort inFamily).
Proof.
  unfold Start. kgo. apply keeps_upd. exact frame_obj_FillDataEventMaps.
Qed.

Lemma keeps_Stop (p : P) (le : bool) : keeps (I p) (Stop le).
Proof.
  unfold Stop. kgo.
  apply (keeps_set_map p (fun _ => ∅)). intros s k r Hk.
  rewrite lookup_empty in Hk. discriminate Hk.
Qed.

Lemma keeps_SetServerProperties (p : P) (le : bool)
    (inProperties : CrossServerProperties) :
  keeps (I p) (SetServerProperties le inProperties).
Proof. unfold SetServerProperties. kgo. Qed.

Lemma keeps_AddDataHandler (p : P) (n : list byte) (h : option bool) :
  keeps (I p) (AddDataHandler n h).
Proof. unfold AddDataHandler. kgo. Qed.

Lemma keeps_call (p : P) (le : bool) (c : Call) : keeps (I p) (call le c).
Proof.
  destruct c; cbn [call];
    eauto using keeps_Start, keeps_Stop, keeps_Update,
      keeps_SetServerProperties, keeps_SendToAll, keeps_StreamToAll,
      keeps_AddAddressToBlacklist, keeps_RemoveAddressFromBlacklist,
      keeps_AddAddressToWhitelist, keeps_RemoveAddressFromWhitelist,
      keeps_DisconnectClient, keeps_ResetTimeout;
    kgo.
  - apply keeps_AddDataHandler.
Qed.

Lemma keeps_run (p : P) (le : bool) (calls : list Call) (st : Sys) :
  I p st -> I p (run le calls st).
Proof.
  revert st. induction calls as [|c calls IH]; intros st H; cbn [run fold_left].
  - exact H.
  - apply IH. apply keeps_call. exact H.
Qed.

End KeepsServe.

(** * The counter of client ids and the ids issued *)

Section IssuedIds.
Import Server ServerInv.

Lemma bind_snd {A B} (m : M A) (f : A -> M B) (st : Sys) :
  snd ((m ≫= f) st) = snd (f (fst (m st)) (snd (m st))).
Proof. unfold mbind, State_bind. destruct (m st). reflexivity. Qed.

Lemma leads_bind {A B} (I J K : Sys -> Prop) (m : M A) (f : A -> M B) :
  leads I J m -> (forall a, leads J K (f a)) -> leads I K (m ≫= f).
Proof.
  intros Hm Hf st H. unfold mbind, State_bind.
  specialize (Hm st H). destruct (m st) as [a st1]. apply Hf. exact Hm.
Qed.

Lemma keeps_leads {A} (I : Sys -> Prop) (m : M A) : keeps I m -> leads I I m.
Proof. intros H. exact H. Qed.

Lemma leads_weaken {A} (I I' J J' : Sys -> Prop) (m : M A) :
  leads I' J' m -> (forall st, I st -> I' st) -> (forall st, J' st -> J st) ->
  leads I J m.
Proof. intros Hm H1 H2 st H. apply H2, Hm, H1, H. Qed.

(** Everything but the acceptance of a socket leaves the counter and the
    history alone. *)
Lemma stable_same_ids (k : Z * list (CrossClientEntryPtr * Z)) :
  stable (fun _ => True) (same_ids k).
Proof.
  split; unfold same_ids, ids_of; cbn [obj issued]; try (intros; assumption).
  - intros st f Hf H. rewrite (proj2 (Hf (obj st))). exact H.
Qed.

Lemma snapshot_same_ids :
  snapshot (fun (_ : Z * list (CrossClientEntryPtr * Z)) _ => True) same_ids.
Proof. intros k st H. exists k. repeat split; auto. Qed.

Lemma alloc_ids (st : Sys) :
  fst (alloc st) = length (heap st)
  /\ ids_of (snd (alloc st)) = ids_of st
  /\ obj (snd (alloc st)) = obj st.
Proof.
  unfold alloc, mbind, State_bind, sys.
  destruct (sys_now (world st)) as [t w]. repeat split; reflexivity.
Qed.

Lemma same_ids_reject (k : Z * list (CrossClientEntryPtr * Z)) (le : bool)
    (r : CrossClientEntryPtr) :
  keeps (same_ids k) (reject le r).
Proof.
  unfold reject. apply keeps_bind.
  - apply (keeps_fire _ _ stable_same_ids).
  - intros _. apply (keeps_DisconnectClient _ _ stable_same_ids).
Qed.

Lemma accept_one_ids (le : bool) (fd : option Z) (a : CrossSockAddress)
    (st : Sys) :
  accepted st (ids_of (snd (accept_one le fd a st))).
Proof.
  unfold accept_one.
  unfold mbind at 1, State_bind at 1.
  destruct (alloc_ids st) as (Hr & Hk & Ho).
  destruct (alloc st) as [r st1]. cbn [fst snd] in Hr, Hk, Ho. subst r.
  unfold mbind at 1, State_bind at 1, gets at 1. cbv beta iota.
  rewrite Ho.
  set (c := nextAvailableClientID (obj st)).
  set (r := length (heap st)).
  set (J := fun st' : Sys => accepted st (ids_of st')).
  assert (HJ : forall st', same_ids (ids_of st) st' -> J st')
    by (intros st' H; left; exact H).
  match goal with
  | |- accepted st (ids_of (snd (?m st1))) =>
      cut (leads (same_ids (ids_of st)) J m);
        [intros HL; exact (HL st1 Hk)|]
  end.
  clear st1 Hk Ho.
  assert (Hrej : leads (same_ids (ids_of st)) J (reject le r)).
  { intros st' H. apply HJ. apply same_ids_reject. exact H. }
  do 3 (eapply leads_bind;
        [apply keeps_leads, (keeps_upd_entry _ _ stable_same_ids);
         left; intros e He; exact He|intros _]).
  destruct (connection_list_entry a (obj st)) as [canConnect onList].
  destruct (negb (useBlacklist (serverProperties (obj st)))
            || negb onList || canConnect); [|exact Hrej].
  destruct (negb (useWhitelist (serverProperties (obj st))) || canConnect);
    [|exact Hrej].
  eapply leads_bind.
  { apply keeps_leads. destruct (handlers (obj st) validateEvent).
    - apply keeps_bind; [apply (keeps_sys _ _ stable_same_ids)|].
      intros answer. apply keeps_bind; [|intros _; apply keeps_ret].
      apply (keeps_log _ _ stable_same_ids).
    - apply keeps_ret. }
  intros [|]; [|exact Hrej].
  intros st' H. unfold same_ids, ids_of in H. injection H as Hc Hi.
  do 3 (rewrite bind_snd; cbv beta).
  unfold note_issued, upd, modify. cbn [fst snd].
  match goal with
  | |- J (snd (?m ?s)) =>
      assert (K : keeps (same_ids (ids_of s)) m);
        [|pose proof (K s eq_refl) as Hs]
  end.
  { apply keeps_bind;
      [destruct (connectedClients (obj st) !! c);
         [apply (keeps_release _ _ stable_same_ids)|apply keeps_ret]
      |intros _].
    apply keeps_bind; [apply (keeps_sys _ _ stable_same_ids)|intros mem].
    apply keeps_bind; [|intros _; apply keeps_ret].
    apply (keeps_SendToClient _ _ stable_same_ids). }
  unfold J. right.
  unfold same_ids in Hs. etransitivity; [exact Hs|].
  unfold ids_of. cbn [obj issued nextAvailableClientID set_connectedClients
                       set_nextAvailableClientID].
  rewrite Hi. reflexivity.
Qed.

Lemma ids_ok_ext (st st' : Sys) :
  ids_of st' = ids_of st -> ids_ok st -> ids_ok st'.
Proof.
  unfold ids_of, ids_ok. intros [= Hc Hi]. rewrite Hc, Hi. tauto.
Qed.

Lemma u32_succ (z : Z) : u32 (u32 z + 1) = u32 (z + 1).
Proof. unfold u32. rewrite Zplus_mod_idemp_l. reflexivity. Qed.

Lemma ids_ok_accepted (st st' : Sys) :
  accepted st (ids_of st') -> ids_ok st -> ids_ok st'.
Proof.
  intros [H|H] Hok; [apply (ids_ok_ext st); [exact H|exact Hok]|].
  unfold ids_of in H. injection H as Hc Hi.
  destruct Hok as [Hn Hids]. unfold ids_ok. rewrite Hc, Hi, Hn.
  rewrite length_app. cbn [length]. split.
  - rewrite u32_succ. f_equal. lia.
  - intros i Hi'.
    destruct (Nat.eq_dec i (length (issued st))) as [->|Hne].
    + rewrite app_nth2, Nat.sub_diag by lia. reflexivity.
    + rewrite app_nth1 by lia. apply Hids. lia.
Qed.

Lemma stable_ids_ok : forall _ : unit, stable (fun _ => True) ids_ok.
Proof.
  intros _.
  split; intros; (eapply ids_ok_ext; [|eassumption]);
    unfold ids_of; cbn [obj issued]; try reflexivity.
  match goal with
  | Hf : frame_obj ?f |- _ => rewrite (proj2 (Hf (obj st)))
  end.
  reflexivity.
Qed.

Lemma snapshot_ids_ok : snapshot (fun (_ : unit) _ => True) (fun _ => ids_ok).
Proof.
  intros p st H. exists p. split; [exact H|]. split; [auto|].
  split; [auto|]. intros st' H'. exact H'.
Qed.

Lemma ids_ok_accept_one (le : bool) (fd : option Z) (a : CrossSockAddress) :
  keeps ids_ok (accept_one le fd a).
Proof.
  intros st H. apply (ids_ok_accepted st); [apply accept_one_ids|exact H].
Qed.

Lemma ids_ok_fresh (script : list Response) : ids_ok (fresh script).
Proof. split; [reflexivity|]. intros i Hi. cbn in Hi. lia. Qed.

Lemma ids_ok_run (le : bool) (calls : list Call) (script : list Response) :
  ids_ok (run le calls (fresh script)).
Proof.
  apply (keeps_run (fun (_ : unit) _ => True) (fun _ => ids_ok)
           stable_ids_ok snapshot_ids_ok
           (fun _ => ids_ok_accept_one) tt).
  apply ids_ok_fresh.
Qed.

Lemma OnReceiveNewData_ids (le : bool) (inData : list byte) (inLength : Z)
    (inClient : option CrossClientEntryPtr) (inMethod : NetTransMethod)
    (st : Sys) :
  ids_of (snd (OnReceiveNewData le inData inLength inClient inMethod st))
  = ids_of st.
Proof.
  apply (keeps_OnReceiveNewData _ _ stable_same_ids snapshot_same_ids
           (ids_of st)); [intros; exact Logic.I|reflexivity].
Qed.

End IssuedIds.

(** * Stepping through the server *)

Lemma length_set_nth {A} (i : nat) (f : A -> A) (l : list A) :
  length (set_nth i f l) = length l.
Proof.
  revert i. induction l as [|x l IH]; intros [|i]; cbn; try reflexivity.
  rewrite IH. reflexivity.
Qed.

Lemma nth_set_nth_eq {A} (i : nat) (f : A -> A) (l : list A) (d : A) :
  (i < length l)%nat -> nth i (set_nth i f l) d = f (nth i l d).
Proof.
  revert i. induction l as [|x l IH]; intros [|i] H; cbn in *; try lia.
  - reflexivity.
  - apply IH. lia.
Qed.

Lemma nth_set_nth_ne {A} (i j : nat) (f : A -> A) (l : list A) (d : A) :
  i <> j -> nth j (set_nth i f l) d = nth j l d.
Proof.
  revert i j. induction l as [|x l IH]; intros [|i] [|j] H; cbn;
    try reflexivity; try contradiction.
  apply IH. lia.
Qed.

Section ServerSteps.
Import Server ServerInv.

Lemma server_sys_eq {A} (m : State World A) (st : Sys) :
  sys m st
  = (fst (m (world st)),
     {| obj := obj st; heap := heap st; world := snd (m (world st));
        events := events st; issued := issued st |}).
Proof. unfold sys. destruct (m (world st)). reflexivity. Qed.

Lemma bind_eq {A B} (m : M A) (f : A -> M B) (st : Sys) :
  (m ≫= f) st = f (fst (m st)) (snd (m st)).
Proof. unfold mbind, State_bind. destruct (m st). reflexivity. Qed.

Lemma mret_eq {A} (x : A) (st : Sys) : (mret x : M A) st = (x, st).
Proof. reflexivity. Qed.

Lemma gets_eq {A} (g : Sys -> A) (st : Sys) : gets g st = (g st, st).
Proof. reflexivity. Qed.

Lemma deref_eq (r : CrossClientEntryPtr) (st : Sys) :
  deref r st = (ent st r, st).
Proof. reflexivity. Qed.

Lemma upd_eq (f : CrossServer -> CrossServer) (st : Sys) :
  upd f st
  = (tt, {| obj := f (obj st); heap := heap st; world := world st;
            events := events st; issued := issued st |}).
Proof. reflexivity. Qed.

Lemma upd_entry_eq (r : CrossClientEntryPtr)
    (f : CrossClientEntry -> CrossClientEntry) (st : Sys) :
  upd_entry r f st
  = (tt, {| obj := obj st; heap := set_nth r f (heap st); world := world st;
            events := events st; issued := issued st |}).
Proof. reflexivity. Qed.

Lemma log_eq (e : Event) (st : Sys) :
  log e st
  = (tt, {| obj := obj st; heap := heap st; world := world st;
            events := events st ++ [e]; issued := issued st |}).
Proof. reflexivity. Qed.

(** The callbacks among [l] that have a handler installed. *)
Lemma fire_eq (h : Handler) (e : Event) (st : Sys) :
  fire h e st
  = (tt, {| obj := obj st; heap := heap st; world := world st;
            events := events st ++ (if handlers (obj st) h then [e] else []);
            issued := issued st |}).
Proof.
  unfold fire. destruct (handlers (obj st) h); [reflexivity|].
  rewrite app_nil_r. destruct st; reflexivity.
Qed.

Lemma SendToClient_eq (le : bool) (p : CrossPack) (r : CrossClientEntryPtr)
    (b : bool) (st : Sys) (fd : Z) :
  CrossClientEntryState_eqb (state (ent st r)) CLIENT_ENTRY_DISCONNECTED
  = false ->
  socket (ent st r) = Some fd ->
  SendToClient le p (Some r) b st
  = (fst (send_until b (script (world st))), Serialize le p,
     {| obj := obj st; heap := heap st;
        world := {| script := snd (send_until b (script (world st)));
                    actions := actions (world st)
                               ++ [TcpSend fd (wire le p)
                                     (fst (send_until b (script (world st))))] |};
        events := events st; issued := issued st |}).
Proof.
  intros Hs Hfd. unfold SendToClient.
  rewrite bind_eq, deref_eq. cbn [fst snd]. rewrite Hs, Hfd.
  rewrite bind_eq, server_sys_eq. cbn [fst snd].
  unfold sys_send. destruct (send_until b (script (world st))) as [res s'].
  reflexivity.
Qed.

Lemma leave_init_clientID (e : CrossClientEntry) :
  clientID (leave_init e) = clientID e.
Proof. unfold leave_init. destruct (CrossClientEntryState_eqb _ _); reflexivity. Qed.

Lemma leave_init_customData (e : CrossClientEntry) :
  customData (leave_init e) = customData e.
Proof. unfold leave_init. destruct (CrossClientEntryState_eqb _ _); reflexivity. Qed.

Lemma leave_init_socket (e : CrossClientEntry) :
  socket (leave_init e) = socket e.
Proof. unfold leave_init. destruct (CrossClientEntryState_eqb _ _); reflexivity. Qed.

Lemma leave_init_running (e : CrossClientEntry) :
  CrossClientEntryState_eqb (state (leave_init e)) CLIENT_ENTRY_DISCONNECTED
  = CrossClientEntryState_eqb (state e) CLIENT_ENTRY_DISCONNECTED.
Proof.
  unfold leave_init. destruct (state e) eqn:E; cbn; rewrite ?E; reflexivity.
Qed.

(** [SendToClient] talks to the environment only. *)
Lemma SendToClient_frame (le : bool) (p : CrossPack)
    (c : option CrossClientEntryPtr) (b : bool) (st : Sys) :
  let st' := snd (SendToClient le p c b st) in
  obj st' = obj st /\ heap st' = heap st /\ events st' = events st
  /\ issued st' = issued st.
Proof.
  unfold SendToClient. destruct c as [r|]; [|repeat split].
  rewrite bind_eq, deref_eq. cbn [fst snd].
  destruct (CrossClientEntryState_eqb _ _); [repeat split|].
  destruct (socket (ent st r)); [|repeat split].
  rewrite bind_eq, server_sys_eq. cbn [fst snd]. repeat split.
Qed.

(** [release] talks to the environment only, and only to close. *)
Lemma release_eq (r : CrossClientEntryPtr) (st : Sys) :
  exists acts,
    release r st
    = (tt, {| obj := obj st; heap := heap st;
              world := {| script := script (world st);
                          actions := actions (world st) ++ acts |};
              events := events st; issued := issued st |})
    /\ (acts = []
        \/ exists fd, socket (ent st r) = Some fd /\ acts = [Close fd]).
Proof.
  unfold release. rewrite bind_eq, gets_eq. cbn [fst snd].
  destruct (_ || _).
  - exists []. rewrite mret_eq, app_nil_r. split; [|left; reflexivity].
    destruct st as [o h [sc ac] ev i]. reflexivity.
  - rewrite bind_eq, deref_eq. cbn [fst snd].
    destruct (socket (ent st r)) as [fd|] eqn:E.
    + exists [Close fd]. rewrite server_sys_eq.
      split; [reflexivity|right; exists fd; split; reflexivity].
    + exists []. rewrite mret_eq, app_nil_r. split; [|left; reflexivity].
      destruct st as [o h [sc ac] ev i]. reflexivity.
Qed.

Ltac sstep :=
  first [ rewrite bind_eq | rewrite mret_eq | rewrite gets_eq
        | rewrite deref_eq | rewrite upd_eq | rewrite upd_entry_eq
        | rewrite log_eq | rewrite fire_eq | rewrite server_sys_eq ];
  cbv beta; cbn [fst snd obj heap world events issued].

Ltac ent_norm :=
  unfold ent in *; cbn [heap];
  rewrite ?nth_set_nth_eq by (rewrite ?length_set_nth; assumption);
  cbn [address socket clientID state tcpBuffer timeoutDelay timeoutTimer
       customData ping set_e_address set_e_socket set_e_clientID set_e_state
       set_e_tcpBuffer set_e_timeoutDelay set_e_timeoutTimer set_e_customData
       set_e_ping].

Ltac send fd :=
  match goal with
  | |- context [SendToClient ?le ?p (Some ?r) ?b ?s] =>
      rewrite (SendToClient_eq le p r b s fd) by (ent_norm; assumption)
  end;
  cbv beta; cbn [fst snd obj heap world events issued].

End ServerSteps.

(** * C5: a RECONNECT packet at the server *)

Section ServerReconnect.
Import Server ServerInv.

Ltac sstep :=
  first [ rewrite bind_eq | rewrite mret_eq | rewrite gets_eq
        | rewrite deref_eq | rewrite upd_eq | rewrite upd_entry_eq
        | rewrite log_eq | rewrite fire_eq | rewrite server_sys_eq ];
  cbv beta; cbn [fst snd obj heap world events issued].

Ltac ent_norm :=
  unfold ent in *; cbn [heap];
  rewrite ?nth_set_nth_eq by (rewrite ?length_set_nth; assumption);
  cbn [address socket clientID state tcpBuffer timeoutDelay timeoutTimer
       customData ping set_e_address set_e_socket set_e_clientID set_e_state
       set_e_tcpBuffer set_e_timeoutDelay set_e_timeoutTimer set_e_customData
       set_e_ping];
  rewrite ?leave_init_clientID, ?leave_init_customData, ?leave_init_socket,
    ?leave_init_running;
  cbn [address socket clientID state tcpBuffer timeoutDelay timeoutTimer
       customData ping set_e_address set_e_socket set_e_clientID set_e_state
       set_e_tcpBuffer set_e_timeoutDelay set_e_timeoutTimer set_e_customData
       set_e_ping].

Ltac send fd :=
  match goal with
  | |- context [SendToClient ?le ?p (Some ?r) ?b ?s] =>
      rewrite (SendToClient_eq le p r b s fd) by (ent_norm; assumption)
  end;
  cbv beta; cbn [fst snd obj heap world events issued].

Ltac quiet :=
  cbn [actions];
  repeat (rewrite sys_now_actions || rewrite GetElapsedTime_actions
          || rewrite sys_new_actions || (progress cbn [actions])).

(** What the two answers carry, whatever their storage held. *)
Lemma idPack_fields (mem : nat -> byte) (le : bool) (id x : Z) :
  GetDataID (idPack mem le id x) = id
  /\ payloadSize (header (idPack mem le id x)) = 4
  /\ payload_bytes (idPack mem le id x) = le_bytes 4 x.
Proof.
  unfold idPack.
  split; [reflexivity|]. split; [reflexivity|].
  destruct le; cbv -[Z.modulo Z.div byte_of_Z]; reflexivity.
Qed.

Lemma reconnect_test_fields (mem : nat -> byte) (le : bool)
    (s : CrossServer) :
  GetDataID (reconnect_test mem le s) = ALIVENESS_TEST
  /\ payloadSize (header (reconnect_test mem le s)) = 4
  /\ payload_bytes (reconnect_test mem le s)
     = le_bytes 4 (bits_of_float
                     (float_of_double
                        (dmul (alivenessTestDelay (serverProperties s))
                           CROSS_SOCK_TIMEOUT_FACTOR))).
Proof.
  unfold reconnect_test, alivenessTest, AddToPayload_float.
  generalize (bits_of_float
                (float_of_double
                   (dmul (alivenessTestDelay (serverProperties s))
                      CROSS_SOCK_TIMEOUT_FACTOR))).
  intros z.
  split; [reflexivity|]. split; [reflexivity|].
  destruct le; cbv -[Z.modulo Z.div byte_of_Z]; reflexivity.
Qed.

Lemma on_reconnect_denied (le : bool) (r : CrossClientEntryPtr)
    (q : CrossPack) (st : Sys) (fd : Z) :
  (r < length (heap st))%nat ->
  CrossClientEntryState_eqb (state (ent st r)) CLIENT_ENTRY_DISCONNECTED
  = false ->
  socket (ent st r) = Some fd ->
  let oldID := fst (RemoveFromPayload_uint le 4 q) in
  oldID = 0 \/ is_Some (connectedClients (obj st) !! oldID) ->
  let st' := snd (on_reconnect le r q st) in
  (exists m1 m2 r1 r2,
     actions (world st')
     = actions (world st)
       ++ [TcpSend fd (wire le (reconnect_test m1 le (obj st))) r1;
           TcpSend fd
             (wire le (idPack m2 le INIT_CLIENT_ID (clientID (ent st r))))
             r2])
  /\ events st'
     = events st
       ++ fired (obj st)
            [OnReconnectFailed r; OnConnect r; OnInitializeClient r]
  /\ connectedClients (obj st') = connectedClients (obj st)
  /\ disconnectedClients (obj st') = disconnectedClients (obj st)
  /\ clientID (ent st' r) = clientID (ent st r)
  /\ customData (ent st' r) = customData (ent st r).
Proof.
  intros Hr Hs Hfd oldID Hold st'. subst st'. unfold on_reconnect, ResetTimeout.
  fold oldID.
  assert (Hc : (oldID =? 0)
               || bool_decide (is_Some (connectedClients (obj st) !! oldID))
               = true).
  { destruct Hold as [->|H]; [reflexivity|].
    rewrite (bool_decide_eq_true_2 _ H). apply orb_true_r. }
  repeat sstep. send fd. rewrite Hc. repeat sstep. send fd.
  split; [|split; [|split; [|split; [|split]]]].
  - do 4 eexists. quiet. rewrite <- app_assoc. ent_norm. reflexivity.
  - unfold fired. cbn [List.filter handler_of].
    destruct (handlers (obj st) failedReconnectEvent),
      (handlers (obj st) connectEvent),
      (handlers (obj st) initializeClientEvent);
      rewrite <- ?app_assoc; rewrite ?app_nil_r; reflexivity.
  - reflexivity.
  - reflexivity.
  - ent_norm. reflexivity.
  - ent_norm. reflexivity.
Qed.

Lemma on_reconnect_granted (le : bool) (r : CrossClientEntryPtr)
    (q : CrossPack) (st : Sys) (fd : Z) :
  (r < length (heap st))%nat ->
  CrossClientEntryState_eqb (state (ent st r)) CLIENT_ENTRY_DISCONNECTED
  = false ->
  socket (ent st r) = Some fd ->
  let oldID := fst (RemoveFromPayload_uint le 4 q) in
  oldID <> 0 -> connectedClients (obj st) !! oldID = None ->
  let st' := snd (on_reconnect le r q st) in
  connectedClients (obj st')
  = <[oldID := r]> (delete (clientID (ent st r)) (connectedClients (obj st)))
  /\ clientID (ent st' r) = oldID
  /\ (exists m1 m2 r1 r2,
        actions (world st')
        = actions (world st)
          ++ [TcpSend fd (wire le (reconnect_test m1 le (obj st))) r1;
              TcpSend fd (wire le (idPack m2 le RECONNECT_PACK oldID)) r2])
  /\ match disconnectedClients (obj st) !! oldID with
     | Some o =>
         customData (ent st' r) = customData (ent st o)
         /\ disconnectedClients (obj st')
            = delete oldID (disconnectedClients (obj st))
         /\ events st' = events st ++ fired (obj st) [OnReconnect r]
     | None =>
         customData (ent st' r) = customData (ent st r)
         /\ disconnectedClients (obj st') = disconnectedClients (obj st)
         /\ events st'
            = events st
              ++ fired (obj st) [OnInitializeClient r; OnReconnect r]
     end.
Proof.
  intros Hr Hs Hfd oldID Hold Hfree st'. subst st'.
  unfold on_reconnect, ResetTimeout. fold oldID.
  assert (Hc : (oldID =? 0)
               || bool_decide (is_Some (connectedClients (obj st) !! oldID))
               = false).
  { rewrite (proj2 (Z.eqb_neq _ _) Hold), Hfree. reflexivity. }
  repeat sstep. send fd. rewrite Hc. repeat sstep.
  cbn [connectedClients disconnectedClients set_connectedClients
       set_disconnectedClients].
  destruct (disconnectedClients (obj st) !! oldID) as [o|] eqn:Ho;
    repeat sstep; send fd;
    cbn [connectedClients disconnectedClients set_connectedClients
         set_disconnectedClients handlers];
    (split; [ent_norm; reflexivity|]);
    (split; [ent_norm; reflexivity|]);
    (split; [do 4 eexists; quiet; rewrite <- app_assoc; reflexivity|]).
  - split; [|split].
    + destruct (Nat.eq_dec o r) as [->|Hne].
      * ent_norm. reflexivity.
      * unfold ent. cbn [heap].
        rewrite !(nth_set_nth_ne r o)
          by (intros E; apply Hne; symmetry; exact E).
        rewrite !nth_set_nth_eq by (rewrite ?length_set_nth; assumption).
        rewrite leave_init_customData. reflexivity.
    + reflexivity.
    + unfold fired. cbn [List.filter handler_of].
      destruct (handlers (obj st) reconnectEvent);
        rewrite <- ?app_assoc; rewrite ?app_nil_r; reflexivity.
  - split; [|split].
    + ent_norm. reflexivity.
    + reflexivity.
    + unfold fired. cbn [List.filter handler_of].
      destruct (handlers (obj st) initializeClientEvent),
        (handlers (obj st) reconnectEvent);
        rewrite <- ?app_assoc; rewrite ?app_nil_r; reflexivity.
Qed.

Lemma OnReceiveNewData_RECONNECT_PACK (le : bool) (inData : list byte)
    (inLength : Z) (r : CrossClientEntryPtr) (st : Sys) :
  complete_frame le inData inLength ->
  GetDataID (inPack le inData) = RECONNECT_PACK ->
  snd (OnReceiveNewData le inData inLength (Some r) TCP st)
  = snd (on_reconnect le r (inPack le inData) st).
Proof.
  intros (H1 & H2 & H3) Hid. unfold OnReceiveNewData.
  rewrite (proj2 (Z.geb_le _ _) H1).
  destruct (payloadSize (PeakHeader le inData) >? MAX_PAYLOAD_BYTES) eqn:E;
    [apply Z.gtb_lt in E; lia|].
  rewrite (proj2 (Z.leb_le _ _) H3).
  fold (inPack le inData). rewrite Hid.
  rewrite bind_eq, gets_eq. cbn [fst snd].
  change (RECONNECT_PACK =? HANDSHAKE) with false.
  change (RECONNECT_PACK =? INIT_CLIENT_ID) with false.
  change (RECONNECT_PACK =? DISCONNECT_PACK) with false.
  change (RECONNECT_PACK =? RECONNECT_PACK) with true.
  cbv iota. rewrite bind_eq, mret_eq. reflexivity.
Qed.

(** C5: a RECONNECT packet that carries [oldID], received on the stream
    of a live peer [r].  When [oldID] is 0 or a key of the table of
    connected clients, the server answers INIT_CLIENT_ID with the peer's
    provisional id and executes FailedReconnect, Connect and
    InitializeClient, in this order.  Otherwise the peer is moved from
    its provisional id to [oldID] in the table; when a disconnected
    record exists for [oldID] its user data goes to the peer and the
    record is dropped, and when none exists InitializeClient is executed;
    then the server answers RECONNECT with [oldID] and executes
    Reconnect.  Either answer follows the aliveness test that every
    RECONNECT packet is answered with.  The answer of a kind has that
    kind as its data id and the id it carries as its payload of four
    bytes, and the aliveness test carries the timeout of the server as
    a float, whatever the storage of the packets held. *)
Theorem C5_reconnect (le : bool) (inData : list byte) (inLength : Z)
    (r : CrossClientEntryPtr) (st : Sys) (fd : Z) :
  complete_frame le inData inLength ->
  GetDataID (inPack le inData) = RECONNECT_PACK ->
  (r < length (heap st))%nat ->
  state (ent st r) <> CLIENT_ENTRY_DISCONNECTED ->
  socket (ent st r) = Some fd ->
  let oldID := fst (RemoveFromPayload_uint le 4 (inPack le inData)) in
  let st' := snd (OnReceiveNewData le inData inLength (Some r) TCP st) in
  let sent id x m1 m2 r1 r2 :=
    actions (world st')
    = actions (world st)
      ++ [TcpSend fd (wire le (reconnect_test m1 le (obj st))) r1;
          TcpSend fd (wire le (idPack m2 le id x)) r2] in
  (* the answers, whatever their storage held: the packet of kind [id]
     that carries [x], and the aliveness test *)
  (forall mem id x,
     GetDataID (idPack mem le id x) = id
     /\ payloadSize (header (idPack mem le id x)) = 4
     /\ payload_bytes (idPack mem le id x) = le_bytes 4 x)
  /\ (forall mem s,
        GetDataID (reconnect_test mem le s) = ALIVENESS_TEST
        /\ payloadSize (header (reconnect_test mem le s)) = 4
        /\ payload_bytes (reconnect_test mem le s)
           = le_bytes 4 (bits_of_float
                           (float_of_double
                              (dmul (alivenessTestDelay (serverProperties s))
                                 CROSS_SOCK_TIMEOUT_FACTOR))))
  /\ (oldID = 0 \/ is_Some (connectedClients (obj st) !! oldID) ->
   (exists m1 m2 r1 r2,
      sent INIT_CLIENT_ID (clientID (ent st r)) m1 m2 r1 r2)
   /\ events st'
      = events st
        ++ fired (obj st)
             [OnReconnectFailed r; OnConnect r; OnInitializeClient r]
   /\ connectedClients (obj st') = connectedClients (obj st)
   /\ disconnectedClients (obj st') = disconnectedClients (obj st)
   /\ clientID (ent st' r) = clientID (ent st r)
   /\ customData (ent st' r) = customData (ent st r))
  /\ (oldID <> 0 -> connectedClients (obj st) !! oldID = None ->
      connectedClients (obj st')
      = <[oldID := r]>
          (delete (clientID (ent st r)) (connectedClients (obj st)))
      /\ clientID (ent st' r) = oldID
      /\ (exists m1 m2 r1 r2, sent RECONNECT_PACK oldID m1 m2 r1 r2)
      /\ match disconnectedClients (obj st) !! oldID with
         | Some o =>
             customData (ent st' r) = customData (ent st o)
             /\ disconnectedClients (obj st')
                = delete oldID (disconnectedClients (obj st))
             /\ events st' = events st ++ fired (obj st) [OnReconnect r]
         | None =>
             customData (ent st' r) = customData (ent st r)
             /\ disconnectedClients (obj st') = disconnectedClients (obj st)
             /\ events st'
                = events st
                  ++ fired (obj st) [OnInitializeClient r; OnReconnect r]
         end).
Proof.
  intros Hf Hid Hr Hs Hfd. cbv zeta.
  rewrite (OnReceiveNewData_RECONNECT_PACK le inData inLength r st Hf Hid).
  assert (Hs' : CrossClientEntryState_eqb (state (ent st r))
                  CLIENT_ENTRY_DISCONNECTED = false)
    by (destruct (state (ent st r)); try reflexivity; contradiction).
  split; [intros mem id x; apply idPack_fields|].
  split; [intros mem s; apply reconnect_test_fields|].
  split.
  - intros Hold.
    apply (on_reconnect_denied le r (inPack le inData) st fd Hr Hs' Hfd Hold).
  - intros Hold Hfree.
    apply (on_reconnect_granted le r (inPack le inData) st fd Hr Hs' Hfd
             Hold Hfree).
Qed.

Lemma C5_witness :
  let st := reconnecting_server in
  let st' := snd (OnReceiveNewData true reconnect_frame 10 (Some 0%nat) TCP st) in
  complete_frame true reconnect_frame 10
  /\ GetDataID (inPack true reconnect_frame) = RECONNECT_PACK
  /\ (0 < length (heap st))%nat
  /\ state (ent st 0%nat) <> CLIENT_ENTRY_DISCONNECTED
  /\ socket (ent st 0%nat) = Some 4
  /\ fst (RemoveFromPayload_uint true 4 (inPack true reconnect_frame)) = 1
  /\ connectedClients (obj st) !! 1 = None
  /\ connectedClients (obj st') = {[1 := 0%nat]}
  /\ clientID (ent st' 0%nat) = 1
  /\ customData (ent st' 0%nat) = 77.
Proof.
  intros st st'.
  assert (Hf : complete_frame true reconnect_frame 10)
    by (repeat split; intros H; discriminate H).
  assert (Hs : state (ent st 0%nat) <> CLIENT_ENTRY_DISCONNECTED)
    by (intros H; discriminate H).
  assert (Hr : (0 < length (heap st))%nat) by (cbn; lia).
  assert (Hold : fst (RemoveFromPayload_uint true 4 (inPack true reconnect_frame))
                 <> 0) by (intros H; discriminate H).
  destruct (C5_reconnect true reconnect_frame 10 0%nat st 4 Hf eq_refl Hr Hs
              eq_refl) as (_ & _ & _ & HB).
  destruct (HB Hold eq_refl) as (Hm & Hid & _ & Hd).
  split; [exact Hf|]. split; [reflexivity|]. split; [exact Hr|].
  split; [exact Hs|]. split; [reflexivity|]. split; [reflexivity|].
  split; [reflexivity|].
  split; [etransitivity; [exact Hm|vm_compute; reflexivity]|].
  split; [exact Hid|].
  exact (proj1 Hd).
Defined.

End ServerReconnect.

(** * C7: peers the policy list refuses *)

Section Refused.
Import Server ServerInv.
Variable T : list CrossClientEntryPtr.

Lemma stable_refused (n : nat) : stable (served T n) (refused T n).
Proof.
  split.
  - intros st w H. exact H.
  - intros st ev H. exact H.
  - intros st f Hf (H1 & H2 & H3). split; [exact H1|]. split; [|exact H3].
    cbn [obj heap]. rewrite (proj1 (Hf (obj st))). exact H2.
  - intros st m Hm (H1 & H2 & H3). split; [exact H1|]. split; [|exact H3].
    cbn [obj heap connectedClients set_connectedClients].
    intros k r Hk. destruct (Hm k r Hk) as [[Hr Hn]|[k' Hk']].
    + split; [lia|exact Hn].
    + apply (H2 k' r Hk').
  - intros st r f Hf (H1 & H2 & H3). unfold refused, ent. cbn [obj heap].
    rewrite length_set_nth. split; [exact H1|]. split; [exact H2|].
    intros r' Hr'. destruct (H3 r' Hr') as [Hlt Hs]. split; [exact Hlt|].
    destruct (Nat.eq_dec r r') as [->|Hne].
    + rewrite nth_set_nth_eq by exact Hlt.
      destruct Hf as [Hf|[_ Hf]]; [apply Hf; exact Hs|contradiction].
    + rewrite nth_set_nth_ne by exact Hne. exact Hs.
Qed.

Lemma refused_weaken (n n' : nat) (st : Sys) :
  (n <= n')%nat -> refused T n' st -> refused T n st.
Proof. intros Hn (H1 & H2). split; [lia|exact H2]. Qed.

Lemma snapshot_refused : snapshot (served T) (refused T).
Proof.
  intros n st (H1 & H2 & H3). exists (length (heap st)).
  split; [split; [lia|split; assumption]|].
  split; [intros r [Hr Hn]; split; [lia|exact Hn]|].
  split; [intros k r Hk; apply (H2 k r Hk)|].
  intros st'. apply refused_weaken. exact H1.
Qed.

Lemma alloc_eq (st : Sys) :
  alloc st
  = (length (heap st),
     {| obj := obj st;
        heap := heap st ++ [CrossClientEntry_new (fst (sys_now (world st)))];
        world := snd (sys_now (world st)); events := events st;
        issued := issued st |}).
Proof.
  unfold alloc. rewrite bind_eq, server_sys_eq. reflexivity.
Qed.

Lemma refused_alloc (n : nat) (st : Sys) :
  refused T n st ->
  refused T (S (length (heap st))) (snd (alloc st))
  /\ served T (S (length (heap st))) (length (heap st)).
Proof.
  intros (H1 & H2 & H3). rewrite alloc_eq. cbn [snd]. split.
  - unfold refused, ent. cbn [obj heap]. rewrite length_app. cbn [length].
    split; [lia|]. split.
    + intros k r Hk. destruct (H2 k r Hk). split; [lia|assumption].
    + intros r Hr. destruct (H3 r Hr) as [Hlt Hs]. split; [lia|].
      rewrite app_nth1 by exact Hlt. exact Hs.
  - split; [lia|]. intros Hin. destruct (H3 _ Hin). lia.
Qed.

Lemma refused_note_issued (n : nat) (r : CrossClientEntryPtr) (id : Z) :
  keeps (refused T n) (note_issued r id).
Proof. intros st H. exact H. Qed.

Lemma refused_counter (n : nat) (c : Z) :
  keeps (refused T n) (upd (set_nextAvailableClientID c)).
Proof. intros st H. exact H. Qed.

Lemma refused_accept_one (n : nat) (le : bool) (fd : option Z)
    (a : CrossSockAddress) :
  keeps (refused T n) (accept_one le fd a).
Proof.
  intros st H. unfold accept_one. rewrite bind_eq.
  destruct (refused_alloc n st H) as [H1 Hok].
  assert (Hn : (n <= S (length (heap st)))%nat) by (destruct H; lia).
  apply (refused_weaken n (S (length (heap st)))); [exact Hn|].
  rewrite alloc_eq in *. cbn [fst snd] in *.
  set (r := length (heap st)) in *. set (n' := S r) in *.
  match goal with
  | |- refused T n' (snd (?m ?s)) =>
      apply (fun K : keeps (refused T n') m => K s H1)
  end.
  clear H H1 Hn.
  pose proof (fun A => @keeps_sys _ (served T) (refused T) stable_refused
                          A n') as K1.
  pose proof (keeps_log _ _ stable_refused n') as K2.
  pose proof (keeps_fire _ _ stable_refused n') as K3.
  pose proof (keeps_upd_entry _ _ stable_refused n') as K4.
  pose proof (keeps_DisconnectClient _ _ stable_refused n') as K5.
  pose proof (keeps_SendToClient _ _ stable_refused n') as K6.
  pose proof (refused_note_issued n') as K7.
  pose proof (refused_counter n') as K8.
  pose proof (keeps_release _ _ stable_refused n') as K10.
  assert (K9 : forall c, keeps (refused T n')
                 (upd (fun s' => set_connectedClients
                                   (<[c := r]> (connectedClients s')) s'))).
  { intros c. apply (keeps_set_map _ _ stable_refused n').
    intros s k r' Hk. apply lookup_insert_Some in Hk.
    destruct Hk as [[_ <-]|[_ Hk]]; [left; exact Hok|right; exists k; exact Hk]. }
  unfold reject. kgo.
Qed.

End Refused.

Section Rejection.
Import Server ServerInv.

Ltac sstep :=
  first [ rewrite bind_eq | rewrite mret_eq | rewrite gets_eq
        | rewrite deref_eq | rewrite upd_eq | rewrite upd_entry_eq
        | rewrite log_eq | rewrite fire_eq | rewrite server_sys_eq ];
  cbv beta; cbn [fst snd obj heap world events issued].

Lemma nth_app_new {A} (l : list A) (x d : A) : nth (length l) (l ++ [x]) d = x.
Proof. rewrite app_nth2, Nat.sub_diag by lia. reflexivity. Qed.

Ltac new_norm :=
  unfold ent; cbn [heap];
  rewrite ?nth_set_nth_eq
    by (rewrite ?length_set_nth, length_app; cbn [length]; lia);
  rewrite ?nth_app_new;
  cbn [address socket clientID state tcpBuffer timeoutDelay timeoutTimer
       customData ping set_e_address set_e_socket set_e_clientID set_e_state
       set_e_tcpBuffer set_e_timeoutDelay set_e_timeoutTimer set_e_customData
       set_e_ping CrossClientEntry_new negb CrossClientEntryState_eqb
       serverProperties handlers connectedClients disconnectedClients
       nextAvailableClientID set_disconnectedClients].

Lemma policy_gate {A} (a : CrossSockAddress) (s : CrossServer) (X R : A) :
  policy_rejects a s ->
  (let '(canConnect, onList) := connection_list_entry a s in
   if negb (useBlacklist (serverProperties s)) || negb onList || canConnect
   then if negb (useWhitelist (serverProperties s)) || canConnect
        then X else R
   else R) = R.
Proof.
  unfold policy_rejects, connection_list_entry.
  intros [[Hb Hf]|[Hw Hf]].
  - rewrite Hf, Hb. reflexivity.
  - rewrite Hw. destruct (policy_find a (canConnectList s)) as [[|]|];
      [contradiction| |];
      destruct (useBlacklist (serverProperties s)); reflexivity.
Qed.

Lemma accept_one_rejected (le : bool) (fd : Z) (a : CrossSockAddress)
    (st : Sys) :
  policy_rejects a (obj st) ->
  let r := length (heap st) in
  let st1 := snd (accept_one le (Some fd) a st) in
  (exists mem res,
     actions (world st1)
     = actions (world st)
       ++ [TcpSend fd
             (wire le (SetDataID DISCONNECT_PACK (CrossPack_new mem))) res;
           Close fd; Close fd])
  /\ events st1 = events st ++ fired (obj st) [OnReject r; OnDisconnect r]
  /\ length (heap st1) = S r
  /\ address (ent st1 r) = a
  /\ state (ent st1 r) = CLIENT_ENTRY_DISCONNECTED
  /\ socket (ent st1 r) = None
  /\ connectedClients (obj st1) = connectedClients (obj st)
  /\ nextAvailableClientID (obj st1) = nextAvailableClientID (obj st)
  /\ issued st1 = issued st.
Proof.
  intros Hp r st1. subst st1 r. unfold accept_one.
  rewrite bind_eq, alloc_eq. cbn [fst snd].
  repeat sstep.
  rewrite (policy_gate a (obj st) _ (reject le (length (heap st))) Hp).
  unfold reject, DisconnectClient.
  repeat sstep. new_norm. repeat sstep. new_norm.
  destruct (shouldFlushDisconnectedClientData (serverProperties (obj st)));
    unfold ResetTimeout; repeat sstep; new_norm;
    (rewrite (SendToClient_eq _ _ _ _ _ fd) by (new_norm; reflexivity));
    repeat sstep; new_norm; repeat sstep; new_norm;
    unfold sys_close, record;
    cbn [fst snd obj heap world events issued actions script];
    repeat (rewrite sys_now_actions || rewrite GetElapsedTime_actions
            || rewrite sys_new_actions || (progress cbn [actions]));
    rewrite ?length_set_nth, ?length_app; cbn [length];
    cbn [handlers connectedClients nextAvailableClientID
         set_disconnectedClients];
    (split; [do 2 eexists; rewrite <- !app_assoc; reflexivity|]);
    (split; [unfold fired; cbn [List.filter handler_of];
             destruct (handlers (obj st) rejectEvent),
               (handlers (obj st) disconnectEvent);
             rewrite <- ?app_assoc; rewrite ?app_nil_r; reflexivity|]);
    (split; [lia|]); new_norm; repeat split; reflexivity.
Qed.

Lemma heap_closed_refused (st : Sys) : heap_closed st <-> refused [] 0 st.
Proof.
  unfold heap_closed, refused. split.
  - intros H. split; [lia|]. split.
    + intros k r Hk. split; [apply (H k r Hk)|intros []].
    + intros r [].
  - intros (_ & H & _) k r Hk. apply (H k r Hk).
Qed.

Lemma refused_run (T : list CrossClientEntryPtr) (n : nat) (le : bool)
    (calls : list Call) (st : Sys) :
  refused T n st -> refused T n (run le calls st).
Proof.
  apply (keeps_run (served T) (refused T) (stable_refused T)
           (snapshot_refused T)
           (fun n le fd a => refused_accept_one T n le fd a) n).
Qed.

(** Every state of a run is closed, and so are the states between the
    iterations of the accept loop. *)
Lemma heap_closed_run (le : bool) (calls : list Call)
    (script : list Response) :
  heap_closed (run le calls (fresh script)).
Proof.
  apply heap_closed_refused, refused_run, heap_closed_refused.
  intros k r Hk. cbn in Hk. rewrite lookup_empty in Hk. discriminate Hk.
Qed.

Lemma heap_closed_accept_one (le : bool) (fd : option Z)
    (a : CrossSockAddress) (st : Sys) :
  heap_closed st -> heap_closed (snd (accept_one le fd a st)).
Proof.
  intros H. apply heap_closed_refused, refused_accept_one,
    heap_closed_refused, H.
Qed.

Lemma heap_closed_sys {A} (m : State World A) (st : Sys) :
  heap_closed st -> heap_closed (snd (sys m st)).
Proof. intros H. rewrite server_sys_eq. exact H. Qed.

(** An address of family [AF_INET] that was put on the list is found
    there with the value it was given. *)
Lemma policy_find_set (a : CrossSockAddress) (v : bool)
    (l : list (CrossSockAddress * bool)) :
  sa_family a = AF_INET -> policy_find a (policy_set a v l) = Some v.
Proof.
  intros Ha.
  assert (Haa : policy_match a a = true).
  { unfold policy_match. rewrite Z.eqb_refl.
    apply operator_eq_spec; repeat split; assumption. }
  induction l as [|[a' b] l IH]; cbn [policy_set policy_find].
  - rewrite Haa. reflexivity.
  - destruct (policy_match a a') eqn:E; cbn [policy_find]; rewrite E;
      [reflexivity|exact IH].
Qed.

(** An address of another family is never found on the list. *)
Lemma policy_find_other (a : CrossSockAddress)
    (l : list (CrossSockAddress * bool)) :
  sa_family a <> AF_INET -> policy_find a l = None.
Proof.
  intros Ha.
  assert (Hm : forall a', policy_match a a' = false).
  { intros a'. unfold policy_match, operator_eq.
    rewrite (proj2 (Z.eqb_neq _ _) Ha). cbn [andb]. apply andb_false_r. }
  induction l as [|[a' b] l IH]; cbn [policy_find]; [reflexivity|].
  rewrite Hm. exact IH.
Qed.

(** The hash codes are compared before the keys: an address of family
    [AF_INET] is not found under the same address and port of another
    family, although [operator==] holds between the two. *)
Lemma policy_find_cross_family :
  operator_eq blocked blocked6 = true
  /\ Hash blocked <> Hash blocked6
  /\ policy_find blocked (policy_set blocked6 false []) = None.
Proof. vm_compute. repeat split. discriminate. Qed.




End Rejection.

(** * C6: the counter after 2^32 accepted peers *)

Section Flood.
Import Server ServerInv.

Ltac sstep :=
  first [ rewrite bind_eq | rewrite mret_eq | rewrite gets_eq
        | rewrite deref_eq | rewrite upd_eq | rewrite upd_entry_eq
        | rewrite log_eq | rewrite fire_eq | rewrite server_sys_eq ];
  cbv beta; cbn [fst snd obj heap world events issued].

Ltac new_norm :=
  unfold ent; cbn [heap];
  rewrite ?nth_set_nth_eq
    by (rewrite ?length_set_nth, length_app; cbn [length]; lia);
  rewrite ?nth_app_new;
  cbn [address socket clientID state tcpBuffer timeoutDelay timeoutTimer
       customData ping set_e_address set_e_socket set_e_clientID set_e_state
       set_e_tcpBuffer set_e_timeoutDelay set_e_timeoutTimer set_e_customData
       set_e_ping CrossClientEntry_new negb CrossClientEntryState_eqb
       serverProperties handlers connectedClients disconnectedClients
       nextAvailableClientID set_disconnectedClients].

Lemma accept_one_flood (le : bool) (j : Z) (s : list Response) (st : Sys) :
  flooding j (RNow 0 :: RResult (Some 6%N) SUCCESS :: s) st ->
  flooding (j + 1) s
    (snd (accept_one le (Some 4) CrossSockAddress_default st)).
Proof.
  intros (Hj & Hstate & Hprops & Hval & Hlist & Htimer & Hs).
  unfold accept_one. rewrite bind_eq, alloc_eq. cbn [fst snd].
  repeat sstep.
  unfold connection_list_entry. rewrite Hlist, Hprops, Hval.
  cbn [policy_find useBlacklist useWhitelist flood_properties negb orb].
  unfold note_issued, modify. repeat sstep.
  assert (Hrel : forall st0 : Sys, exists acts,
            (match connectedClients (obj st)
                   !! nextAvailableClientID (obj st) with
             | Some old => release old
             | None => mret tt
             end) st0
            = (tt, {| obj := obj st0; heap := heap st0;
                      world := {| script := script (world st0);
                                  actions := actions (world st0) ++ acts |};
                      events := events st0; issued := issued st0 |})).
  { intros st0.
    destruct (connectedClients (obj st) !! nextAvailableClientID (obj st))
      as [old|].
    - destruct (release_eq old st0) as (acts & E & _). exists acts. exact E.
    - exists []. rewrite mret_eq, app_nil_r.
      destruct st0 as [o h [sc ac] ev i]. reflexivity. }
  match goal with
  | |- context [match connectedClients (obj st) !! _ with
                | Some old => release old
                | None => mret tt
                end ?s0] =>
      destruct (Hrel s0) as [acts ->]
  end.
  cbn [fst snd obj heap world events issued script actions].
  repeat sstep.
  rewrite (SendToClient_eq _ _ _ _ _ 4) by (new_norm; reflexivity).
  cbv beta; cbn [fst snd obj heap world events issued]. repeat sstep.
  unfold flooding.
  cbn [obj world issued script serverState serverProperties handlers
       canConnectList alivenessTestTimer set_connectedClients
       set_nextAvailableClientID].
  unfold sys_now, sys_new. rewrite Hs. cbn [rest script tl fst snd actions].
  cbn [send_until result_value andb Z.ltb Z.of_N Z.compare snd].
  rewrite length_app. cbn [length].
  repeat split; try assumption; [lia|].
  rewrite Hs. reflexivity.
Qed.

(** The tests of the accept loop let through the peers the policy list
    does not refuse. *)
Lemma policy_gate_open {A} (a : CrossSockAddress) (s : CrossServer)
    (X R : A) :
  ~ policy_rejects a s ->
  (let '(canConnect, onList) := connection_list_entry a s in
   if negb (useBlacklist (serverProperties s)) || negb onList || canConnect
   then if negb (useWhitelist (serverProperties s)) || canConnect
        then X else R
   else R) = X.
Proof.
  unfold policy_rejects, connection_list_entry. intros H.
  destruct (policy_find a (canConnectList s)) as [[|]|] eqn:Hf;
    destruct (useBlacklist (serverProperties s)) eqn:Hb;
    destruct (useWhitelist (serverProperties s)) eqn:Hw;
    cbn [negb orb]; try reflexivity; exfalso; apply H;
    try (left; split; [reflexivity|reflexivity]);
    right; (split; [reflexivity|discriminate]).
Qed.

(** What the acceptance of a socket issues: nothing, or the value of the
    counter, which the new entry carries and under which the table of
    connected clients records it. *)
Lemma accept_one_issue (le : bool) (fd : option Z) (a : CrossSockAddress)
    (st : Sys) :
  let r := length (heap st) in
  let id := nextAvailableClientID (obj st) in
  let st1 := snd (accept_one le fd a st) in
  let issue :=
    issued st1 = issued st ++ [(r, id)]
    /\ nextAvailableClientID (obj st1) = u32 (id + 1)
    /\ connectedClients (obj st1) = <[id := r]> (connectedClients (obj st))
    /\ clientID (ent st1 r) = id
    /\ address (ent st1 r) = a
    /\ socket (ent st1 r) = fd in
  (ids_of st1 = ids_of st \/ issue)
  /\ (~ policy_rejects a (obj st) ->
      handlers (obj st) validateEvent = false -> issue).
Proof.
  cbv zeta.
  assert (Hacc : forall st2 : Sys,
            ids_of st2 = ids_of st ->
            obj st2 = obj st ->
            (length (heap st) < length (heap st2))%nat ->
            clientID (ent st2 (length (heap st)))
            = nextAvailableClientID (obj st) ->
            address (ent st2 (length (heap st))) = a ->
            socket (ent st2 (length (heap st))) = fd ->
            let st1 :=
              snd ((note_issued (length (heap st))
                      (nextAvailableClientID (obj st));;
                    upd (set_nextAvailableClientID
                           (u32 (nextAvailableClientID (obj st) + 1)));;
                    upd (fun s' =>
                           set_connectedClients
                             (<[nextAvailableClientID (obj st)
                                := length (heap st)]>
                                (connectedClients s')) s');;
                    match connectedClients (obj st)
                          !! nextAvailableClientID (obj st) with
                    | Some old => release old
                    | None => mret tt
                    end;;
                    mem ← sys sys_new;
                    SendToClient le (SetDataID HANDSHAKE (CrossPack_new mem))
                      (Some (length (heap st))) true;;
                    mret tt) st2) in
            issued st1
            = issued st
              ++ [(length (heap st), nextAvailableClientID (obj st))]
            /\ nextAvailableClientID (obj st1)
               = u32 (nextAvailableClientID (obj st) + 1)
            /\ connectedClients (obj st1)
               = <[nextAvailableClientID (obj st) := length (heap st)]>
                   (connectedClients (obj st))
            /\ clientID (ent st1 (length (heap st)))
               = nextAvailableClientID (obj st)
            /\ address (ent st1 (length (heap st))) = a
            /\ socket (ent st1 (length (heap st))) = fd).
  { intros st2 Hids Hobj Hlen Hc Ha Hso. cbv zeta.
    unfold ids_of in Hids. injection Hids as _ Hiss.
    unfold note_issued, modify. repeat sstep.
    assert (Hrel : forall st0 : Sys, exists acts,
              (match connectedClients (obj st)
                     !! nextAvailableClientID (obj st) with
               | Some old => release old
               | None => mret tt
               end) st0
              = (tt, {| obj := obj st0; heap := heap st0;
                        world := {| script := script (world st0);
                                    actions := actions (world st0) ++ acts |};
                        events := events st0; issued := issued st0 |})).
    { intros st0.
      destruct (connectedClients (obj st) !! nextAvailableClientID (obj st))
        as [old|].
      - destruct (release_eq old st0) as (acts & E & _). exists acts. exact E.
      - exists []. rewrite mret_eq, app_nil_r.
        destruct st0 as [o h [sc ac] ev i]. reflexivity. }
    match goal with
    | |- context [match connectedClients (obj st) !! _ with
                  | Some old => release old
                  | None => mret tt
                  end ?s0] =>
        destruct (Hrel s0) as [acts ->]
    end.
    cbn [fst snd obj heap world events issued script actions].
    repeat sstep.
    match goal with
    | |- context [SendToClient ?l ?p ?c ?b ?s0] =>
        destruct (SendToClient_frame l p c b s0) as (T1 & T2 & T3 & T4);
        cbv zeta in T1, T2, T3, T4;
        cbn [obj heap events issued] in T1, T2, T3, T4;
        generalize dependent (snd (SendToClient l p c b s0))
    end.
    intros st3 T1 T2 T3 T4. unfold ent in *. rewrite T1, T2, T4, Hobj, Hiss.
    cbn [nextAvailableClientID connectedClients set_connectedClients
         set_nextAvailableClientID].
    repeat split; assumption. }
  unfold accept_one. rewrite bind_eq, alloc_eq. cbn [fst snd].
  repeat sstep.
  match goal with
  | |- context [(let '(canConnect, onList) := _ in _) ?s0] =>
      set (st2 := s0)
  end.
  assert (Hids : ids_of st2 = ids_of st) by reflexivity.
  assert (Hobj : obj st2 = obj st) by reflexivity.
  assert (Hlen : (length (heap st) < length (heap st2))%nat).
  { subst st2. cbn [heap]. rewrite !length_set_nth, length_app.
    cbn [length]. lia. }
  assert (Hc : clientID (ent st2 (length (heap st)))
               = nextAvailableClientID (obj st))
    by (subst st2; new_norm; reflexivity).
  assert (Ha : address (ent st2 (length (heap st))) = a)
    by (subst st2; new_norm; reflexivity).
  assert (Hso : socket (ent st2 (length (heap st))) = fd)
    by (subst st2; new_norm; reflexivity).
  clearbody st2.
  assert (Hrej : ids_of (snd (reject le (length (heap st)) st2))
                 = ids_of st)
    by (apply (same_ids_reject (ids_of st) le (length (heap st)) st2);
        exact Hids).
  split.
  - destruct (connection_list_entry a (obj st)) as [canConnect onList].
    destruct (negb (useBlacklist (serverProperties (obj st)))
              || negb onList || canConnect); [|left; exact Hrej].
    destruct (negb (useWhitelist (serverProperties (obj st))) || canConnect);
      [|left; exact Hrej].
    rewrite bind_eq.
    destruct (handlers (obj st) validateEvent).
    + repeat sstep.
      destruct (fst (sys_answer (world st2))).
      * right. apply Hacc; assumption.
      * left.
        apply (same_ids_reject (ids_of st) le (length (heap st))).
        exact Hids.
    + rewrite mret_eq. cbn [fst snd]. right. apply Hacc; assumption.
  - intros Hp Hv.
    rewrite (policy_gate_open a (obj st) _ (reject le (length (heap st))) Hp).
    rewrite bind_eq, Hv, mret_eq. cbn [fst snd]. apply Hacc; assumption.
Qed.

Lemma accepts_S (k : Z) (s : list Response) :
  0 < k ->
  accepts (Z.to_nat k) s
  = RAccept (Some 4) CrossSockAddress_default SUCCESS
      :: RNow 0 :: RResult (Some 6%N) SUCCESS :: accepts (Z.to_nat (k - 1)) s.
Proof.
  intros Hk. replace (Z.to_nat k) with (S (Z.to_nat (k - 1))) by lia.
  reflexivity.
Qed.

Lemma accept_loop_eq (le : bool) (fuel : nat) (n : Z) :
  accept_loop le fuel n
  = ('(newSocket, newClientAddress, err) ← sys sys_accept;
     if CrossSockError_eqb err SUCCESS then
       accept_one le newSocket newClientAddress;;
       accept_next le fuel (n + 1)
     else
       match newSocket with
       | Some fd => sys (sys_close fd)
       | None => mret tt
       end).
Proof. destruct fuel; reflexivity. Qed.

Lemma flooding_world (j : Z) (s s' : list Response) (st : Sys)
    (a : list Action) :
  flooding j s st ->
  flooding j s'
    {| obj := obj st; heap := heap st;
       world := {| script := s'; actions := a |};
       events := events st; issued := issued st |}.
Proof.
  intros (H1 & H2 & H3 & H4 & H5 & H6 & _). repeat split; assumption.
Qed.

Lemma accept_loop_flood (le : bool) (fuel : nat) :
  forall (n j : Z) (st : Sys) (s : list Response),
    0 <= n < 1073741824 ->
    1073741824 - n - 1 <= Z.of_nat fuel ->
    flooding j (accepts (Z.to_nat (1073741824 - n)) s) st ->
    flooding (j + (1073741824 - n)) s (snd (accept_loop le fuel n st)).
Proof.
  induction fuel as [|fuel IH]; intros n j st s Hn Hfuel H;
    rewrite accept_loop_eq, bind_eq, server_sys_eq;
    pose proof H as (_ & _ & _ & _ & _ & _ & Hs);
    rewrite accepts_S in Hs by lia;
    unfold sys_accept, rest; rewrite !Hs; cbn [fst snd script tl actions];
    cbn [CrossSockError_eqb]; rewrite bind_eq;
    (match goal with
     | |- context [accept_one le ?fd ?a ?s0] =>
         assert (H1 : flooding (j + 1)
                        (accepts (Z.to_nat (1073741824 - n - 1)) s)
                        (snd (accept_one le fd a s0)))
           by (apply accept_one_flood; eapply flooding_world; exact H);
         generalize dependent (snd (accept_one le fd a s0))
     end);
    intros st1 H1; clear H Hs;
    unfold accept_next; rewrite bind_eq, gets_eq; cbn [fst snd];
    pose proof H1 as (_ & _ & Hp & _); rewrite Hp;
    change (newConnectionBacklog flood_properties) with 1073741824;
    destruct (Z.ltb_spec (n + 1) 1073741824) as [Hlt|Hge].
  - lia.
  - replace (1073741824 - n - 1) with 0 in H1 by lia.
    replace (j + (1073741824 - n)) with (j + 1) by lia. exact H1.
  - replace (j + (1073741824 - n)) with (j + 1 + (1073741824 - (n + 1)))
      by lia.
    apply IH; [lia|lia|].
    replace (1073741824 - (n + 1)) with (1073741824 - n - 1) by lia.
    exact H1.
  - replace (1073741824 - n - 1) with 0 in H1 by lia.
    replace (j + (1073741824 - n)) with (j + 1) by lia. exact H1.
Qed.

Lemma sys_now_idle (w : World) : idle (script w) -> sys_now w = (0, w).
Proof.
  unfold sys_now. intros [H|(fd & a & e & s' & H)]; rewrite H; reflexivity.
Qed.

Lemma sys_recv_idle (c : Z) (w : World) :
  idle (script w) -> sys_recv c w = ([], INVALID, w).
Proof.
  unfold sys_recv. intros [H|(fd & a & e & s' & H)]; rewrite H; reflexivity.
Qed.

Lemma forM_id {A} (l : list A) (f : A -> M unit) (st : Sys) :
  (forall x, In x l -> f x st = (tt, st)) -> forM l f st = (tt, st).
Proof.
  induction l as [|x l IH]; intros H; cbn [forM].
  - reflexivity.
  - rewrite bind_eq, (H x) by (left; reflexivity). cbn [fst snd].
    apply IH. intros y Hy. apply H. right. exact Hy.
Qed.

Lemma tcp_loop_idle (le : bool) (c : CrossClientEntryPtr) (fuel : nat)
    (n : Z) (st : Sys) :
  idle (script (world st)) -> tcp_loop le c fuel n st = (tt, st).
Proof.
  intros Hi. destruct st as [o h w ev iss]. cbn [world] in Hi.
  assert (E : tcp_loop le c fuel n
              = (e ← deref c;
                 '(got, err) ←
                   match socket e with
                   | Some _ =>
                       sys (sys_recv
                              (CROSS_SOCK_BUFFER_SIZE
                               - Z.of_nat (length (tcpBuffer e))))
                   | None => mret ([], INVALID)
                   end;
                 (if (0 <? Z.of_nat (length got)) then
                    upd_entry c (set_e_tcpBuffer (tcpBuffer e ++ got));;
                    bufferPos ← dispatch_tcp le c
                                  (length (tcpBuffer e ++ got)) 0;
                    upd_entry c
                      (fun e => set_e_tcpBuffer
                                  (skipn (Z.to_nat bufferPos) (tcpBuffer e)) e)
                  else if CrossSockError_eqb err CONNRESET
                  then DisconnectClient le (Some c) true
                  else mret tt);;
                 s ← gets obj;
                 e ← deref c;
                 if IsRunning s && Entry_IsRunning e
                    && (0 <? Z.of_nat (length got))
                    && (n + 1 <? maxTCPTransmitsPerUpdate (serverProperties s))
                 then match fuel with
                      | O => mret tt
                      | S k => tcp_loop le c k (n + 1)
                      end
                 else mret tt))
    by (destruct fuel; reflexivity).
  rewrite E. clear E.
  rewrite bind_eq, deref_eq. cbn [fst snd]. rewrite bind_eq.
  assert (Hgot : (match socket (ent {| obj := o; heap := h; world := w;
                                       events := ev; issued := iss |} c) with
                  | Some _ =>
                      sys (sys_recv
                             (CROSS_SOCK_BUFFER_SIZE
                              - Z.of_nat
                                  (length
                                     (tcpBuffer
                                        (ent {| obj := o; heap := h;
                                                world := w; events := ev;
                                                issued := iss |} c)))))
                  | None => mret ([], INVALID)
                  end) {| obj := o; heap := h; world := w; events := ev;
                          issued := iss |}
                 = ([], INVALID,
                    {| obj := o; heap := h; world := w; events := ev;
                       issued := iss |})).
  { destruct (socket _); [|reflexivity].
    rewrite server_sys_eq. cbn [world]. rewrite sys_recv_idle by exact Hi.
    reflexivity. }
  rewrite Hgot. cbn [fst snd length Z.of_nat Z.ltb Z.compare CrossSockError_eqb].
  repeat sstep. rewrite andb_false_r. reflexivity.
Qed.

Lemma heartbeat_idle (le : bool) (j : Z) (s : list Response) (st : Sys) :
  flooding j s st -> idle s -> heartbeat le st = (tt, st).
Proof.
  intros (_ & _ & Hp & _ & _ & Ht & Hs) Hi.
  destruct st as [o h w ev iss]. cbn [obj world] in Hp, Ht, Hs. subst s.
  unfold heartbeat. rewrite bind_eq, gets_eq. cbn [fst snd obj].
  rewrite bind_eq, server_sys_eq. cbn [fst snd world obj heap events issued].
  unfold GetElapsedTime. rewrite sys_now_idle by exact Hi.
  cbn [fst snd]. rewrite Hp, Ht.
  assert (E : dleb (alivenessTestDelay flood_properties)
                (ddiv (double_of_Z (0 - 0)) (double_of_Z 1000000)) = false)
    by (vm_compute; reflexivity).
  rewrite E. reflexivity.
Qed.

Lemma after_accept_flood (le : bool) (j : Z) (s : list Response) (st : Sys) :
  flooding j s st -> idle s ->
  flooding j s (snd (after_accept le st)).
Proof.
  intros H Hi. pose proof H as (_ & _ & Hp & _ & _ & _ & Hs).
  unfold after_accept.
  rewrite bind_eq, (heartbeat_idle le j s st H Hi). cbn [fst snd].
  rewrite bind_eq, gets_eq. cbn [fst snd]. rewrite bind_eq.
  rewrite forM_id.
  2:{ intros [k c] _. rewrite bind_eq, deref_eq. cbn [fst snd].
      rewrite bind_eq, gets_eq. cbn [fst snd].
      destruct (Entry_IsRunning (ent st c)); [|reflexivity].
      apply tcp_loop_idle. rewrite Hs. exact Hi. }
  cbn [fst snd]. rewrite bind_eq, gets_eq. cbn [fst snd]. rewrite Hp.
  cbn [allowUDPPackets flood_properties]. rewrite bind_eq, mret_eq.
  cbn [fst snd]. unfold sweep. cbn [snd].
  destruct H as (H1 & H2 & H3 & H4 & H5 & H6 & H7).
  repeat split; assumption.
Qed.

Lemma Update_flood (le : bool) (j : Z) (s : list Response) (st : Sys) :
  flooding j (accepts (Z.to_nat 1073741824) s) st -> idle s ->
  flooding (j + 1073741824) s (snd (Update le st)).
Proof.
  intros H Hi. pose proof H as (_ & Hst & Hp & _).
  unfold Update. rewrite bind_eq, gets_eq. cbn [fst snd]. rewrite Hst, Hp.
  cbn [CrossServerState_eqb]. rewrite bind_eq.
  change (newConnectionBacklog flood_properties) with 1073741824.
  apply after_accept_flood; [|exact Hi].
  cbn [snd].
  replace (j + 1073741824) with (j + (1073741824 - 0)) by lia.
  apply accept_loop_flood; [lia|lia|].
  replace (1073741824 - 0) with 1073741824 by lia. exact H.
Qed.

Lemma accepts_add (a b : nat) (s : list Response) :
  accepts (a + b) s = accepts a (accepts b s).
Proof.
  induction a as [|a IH]; cbn [accepts Nat.add]; [reflexivity|].
  rewrite IH. reflexivity.
Qed.

Lemma idle_accepts (k : nat) : idle (accepts k []).
Proof.
  destruct k; [left; reflexivity|].
  right. cbn [accepts]. do 4 eexists. reflexivity.
Qed.

Lemma flood_start (le : bool) (s : list Response) :
  flooding 0 s
    (run le [CallSetServerProperties flood_properties; CallStart 5000 AF_INET]
       (fresh (RSocket (Some 3) :: RResult (Some 0%N) SUCCESS :: RNow 0 :: s))).
Proof. repeat split. Qed.

Lemma run_app (le : bool) (l1 l2 : list Call) (st : Sys) :
  run le (l1 ++ l2) st = run le l2 (run le l1 st).
Proof. unfold run. apply fold_left_app. Qed.

Lemma flood_end (le : bool) :
  flooding 4294967296 [] (run le flood_calls (fresh flood_script)).
Proof.
  unfold flood_calls, flood_script.
  change [CallSetServerProperties flood_properties; CallStart 5000 AF_INET;
          CallUpdate; CallUpdate; CallUpdate; CallUpdate]
    with ([CallSetServerProperties flood_properties; CallStart 5000 AF_INET]
          ++ [CallUpdate; CallUpdate; CallUpdate; CallUpdate]).
  rewrite run_app.
  set (B := Z.to_nat 1073741824).
  replace (Z.to_nat 4294967296) with (B + (B + (B + B)))%nat
    by (unfold B; lia).
  rewrite !accepts_add.
  pose proof (flood_start le (accepts B (accepts B (accepts B (accepts B [])))))
    as H0.
  revert H0.
  generalize (run le [CallSetServerProperties flood_properties;
                      CallStart 5000 AF_INET]
                (fresh (RSocket (Some 3) :: RResult (Some 0%N) SUCCESS
                          :: RNow 0
                          :: accepts B (accepts B (accepts B (accepts B [])))))).
  intros st0 H0. unfold run. cbn [fold_left call].
  apply (Update_flood le 0) in H0;
    [|rewrite <- !accepts_add; apply idle_accepts].
  apply (Update_flood le _) in H0;
    [|rewrite <- !accepts_add; apply idle_accepts].
  apply (Update_flood le _) in H0; [|apply idle_accepts].
  apply (Update_flood le _) in H0; [|left; reflexivity].
  exact H0.
Qed.

End Flood.

Section FloodEnd.
Import Server ServerInv.

(** C6, as stated, fails: after 2^32 accepted peers the counter has
    wrapped, and the last id issued is 0, below the first id issued. *)
Lemma C6_counterexample :
  let st := run true flood_calls (fresh flood_script) in
  let ids := map snd (issued st) in
  exists i j, (i < j < length ids)%nat /\ nth j ids 0 <= nth i ids 0.
Proof.
  cbv zeta.
  destruct (flood_end true) as (Hlen & _).
  destruct (ids_ok_run true flood_calls flood_script) as [_ Hids].
  set (st := run true flood_calls (fresh flood_script)) in *.
  exists O, (Z.to_nat 4294967295).
  rewrite length_map. split; [lia|].
  assert (Hn : forall i, nth i (map snd (issued st)) 0
                         = snd (nth i (issued st) (O, 0)))
    by (intros i; exact (map_nth snd (issued st) (O, 0) i)).
  rewrite !Hn, !Hids by lia.
  rewrite Z2Nat.id by lia. cbn [Z.of_nat]. 
  change (u32 (1 + 4294967295)) with 0.
  change (u32 (1 + Z.of_nat 0)) with 1. lia.
Qed.

End FloodEnd.

(** * C6: the ids the server issues *)

Section IssuedIdsEnd.
Import Server ServerInv.

(** C6, amended: from a fresh server, after any sequence of operations,
    the i-th id issued to an accepted peer (counting from 0) is 1 + i in
    unsigned 32-bit arithmetic and the counter is the id to issue next;
    so, while fewer than 2^32 ids have been issued, the ids begin at 1
    and are strictly increasing.  The receive function, reconnect
    re-keying included, changes neither the counter nor the ids issued.
    An id is issued by the acceptance of a socket and there only: in any
    state, it either leaves the counter and the ids issued as they were,
    or it issues the value of the counter: the entry made for the peer
    has it as its client id and is recorded under it in the table of
    connected clients, with the address and the socket of the peer, the
    counter is incremented in 32-bit arithmetic and the id is the last
    of the ids issued; and this is what happens when the policy list
    does not refuse the peer and no validation callback is installed. *)
Theorem C6_issued_ids (le : bool) (calls : list Call)
    (script : list Response) :
  let st := run le calls (fresh script) in
  let ids := map snd (issued st) in
  (forall i, (i < length ids)%nat -> nth i ids 0 = u32 (1 + Z.of_nat i))
  /\ nextAvailableClientID (obj st) = u32 (1 + Z.of_nat (length ids))
  /\ (Z.of_nat (length ids) < 4294967296 ->
      (forall i, (i < length ids)%nat -> nth i ids 0 = 1 + Z.of_nat i)
      /\ (forall i j, (i < j < length ids)%nat -> nth i ids 0 < nth j ids 0))
  /\ (forall inData inLength inClient inMethod,
        ids_of (snd (OnReceiveNewData le inData inLength inClient inMethod st))
        = ids_of st)
  /\ (forall fd a st0,
        let r := length (heap st0) in
        let id := nextAvailableClientID (obj st0) in
        let st1 := snd (accept_one le fd a st0) in
        let issue :=
          issued st1 = issued st0 ++ [(r, id)]
          /\ nextAvailableClientID (obj st1) = u32 (id + 1)
          /\ connectedClients (obj st1)
             = <[id := r]> (connectedClients (obj st0))
          /\ clientID (ent st1 r) = id
          /\ address (ent st1 r) = a
          /\ socket (ent st1 r) = fd in
        (ids_of st1 = ids_of st0 \/ issue)
        /\ (~ policy_rejects a (obj st0) ->
            handlers (obj st0) validateEvent = false -> issue)).
Proof.
  cbv zeta. destruct (ids_ok_run le calls script) as [Hn Hids].
  set (st := run le calls (fresh script)) in *.
  assert (Hnth : forall i, (i < length (map snd (issued st)))%nat ->
                           nth i (map snd (issued st)) 0
                           = u32 (1 + Z.of_nat i)).
  { intros i Hi. rewrite length_map in Hi.
    change 0 with (snd (O, 0)). rewrite map_nth. apply Hids. exact Hi. }
  split; [exact Hnth|]. split; [rewrite length_map; exact Hn|].
  split; [|split; [intros; apply OnReceiveNewData_ids
                  |intros fd a st0; apply accept_one_issue]].
  intros Hlt.
  assert (Hsmall : forall i, (i < length (map snd (issued st)))%nat ->
                             nth i (map snd (issued st)) 0 = 1 + Z.of_nat i).
  { intros i Hi. rewrite (Hnth i Hi). unfold u32. apply Z.mod_small. lia. }
  split; [exact Hsmall|].
  intros i j Hij. rewrite !Hsmall by lia. lia.
Qed.

Lemma C6_witness :
  let st := run true [CallStart 5000 AF_INET; CallUpdate] (fresh two_accepts) in
  let ids := map snd (issued st) in
  let st0 := run true [CallStart 5000 AF_INET] (fresh two_accepts) in
  let st1 := snd (accept_one true (Some 4) CrossSockAddress_default st0) in
  Z.of_nat (length ids) < 4294967296
  /\ (0 < 1 < length ids)%nat
  /\ nth 0 ids 0 = 1
  /\ nth 0 ids 0 < nth 1 ids 0
  /\ ~ policy_rejects CrossSockAddress_default (obj st0)
  /\ handlers (obj st0) validateEvent = false
  /\ issued st1 = [(0%nat, 1)]
  /\ clientID (ent st1 0%nat) = 1
  /\ connectedClients (obj st1) !! 1 = Some 0%nat.
Proof.
  cbv zeta.
  set (ids := map snd (issued (run true [CallStart 5000 AF_INET; CallUpdate]
                                 (fresh two_accepts)))).
  set (st0 := run true [CallStart 5000 AF_INET] (fresh two_accepts)).
  assert (Hlen : length ids = 2%nat) by (vm_compute; reflexivity).
  assert (Hlt : Z.of_nat (length ids) < 4294967296) by (rewrite Hlen; lia).
  assert (Hp : ~ policy_rejects CrossSockAddress_default (obj st0)).
  { intros [[_ H]|[H _]]; vm_compute in H; discriminate H. }
  assert (Hv : handlers (obj st0) validateEvent = false)
    by (vm_compute; reflexivity).
  destruct (C6_issued_ids true [CallStart 5000 AF_INET; CallUpdate]
              two_accepts) as (_ & _ & H & _ & Hacc).
  destruct (H Hlt) as [H1 H2].
  destruct (proj2 (Hacc (Some 4) CrossSockAddress_default st0) Hp Hv)
    as (I1 & _ & I3 & I4 & _).
  assert (L0 : (0 < length ids)%nat) by (rewrite Hlen; lia).
  assert (L1 : (0 < 1 < length ids)%nat) by (rewrite Hlen; lia).
  split; [exact Hlt|]. split; [exact L1|].
  split; [exact (H1 O L0)|]. split; [exact (H2 O 1%nat L1)|].
  split; [exact Hp|]. split; [exact Hv|].
  split; [exact I1|]. split; [exact I4|].
  rewrite I3. apply lookup_insert_eq.
Defined.

End IssuedIdsEnd.

(** * CrossUtil.h: the byte swap and the bit helpers *)

(** X1: CrossSysUtil::SwapEndian: swapping a range that lies within the
    buffer twice gives the buffer back; one swap keeps the length and
    the cells outside the range, and mirrors the cells inside it. *)
Theorem SwapEndian_involutive {A} (l : list A) (s n : nat) :
  (s + n <= length l)%nat ->
  SwapEndian (SwapEndian l s n) s n = l
  /\ length (SwapEndian l s n) = length l
  /\ (forall i d, (i < s \/ s + n <= i)%nat ->
                  nth i (SwapEndian l s n) d = nth i l d)
  /\ (forall i d, (i < n)%nat ->
                  nth (s + i) (SwapEndian l s n) d = nth (s + (n - 1 - i)) l d).
Proof.
  intros H. pose proof (length_SwapEndian l s n H) as Hl.
  split; [|split; [exact Hl|split]].
  - destruct l as [|d l']; [destruct s, n; cbn in *; try lia; reflexivity|].
    set (l := d :: l') in *.
    apply (nth_ext _ _ d d).
    + rewrite length_SwapEndian by lia. exact Hl.
    + intros i Hi.
      destruct (Nat.lt_ge_cases i s) as [Hlo|Hlo].
      * rewrite !nth_SwapEndian_out by lia. reflexivity.
      * destruct (Nat.lt_ge_cases i (s + n)) as [Hhi|Hhi].
        -- rewrite nth_SwapEndian_in by lia.
           rewrite nth_SwapEndian_in by lia. f_equal. lia.
        -- rewrite !nth_SwapEndian_out by lia. reflexivity.
  - intros i d Hi. apply nth_SwapEndian_out; assumption.
  - intros i d Hi. rewrite nth_SwapEndian_in by lia. f_equal. lia.
Qed.

Lemma SwapEndian_involutive_witness :
  (1 + 3 <= length [x01; x02; x03; x04; x05])%nat
  /\ SwapEndian (SwapEndian [x01; x02; x03; x04; x05] 1 3) 1 3
     = [x01; x02; x03; x04; x05].
Proof.
  assert (H : (1 + 3 <= length [x01; x02; x03; x04; x05])%nat)
    by (cbn [length]; lia).
  split; [exact H|].
  exact (proj1 (SwapEndian_involutive [x01; x02; x03; x04; x05] 1 3 H)).
Defined.

(** ** Quantification over the bytes and over small ranges *)

Lemma range_forall (k : nat) (P : Z -> bool) :
  forallb (fun n => P (Z.of_nat n)) (seq 0 k) = true ->
  forall x, 0 <= x < Z.of_nat k -> P x = true.
Proof.
  intros H x Hx. rewrite forallb_forall in H.
  specialize (H (Z.to_nat x)). rewrite Z2Nat.id in H by lia.
  apply H. apply in_seq. lia.
Qed.

Lemma byte_forall (P : byte -> bool) :
  forallb (fun n => P (byte_of_Z (Z.of_nat n))) (seq 0 256) = true ->
  forall b, P b = true.
Proof.
  intros H b. rewrite <- (byte_of_Z_of_byte b).
  apply (range_forall 256 (fun z => P (byte_of_Z z)) H).
  pose proof (Z_of_byte_range b). lia.
Qed.

Lemma eqb_true (a b : bool) : Bool.eqb a b = true -> a = b.
Proof. destruct a, b; cbn; congruence. Qed.

(** A property of a [char] and two bit positions below 8 holds when it
    holds of the 256 x 8 x 8 cases. *)
Lemma bits8_forall (P : byte -> Z -> Z -> bool) :
  forallb
    (fun n =>
       forallb
         (fun x =>
            forallb
              (fun y => P (byte_of_Z (Z.of_nat n)) (Z.of_nat x) (Z.of_nat y))
              (seq 0 8))
         (seq 0 8))
    (seq 0 256) = true ->
  forall b x y, 0 <= x < 8 -> 0 <= y < 8 -> P b x y = true.
Proof.
  intros H b x y Hx Hy.
  pose proof (byte_forall
                (fun b => forallb
                   (fun x => forallb (fun y => P b (Z.of_nat x) (Z.of_nat y))
                               (seq 0 8)) (seq 0 8)) H b) as Hb.
  cbv beta in Hb.
  pose proof (range_forall 8
                (fun x => forallb (fun y => P b x (Z.of_nat y)) (seq 0 8))
                Hb x Hx) as Hx'.
  cbv beta in Hx'.
  exact (range_forall 8 (fun y => P b x y) Hx' y Hy).
Qed.

(** ** The loops over a range of bits, for any instantiation *)

Section StateBits.
Context {T : Type} (check : T -> Z -> bool) (set clear : T -> Z -> T)
  (zero : T) (w : Z).
Hypothesis check_set : forall t x y,
  0 <= x < w -> 0 <= y < w -> check (set t x) y = (y =? x) || check t y.
Hypothesis check_clear : forall t x y,
  0 <= x < w -> 0 <= y < w ->
  check (clear t x) y = negb (y =? x) && check t y.
Hypothesis check_zero : forall y, 0 <= y < w -> check zero y = false.

Lemma SetStateToFlag_loop (flag state : T) (s : Z) (n : nat) (y : Z) :
  0 <= s -> s + Z.of_nat n <= w -> 0 <= y < w ->
  check
    (fold_left
       (fun f x => if check state x then set f (x + s) else clear f (x + s))
       (map Z.of_nat (seq 0 n)) flag) y
  = if (s <=? y) && (y <? s + Z.of_nat n) then check state (y - s)
    else check flag y.
Proof.
  intros Hs Hn Hy. induction n as [|n IH].
  - cbn [seq map fold_left].
    destruct (Z.leb_spec s y), (Z.ltb_spec y (s + Z.of_nat 0)); cbn [andb];
      try reflexivity. lia.
  - rewrite seq_S, map_app, fold_left_app. cbn [map fold_left Nat.add].
    specialize (IH ltac:(lia)).
    destruct (check state (Z.of_nat n)) eqn:E;
      [rewrite check_set by lia|rewrite check_clear by lia]; rewrite IH;
      destruct (Z.eqb_spec y (Z.of_nat n + s)), (Z.leb_spec s y),
        (Z.ltb_spec y (s + Z.of_nat n)), (Z.ltb_spec y (s + Z.of_nat (S n)));
      cbn [andb orb negb]; try reflexivity; try lia;
      replace (y - s) with (Z.of_nat n) by lia; rewrite E; reflexivity.
Qed.

Lemma GetStateFromFlag_loop (flag : T) (s : Z) (n : nat) (y : Z) :
  0 <= s -> s + Z.of_nat n <= w -> 0 <= y < w ->
  check
    (fold_left
       (fun out x => if check flag (x + s) then set out x else out)
       (map Z.of_nat (seq 0 n)) zero) y
  = (y <? Z.of_nat n) && check flag (y + s).
Proof.
  intros Hs Hn Hy. induction n as [|n IH].
  - cbn [seq map fold_left]. rewrite check_zero by lia.
    destruct (Z.ltb_spec y (Z.of_nat 0)); [lia|reflexivity].
  - rewrite seq_S, map_app, fold_left_app. cbn [map fold_left Nat.add].
    specialize (IH ltac:(lia)).
    destruct (check flag (Z.of_nat n + s)) eqn:E;
      [rewrite check_set by lia|]; rewrite IH;
      destruct (Z.eqb_spec y (Z.of_nat n)), (Z.ltb_spec y (Z.of_nat n)),
        (Z.ltb_spec y (Z.of_nat (S n)));
      cbn [andb orb]; try reflexivity; try lia;
      subst y; rewrite E; reflexivity.
Qed.

(** The bits of the flag after [SetStateToFlag]: those of the state in
    the range, those of the flag outside it. *)
Lemma check_SetStateToFlag (flag state : T) (s e y : Z) :
  0 <= s -> e < w -> 0 <= y < w ->
  check (SetStateToFlag check set clear flag state s e) y
  = if (s <=? y) && (y <=? e) then check state (y - s) else check flag y.
Proof.
  intros Hs He Hy. unfold SetStateToFlag.
  destruct (Z.lt_ge_cases e s) as [Hes|Hes].
  - replace (Z.to_nat (e - s + 1)) with O by lia. cbn [seq map fold_left].
    destruct (Z.leb_spec s y), (Z.leb_spec y e); cbn [andb];
      try reflexivity; lia.
  - rewrite SetStateToFlag_loop by lia.
    destruct (Z.leb_spec s y), (Z.leb_spec y e),
      (Z.ltb_spec y (s + Z.of_nat (Z.to_nat (e - s + 1)))); cbn [andb];
      try reflexivity; lia.
Qed.

(** The bits of the state [GetStateFromFlag] reads. *)
Lemma check_GetStateFromFlag (flag : T) (s e y : Z) :
  0 <= s -> e < w -> 0 <= y < w ->
  check (GetStateFromFlag check set zero flag s e) y
  = (y <=? e - s) && check flag (y + s).
Proof.
  intros Hs He Hy. unfold GetStateFromFlag.
  destruct (Z.lt_ge_cases e s) as [Hes|Hes].
  - replace (Z.to_nat (e - s + 1)) with O by lia. cbn [seq map fold_left].
    rewrite check_zero by lia.
    destruct (Z.leb_spec y (e - s)); cbn [andb]; try reflexivity; lia.
  - rewrite GetStateFromFlag_loop by lia.
    destruct (Z.leb_spec y (e - s)),
      (Z.ltb_spec y (Z.of_nat (Z.to_nat (e - s + 1)))); cbn [andb];
      try reflexivity; lia.
Qed.

End StateBits.

(** ** The instantiation at [char] *)

Lemma CheckBit_SetBit (b : byte) (x y : Z) :
  0 <= x < 8 -> 0 <= y < 8 ->
  CheckBit (SetBit b x) y = (y =? x) || CheckBit b y.
Proof.
  intros Hx Hy. apply eqb_true.
  apply (bits8_forall
           (fun b x y => Bool.eqb (CheckBit (SetBit b x) y)
                           ((y =? x) || CheckBit b y)));
    [vm_compute; reflexivity|assumption|assumption].
Qed.

Lemma CheckBit_ClearBit (b : byte) (x y : Z) :
  0 <= x < 8 -> 0 <= y < 8 ->
  CheckBit (ClearBit b x) y = negb (y =? x) && CheckBit b y.
Proof.
  intros Hx Hy. apply eqb_true.
  apply (bits8_forall
           (fun b x y => Bool.eqb (CheckBit (ClearBit b x) y)
                           (negb (y =? x) && CheckBit b y)));
    [vm_compute; reflexivity|assumption|assumption].
Qed.

Lemma CheckBit_ToggleBit (b : byte) (x y : Z) :
  0 <= x < 8 -> 0 <= y < 8 ->
  CheckBit (ToggleBit b x) y = xorb (y =? x) (CheckBit b y).
Proof.
  intros Hx Hy. apply eqb_true.
  apply (bits8_forall
           (fun b x y => Bool.eqb (CheckBit (ToggleBit b x) y)
                           (xorb (y =? x) (CheckBit b y))));
    [vm_compute; reflexivity|assumption|assumption].
Qed.

Lemma CheckBit_x00 (y : Z) : 0 <= y < 8 -> CheckBit x00 y = false.
Proof.
  intros Hy.
  assert (H : negb (CheckBit x00 y) = true).
  { apply (range_forall 8 (fun y => negb (CheckBit x00 y)));
      [vm_compute; reflexivity|lia]. }
  destruct (CheckBit x00 y); [discriminate H|reflexivity].
Qed.

(** Two chars with the same eight bits are equal. *)
Lemma CheckBit_ext (a b : byte) :
  (forall y, 0 <= y < 8 -> CheckBit a y = CheckBit b y) -> a = b.
Proof.
  intros H.
  assert (K : forall c : byte,
             byte_of_Z
               (fold_right
                  (fun y acc => (if CheckBit c (Z.of_nat y) then 2 ^ Z.of_nat y
                                 else 0) + acc) 0 (seq 0 8)) = c).
  { intros c.
    assert (E : Byte.eqb
                  (byte_of_Z
                     (fold_right
                        (fun y acc => (if CheckBit c (Z.of_nat y)
                                       then 2 ^ Z.of_nat y else 0) + acc)
                        0 (seq 0 8))) c = true).
    { apply (byte_forall
               (fun c => Byte.eqb
                  (byte_of_Z
                     (fold_right
                        (fun y acc => (if CheckBit c (Z.of_nat y)
                                       then 2 ^ Z.of_nat y else 0) + acc)
                        0 (seq 0 8))) c)).
      vm_compute. reflexivity. }
    apply Byte.byte_dec_bl in E. exact E. }
  rewrite <- (K a), <- (K b). f_equal.
  cbn [seq fold_right].
  rewrite !H by lia. reflexivity.
Qed.

(** X2: The bit helpers at [char], for bit positions 0 to 7: [SetBit] raises
    and [ClearBit] lowers the bit asked for, [ToggleBit] inverts it, each
    leaves the other seven bits alone, and toggling twice gives the
    character back. *)
Theorem bit_helpers_char (b : byte) (x y : Z) :
  0 <= x < 8 -> 0 <= y < 8 ->
  CheckBit (SetBit b x) y = (if y =? x then true else CheckBit b y)
  /\ CheckBit (ClearBit b x) y = (if y =? x then false else CheckBit b y)
  /\ CheckBit (ToggleBit b x) y
     = (if y =? x then negb (CheckBit b y) else CheckBit b y)
  /\ ToggleBit (ToggleBit b x) x = b.
Proof.
  intros Hx Hy.
  rewrite CheckBit_SetBit, CheckBit_ClearBit, CheckBit_ToggleBit
    by assumption.
  repeat split; try (destruct (y =? x), (CheckBit b y); reflexivity).
  apply CheckBit_ext. intros z Hz.
  rewrite !CheckBit_ToggleBit by assumption.
  destruct (z =? x), (CheckBit b z); reflexivity.
Qed.

Lemma bit_helpers_char_witness :
  CheckBit (SetBit x05 1) 1 = true
  /\ CheckBit (ClearBit x05 0) 2 = CheckBit x05 2
  /\ ToggleBit (ToggleBit x05 7) 7 = x05.
Proof.
  destruct (bit_helpers_char x05 1 1 ltac:(lia) ltac:(lia)) as (H1 & _).
  destruct (bit_helpers_char x05 0 2 ltac:(lia) ltac:(lia)) as (_ & H2 & _).
  destruct (bit_helpers_char x05 7 7 ltac:(lia) ltac:(lia))
    as (_ & _ & _ & H3).
  split; [exact H1|]. split; [exact H2|exact H3].
Defined.

(** * CrossPack.h: the packet states *)

(** X3: SetPacketState then GetPacketState on the same range of flag bits
    (within bits 0 to 7, and within the custom bits once the packet is
    finalized): the call succeeds, the state read back is the low bits of
    the value written, as many as the range holds, so it is the value
    itself when that fits the range; and the flags outside the range are
    what they were. *)
Theorem PacketState_roundtrip (p : CrossPack) (s e : Z) (v : byte) :
  0 <= s -> e < 8 ->
  hasBeenFinalized p = false \/ CUSTOM_FLAG_1 <= s ->
  let r := SetPacketState s e v p in
  fst r = VALID_DATA
  /\ (forall y, 0 <= y < 8 ->
        CheckBit (GetPacketState s e (snd r)) y
        = (y <=? e - s) && CheckBit v y)
  /\ (forall y, 0 <= y < 8 -> ~ (s <= y <= e) ->
        GetPacketFlag (snd r) y = GetPacketFlag p y)
  /\ ((forall y, e - s < y < 8 -> CheckBit v y = false) ->
      GetPacketState s e (snd r) = v).
Proof.
  intros Hs He Hfin r.
  assert (Hr : r = (VALID_DATA,
                    set_hasBeenSerialized false
                      (set_header
                         (set_packFlags
                            (SetStateToFlag CheckBit SetBit ClearBit
                               (packFlags (header p)) v s e) (header p)) p))).
  { subst r. unfold SetPacketState.
    destruct Hfin as [->|Hc]; [reflexivity|].
    destruct (Z.ltb_spec s CUSTOM_FLAG_1); [lia|].
    rewrite andb_false_r. reflexivity. }
  rewrite Hr. cbn [fst snd].
  assert (Hget : forall y, 0 <= y < 8 ->
            CheckBit
              (GetPacketState s e
                 (set_hasBeenSerialized false
                    (set_header
                       (set_packFlags
                          (SetStateToFlag CheckBit SetBit ClearBit
                             (packFlags (header p)) v s e) (header p)) p))) y
            = (y <=? e - s) && CheckBit v y).
  { intros y Hy. unfold GetPacketState.
    cbn [header set_hasBeenSerialized set_header packFlags set_packFlags].
    rewrite (check_GetStateFromFlag CheckBit SetBit x00 8 CheckBit_SetBit
               CheckBit_x00) by lia.
    destruct (Z.leb_spec y (e - s)); cbn [andb]; [|reflexivity].
    rewrite (check_SetStateToFlag CheckBit SetBit ClearBit 8
               CheckBit_SetBit CheckBit_ClearBit) by lia.
    destruct (Z.leb_spec s (y + s)), (Z.leb_spec (y + s) e); cbn [andb];
      try lia.
    f_equal. lia. }
  split; [reflexivity|]. split; [exact Hget|]. split.
  - intros y Hy Hout. unfold GetPacketFlag.
    cbn [header set_hasBeenSerialized set_header packFlags set_packFlags].
    rewrite (check_SetStateToFlag CheckBit SetBit ClearBit 8
               CheckBit_SetBit CheckBit_ClearBit) by lia.
    destruct (Z.leb_spec s y), (Z.leb_spec y e); cbn [andb];
      try reflexivity; lia.
  - intros Hfit. apply CheckBit_ext. intros y Hy. rewrite Hget by exact Hy.
    destruct (Z.leb_spec y (e - s)); cbn [andb]; [reflexivity|].
    symmetry. apply Hfit. lia.
Qed.

Lemma PacketState_roundtrip_witness :
  let p := Finalize true false 0 (CrossPack_new zeros) in
  GetPacketState 2 4 (snd (SetPacketState 2 4 x05 p)) = x05
  /\ GetPacketFlag (snd (SetPacketState 2 4 x05 p)) CHECKSUM_FLAG
     = GetPacketFlag p CHECKSUM_FLAG.
Proof.
  intros p.
  assert (Hc : hasBeenFinalized p = false \/ CUSTOM_FLAG_1 <= 2)
    by (right; unfold CUSTOM_FLAG_1; lia).
  destruct (PacketState_roundtrip p 2 4 x05 ltac:(lia) ltac:(lia) Hc)
    as (_ & _ & H3 & H4).
  split.
  - apply H4. intros y Hy.
    assert (E : y = 3 \/ y = 4 \/ y = 5 \/ y = 6 \/ y = 7) by lia.
    destruct E as [->|[->|[->|[->| ->]]]]; reflexivity.
  - apply H3; unfold CHECKSUM_FLAG; lia.
Defined.

(** * CrossSock.h: socket addresses *)

(** ** The instantiation of the bit helpers at [uint32_t] *)

Lemma CheckBit_uint32_testbit (n x : Z) :
  0 <= x -> CheckBit_uint32 n x = Z.testbit n x.
Proof.
  intros Hx. unfold CheckBit_uint32.
  change 1 with (Z.ones 1). rewrite Z.land_ones by lia.
  change (2 ^ 1) with 2. rewrite <- Z.bit0_mod.
  rewrite Z.shiftr_spec by lia. rewrite Z.add_0_l.
  destruct (Z.testbit n x); reflexivity.
Qed.

Lemma CheckBit_SetBit_uint32 (t x y : Z) :
  0 <= x < 32 -> 0 <= y < 32 ->
  CheckBit_uint32 (SetBit_uint32 t x) y = (y =? x) || CheckBit_uint32 t y.
Proof.
  intros Hx Hy. rewrite !CheckBit_uint32_testbit by lia.
  unfold SetBit_uint32, u32. change 4294967296 with (2 ^ 32).
  rewrite Z.mod_pow2_bits_low by lia.
  rewrite Z.lor_spec, Z.shiftl_1_l, Z.pow2_bits_eqb by lia.
  rewrite (Z.eqb_sym x y). apply orb_comm.
Qed.

Lemma CheckBit_ClearBit_uint32 (t x y : Z) :
  0 <= x < 32 -> 0 <= y < 32 ->
  CheckBit_uint32 (ClearBit_uint32 t x) y
  = negb (y =? x) && CheckBit_uint32 t y.
Proof.
  intros Hx Hy. rewrite !CheckBit_uint32_testbit by lia.
  unfold ClearBit_uint32, u32. change 4294967296 with (2 ^ 32).
  rewrite Z.mod_pow2_bits_low by lia.
  rewrite Z.land_spec, Z.lnot_spec, Z.shiftl_1_l, Z.pow2_bits_eqb by lia.
  rewrite (Z.eqb_sym x y). apply andb_comm.
Qed.

Lemma CheckBit_uint32_0 (y : Z) : 0 <= y < 32 -> CheckBit_uint32 0 y = false.
Proof.
  intros Hy. rewrite CheckBit_uint32_testbit by lia. apply Z.bits_0.
Qed.

(** The loops keep a 32-bit value within its type. *)
Lemma SetStateToFlag_uint32_range (flag state s e : Z) :
  0 <= flag < 4294967296 ->
  0 <= SetStateToFlag CheckBit_uint32 SetBit_uint32 ClearBit_uint32
         flag state s e < 4294967296.
Proof.
  unfold SetStateToFlag.
  generalize (map Z.of_nat (seq 0 (Z.to_nat (e - s + 1)))) as l.
  intros l. revert flag. induction l as [|x l IH]; intros flag Hf.
  - exact Hf.
  - cbn [fold_left]. apply IH.
    destruct (CheckBit_uint32 state x);
      unfold SetBit_uint32, ClearBit_uint32, u32; apply Z.mod_pos_bound; lia.
Qed.

Lemma GetStateFromFlag_uint32_range (flag s e : Z) :
  0 <= GetStateFromFlag CheckBit_uint32 SetBit_uint32 0 flag s e
    < 4294967296.
Proof.
  unfold GetStateFromFlag.
  generalize (map Z.of_nat (seq 0 (Z.to_nat (e - s + 1)))) as l.
  intros l.
  assert (H : forall out, 0 <= out < 4294967296 ->
            0 <= fold_left
                   (fun out x => if CheckBit_uint32 flag (x + s)
                                 then SetBit_uint32 out x else out) l out
              < 4294967296).
  { induction l as [|x l IH]; intros out Ho.
    - exact Ho.
    - cbn [fold_left]. apply IH.
      destruct (CheckBit_uint32 flag (x + s)); [|exact Ho].
      unfold SetBit_uint32, u32. apply Z.mod_pos_bound. lia. }
  apply H. lia.
Qed.

(** ** Words and their bytes *)

Lemma testbit_above (a k n : Z) :
  0 <= a < 2 ^ k -> 0 <= k <= n -> Z.testbit a n = false.
Proof.
  intros Ha Hn. rewrite <- (Z.mod_small a (2 ^ k)) by lia.
  apply Z.mod_pow2_bits_high. lia.
Qed.

Lemma testbit_join (lo hi k n : Z) :
  0 <= lo < 2 ^ k -> 0 <= k -> 0 <= n ->
  Z.testbit (lo + 2 ^ k * hi) n
  = if n <? k then Z.testbit lo n else Z.testbit hi (n - k).
Proof.
  intros Hlo Hk Hn. destruct (Z.ltb_spec n k).
  - rewrite <- (Z.mod_pow2_bits_low (lo + 2 ^ k * hi) k n) by lia.
    rewrite (Z.mul_comm (2 ^ k) hi), Z.mod_add by lia.
    rewrite Z.mod_small by lia. reflexivity.
  - replace n with (n - k + k) at 1 by lia.
    rewrite <- Z.div_pow2_bits by lia.
    rewrite (Z.mul_comm (2 ^ k) hi), Z.div_add by lia.
    rewrite Z.div_small by lia. reflexivity.
Qed.

(** A 32-bit word whose bits are those of four bytes. *)
Lemma word_of_bytes (A b1 b2 b3 b4 : Z) :
  0 <= A < 4294967296 ->
  0 <= b1 < 256 -> 0 <= b2 < 256 -> 0 <= b3 < 256 -> 0 <= b4 < 256 ->
  (forall y, 0 <= y < 32 ->
     Z.testbit A y
     = if y <? 8 then Z.testbit b4 y
       else if y <? 16 then Z.testbit b3 (y - 8)
       else if y <? 24 then Z.testbit b2 (y - 16)
       else Z.testbit b1 (y - 24)) ->
  A = b1 * 16777216 + b2 * 65536 + b3 * 256 + b4.
Proof.
  intros HA H1 H2 H3 H4 Hbits.
  replace (b1 * 16777216 + b2 * 65536 + b3 * 256 + b4)
    with (b4 + 2 ^ 8 * (b3 + 2 ^ 8 * (b2 + 2 ^ 8 * b1))) by lia.
  apply Z.bits_inj'. intros n Hn.
  change 256 with (2 ^ 8) in H1, H2, H3, H4.
  rewrite testbit_join by lia.
  destruct (Z.ltb_spec n 8).
  - rewrite Hbits by lia. destruct (Z.ltb_spec n 8); [reflexivity|lia].
  - rewrite testbit_join by lia.
    destruct (Z.ltb_spec (n - 8) 8).
    + rewrite Hbits by lia.
      destruct (Z.ltb_spec n 8), (Z.ltb_spec n 16); try lia. reflexivity.
    + rewrite testbit_join by lia.
      destruct (Z.ltb_spec (n - 8 - 8) 8).
      * rewrite Hbits by lia.
        destruct (Z.ltb_spec n 8), (Z.ltb_spec n 16), (Z.ltb_spec n 24);
          try lia. f_equal. lia.
      * destruct (Z.ltb_spec n 32).
        -- rewrite Hbits by lia.
           destruct (Z.ltb_spec n 8), (Z.ltb_spec n 16), (Z.ltb_spec n 24);
             try lia. f_equal. lia.
        -- rewrite (testbit_above A 32 n) by (change (2 ^ 32) with 4294967296; lia).
           symmetry. apply (testbit_above b1 8); lia.
Qed.

Lemma lor_join (lo hi k : Z) :
  0 <= lo < 2 ^ k -> 0 <= k ->
  Z.lor (Z.shiftl hi k) lo = lo + 2 ^ k * hi.
Proof.
  intros Hlo Hk. apply Z.bits_inj'. intros n Hn.
  rewrite testbit_join, Z.lor_spec by lia.
  destruct (Z.ltb_spec n k).
  - rewrite Z.shiftl_spec_low by lia. reflexivity.
  - rewrite Z.shiftl_spec by lia.
    rewrite (testbit_above lo k n) by lia. apply orb_false_r.
Qed.

(** [htonl] and [htons] on a little-endian host, on the bytes of their
    operand. *)
Lemma htonl_bytes (c1 c2 c3 c4 : Z) :
  0 <= c1 < 256 -> 0 <= c2 < 256 -> 0 <= c3 < 256 -> 0 <= c4 < 256 ->
  htonl true (c1 * 16777216 + c2 * 65536 + c3 * 256 + c4)
  = c4 * 16777216 + c3 * 65536 + c2 * 256 + c1.
Proof.
  intros H1 H2 H3 H4. unfold htonl.
  set (x := c1 * 16777216 + c2 * 65536 + c3 * 256 + c4).
  change 255 with (Z.ones 8). rewrite !Z.land_ones, !Z.shiftr_div_pow2 by lia.
  change (2 ^ 8) with 256. change (2 ^ 16) with 65536.
  change (2 ^ 24) with 16777216.
  assert (E4 : x mod 256 = c4) by (subst x; Z.div_mod_to_equations; lia).
  assert (E3 : (x / 256) mod 256 = c3)
    by (subst x; Z.div_mod_to_equations; lia).
  assert (E2 : (x / 65536) mod 256 = c2)
    by (subst x; Z.div_mod_to_equations; lia).
  assert (E1 : (x / 16777216) mod 256 = c1)
    by (subst x; Z.div_mod_to_equations; lia).
  rewrite E1, E2, E3, E4.
  rewrite (lor_join c1 c2 8) by (change (2 ^ 8) with 256; lia).
  rewrite (lor_join _ c3 16) by (change (2 ^ 16) with 65536; lia).
  rewrite (lor_join _ c4 24) by (change (2 ^ 24) with 16777216; lia).
  change (2 ^ 8) with 256. change (2 ^ 16) with 65536.
  change (2 ^ 24) with 16777216. lia.
Qed.

Lemma htons_bytes (c1 c2 : Z) :
  0 <= c1 < 256 -> 0 <= c2 < 256 ->
  htons true (c1 * 256 + c2) = c2 * 256 + c1.
Proof.
  intros H1 H2. unfold htons.
  set (x := c1 * 256 + c2).
  change 255 with (Z.ones 8). rewrite !Z.land_ones, !Z.shiftr_div_pow2 by lia.
  change (2 ^ 8) with 256.
  assert (E2 : x mod 256 = c2) by (subst x; Z.div_mod_to_equations; lia).
  assert (E1 : (x / 256) mod 256 = c1)
    by (subst x; Z.div_mod_to_equations; lia).
  rewrite E1, E2.
  rewrite (lor_join c1 c2 8) by (change (2 ^ 8) with 256; lia).
  change (2 ^ 8) with 256. lia.
Qed.

Lemma byte_of_Z_mod (a b : Z) :
  a mod 256 = b mod 256 -> byte_of_Z a = byte_of_Z b.
Proof. intros H. unfold byte_of_Z, u8. rewrite H. reflexivity. Qed.

Lemma htons_split (port : Z) :
  0 <= port < 65536 ->
  htons true port = (port mod 256) * 256 + port / 256.
Proof.
  intros Hp.
  replace port with ((port / 256) * 256 + port mod 256) at 1
    by (Z.div_mod_to_equations; lia).
  apply htons_bytes; Z.div_mod_to_equations; lia.
Qed.

Lemma ntohs_htons (le : bool) (port : Z) :
  0 <= port < 65536 -> ntohs le (htons le port) = port.
Proof.
  intros Hp. unfold ntohs. destruct le.
  - rewrite (htons_split port) by lia.
    rewrite htons_bytes by (Z.div_mod_to_equations; lia).
    Z.div_mod_to_equations; lia.
  - unfold htons, u16. rewrite !(Z.mod_small port) by lia. reflexivity.
Qed.

Lemma ntohl_htonl (le : bool) (b1 b2 b3 b4 : Z) :
  0 <= b1 < 256 -> 0 <= b2 < 256 -> 0 <= b3 < 256 -> 0 <= b4 < 256 ->
  let word := b1 * 16777216 + b2 * 65536 + b3 * 256 + b4 in
  ntohl le (htonl le word) = word.
Proof.
  intros H1 H2 H3 H4 word. unfold ntohl. destruct le.
  - subst word. rewrite !htonl_bytes by assumption. reflexivity.
  - unfold htonl, u32. rewrite !(Z.mod_small word) by (subst word; lia).
    reflexivity.
Qed.

(** The bits of a word given by its four bytes. *)
Lemma testbit_word (b1 b2 b3 b4 y : Z) :
  0 <= b1 < 256 -> 0 <= b2 < 256 -> 0 <= b3 < 256 -> 0 <= b4 < 256 ->
  0 <= y < 32 ->
  Z.testbit (b1 * 16777216 + b2 * 65536 + b3 * 256 + b4) y
  = if y <? 8 then Z.testbit b4 y
    else if y <? 16 then Z.testbit b3 (y - 8)
    else if y <? 24 then Z.testbit b2 (y - 16)
    else Z.testbit b1 (y - 24).
Proof.
  intros H1 H2 H3 H4 Hy.
  replace (b1 * 16777216 + b2 * 65536 + b3 * 256 + b4)
    with (b4 + 2 ^ 8 * (b3 + 2 ^ 8 * (b2 + 2 ^ 8 * b1))) by lia.
  change 256 with (2 ^ 8) in H1, H2, H3, H4.
  rewrite testbit_join by lia.
  destruct (Z.ltb_spec y 8); [reflexivity|].
  rewrite testbit_join by lia.
  destruct (Z.ltb_spec (y - 8) 8), (Z.ltb_spec y 16); try lia;
    [reflexivity|].
  rewrite testbit_join by lia.
  destruct (Z.ltb_spec (y - 8 - 8) 8), (Z.ltb_spec y 24); try lia;
    f_equal; lia.
Qed.

(** The byte constructor builds the address of the word [b1.b2.b3.b4]. *)
Lemma of_bytes_word (le : bool) (b1 b2 b3 b4 port family : Z) :
  0 <= b1 < 256 -> 0 <= b2 < 256 -> 0 <= b3 < 256 -> 0 <= b4 < 256 ->
  CrossSockAddress_of_bytes le b1 b2 b3 b4 port family
  = CrossSockAddress_of_address le
      (b1 * 16777216 + b2 * 65536 + b3 * 256 + b4) port family.
Proof.
  intros H1 H2 H3 H4.
  set (set := SetStateToFlag CheckBit_uint32 SetBit_uint32 ClearBit_uint32).
  set (A := set (set (set (set 0 b1 24 31) b2 16 23) b3 8 15) b4 0 7).
  assert (HA : 0 <= A < 4294967296).
  { subst A set. repeat apply SetStateToFlag_uint32_range. lia. }
  assert (Hset : forall flag state s e y,
             0 <= s -> e < 32 -> 0 <= y < 32 ->
             Z.testbit (set flag state s e) y
             = if (s <=? y) && (y <=? e) then Z.testbit state (y - s)
               else Z.testbit flag y).
  { intros flag state s e y Hs He Hy.
    rewrite <- (CheckBit_uint32_testbit (set flag state s e) y) by lia.
    subst set.
    rewrite (check_SetStateToFlag CheckBit_uint32 SetBit_uint32
               ClearBit_uint32 32 CheckBit_SetBit_uint32
               CheckBit_ClearBit_uint32) by lia.
    destruct (Z.leb_spec s y), (Z.leb_spec y e); cbn [andb];
      apply CheckBit_uint32_testbit; lia. }
  assert (Hword : A = b1 * 16777216 + b2 * 65536 + b3 * 256 + b4).
  { apply word_of_bytes; try assumption.
    intros y Hy. subst A. rewrite !Hset by lia.
    destruct (Z.ltb_spec y 8), (Z.ltb_spec y 16), (Z.ltb_spec y 24),
      (Z.leb_spec 0 y), (Z.leb_spec y 7), (Z.leb_spec 8 y),
      (Z.leb_spec y 15), (Z.leb_spec 16 y), (Z.leb_spec y 23),
      (Z.leb_spec 24 y), (Z.leb_spec y 31); cbn [andb]; try lia;
      try reflexivity; f_equal; lia. }
  unfold CrossSockAddress_of_bytes, CrossSockAddress_of_address.
  cbv zeta. f_equal. f_equal. exact Hword.
Qed.

(** X4: The two address constructors, read back by the accessors, on a host
    of either byte order: [GetB1] to [GetB4], [GetPort], [GetFamily] and
    [GetAddress] return what the address was built from, the byte
    constructor builds the address the word constructor builds from
    [b1.b2.b3.b4] as a 32-bit number, and the address and the port are
    stored most significant byte first. *)
Theorem address_bytes_roundtrip (le : bool) (b1 b2 b3 b4 port family : Z) :
  0 <= b1 < 256 -> 0 <= b2 < 256 -> 0 <= b3 < 256 -> 0 <= b4 < 256 ->
  0 <= port < 65536 ->
  let word := b1 * 16777216 + b2 * 65536 + b3 * 256 + b4 in
  let a := CrossSockAddress_of_bytes le b1 b2 b3 b4 port family in
  a = CrossSockAddress_of_address le word port family
  /\ GetB1 le a = b1 /\ GetB2 le a = b2 /\ GetB3 le a = b3 /\ GetB4 le a = b4
  /\ GetAddress le a = word
  /\ GetPort le a = port
  /\ GetFamily a = family
  /\ object_bytes le 4 (sin_addr a)
     = [byte_of_Z b1; byte_of_Z b2; byte_of_Z b3; byte_of_Z b4]
  /\ object_bytes le 2 (sin_port a)
     = [byte_of_Z (port / 256); byte_of_Z port].
Proof.
  intros H1 H2 H3 H4 Hp word a.
  pose proof (of_bytes_word le b1 b2 b3 b4 port family H1 H2 H3 H4) as Ha.
  fold word in Ha. fold a in Ha.
  assert (Hw : 0 <= word < 4294967296) by (subst word; lia).
  pose proof (ntohl_htonl le b1 b2 b3 b4 H1 H2 H3 H4) as Hnl.
  cbv zeta in Hnl. fold word in Hnl.
  pose proof (ntohs_htons le port Hp) as Hns.
  assert (Hget : forall s e b,
             0 <= s -> e = s + 7 -> e < 32 -> 0 <= b < 256 ->
             (forall y, 0 <= y < 8 -> Z.testbit word (y + s) = Z.testbit b y) ->
             u8 (GetStateFromFlag CheckBit_uint32 SetBit_uint32 0 word s e)
             = b).
  { intros s e b Hs He He' Hb Hbits.
    pose proof (GetStateFromFlag_uint32_range word s e) as Hr.
    unfold u8. change 256 with (2 ^ 8).
    apply Z.bits_inj'. intros n Hn.
    destruct (Z.ltb_spec n 8).
    - rewrite Z.mod_pow2_bits_low by lia.
      rewrite <- CheckBit_uint32_testbit by lia.
      rewrite (check_GetStateFromFlag CheckBit_uint32 SetBit_uint32 0 32
                 CheckBit_SetBit_uint32 CheckBit_uint32_0) by lia.
      destruct (Z.leb_spec n (e - s)); [|lia]. cbn [andb].
      rewrite CheckBit_uint32_testbit by lia. apply Hbits. lia.
    - rewrite Z.mod_pow2_bits_high by lia.
      symmetry. apply (testbit_above b 8); [change (2 ^ 8) with 256|]; lia. }
  assert (Hbit : forall y, 0 <= y < 32 ->
             Z.testbit word y
             = if y <? 8 then Z.testbit b4 y
               else if y <? 16 then Z.testbit b3 (y - 8)
               else if y <? 24 then Z.testbit b2 (y - 16)
               else Z.testbit b1 (y - 24)).
  { intros y Hy. apply testbit_word; assumption. }
  split; [exact Ha|].
  rewrite Ha. unfold GetB1, GetB2, GetB3, GetB4, GetAddress, GetPort,
    GetFamily, CrossSockAddress_of_address.
  cbn [sin_addr sin_port sa_family]. rewrite Hnl, Hns.
  split; [apply Hget; try lia; intros y Hy; rewrite Hbit by lia;
          destruct (Z.ltb_spec (y + 24) 8), (Z.ltb_spec (y + 24) 16),
            (Z.ltb_spec (y + 24) 24); try lia; f_equal; lia|].
  split; [apply Hget; try lia; intros y Hy; rewrite Hbit by lia;
          destruct (Z.ltb_spec (y + 16) 8), (Z.ltb_spec (y + 16) 16),
            (Z.ltb_spec (y + 16) 24); try lia; f_equal; lia|].
  split; [apply Hget; try lia; intros y Hy; rewrite Hbit by lia;
          destruct (Z.ltb_spec (y + 8) 8), (Z.ltb_spec (y + 8) 16);
          try lia; f_equal; lia|].
  split; [apply Hget; try lia; intros y Hy; rewrite Hbit by lia;
          destruct (Z.ltb_spec (y + 0) 8); try lia; f_equal; lia|].
  do 3 (split; [reflexivity|]).
  unfold object_bytes. destruct le.
  - subst word. rewrite htonl_bytes, htons_split by assumption.
    cbn [le_bytes]. split;
      repeat (apply (f_equal2 (@cons byte));
              [apply byte_of_Z_mod; Z.div_mod_to_equations; lia|]);
      reflexivity.
  - unfold htonl, htons, u32, u16.
    rewrite (Z.mod_small word), (Z.mod_small port) by (subst word; lia).
    subst word. cbn [le_bytes rev app]. split;
      repeat (apply (f_equal2 (@cons byte));
              [apply byte_of_Z_mod; Z.div_mod_to_equations; lia|]);
      reflexivity.
Qed.

Lemma address_bytes_roundtrip_witness :
  let a := CrossSockAddress_of_bytes true 127 0 0 1 8080 AF_INET in
  GetB1 true a = 127 /\ GetB4 true a = 1 /\ GetPort true a = 8080
  /\ object_bytes true 4 (sin_addr a) = [x7f; x00; x00; x01].
Proof.
  intros a.
  destruct (address_bytes_roundtrip true 127 0 0 1 8080 AF_INET
              ltac:(lia) ltac:(lia) ltac:(lia) ltac:(lia) ltac:(lia))
    as (_ & G1 & _ & _ & G4 & _ & Gp & _ & Gb & _).
  split; [exact G1|]. split; [exact G4|]. split; [exact Gp|exact Gb].
Defined.

(** X5: Two addresses built by the byte constructor, compared by
    [operator==] on a host of either byte order: they are equal exactly
    when the left one is of family [AF_INET] and the four bytes and the
    ports agree.  The family of the right operand plays no part. *)
Theorem address_eq_constructed (le : bool)
    (b1 b2 b3 b4 port family c1 c2 c3 c4 port' family' : Z) :
  0 <= b1 < 256 -> 0 <= b2 < 256 -> 0 <= b3 < 256 -> 0 <= b4 < 256 ->
  0 <= c1 < 256 -> 0 <= c2 < 256 -> 0 <= c3 < 256 -> 0 <= c4 < 256 ->
  0 <= port < 65536 -> 0 <= port' < 65536 ->
  operator_eq (CrossSockAddress_of_bytes le b1 b2 b3 b4 port family)
    (CrossSockAddress_of_bytes le c1 c2 c3 c4 port' family') = true
  <-> family = AF_INET
      /\ b1 = c1 /\ b2 = c2 /\ b3 = c3 /\ b4 = c4 /\ port = port'.
Proof.
  intros H1 H2 H3 H4 K1 K2 K3 K4 Hp Hp'.
  rewrite !of_bytes_word by assumption.
  unfold operator_eq, CrossSockAddress_of_address.
  cbn [sa_family sin_port sin_addr].
  rewrite !andb_true_iff, !Z.eqb_eq.
  split.
  - intros [[Hf Hport] Haddr]. split; [exact Hf|].
    apply (f_equal (ntohl le)) in Haddr.
    rewrite !ntohl_htonl in Haddr by assumption.
    apply (f_equal (ntohs le)) in Hport.
    rewrite !ntohs_htons in Hport by assumption.
    repeat split; lia.
  - intros (Hf & -> & -> & -> & -> & ->). repeat split. exact Hf.
Qed.

Lemma address_eq_constructed_witness :
  operator_eq (CrossSockAddress_of_bytes true 10 0 0 7 4000 AF_INET)
    (CrossSockAddress_of_bytes true 10 0 0 7 4000 AF_INET6) = true.
Proof.
  apply (address_eq_constructed true 10 0 0 7 4000 AF_INET
           10 0 0 7 4000 AF_INET6); lia.
Defined.

(** * CrossPack.h: writing and reading the payload *)

(** ** Buffers *)

Lemma nth_sub_bytes (buf : list byte) (off : Z) (n j : nat) :
  (j < n)%nat ->
  nth j (sub_bytes buf off n) x00 = nth (Z.to_nat off + j) buf x00.
Proof.
  intros Hj. unfold sub_bytes.
  rewrite (nth_indep _ x00 ((fun i => nth (Z.to_nat off + i) buf x00) O))
    by (rewrite length_map, length_seq; exact Hj).
  rewrite (map_nth (fun i => nth (Z.to_nat off + i) buf x00)).
  rewrite seq_nth by exact Hj. reflexivity.
Qed.

Lemma length_sub_bytes (buf : list byte) (off : Z) (n : nat) :
  length (sub_bytes buf off n) = n.
Proof. unfold sub_bytes. rewrite length_map, length_seq. reflexivity. Qed.

Lemma sub_bytes_SwapEndian (buf : list byte) (off : Z) (n : nat) :
  (Z.to_nat off + n <= length buf)%nat ->
  sub_bytes (SwapEndian buf (Z.to_nat off) n) off n
  = rev (sub_bytes buf off n).
Proof.
  intros H. apply (nth_ext _ _ x00 x00).
  - rewrite length_rev, !length_sub_bytes. reflexivity.
  - intros j Hj. rewrite length_sub_bytes in Hj.
    rewrite nth_sub_bytes by exact Hj.
    rewrite rev_nth by (rewrite length_sub_bytes; exact Hj).
    rewrite length_sub_bytes, nth_sub_bytes by lia.
    rewrite nth_SwapEndian_in by lia. f_equal. lia.
Qed.

(** The buffer after a scalar was copied in and, on a big-endian host,
    swapped. *)
Lemma add_buffer (le sw : bool) (n : nat) (v : Z) (dst : list byte)
    (off : Z) :
  (Z.to_nat off + n <= length dst)%nat ->
  let buf := memcpy dst off (object_bytes le n v) in
  let buf' := if sw && negb le then SwapEndian buf (Z.to_nat off) n
              else buf in
  length buf' = length dst
  /\ (forall i, (i < Z.to_nat off \/ Z.to_nat off + n <= i)%nat ->
                nth i buf' x00 = nth i dst x00)
  /\ (forall j, (j < n)%nat ->
                nth (Z.to_nat off + j) buf' x00
                = nth j (if sw then le_bytes n v else object_bytes le n v)
                    x00).
Proof.
  intros H buf buf'.
  assert (Hlb : length buf = length dst).
  { subst buf. rewrite length_memcpy; rewrite ?length_object_bytes; lia. }
  assert (Hout : forall i, (i < Z.to_nat off \/ Z.to_nat off + n <= i)%nat ->
                           nth i buf x00 = nth i dst x00).
  { intros i Hi. subst buf.
    apply nth_memcpy_out; rewrite length_object_bytes; lia. }
  assert (Hin : forall j, (j < n)%nat ->
                          nth (Z.to_nat off + j) buf x00
                          = nth j (object_bytes le n v) x00).
  { intros j Hj. subst buf.
    rewrite nth_memcpy_in by (rewrite ?length_object_bytes; lia).
    f_equal. lia. }
  subst buf'. destruct sw, le; cbn [andb negb]; try (split; [exact Hlb|]);
    try (split; [exact Hout|exact Hin]).
  - split; [rewrite length_SwapEndian by lia; exact Hlb|]. split.
    + intros i Hi. rewrite nth_SwapEndian_out by lia. apply Hout, Hi.
    + intros j Hj. rewrite nth_SwapEndian_in by lia.
      replace (Z.to_nat off + (Z.to_nat off + n - 1 - (Z.to_nat off + j)))%nat
        with (Z.to_nat off + (n - 1 - j))%nat by lia.
      rewrite Hin by lia. unfold object_bytes.
      rewrite rev_nth by (rewrite length_le_bytes; lia).
      rewrite length_le_bytes. f_equal. lia.
Qed.

(** ** The payload bytes *)

Lemma nth_payload_bytes (p : CrossPack) (i : nat) :
  (i < Z.to_nat (payloadSize (header p)))%nat ->
  nth i (payload_bytes p) x00 = nth (6 + i) (payload p) x00.
Proof.
  intros Hi. unfold payload_bytes. rewrite nth_firstn.
  destruct (Nat.ltb_spec i (Z.to_nat (payloadSize (header p)))); [|lia].
  rewrite nth_skipn. reflexivity.
Qed.

Lemma length_payload_bytes (p : CrossPack) :
  (6 + Z.to_nat (payloadSize (header p)) <= length (payload p))%nat ->
  length (payload_bytes p) = Z.to_nat (payloadSize (header p)).
Proof.
  intros H. unfold payload_bytes.
  rewrite length_firstn, length_skipn.
  change (Z.to_nat GetHeaderSize) with 6%nat. lia.
Qed.

Lemma full_readable (p : CrossPack) :
  full p -> 0 <= removeIdx p -> readable p.
Proof.
  intros [(Hd & Hs & Hc & Hi & Hl) Hlen] Hr.
  unfold readable, GetHeaderSize, sizeof_CrossPackHeader,
    sizeof_CrossPackFooter in *.
  split; [exact Hr|]. split; [exact Hs|]. lia.
Qed.

(** [AddToPayload] with the endian swap on, where there is room: the
    payload gains the bytes of the value, least significant first, on a
    host of either byte order. *)
Lemma AddToPayload_bytes (le : bool) (n : nat) (v : Z) (p : CrossPack) :
  full p ->
  payloadSize (header p) + Z.of_nat n <= MAX_PAYLOAD_BYTES ->
  let r := AddToPayload le n v true p in
  fst r = VALID_DATA
  /\ full (snd r)
  /\ payload_bytes (snd r) = payload_bytes p ++ le_bytes n v
  /\ header (snd r)
     = set_payloadSize (payloadSize (header p) + Z.of_nat n) (header p)
  /\ footer (snd r) = footer p
  /\ removeIdx (snd r) = removeIdx p
  /\ hasBeenFinalized (snd r) = hasBeenFinalized p
  /\ hasBeenSerialized (snd r) = false.
Proof.
  intros [Hwf Hlen] Hroom r.
  pose proof Hwf as (Hd & Hs & Hc & Hi & Hl).
  change (Z.to_nat GetMaxPacketSize) with 1500%nat in Hlen.
  unfold MAX_PAYLOAD_BYTES, GetHeaderSize,
    sizeof_CrossPackHeader, sizeof_CrossPackFooter in *.
  subst r. unfold AddToPayload.
  destruct (Z.gtb_spec (payloadSize (header p) + Z.of_nat n)
              MAX_PAYLOAD_BYTES) as [Hgt|_];
    [unfold MAX_PAYLOAD_BYTES, sizeof_CrossPackHeader,
       sizeof_CrossPackFooter in Hgt; lia|].
  cbn [andb].
  unfold GetHeaderSize, sizeof_CrossPackHeader, u16.
  rewrite Z.mod_small by lia.
  destruct (add_buffer le true n v (payload p) (payloadSize (header p) + 6))
    as (Hlb & Hout & Hin); [lia|].
  cbv zeta in Hlb, Hout, Hin. cbn [andb] in Hlb, Hout, Hin.
  match goal with
  | |- context [snd (VALID_DATA, ?q)] => set (Q := q)
  end.
  cbn [fst snd].
  assert (HpQ : payload Q
                = if negb le
                  then SwapEndian
                         (memcpy (payload p) (payloadSize (header p) + 6)
                            (object_bytes le n v))
                         (Z.to_nat (payloadSize (header p) + 6)) n
                  else memcpy (payload p) (payloadSize (header p) + 6)
                         (object_bytes le n v)) by reflexivity.
  assert (HhQ : header Q
                = set_payloadSize (payloadSize (header p) + Z.of_nat n)
                    (header p)) by reflexivity.
  assert (HsQ : payloadSize (header Q)
                = payloadSize (header p) + Z.of_nat n)
    by (rewrite HhQ; reflexivity).
  assert (HfQ : footer Q = footer p) by reflexivity.
  rewrite <- HpQ in Hlb, Hout, Hin.
  split; [reflexivity|].
  split.
  { split.
    - unfold wf. rewrite HfQ, HsQ, Hlb.
      replace (dataID (header Q)) with (dataID (header p))
        by (rewrite HhQ; reflexivity).
      unfold MAX_PAYLOAD_BYTES, GetHeaderSize, sizeof_CrossPackHeader,
        sizeof_CrossPackFooter. repeat split; lia.
    - rewrite Hlb. exact Hlen. }
  split.
  { apply (nth_ext _ _ x00 x00).
    - rewrite length_app, length_le_bytes.
      rewrite !length_payload_bytes; rewrite ?HsQ, ?Hlb; lia.
    - intros i Hi'.
      rewrite length_payload_bytes in Hi' by (rewrite HsQ, Hlb; lia).
      rewrite HsQ in Hi'.
      rewrite nth_payload_bytes by (rewrite HsQ; lia).
      destruct (Nat.lt_ge_cases i (Z.to_nat (payloadSize (header p))))
        as [Hlo|Hhi].
      + rewrite app_nth1 by (rewrite length_payload_bytes; lia).
        rewrite nth_payload_bytes by lia. apply Hout. lia.
      + rewrite app_nth2 by (rewrite length_payload_bytes; lia).
        rewrite length_payload_bytes by lia.
        replace (6 + i)%nat
          with (Z.to_nat (payloadSize (header p) + 6)
                + (i - Z.to_nat (payloadSize (header p))))%nat by lia.
        apply Hin. lia. }
  split; [exact HhQ|]. repeat split; reflexivity.
Qed.

(** [AddDataToPayload] without the endian swap, where there is room. *)
Lemma AddDataToPayload_bytes (le : bool) (data : list byte) (p : CrossPack) :
  full p ->
  payloadSize (header p) + Z.of_nat (length data) <= MAX_PAYLOAD_BYTES ->
  let r := AddDataToPayload le data false p in
  fst r = VALID_DATA
  /\ full (snd r)
  /\ payload_bytes (snd r) = payload_bytes p ++ data
  /\ header (snd r)
     = set_payloadSize (payloadSize (header p) + Z.of_nat (length data))
         (header p)
  /\ footer (snd r) = footer p
  /\ removeIdx (snd r) = removeIdx p
  /\ hasBeenFinalized (snd r) = hasBeenFinalized p
  /\ hasBeenSerialized (snd r) = false.
Proof.
  intros [Hwf Hlen] Hroom r.
  pose proof Hwf as (Hd & Hs & Hc & Hi & Hl).
  change (Z.to_nat GetMaxPacketSize) with 1500%nat in Hlen.
  unfold MAX_PAYLOAD_BYTES, GetHeaderSize,
    sizeof_CrossPackHeader, sizeof_CrossPackFooter in *.
  subst r. unfold AddDataToPayload.
  destruct (Z.gtb_spec (payloadSize (header p) + Z.of_nat (length data))
              MAX_PAYLOAD_BYTES) as [Hgt|_];
    [unfold MAX_PAYLOAD_BYTES, sizeof_CrossPackHeader,
       sizeof_CrossPackFooter in Hgt; lia|].
  cbn [andb].
  unfold GetHeaderSize, sizeof_CrossPackHeader, u16.
  rewrite Z.mod_small by lia.
  match goal with
  | |- context [snd (VALID_DATA, ?q)] => set (Q := q)
  end.
  cbn [fst snd].
  assert (HpQ : payload Q
                = memcpy (payload p) (payloadSize (header p) + 6) data)
    by reflexivity.
  assert (HhQ : header Q
                = set_payloadSize
                    (payloadSize (header p) + Z.of_nat (length data))
                    (header p)) by reflexivity.
  assert (HsQ : payloadSize (header Q)
                = payloadSize (header p) + Z.of_nat (length data))
    by (rewrite HhQ; reflexivity).
  assert (HfQ : footer Q = footer p) by reflexivity.
  assert (Hlb : length (payload Q) = length (payload p))
    by (rewrite HpQ; apply length_memcpy; lia).
  split; [reflexivity|].
  split.
  { split.
    - unfold wf. rewrite HfQ, HsQ, Hlb.
      replace (dataID (header Q)) with (dataID (header p))
        by (rewrite HhQ; reflexivity).
      unfold MAX_PAYLOAD_BYTES, GetHeaderSize, sizeof_CrossPackHeader,
        sizeof_CrossPackFooter. repeat split; lia.
    - rewrite Hlb. exact Hlen. }
  split.
  { apply (nth_ext _ _ x00 x00).
    - rewrite length_app.
      rewrite !length_payload_bytes; rewrite ?HsQ, ?Hlb; lia.
    - intros i Hi'.
      rewrite length_payload_bytes in Hi' by (rewrite HsQ, Hlb; lia).
      rewrite HsQ in Hi'.
      rewrite nth_payload_bytes by (rewrite HsQ; lia).
      rewrite HpQ.
      destruct (Nat.lt_ge_cases i (Z.to_nat (payloadSize (header p))))
        as [Hlo|Hhi].
      + rewrite app_nth1 by (rewrite length_payload_bytes; lia).
        rewrite nth_payload_bytes by lia.
        apply nth_memcpy_out; lia.
      + rewrite app_nth2 by (rewrite length_payload_bytes; lia).
        rewrite length_payload_bytes by lia.
        rewrite nth_memcpy_in by lia. f_equal. lia. }
  split; [exact HhQ|]. repeat split; reflexivity.
Qed.

(** The bytes a read at the read position covers. *)
Lemma sub_bytes_payload (q : CrossPack) (n : nat) :
  readable q ->
  removeIdx q + Z.of_nat n <= payloadSize (header q) ->
  sub_bytes (payload q) (GetHeaderSize + removeIdx q) n
  = firstn n (skipn (Z.to_nat (removeIdx q)) (payload_bytes q)).
Proof.
  intros (Hr & Hs & Hl) Hn.
  apply (nth_ext _ _ x00 x00).
  - rewrite length_sub_bytes, length_firstn, length_skipn,
      length_payload_bytes by lia. lia.
  - intros j Hj. rewrite length_sub_bytes in Hj.
    rewrite nth_sub_bytes by exact Hj.
    rewrite nth_firstn.
    destruct (Nat.ltb_spec j n); [|lia].
    rewrite nth_skipn, nth_payload_bytes by lia.
    f_equal. unfold GetHeaderSize, sizeof_CrossPackHeader. lia.
Qed.

(** [RemoveFromPayload] with the endian swap on, where enough bytes
    remain: the value of the next bytes of the payload, least
    significant first, on a host of either byte order. *)
Lemma RemoveFromPayload_bytes (le : bool) (n : nat) (q : CrossPack) :
  readable q ->
  removeIdx q + Z.of_nat n <= payloadSize (header q) ->
  let r := RemoveFromPayload le n true q in
  fst r
  = Some (le_value
            (firstn n (skipn (Z.to_nat (removeIdx q)) (payload_bytes q))))
  /\ readable (snd r)
  /\ header (snd r) = header q
  /\ footer (snd r) = footer q
  /\ removeIdx (snd r) = removeIdx q + Z.of_nat n
  /\ skipn (Z.to_nat (removeIdx q) + n) (payload_bytes (snd r))
     = skipn (Z.to_nat (removeIdx q) + n) (payload_bytes q).
Proof.
  intros Hq Hn r. pose proof Hq as (Hr & Hs & Hl).
  pose proof (sub_bytes_payload q n Hq Hn) as Hsub.
  unfold MAX_PAYLOAD_BYTES, sizeof_CrossPackHeader,
    sizeof_CrossPackFooter in Hs.
  subst r. unfold RemoveFromPayload.
  destruct (Z.ltb_spec (payloadSize (header q))
              (Z.of_nat n + removeIdx q)) as [Hlt|_]; [lia|].
  cbn [andb].
  match goal with
  | |- context [snd (Some _, ?p)] => set (Q := p)
  end.
  cbn [fst snd].
  set (buf := if negb le
              then SwapEndian (payload q)
                     (Z.to_nat (GetHeaderSize + removeIdx q)) n
              else payload q) in *.
  assert (HpQ : payload Q = buf) by reflexivity.
  assert (HhQ : header Q = header q) by reflexivity.
  assert (HrQ : removeIdx Q = removeIdx q + Z.of_nat n).
  { subst Q. cbn [removeIdx set_removeIdx set_payload]. unfold u16.
    apply Z.mod_small. lia. }
  assert (Hoff : Z.to_nat (GetHeaderSize + removeIdx q)
                 = (6 + Z.to_nat (removeIdx q))%nat)
    by (unfold GetHeaderSize, sizeof_CrossPackHeader; lia).
  assert (Hlb : length buf = length (payload q)).
  { subst buf. destruct le; cbn [negb]; [reflexivity|].
    apply length_SwapEndian. lia. }
  assert (Hout : forall i,
             (i < 6 + Z.to_nat (removeIdx q)
              \/ 6 + Z.to_nat (removeIdx q) + n <= i)%nat ->
             nth i buf x00 = nth i (payload q) x00).
  { intros i Hi. subst buf. destruct le; cbn [negb]; [reflexivity|].
    apply nth_SwapEndian_out; lia. }
  split.
  { f_equal. rewrite <- Hsub. subst buf. unfold object_value.
    destruct le; cbn [negb]; [reflexivity|].
    rewrite sub_bytes_SwapEndian by lia. rewrite rev_involutive.
    reflexivity. }
  split.
  { unfold readable. rewrite HrQ, HhQ, HpQ, Hlb.
    unfold MAX_PAYLOAD_BYTES, sizeof_CrossPackHeader,
      sizeof_CrossPackFooter. repeat split; lia. }
  split; [exact HhQ|]. split; [reflexivity|]. split; [exact HrQ|].
  apply (nth_ext _ _ x00 x00).
  - rewrite !length_skipn, !length_payload_bytes;
      rewrite ?HhQ, ?HpQ, ?Hlb; lia.
  - intros i Hi.
    rewrite length_skipn, length_payload_bytes in Hi
      by (rewrite HhQ, HpQ, Hlb; lia).
    rewrite HhQ in Hi.
    rewrite !nth_skipn, !nth_payload_bytes by (rewrite ?HhQ; lia).
    rewrite HpQ. apply Hout. lia.
Qed.

(** [RemoveDataFromPayload] without the endian swap, where enough bytes
    remain. *)
Lemma RemoveDataFromPayload_bytes (le : bool) (n : nat) (q : CrossPack) :
  readable q ->
  removeIdx q + Z.of_nat n <= payloadSize (header q) ->
  RemoveDataFromPayload le (Z.of_nat n) false q
  = (VALID_DATA,
     firstn n (skipn (Z.to_nat (removeIdx q)) (payload_bytes q)),
     set_removeIdx (removeIdx q + Z.of_nat n) (set_payload (payload q) q)).
Proof.
  intros Hq Hn. pose proof Hq as (Hr & Hs & Hl).
  pose proof (sub_bytes_payload q n Hq Hn) as Hsub.
  unfold MAX_PAYLOAD_BYTES, sizeof_CrossPackHeader,
    sizeof_CrossPackFooter in Hs.
  unfold RemoveDataFromPayload.
  destruct (Z.ltb_spec (payloadSize (header q))
              (Z.of_nat n + removeIdx q)) as [Hlt|_]; [lia|].
  cbn [andb]. rewrite Nat2Z.id, Hsub.
  cbn [removeIdx set_payload]. unfold u16.
  rewrite Z.mod_small by lia. reflexivity.
Qed.

(** ** The wire image *)

Lemma Serialize_pad (le : bool) (p : CrossPack) :
  wf p -> hasBeenSerialized p = false ->
  nth 5 (payload (Serialize le p)) x00 = nth 5 (payload p) x00.
Proof.
  intros (Hd & Hs & Hc & Hi & Hl) Hser.
  unfold Serialize. rewrite Hser. cbn [negb].
  unfold GetPacketFlag, GetHeaderSize, sizeof_CrossPackDataID,
    sizeof_CrossPackPayloadLen, sizeof_CrossPackChecksum,
    sizeof_CrossPackHeader, sizeof_CrossPackFooter, MAX_PAYLOAD_BYTES in *.
  destruct (CheckBit (packFlags (header p)) CHECKSUM_FLAG),
    (CheckBit (packFlags (header p)) UDP_SUPPORT_FLAG), le;
    cbn [negb payload set_payload set_hasBeenSerialized];
    rd; reflexivity.
Qed.

(** The bytes of the serialized image, one by one. *)
Lemma wire_ext (le le' : bool) (p : CrossPack) :
  wf p -> hasBeenSerialized p = false -> wire le p = wire le' p.
Proof.
  intros Hwf Hser.
  pose proof (GetFooterLength_cases (header p)) as Hfl.
  assert (Hsz : forall l, GetPacketSize (Serialize l p)
                          = payloadSize (header p) + 6
                            + GetFooterLength (header p)).
  { intros l. rewrite (GetPacketSize_wf _ (wf_Serialize l p Hwf Hser)).
    rewrite header_Serialize. reflexivity. }
  assert (Hlen : forall l, length (payload (Serialize l p))
                           = length (payload p)).
  { intros l. apply (Serialize_header l p Hwf Hser). }
  pose proof Hwf as (Hd & Hs & Hc & Hi & Hl).
  unfold MAX_PAYLOAD_BYTES, GetHeaderSize, sizeof_CrossPackHeader,
    sizeof_CrossPackFooter in *.
  assert (Hfl' : 0 <= GetFooterLength (header p) <= 8).
  { rewrite Hfl. destruct (CheckBit _ CHECKSUM_FLAG),
      (CheckBit _ UDP_SUPPORT_FLAG); lia. }
  unfold wire. cbv zeta. rewrite !Hsz.
  apply (nth_ext _ _ x00 x00).
  - rewrite !length_firstn, !Hlen. reflexivity.
  - intros i Hi'. rewrite length_firstn, Hlen in Hi'.
    rewrite !nth_firstn.
    destruct (Nat.ltb_spec i
                (Z.to_nat (payloadSize (header p) + 6
                           + GetFooterLength (header p))));
      [|reflexivity].
    destruct (Nat.lt_ge_cases i 5) as [H5|H5].
    + destruct (Serialize_header le p Hwf Hser)
        as (_ & A0 & A1 & A2 & A3 & A4).
      destruct (Serialize_header le' p Hwf Hser)
        as (_ & B0 & B1 & B2 & B3 & B4).
      destruct i as [|[|[|[|[|i]]]]]; [| | | | |lia]; congruence.
    + destruct (Nat.eq_dec i 5%nat) as [->|Hne].
      { rewrite !Serialize_pad by assumption. reflexivity. }
      destruct (Nat.lt_ge_cases i
                  (6 + Z.to_nat (payloadSize (header p)))) as [Hp|Hp].
      { rewrite !Serialize_payload by (try assumption; lia). reflexivity. }
      set (o := Z.to_nat (6 + payloadSize (header p))).
      replace i with (o + (i - o))%nat by (subst o; lia).
      set (k := (i - o)%nat).
      assert (Hk : (k < Z.to_nat (GetFooterLength (header p)))%nat)
        by (subst k o; lia).
      clearbody k. clear H H5 Hne Hp Hi'.
      unfold GetPacketFlag in *.
      rewrite Hfl in Hk.
      destruct (CheckBit (packFlags (header p)) CHECKSUM_FLAG) eqn:E1,
        (CheckBit (packFlags (header p)) UDP_SUPPORT_FLAG) eqn:E2.
      * destruct (Nat.lt_ge_cases k 4) as [K|K].
        -- destruct (Serialize_footer le p k Hwf Hser K) as (F & _).
           destruct (Serialize_footer le' p k Hwf Hser K) as (F' & _).
           cbv zeta in F, F'. unfold GetPacketFlag in F, F'. fold o in F, F'.
           rewrite F, F' by exact E1. reflexivity.
        -- assert (K' : (k - 4 < 4)%nat) by lia.
           destruct (Serialize_footer le p (k - 4) Hwf Hser K')
             as (_ & F & _).
           destruct (Serialize_footer le' p (k - 4) Hwf Hser K')
             as (_ & F' & _).
           cbv zeta in F, F'. unfold GetPacketFlag in F, F'. fold o in F, F'.
           replace (o + k)%nat with (o + 4 + (k - 4))%nat by lia.
           rewrite F, F' by assumption. reflexivity.
      * assert (K : (k < 4)%nat) by lia.
        destruct (Serialize_footer le p k Hwf Hser K) as (F & _).
        destruct (Serialize_footer le' p k Hwf Hser K) as (F' & _).
        cbv zeta in F, F'. unfold GetPacketFlag in F, F'. fold o in F, F'.
        rewrite F, F' by exact E1. reflexivity.
      * assert (K : (k < 4)%nat) by lia.
        destruct (Serialize_footer le p k Hwf Hser K) as (_ & _ & F).
        destruct (Serialize_footer le' p k Hwf Hser K) as (_ & _ & F').
        cbv zeta in F, F'. unfold GetPacketFlag in F, F'. fold o in F, F'.
        rewrite F, F' by assumption. reflexivity.
      * cbn in Hk. lia.
Qed.

(** X6: The image [Serialize] lays out, on a host of either byte order: the
    data id and the payload size, two bytes each, least significant
    first; the flags; the padding byte of the header, which is left as
    the buffer has it; the payload bytes; then the checksum and the
    sender id, four bytes each, least significant first, each present
    when its flag is set. *)
Theorem wire_format (le : bool) (p : CrossPack) :
  wf p -> hasBeenSerialized p = false ->
  wire le p
  = le_bytes 2 (dataID (header p)) ++ le_bytes 2 (payloadSize (header p))
    ++ [packFlags (header p); nth 5 (payload p) x00]
    ++ payload_bytes p
    ++ (if GetPacketFlag p CHECKSUM_FLAG
        then le_bytes 4 (checksum (footer p)) else [])
    ++ (if GetPacketFlag p UDP_SUPPORT_FLAG
        then le_bytes 4 (senderID (footer p)) else []).
Proof.
  intros Hwf Hser.
  pose proof (GetFooterLength_cases (header p)) as Hfl.
  assert (Hsz : GetPacketSize (Serialize le p)
                = payloadSize (header p) + 6 + GetFooterLength (header p)).
  { rewrite (GetPacketSize_wf _ (wf_Serialize le p Hwf Hser)).
    rewrite header_Serialize. reflexivity. }
  destruct (Serialize_header le p Hwf Hser)
    as (Hlen & A0 & A1 & A2 & A3 & A4).
  pose proof (Serialize_pad le p Hwf Hser) as A5.
  pose proof (Serialize_payload le p) as Hpay.
  pose proof (fun k => Serialize_footer le p k Hwf Hser) as Hfoot.
  pose proof Hwf as (Hd & Hs & Hc & Hi & Hl).
  unfold MAX_PAYLOAD_BYTES, GetHeaderSize, sizeof_CrossPackHeader,
    sizeof_CrossPackFooter in *.
  set (F := (if GetPacketFlag p CHECKSUM_FLAG
             then le_bytes 4 (checksum (footer p)) else [])
            ++ (if GetPacketFlag p UDP_SUPPORT_FLAG
                then le_bytes 4 (senderID (footer p)) else [])).
  assert (HF : Z.of_nat (length F) = GetFooterLength (header p)).
  { subst F. rewrite Hfl, length_app. unfold GetPacketFlag.
    destruct (CheckBit _ CHECKSUM_FLAG), (CheckBit _ UDP_SUPPORT_FLAG);
      rewrite ?length_le_bytes; cbn [length]; lia. }
  assert (Hpb : length (payload_bytes p)
                = Z.to_nat (payloadSize (header p)))
    by (apply length_payload_bytes; lia).
  assert (Hfl' : 0 <= GetFooterLength (header p) <= 8).
  { rewrite Hfl. destruct (CheckBit _ CHECKSUM_FLAG),
      (CheckBit _ UDP_SUPPORT_FLAG); lia. }
  unfold wire. cbv zeta. rewrite Hsz. cbn [le_bytes app].
  set (B := payload (Serialize le p)) in *.
  apply (nth_ext _ _ x00 x00).
  - rewrite length_firstn, Hlen. cbn [length]. rewrite length_app, Hpb. lia.
  - intros i Hi'. rewrite length_firstn, Hlen in Hi'.
    rewrite nth_firstn.
    destruct (Nat.ltb_spec i
                (Z.to_nat (payloadSize (header p) + 6
                           + GetFooterLength (header p)))); [|lia].
    destruct i as [|[|[|[|[|[|j]]]]]]; cbn [nth]; try assumption.
    destruct (Nat.lt_ge_cases j (Z.to_nat (payloadSize (header p))))
      as [Hp|Hp].
    + rewrite app_nth1 by lia. rewrite nth_payload_bytes by lia.
      apply Hpay; try assumption. lia.
    + rewrite app_nth2 by lia. rewrite Hpb.
      set (o := Z.to_nat (6 + payloadSize (header p))) in *.
      replace (S (S (S (S (S (S j))))))
        with (o + (j - Z.to_nat (payloadSize (header p))))%nat
        by (subst o; lia).
      set (k := (j - Z.to_nat (payloadSize (header p)))%nat).
      assert (Hk : (k < length F)%nat) by (subst k; lia).
      clearbody k. subst F. unfold GetPacketFlag in *.
      destruct (CheckBit (packFlags (header p)) CHECKSUM_FLAG) eqn:E1,
        (CheckBit (packFlags (header p)) UDP_SUPPORT_FLAG) eqn:E2;
        rewrite ?app_nil_r, ?app_nil_l in *;
        rewrite ?length_app, ?length_le_bytes in Hk; cbn [length] in Hk.
      * destruct (Nat.lt_ge_cases k 4) as [K|K].
        -- rewrite app_nth1 by (rewrite length_le_bytes; lia).
           apply (Hfoot k K). reflexivity.
        -- rewrite app_nth2 by (rewrite length_le_bytes; lia).
           rewrite length_le_bytes.
           replace (o + k)%nat with (o + 4 + (k - 4))%nat by lia.
           apply (Hfoot (k - 4)%nat); [lia|reflexivity|reflexivity].
      * apply (Hfoot k); [lia|reflexivity].
      * apply (Hfoot k); [lia|reflexivity|reflexivity].
      * lia.
Qed.

Lemma wire_format_witness :
  wire false (Finalize true true 7 (CrossPack_of_dataID zeros 9))
  = [x09; x00; x00; x00; x03; x00; x13; x00; x00; x00; x07; x00; x00; x00].
Proof.
  rewrite wire_format.
  - vm_compute. reflexivity.
  - vm_compute. repeat split; discriminate.
  - reflexivity.
Defined.

(** ** From a sender to a receiver *)

(** The packet a receiver of either byte order decodes from the image a
    sender of either byte order serialized. *)
Lemma decode_any (le1 le2 : bool) (p : CrossPack) :
  wf p -> hasBeenSerialized p = false ->
  let q := CrossPack_of_data le2 (wire le1 p) in
  header q = header p
  /\ payload_bytes q = payload_bytes p
  /\ removeIdx q = 0
  /\ readable q.
Proof.
  intros Hwf Hser q.
  assert (Eq : q = CrossPack_of_data le2 (wire le2 p)).
  { subst q. rewrite (wire_ext le1 le2) by assumption. reflexivity. }
  destruct (decode_wire le2 p Hwf Hser) as (Hh & Hp & _).
  cbv zeta in Hh, Hp. rewrite <- Eq in Hh, Hp.
  split; [exact Hh|]. split; [exact Hp|]. split; [reflexivity|].
  pose proof Hwf as (Hd & Hs & Hc & Hi & Hl).
  unfold readable. rewrite Hh. split; [cbn; lia|]. split; [exact Hs|].
  rewrite Eq. unfold CrossPack_of_data, CrossPack_of_parts. cbn [payload].
  unfold wire. cbv zeta. rewrite length_firstn.
  rewrite (GetPacketSize_wf _ (wf_Serialize le2 p Hwf Hser)).
  rewrite header_Serialize.
  destruct (Serialize_header le2 p Hwf Hser) as (Hlen & _).
  rewrite Hlen.
  pose proof (GetFooterLength_cases (header p)) as Hfl.
  unfold MAX_PAYLOAD_BYTES, GetHeaderSize, sizeof_CrossPackHeader,
    sizeof_CrossPackFooter in *.
  assert (Hfl' : 0 <= GetFooterLength (header p) <= 8).
  { rewrite Hfl. destruct (CheckBit _ CHECKSUM_FLAG),
      (CheckBit _ UDP_SUPPORT_FLAG); lia. }
  lia.
Qed.

Lemma firstn_exact {A} (l1 l2 : list A) (n : nat) :
  n = length l1 -> firstn n (l1 ++ l2) = l1.
Proof.
  intros ->. rewrite firstn_app, Nat.sub_diag, firstn_all. cbn [firstn].
  apply app_nil_r.
Qed.

Lemma skipn_exact {A} (l1 l2 : list A) (n : nat) :
  n = length l1 -> skipn n (l1 ++ l2) = l2.
Proof.
  intros ->. rewrite skipn_app, Nat.sub_diag, skipn_all. reflexivity.
Qed.

Lemma payload_bytes_empty (p : CrossPack) :
  payloadSize (header p) = 0 -> payload_bytes p = [].
Proof. intros H. unfold payload_bytes. rewrite H. reflexivity. Qed.

(** X7: Two scalars written with AddToPayload into an empty packet by a
    sender of either byte order, serialized, decoded by a receiver of
    either byte order and read with RemoveFromPayload: the values come
    out in the order they went in, each reduced to the width of its
    type, and nothing more can be read. *)
Theorem payload_fifo (le1 le2 : bool) (n1 n2 : nat) (v1 v2 : Z)
    (p : CrossPack) :
  full p -> payloadSize (header p) = 0 ->
  Z.of_nat n1 + Z.of_nat n2 <= MAX_PAYLOAD_BYTES ->
  let a1 := AddToPayload le1 n1 v1 true p in
  let a2 := AddToPayload le1 n2 v2 true (snd a1) in
  let q := CrossPack_of_data le2 (wire le1 (snd a2)) in
  let r1 := RemoveFromPayload le2 n1 true q in
  let r2 := RemoveFromPayload le2 n2 true (snd r1) in
  fst a1 = VALID_DATA /\ fst a2 = VALID_DATA
  /\ GetPayloadSize q = Z.of_nat n1 + Z.of_nat n2
  /\ fst r1 = Some (v1 mod 256 ^ Z.of_nat n1)
  /\ fst r2 = Some (v2 mod 256 ^ Z.of_nat n2)
  /\ GetRemainingPayloadSize (snd r2) = 0
  /\ fst (RemoveFromPayload le2 1 true (snd r2)) = None.
Proof.
  intros Hp H0 Hroom a1 a2 q r1 r2.
  destruct (AddToPayload_bytes le1 n1 v1 p Hp ltac:(lia))
    as (E1 & Hp1 & B1 & Hh1 & _ & _ & _ & _).
  fold a1 in E1, Hp1, B1, Hh1.
  assert (S1 : payloadSize (header (snd a1)) = Z.of_nat n1)
    by (rewrite Hh1; cbn; lia).
  destruct (AddToPayload_bytes le1 n2 v2 (snd a1) Hp1 ltac:(lia))
    as (E2 & Hp2 & B2 & Hh2 & _ & _ & _ & Hser).
  fold a2 in E2, Hp2, B2, Hh2, Hser.
  assert (S2 : payloadSize (header (snd a2)) = Z.of_nat n1 + Z.of_nat n2)
    by (rewrite Hh2; cbn; lia).
  rewrite B1, (payload_bytes_empty p H0) in B2. cbn [app] in B2.
  destruct (decode_any le1 le2 (snd a2) (proj1 Hp2) Hser)
    as (Hhq & Bq & Rq & Hq).
  fold q in Hhq, Bq, Rq, Hq.
  assert (Sq : payloadSize (header q) = Z.of_nat n1 + Z.of_nat n2)
    by (rewrite Hhq; exact S2).
  destruct (RemoveFromPayload_bytes le2 n1 q Hq ltac:(lia))
    as (V1 & Hq1 & Hh1' & _ & R1 & K1).
  fold r1 in V1, Hq1, Hh1', R1, K1.
  rewrite Rq in V1, R1, K1.
  change (Z.to_nat 0) with O in V1, K1. cbn [Nat.add] in K1.
  rewrite skipn_O in V1.
  rewrite Bq, B2 in V1, K1.
  rewrite firstn_exact in V1 by (rewrite length_le_bytes; reflexivity).
  rewrite skipn_exact in K1 by (rewrite length_le_bytes; reflexivity).
  rewrite le_value_le_bytes in V1.
  assert (Sq1 : payloadSize (header (snd r1)) = Z.of_nat n1 + Z.of_nat n2)
    by (rewrite Hh1'; exact Sq).
  destruct (RemoveFromPayload_bytes le2 n2 (snd r1) Hq1 ltac:(lia))
    as (V2 & Hq2 & Hh2' & _ & R2 & _).
  fold r2 in V2, Hq2, Hh2', R2.
  rewrite R1 in V2, R2.
  replace (Z.to_nat (0 + Z.of_nat n1)) with n1 in V2 by lia.
  rewrite K1 in V2. rewrite firstn_all2 in V2
    by (rewrite length_le_bytes; lia).
  rewrite le_value_le_bytes in V2.
  do 2 (split; [assumption|]). split; [exact Sq|].
  do 2 (split; [assumption|]).
  assert (Sq2 : payloadSize (header (snd r2)) = Z.of_nat n1 + Z.of_nat n2)
    by (rewrite Hh2'; exact Sq1).
  split.
  - unfold GetRemainingPayloadSize, GetPayloadSize. rewrite Sq2, R2.
    replace (Z.of_nat n1 + Z.of_nat n2 - (0 + Z.of_nat n1 + Z.of_nat n2))
      with 0 by lia. reflexivity.
  - unfold RemoveFromPayload. rewrite Sq2, R2.
    destruct (Z.ltb_spec (Z.of_nat n1 + Z.of_nat n2)
                (Z.of_nat 1 + (0 + Z.of_nat n1 + Z.of_nat n2)));
      [reflexivity|lia].
Qed.

Lemma payload_fifo_witness :
  let p := CrossPack_of_dataID zeros 9 in
  let a1 := AddToPayload false 4 305419896 true p in
  let a2 := AddToPayload false 2 (-2) true (snd a1) in
  let q := CrossPack_of_data true (wire false (snd a2)) in
  let r1 := RemoveFromPayload true 4 true q in
  let r2 := RemoveFromPayload true 2 true (snd r1) in
  fst r1 = Some 305419896 /\ fst r2 = Some 65534.
Proof.
  intros p a1 a2 q r1 r2.
  assert (Hp : full p).
  { split; [|reflexivity]. vm_compute. repeat split; discriminate. }
  destruct (payload_fifo false true 4 2 305419896 (-2) p Hp eq_refl
              ltac:(vm_compute; discriminate))
    as (_ & _ & _ & V1 & V2 & _).
  split; [exact V1|exact V2].
Defined.

Lemma c_str_no_nul (s : list byte) :
  Forall (fun b => b <> x00) s -> c_str s = s.
Proof.
  induction 1 as [|b s Hb _ IH]; [reflexivity|].
  cbn [c_str]. destruct (Byte.eqb b x00) eqn:E.
  - apply Byte.byte_dec_bl in E. contradiction.
  - rewrite IH. reflexivity.
Qed.

(** X8: A string written with AddStringToPayload into an empty packet by a
    sender of either byte order, serialized, decoded by a receiver of
    either byte order and read with RemoveStringFromPayload: the payload
    is the length of the string in two bytes, least significant first,
    then its characters; the string read is the one written up to its
    first NUL character, so it is the whole string when that holds no
    NUL. *)
Theorem string_roundtrip (le1 le2 : bool) (s : list byte) (p : CrossPack) :
  full p -> payloadSize (header p) = 0 ->
  Z.of_nat (length s) + 2 <= MAX_PAYLOAD_BYTES ->
  let a := AddStringToPayload le1 s p in
  let q := CrossPack_of_data le2 (wire le1 (snd a)) in
  fst a = VALID_DATA
  /\ payload_bytes (snd a) = le_bytes 2 (Z.of_nat (length s)) ++ s
  /\ fst (RemoveStringFromPayload le2 q) = c_str s
  /\ (Forall (fun b => b <> x00) s ->
      fst (RemoveStringFromPayload le2 q) = s).
Proof.
  intros Hp H0 Hroom a q.
  assert (Hmax : MAX_PAYLOAD_BYTES = 1486) by reflexivity.
  assert (Hu : u16 (Z.of_nat (length s)) = Z.of_nat (length s))
    by (unfold u16; apply Z.mod_small; lia).
  (* the packet written *)
  destruct (AddToPayload_bytes le1 2 (Z.of_nat (length s)) p Hp
              ltac:(rewrite H0; lia))
    as (E1 & Hp1 & B1 & Hh1 & _ & _ & _ & _).
  destruct (AddToPayload le1 2 (Z.of_nat (length s)) true p)
    as [e1 p1] eqn:EA.
  cbn [fst snd] in E1, Hp1, B1, Hh1. subst e1.
  assert (S1 : payloadSize (header p1) = 2) by (rewrite Hh1, H0; reflexivity).
  destruct (AddDataToPayload_bytes le1 s p1 Hp1 ltac:(rewrite S1; lia))
    as (E2 & Hp2 & B2 & Hh2 & _ & _ & _ & Hser).
  destruct (AddDataToPayload le1 s false p1) as [e2 p2] eqn:EB.
  cbn [fst snd] in E2, Hp2, B2, Hh2, Hser. subst e2.
  assert (Ea : a = (VALID_DATA, p2)).
  { subst a. unfold AddStringToPayload. rewrite H0, Hu.
    destruct (Z.gtb_spec (0 + Z.of_nat (length s)
                          + sizeof_CrossPackPayloadLen) MAX_PAYLOAD_BYTES)
      as [Hgt|_]; [unfold sizeof_CrossPackPayloadLen in Hgt; lia|].
    rewrite EA. cbn [is_VALID_DATA negb].
    rewrite Nat2Z.id, firstn_all, EB. reflexivity. }
  assert (S2 : payloadSize (header p2) = 2 + Z.of_nat (length s))
    by (rewrite Hh2, S1; reflexivity).
  rewrite B1, (payload_bytes_empty p H0) in B2. cbn [app] in B2.
  subst q. rewrite Ea. cbn [fst snd].
  split; [reflexivity|]. split; [exact B2|].
  (* the packet read *)
  destruct (decode_any le1 le2 p2 (proj1 Hp2) Hser) as (Hhq & Bq & Rq & Hq).
  set (q := CrossPack_of_data le2 (wire le1 p2)) in *.
  assert (Sq : payloadSize (header q) = 2 + Z.of_nat (length s))
    by (rewrite Hhq; exact S2).
  destruct (RemoveFromPayload_bytes le2 2 q Hq ltac:(lia))
    as (V1 & Hq1 & Hh1' & _ & R1 & K1).
  destruct (RemoveFromPayload le2 2 true q) as [o q1] eqn:ER.
  cbn [fst snd] in V1, Hq1, Hh1', R1, K1.
  rewrite Rq in V1, R1, K1. change (Z.to_nat 0) with O in V1, K1.
  cbn [Nat.add] in K1. rewrite skipn_O in V1.
  rewrite Bq, B2 in V1, K1.
  rewrite firstn_exact in V1 by reflexivity.
  rewrite skipn_exact in K1 by reflexivity.
  rewrite le_value_le_bytes in V1.
  change (256 ^ Z.of_nat 2) with 65536 in V1.
  rewrite Z.mod_small in V1 by lia.
  assert (Sq1 : payloadSize (header q1) = 2 + Z.of_nat (length s))
    by (rewrite Hh1'; exact Sq).
  assert (Hread : fst (RemoveStringFromPayload le2 q) = c_str s).
  { unfold RemoveStringFromPayload, RemoveFromPayload_uint.
    rewrite Sq.
    destruct (Z.ltb_spec (2 + Z.of_nat (length s))
                sizeof_CrossPackPayloadLen) as [Hlt|_];
      [unfold sizeof_CrossPackPayloadLen in Hlt; lia|].
    rewrite ER, V1, Sq1.
    destruct (Z.ltb_spec (2 + Z.of_nat (length s)) (Z.of_nat (length s)))
      as [Hlt|_]; [lia|].
    rewrite (RemoveDataFromPayload_bytes le2 (length s) q1 Hq1)
      by (rewrite R1, Sq1; lia).
    cbn [is_VALID_DATA fst]. rewrite R1.
    replace (Z.to_nat (0 + Z.of_nat 2)) with 2%nat by lia.
    rewrite K1, firstn_all. reflexivity. }
  split; [exact Hread|].
  intros Hnul. rewrite Hread. apply c_str_no_nul, Hnul.
Qed.

Lemma string_roundtrip_witness :
  let p := CrossPack_of_dataID zeros 9 in
  let a := AddStringToPayload false [x68; x69; x00; x21] p in
  let q := CrossPack_of_data true (wire false (snd a)) in
  payload_bytes (snd a) = [x04; x00; x68; x69; x00; x21]
  /\ fst (RemoveStringFromPayload true q) = [x68; x69].
Proof.
  intros p a q.
  assert (Hp : full p).
  { split; [|reflexivity]. vm_compute. repeat split; discriminate. }
  destruct (string_roundtrip false true [x68; x69; x00; x21] p Hp eq_refl
              ltac:(vm_compute; discriminate))
    as (_ & B & V & _).
  split; [exact B|exact V].
Defined.

(** * CrossPack.h: finalization, the checksum and copies *)

Lemma flags_idem (f : byte) (ck udp : bool) :
  let g := if udp
           then SetBit (if ck then SetBit f CHECKSUM_FLAG
                        else ClearBit f CHECKSUM_FLAG) UDP_SUPPORT_FLAG
           else ClearBit (if ck then SetBit f CHECKSUM_FLAG
                          else ClearBit f CHECKSUM_FLAG) UDP_SUPPORT_FLAG in
  (if udp
   then SetBit (if ck then SetBit g CHECKSUM_FLAG
                else ClearBit g CHECKSUM_FLAG) UDP_SUPPORT_FLAG
   else ClearBit (if ck then SetBit g CHECKSUM_FLAG
                  else ClearBit g CHECKSUM_FLAG) UDP_SUPPORT_FLAG) = g.
Proof.
  cbv zeta. apply CheckBit_ext. intros y Hy.
  unfold CHECKSUM_FLAG, UDP_SUPPORT_FLAG.
  destruct ck, udp;
    repeat first [ rewrite CheckBit_SetBit by lia
                 | rewrite CheckBit_ClearBit by lia ];
    destruct (y =? 1), (y =? 0), (CheckBit f y); reflexivity.
Qed.

Lemma CalculateChecksum_ext (p q : CrossPack) :
  header q = header p -> payload q = payload p ->
  senderID (footer q) = senderID (footer p) ->
  CalculateChecksum q = CalculateChecksum p.
Proof.
  intros Hh Hp Hs. unfold CalculateChecksum. rewrite Hh, Hp, Hs. reflexivity.
Qed.

Lemma Finalize_more (ck udp : bool) (id : Z) (p : CrossPack) :
  let F := Finalize ck udp id p in
  packFlags (header F)
  = (if udp
     then SetBit (if ck then SetBit (packFlags (header p)) CHECKSUM_FLAG
                  else ClearBit (packFlags (header p)) CHECKSUM_FLAG)
            UDP_SUPPORT_FLAG
     else ClearBit (if ck then SetBit (packFlags (header p)) CHECKSUM_FLAG
                    else ClearBit (packFlags (header p)) CHECKSUM_FLAG)
            UDP_SUPPORT_FLAG)
  /\ removeIdx F = removeIdx p
  /\ shouldDeleteData F = shouldDeleteData p
  /\ (ck = false -> checksum (footer F) = checksum (footer p)).
Proof.
  unfold Finalize, SetPacketFlag.
  cbn [hasBeenFinalized set_hasBeenFinalized andb snd header set_header
       set_hasBeenSerialized packFlags set_packFlags].
  destruct ck, udp; repeat split; try reflexivity; discriminate.
Qed.

Lemma pack_ext (a b : CrossPack) :
  dataID (header a) = dataID (header b) ->
  payloadSize (header a) = payloadSize (header b) ->
  packFlags (header a) = packFlags (header b) ->
  checksum (footer a) = checksum (footer b) ->
  senderID (footer a) = senderID (footer b) ->
  payload a = payload b -> removeIdx a = removeIdx b ->
  shouldDeleteData a = shouldDeleteData b ->
  hasBeenFinalized a = hasBeenFinalized b ->
  hasBeenSerialized a = hasBeenSerialized b ->
  a = b.
Proof.
  destruct a as [[] [] ? ? ? ? ?], b as [[] [] ? ? ? ? ?]. cbn.
  intros; subst; reflexivity.
Qed.

(** X9: Finalize: the packet it leaves passes IsValid, whatever the flags
    asked for and whatever the packet was; and finalizing a second time
    with the same arguments changes nothing. *)
Theorem Finalize_IsValid (ck udp : bool) (id : Z) (p : CrossPack) :
  IsValid (Finalize ck udp id p) = true
  /\ Finalize ck udp id (Finalize ck udp id p) = Finalize ck udp id p.
Proof.
  destruct (Finalize_fields ck udp id p)
    as (Fd & Fs & Fp & Fck & Fudp & Fsnd & Fser & Ffin & Fsum).
  destruct (Finalize_more ck udp id p) as (Ff & Fr & Fdel & Fold).
  cbv zeta in *.
  set (F := Finalize ck udp id p) in *.
  destruct (Finalize_fields ck udp id F)
    as (Gd & Gs & Gp & Gck & Gudp & Gsnd & Gser & Gfin & Gsum).
  destruct (Finalize_more ck udp id F) as (Gf & Gr & Gdel & Gold).
  cbv zeta in *.
  set (G := Finalize ck udp id F) in *.
  split.
  - unfold IsValid. rewrite Fck.
    destruct ck; [|reflexivity]. cbn [negb].
    rewrite (Fsum eq_refl). apply Z.eqb_refl.
  - assert (Hflags : packFlags (header G) = packFlags (header F)).
    { rewrite Gf, Ff. apply flags_idem. }
    assert (Hsnd : senderID (footer G) = senderID (footer F)).
    { rewrite Gsnd, Fsnd. destruct udp; reflexivity. }
    apply pack_ext; try congruence.
    destruct ck.
    + rewrite (Gsum eq_refl), (Fsum eq_refl).
      apply CalculateChecksum_ext; [|exact Gp|exact Hsnd].
      destruct (header G), (header F). cbn in *. congruence.
    + apply Gold. reflexivity.
Qed.

Lemma s32_shift (a d : Z) :
  d <> 0 -> -4294967296 < d < 4294967296 -> s32 (a + d) <> s32 a.
Proof.
  intros Hd Hr H. unfold s32 in H.
  assert (E : (a + d + 2147483648) mod 4294967296
              = (a + 2147483648) mod 4294967296) by lia.
  clear H. Z.div_mod_to_equations. lia.
Qed.

Lemma char_val_inj (a b : byte) : char_val a = char_val b -> a = b.
Proof.
  intros H. rewrite <- (byte_of_Z_of_byte a), <- (byte_of_Z_of_byte b).
  f_equal. unfold char_val in H.
  pose proof (Z_of_byte_range a). pose proof (Z_of_byte_range b).
  destruct (Z.ltb_spec (Z_of_byte a) 128), (Z.ltb_spec (Z_of_byte b) 128);
    lia.
Qed.

(** X10: The checksum covers the header: once a packet is finalized with a
    checksum, giving it another data id with SetDataID, or changing one
    of its custom flags with SetPacketFlag (which succeeds on a
    finalized packet), leaves a packet that no longer passes IsValid. *)
Theorem checksum_covers_header (udp : bool) (id : Z) (p : CrossPack) :
  let F := Finalize true udp id p in
  (forall d, 0 <= dataID (header p) < 65536 -> 0 <= d < 65536 ->
             d <> dataID (header p) ->
             IsValid (SetDataID d F) = false)
  /\ (forall k v, CUSTOM_FLAG_1 <= k < 8 -> GetPacketFlag p k <> v ->
                  fst (SetPacketFlag k v F) = VALID_DATA
                  /\ GetPacketFlag (snd (SetPacketFlag k v F)) k = v
                  /\ IsValid (snd (SetPacketFlag k v F)) = false).
Proof.
  intros F.
  destruct (Finalize_fields true udp id p)
    as (Fd & Fs & Fp & Fck & Fudp & Fsnd & _ & Ffin & Fsum).
  fold F in Fd, Fs, Fp, Fck, Fudp, Fsnd, Ffin, Fsum.
  specialize (Fsum eq_refl). rewrite CalculateChecksum_sum in Fsum.
  split.
  - intros d H0 Hd Hne. unfold IsValid.
    replace (GetPacketFlag (SetDataID d F) CHECKSUM_FLAG) with true
      by (symmetry; exact Fck).
    cbn [negb]. apply Z.eqb_neq.
    rewrite CalculateChecksum_sum.
    change (checksum (footer (SetDataID d F))) with (checksum (footer F)).
    rewrite Fsum. unfold checksum_sum.
    change (payload_bytes (SetDataID d F)) with (payload_bytes F).
    change (dataID (header (SetDataID d F))) with d.
    change (payloadSize (header (SetDataID d F)))
      with (payloadSize (header F)).
    change (packFlags (header (SetDataID d F))) with (packFlags (header F)).
    change (senderID (footer (SetDataID d F))) with (senderID (footer F)).
    rewrite Fd. intros E. symmetry in E. revert E.
    match goal with
    | |- s32 ?x = s32 ?y -> False =>
        replace x with (y + (d - dataID (header p))) by lia
    end.
    apply s32_shift; lia.
  - intros k v Hk Hv. unfold CUSTOM_FLAG_1 in Hk.
    unfold SetPacketFlag. rewrite Ffin.
    destruct (Z.ltb_spec k CUSTOM_FLAG_1) as [Hlt|_];
      [unfold CUSTOM_FLAG_1 in Hlt; lia|].
    cbn [andb fst snd].
    set (f := packFlags (header F)).
    set (f' := if v then SetBit f k else ClearBit f k).
    set (G := set_hasBeenSerialized false
                (set_header (set_packFlags f' (header F)) F)).
    assert (Hpk : CheckBit f k = GetPacketFlag p k).
    { subst f. unfold F.
      rewrite (proj1 (Finalize_more true udp id p)).
      unfold GetPacketFlag, CHECKSUM_FLAG, UDP_SUPPORT_FLAG.
      destruct udp;
        repeat first [ rewrite CheckBit_SetBit by lia
                     | rewrite CheckBit_ClearBit by lia ];
        destruct (Z.eqb_spec k 1), (Z.eqb_spec k 0); try lia; reflexivity. }
    assert (Hk' : CheckBit f' k = v).
    { subst f'. destruct v;
        [rewrite CheckBit_SetBit by lia|rewrite CheckBit_ClearBit by lia];
        rewrite Z.eqb_refl; reflexivity. }
    assert (Hck : CheckBit f' CHECKSUM_FLAG = true).
    { subst f'. unfold GetPacketFlag in Fck. fold f in Fck.
      unfold CHECKSUM_FLAG in *. destruct v;
        [rewrite CheckBit_SetBit by lia|rewrite CheckBit_ClearBit by lia];
        rewrite Fck; destruct (Z.eqb_spec 0 k); try lia; reflexivity. }
    split; [reflexivity|]. split; [exact Hk'|].
    unfold IsValid, GetPacketFlag.
    change (packFlags (header G)) with f'. rewrite Hck. cbn [negb].
    apply Z.eqb_neq. rewrite CalculateChecksum_sum.
    change (checksum (footer G)) with (checksum (footer F)).
    rewrite Fsum. unfold checksum_sum.
    change (payload_bytes G) with (payload_bytes F).
    change (dataID (header G)) with (dataID (header F)).
    change (payloadSize (header G)) with (payloadSize (header F)).
    change (packFlags (header G)) with f'.
    change (senderID (footer G)) with (senderID (footer F)).
    fold f.
    assert (Hne : char_val f' <> char_val f).
    { intros E. apply char_val_inj in E. rewrite E in Hk'. congruence. }
    pose proof (char_val_range f). pose proof (char_val_range f').
    intros E. symmetry in E. revert E.
    match goal with
    | |- s32 ?x = s32 ?y -> False =>
        replace x with (y + (char_val f' - char_val f)) by lia
    end.
    apply s32_shift; lia.
Qed.

Lemma checksum_covers_header_witness :
  let F := Finalize true false 0 (CrossPack_of_dataID zeros 9) in
  IsValid F = true
  /\ IsValid (SetDataID 10 F) = false
  /\ IsValid (snd (SetPacketFlag CUSTOM_FLAG_1 true F)) = false.
Proof.
  intros F.
  destruct (checksum_covers_header false 0 (CrossPack_of_dataID zeros 9))
    as [H1 H2].
  split; [reflexivity|]. split.
  - apply H1; cbn; lia.
  - apply (H2 CUSTOM_FLAG_1 true); [unfold CUSTOM_FLAG_1; lia|].
    vm_compute. discriminate.
Defined.

(** X11: SetDataID does not mark the serialized image stale: on a packet
    that was serialized, the next image is the old one and still carries
    the old data id, while a data id set before the first serialization
    is the one in the image. *)
Theorem SetDataID_stale (le : bool) (d : Z) (p : CrossPack) :
  wf p -> hasBeenSerialized p = false -> 0 <= d < 65536 ->
  wire le (SetDataID d (Serialize le p)) = wire le p
  /\ GetDataID (CrossPack_of_data le (wire le (SetDataID d (Serialize le p))))
     = GetDataID p
  /\ GetDataID (CrossPack_of_data le (wire le (SetDataID d p))) = d.
Proof.
  intros Hwf Hser Hd.
  assert (E : wire le (SetDataID d (Serialize le p)) = wire le p).
  { unfold wire at 1. cbv zeta.
    assert (Hs : Serialize le (SetDataID d (Serialize le p))
                 = SetDataID d (Serialize le p)).
    { unfold Serialize at 1.
      replace (hasBeenSerialized (SetDataID d (Serialize le p))) with true;
        [reflexivity|].
      unfold Serialize. rewrite Hser. reflexivity. }
    rewrite Hs. reflexivity. }
  split; [exact E|]. split.
  - rewrite E. unfold GetDataID.
    destruct (decode_wire le p Hwf Hser) as (Hh & _).
    cbv zeta in Hh. rewrite Hh. reflexivity.
  - assert (Hwf' : wf (SetDataID d p)).
    { destruct Hwf as (H1 & H2 & H3 & H4 & H5).
      unfold wf, SetDataID.
      cbn [header footer payload set_header set_dataID dataID payloadSize].
      repeat split; try assumption; lia. }
    destruct (decode_wire le (SetDataID d p) Hwf' Hser) as (Hh & _).
    cbv zeta in Hh. unfold GetDataID. rewrite Hh. reflexivity.
Qed.

Lemma SetDataID_stale_witness :
  let p := CrossPack_of_dataID zeros 9 in
  GetDataID (CrossPack_of_data true
               (wire true (SetDataID 10 (Serialize true p)))) = 9
  /\ GetDataID (CrossPack_of_data true (wire true (SetDataID 10 p))) = 10.
Proof.
  intros p.
  assert (Hwf : wf p) by (vm_compute; repeat split; discriminate).
  destruct (SetDataID_stale true 10 p Hwf eq_refl ltac:(lia))
    as (_ & H1 & H2).
  split; [exact H1|exact H2].
Defined.

Lemma header_eta (h : CrossPackHeader) :
  {| dataID := dataID h; payloadSize := payloadSize h;
     packFlags := packFlags h |} = h.
Proof. destruct h; reflexivity. Qed.

Lemma footer_eta (f : CrossPackFooter) :
  {| checksum := checksum f; senderID := senderID f |} = f.
Proof. destruct f; reflexivity. Qed.

(** X12: Copy, and so the copy constructor and the assignment: the copy has
    the header, the footer, the payload bytes, the read position and the
    finalized flag of the original and is marked not serialized; it has
    the same checksum, passes IsValid exactly when the original does and
    yields the same value to RemoveFromPayload; the cells of its buffer
    outside the payload are not written. *)
Theorem Copy_same (inPack this : CrossPack) :
  readable inPack ->
  (6 + Z.to_nat (payloadSize (header inPack)) <= length (payload this))%nat ->
  let c := Copy inPack this in
  header c = header inPack /\ footer c = footer inPack
  /\ payload_bytes c = payload_bytes inPack
  /\ removeIdx c = removeIdx inPack
  /\ hasBeenFinalized c = hasBeenFinalized inPack
  /\ hasBeenSerialized c = false
  /\ CalculateChecksum c = CalculateChecksum inPack
  /\ IsValid c = IsValid inPack
  /\ (forall le n,
        fst (RemoveFromPayload le n true c)
        = fst (RemoveFromPayload le n true inPack))
  /\ length (payload c) = length (payload this)
  /\ (forall i, (i < 6 \/ 6 + Z.to_nat (payloadSize (header inPack)) <= i)%nat ->
                nth i (payload c) x00 = nth i (payload this) x00).
Proof.
  intros Hq Hroom c. pose proof Hq as (Hr & Hs & Hl).
  assert (Hh : header c = header inPack) by apply header_eta.
  assert (Hf : footer c = footer inPack) by apply footer_eta.
  assert (HpC : payload c
                = memcpy (payload this) 6
                    (sub_bytes (payload inPack) 6
                       (Z.to_nat (payloadSize (header inPack)))))
    by reflexivity.
  assert (Hlen : length (payload c) = length (payload this)).
  { rewrite HpC. apply length_memcpy. rewrite length_sub_bytes. lia. }
  assert (Hpb : payload_bytes c = payload_bytes inPack).
  { apply (nth_ext _ _ x00 x00).
    - rewrite !length_payload_bytes; rewrite ?Hh, ?Hlen; lia.
    - intros i Hi. rewrite length_payload_bytes in Hi
        by (rewrite Hh, Hlen; lia).
      rewrite Hh in Hi.
      rewrite !nth_payload_bytes by (rewrite ?Hh; lia).
      rewrite HpC, nth_memcpy_in by (rewrite ?length_sub_bytes; lia).
      rewrite nth_sub_bytes by lia. f_equal. lia. }
  assert (Hsum : CalculateChecksum c = CalculateChecksum inPack).
  { rewrite !CalculateChecksum_sum. apply checksum_sum_ext;
      [exact Hh|exact Hpb|rewrite Hf; reflexivity]. }
  assert (Hqc : readable c).
  { unfold readable. rewrite Hh, Hlen. repeat split; try lia.
    exact Hr. }
  split; [exact Hh|]. split; [exact Hf|]. split; [exact Hpb|].
  do 3 (split; [reflexivity|]). split; [exact Hsum|].
  split.
  { unfold IsValid, GetPacketFlag. rewrite Hh, Hf, Hsum. reflexivity. }
  split.
  { intros le n.
    destruct (Z.le_gt_cases (removeIdx inPack + Z.of_nat n)
                (payloadSize (header inPack))) as [Hin|Hout].
    - destruct (RemoveFromPayload_bytes le n inPack Hq Hin) as (V & _).
      destruct (RemoveFromPayload_bytes le n c Hqc
                  ltac:(rewrite Hh; exact Hin)) as (V' & _).
      rewrite V, V', Hpb. reflexivity.
    - unfold RemoveFromPayload. rewrite Hh.
      change (removeIdx c) with (removeIdx inPack).
      destruct (Z.ltb_spec (payloadSize (header inPack))
                  (Z.of_nat n + removeIdx inPack)); [reflexivity|lia]. }
  split; [exact Hlen|].
  intros i Hi. rewrite HpC.
  apply nth_memcpy_out; rewrite length_sub_bytes; lia.
Qed.

Lemma Copy_same_witness :
  let q :=
    snd (AddToPayload true 4 305419896 true (CrossPack_of_dataID zeros 9)) in
  let c := CrossPack_copy zeros (Finalize true false 0 q) in
  header c = header (Finalize true false 0 q)
  /\ IsValid c = true
  /\ fst (RemoveFromPayload false 4 true c)
     = fst (RemoveFromPayload false 4 true (Finalize true false 0 q)).
Proof.
  intros q c.
  assert (Hq : readable (Finalize true false 0 q)).
  { vm_compute. repeat split; try discriminate. lia. }
  assert (Hroom : (6 + Z.to_nat (payloadSize
                                   (header (Finalize true false 0 q)))
                   <= length (payload (CrossPack_new zeros)))%nat).
  { vm_compute. lia. }
  destruct (Copy_same (Finalize true false 0 q) (CrossPack_new zeros) Hq Hroom)
    as (Hh & _ & _ & _ & _ & _ & _ & Hv & Hrd & _).
  split; [exact Hh|]. split.
  - unfold c, CrossPack_copy. rewrite Hv. reflexivity.
  - apply Hrd.
Defined.

(** * The transmit errors of the receive functions *)

Lemma complete_frame_tests (le : bool) (inData : list byte) (inLength : Z) :
  complete_frame le inData inLength ->
  (inLength >=? GetHeaderSize) = true
  /\ (payloadSize (PeakHeader le inData) >? MAX_PAYLOAD_BYTES) = false
  /\ (payloadSize (PeakHeader le inData) + GetHeaderSize
      + GetFooterLength (PeakHeader le inData) <=? inLength) = true.
Proof.
  intros (H1 & H2 & H3). split; [apply Z.geb_le; exact H1|]. split.
  - destruct (Z.gtb_spec (payloadSize (PeakHeader le inData))
                MAX_PAYLOAD_BYTES); [lia|reflexivity].
  - apply Z.leb_le. exact H3.
Qed.

Lemma custom_id_tests (d : Z) :
  CUSTOM_DATA_START <= d ->
  (d =? HANDSHAKE) = false /\ (d =? INIT_CLIENT_ID) = false
  /\ (d =? RECONNECT_PACK) = false /\ (d =? DISCONNECT_PACK) = false
  /\ (d =? INIT_CUSTOM_DATA_LIST) = false /\ (d =? ALIVENESS_TEST) = false
  /\ (d =? UNKNOWN_PACK) = false.
Proof.
  unfold CUSTOM_DATA_START, HANDSHAKE, INIT_CLIENT_ID, RECONNECT_PACK,
    DISCONNECT_PACK, INIT_CUSTOM_DATA_LIST, ALIVENESS_TEST, UNKNOWN_PACK.
  intros H. repeat split; apply Z.eqb_neq; lia.
Qed.

(** X13: The transmit errors a complete frame can raise.  On the client, a
    frame with the data id UNKNOWN_PACK is reported as INVALID_CHECKSUM,
    and a datagram with a custom data id whose checksum fails is
    reported as INVALID_DATA_ID.  On the server the two codes are the
    other way round: UNKNOWN_PACK from a client gives INVALID_DATA_ID, a
    datagram with a custom data id from a connected sender whose
    checksum fails gives INVALID_CHECKSUM; and a datagram whose sender
    cannot be resolved gives CLIENT_NOT_FOUND, whatever its data id.
    In each case the transmit-error callback is the only effect and the
    frame is used up. *)
Theorem transmit_error_codes (le : bool) (inData : list byte)
    (inLength : Z) :
  complete_frame le inData inLength ->
  let pack := inPack le inData in
  (GetDataID pack = UNKNOWN_PACK ->
   forall m st,
     Client.OnReceiveNewData le inData inLength m st
     = (GetPacketSize pack,
        snd (Client.fire Client.transErrorEvent
               (Client.OnTransmitError (Some pack) m INVALID_CHECKSUM) st)))
  /\ (CUSTOM_DATA_START <= GetDataID pack -> IsValid pack = false ->
      forall st,
        Client.OnReceiveNewData le inData inLength UDP st
        = (GetPacketSize pack,
           snd (Client.fire Client.transErrorEvent
                  (Client.OnTransmitError (Some pack) UDP INVALID_DATA_ID)
                  st)))
  /\ (GetDataID pack = UNKNOWN_PACK ->
      forall r st,
        Server.OnReceiveNewData le inData inLength (Some r) TCP st
        = (GetPacketSize pack,
           snd (Server.fire Server.transErrorEvent
                  (Server.OnTransmitError (Some pack) (Some r) TCP
                     INVALID_DATA_ID) st)))
  /\ (CUSTOM_DATA_START <= GetDataID pack -> IsValid pack = false ->
      GetPacketFlag pack UDP_SUPPORT_FLAG = true ->
      forall c r st,
        Server.connectedClients (Server.obj st) !! GetSenderID pack
        = Some r ->
        Server.OnReceiveNewData le inData inLength c UDP st
        = (GetPacketSize pack,
           snd (Server.fire Server.transErrorEvent
                  (Server.OnTransmitError (Some pack) (Some r) UDP
                     INVALID_CHECKSUM) st)))
  /\ (forall st,
        (GetPacketFlag pack UDP_SUPPORT_FLAG = true ->
         Server.connectedClients (Server.obj st) !! GetSenderID pack
         = None) ->
        Server.OnReceiveNewData le inData inLength None UDP st
        = (GetPacketSize pack,
           snd (Server.fire Server.transErrorEvent
                  (Server.OnTransmitError (Some pack) None UDP
                     CLIENT_NOT_FOUND) st))).
Proof.
  intros Hf pack.
  destruct (complete_frame_tests le inData inLength Hf) as (T1 & T2 & T3).
  split; [|split; [|split; [|split]]].
  - intros Hid m st. unfold Client.OnReceiveNewData.
    rewrite T1, T2, T3. fold (inPack le inData). fold pack. rewrite Hid.
    change (UNKNOWN_PACK =? HANDSHAKE) with false.
    change (UNKNOWN_PACK =? INIT_CLIENT_ID) with false.
    change (UNKNOWN_PACK =? RECONNECT_PACK) with false.
    change (UNKNOWN_PACK =? DISCONNECT_PACK) with false.
    change (UNKNOWN_PACK =? INIT_CUSTOM_DATA_LIST) with false.
    change (UNKNOWN_PACK =? ALIVENESS_TEST) with false.
    change (UNKNOWN_PACK =? UNKNOWN_PACK) with true.
    cbn [orb negb andb]. cbv iota.
    unfold mbind, State_bind, mret, State_ret.
    destruct (Client.fire _ _ st). reflexivity.
  - intros Hid Hbad st. unfold Client.OnReceiveNewData.
    rewrite T1, T2, T3. fold (inPack le inData). fold pack.
    destruct (custom_id_tests _ Hid) as (E0 & E1 & E2 & E3 & E4 & E6 & E5).
    rewrite E0, E1, E2, E3, E4, E6, E5, Hbad.
    cbn [orb negb andb]. cbv iota.
    unfold mbind, State_bind, mret, State_ret.
    destruct (Client.fire _ _ st). reflexivity.
  - intros Hid r st. unfold Server.OnReceiveNewData.
    rewrite T1, T2, T3. fold (inPack le inData). fold pack. rewrite Hid.
    rewrite bind_eq, gets_eq. cbn [fst snd].
    change (UNKNOWN_PACK =? HANDSHAKE) with false.
    change (UNKNOWN_PACK =? INIT_CLIENT_ID) with false.
    change (UNKNOWN_PACK =? RECONNECT_PACK) with false.
    change (UNKNOWN_PACK =? DISCONNECT_PACK) with false.
    change (UNKNOWN_PACK =? INIT_CUSTOM_DATA_LIST) with false.
    change (UNKNOWN_PACK =? ALIVENESS_TEST) with false.
    cbv iota. unfold Server.on_custom. rewrite Hid.
    change (UNKNOWN_PACK =? UNKNOWN_PACK) with true.
    cbn [negb andb]. cbv iota.
    rewrite bind_eq, mret_eq. reflexivity.
  - intros Hid Hbad Hudp c r st Hr. unfold Server.OnReceiveNewData.
    rewrite T1, T2, T3. fold (inPack le inData). fold pack.
    rewrite bind_eq, gets_eq. cbn [fst snd].
    rewrite Hudp. unfold Server.GetClientEntry. rewrite Hr.
    destruct (custom_id_tests _ Hid) as (E0 & E1 & E2 & E3 & E4 & E6 & E5).
    rewrite E0, E1, E2, E3, E4, E6.
    unfold Server.on_custom. rewrite E5, Hbad.
    cbn [negb andb]. cbv iota.
    rewrite bind_eq, mret_eq. reflexivity.
  - intros st Hnone. unfold Server.OnReceiveNewData.
    rewrite T1, T2, T3. fold (inPack le inData). fold pack.
    rewrite bind_eq, gets_eq. cbn [fst snd].
    assert (E : (if GetPacketFlag pack UDP_SUPPORT_FLAG
                 then Server.GetClientEntry (GetSenderID pack)
                        (Server.obj st)
                 else None) = None).
    { destruct (GetPacketFlag pack UDP_SUPPORT_FLAG); [|reflexivity].
      apply Hnone. reflexivity. }
    rewrite E. unfold Server.on_custom.
    rewrite bind_eq, mret_eq. reflexivity.
Qed.

Lemma transmit_error_codes_witness :
  let frame := [x05; x00; x00; x00; x00; x00] in
  let st := {| Client.obj := Client.Init;
               Client.world := {| script := []; actions := [] |};
               Client.events := [] |} in
  complete_frame true frame 6
  /\ Client.OnReceiveNewData true frame 6 TCP st = (6, st).
Proof.
  intros frame st.
  assert (H : complete_frame true frame 6)
    by (vm_compute; repeat split; discriminate).
  split; [exact H|].
  destruct (transmit_error_codes true frame 6 H) as (H1 & _).
  rewrite (H1 eq_refl TCP st). reflexivity.
Defined.

(** * CrossServer.h: disconnecting clients *)

Lemma set_nth_set_nth {A} (i : nat) (f g : A -> A) (l : list A) :
  set_nth i f (set_nth i g l) = set_nth i (fun x => f (g x)) l.
Proof.
  revert i. induction l as [|x l IH]; intros [|i]; cbn [set_nth];
    try reflexivity. rewrite IH. reflexivity.
Qed.

Lemma set_nth_id {A} (i : nat) (l : list A) : set_nth i (fun x => x) l = l.
Proof.
  revert i. induction l as [|x l IH]; intros [|i]; cbn [set_nth];
    try reflexivity. rewrite IH. reflexivity.
Qed.

Section ServerDisconnect.
Import Server ServerInv.

Ltac sstep :=
  first [ rewrite bind_eq | rewrite mret_eq | rewrite gets_eq
        | rewrite deref_eq | rewrite upd_eq | rewrite upd_entry_eq
        | rewrite log_eq | rewrite fire_eq | rewrite server_sys_eq ];
  cbv beta; cbn [fst snd obj heap world events issued].

(** What [SendToClient] transmits. *)
Lemma SendToClient_actions (le : bool) (p : CrossPack)
    (r : CrossClientEntryPtr) (b : bool) (st : Sys) :
  state (ent st r) <> CLIENT_ENTRY_DISCONNECTED ->
  let st' := snd (SendToClient le p (Some r) b st) in
  match socket (ent st r) with
  | Some fd =>
      exists res,
        actions (world st') = actions (world st) ++ [TcpSend fd (wire le p) res]
  | None => actions (world st') = actions (world st)
  end.
Proof.
  intros Hs.
  assert (E : CrossClientEntryState_eqb (state (ent st r))
                CLIENT_ENTRY_DISCONNECTED = false)
    by (destruct (state (ent st r)); try reflexivity; contradiction).
  destruct (socket (ent st r)) as [fd|] eqn:Hfd.
  - cbv zeta. rewrite (SendToClient_eq le p r b st fd E Hfd). cbn [snd world actions].
    eexists. reflexivity.
  - cbv zeta. unfold SendToClient. rewrite bind_eq, deref_eq. cbn [fst snd].
    rewrite E, Hfd. reflexivity.
Qed.

(** [ResetTimeout] sets the timers of its entry and reads the clock. *)
Lemma ResetTimeout_frame (r : CrossClientEntryPtr) (d : double) (st : Sys) :
  let st' := snd (ResetTimeout r d st) in
  obj st' = obj st /\ events st' = events st /\ issued st' = issued st
  /\ actions (world st') = actions (world st)
  /\ exists g,
       heap st' = set_nth r g (heap st)
       /\ forall e, state (g e) = state e /\ socket (g e) = socket e
                    /\ clientID (g e) = clientID e
                    /\ address (g e) = address e
                    /\ customData (g e) = customData e
                    /\ tcpBuffer (g e) = tcpBuffer e.
Proof.
  unfold ResetTimeout. repeat sstep.
  repeat (rewrite sys_now_actions || rewrite GetElapsedTime_actions).
  do 4 (split; [reflexivity|]).
  eexists (fun e => set_e_timeoutDelay d
                      (set_e_timeoutTimer _ (set_e_ping _ e))).
  split.
  - rewrite !set_nth_set_nth. reflexivity.
  - intros e. repeat split.
Qed.

Lemma sys_close_eq (fd : Z) (st : Sys) :
  sys (sys_close fd) st
  = (tt, {| obj := obj st; heap := heap st;
            world := {| script := script (world st);
                        actions := actions (world st) ++ [Close fd] |};
            events := events st; issued := issued st |}).
Proof. rewrite server_sys_eq. reflexivity. Qed.

(** The part of [DisconnectClient] that saves the client. *)
Lemma save_frame (r : CrossClientEntryPtr) (save : bool) (st : Sys) :
  let m : M unit :=
    if save then
      upd (fun s => set_disconnectedClients
                      (<[clientID (ent st r) := r]> (disconnectedClients s))
                      s);;
      s ← gets obj;
      if shouldFlushDisconnectedClientData (serverProperties s)
      then ResetTimeout r (disconnectedClientFlushDelay (serverProperties s))
      else mret tt
    else mret tt in
  let st' := snd (m st) in
  obj st'
  = (if save
     then set_disconnectedClients
            (<[clientID (ent st r) := r]> (disconnectedClients (obj st)))
            (obj st)
     else obj st)
  /\ events st' = events st /\ issued st' = issued st
  /\ actions (world st') = actions (world st)
  /\ exists g,
       heap st' = set_nth r g (heap st)
       /\ forall e, state (g e) = state e /\ socket (g e) = socket e
                    /\ clientID (g e) = clientID e
                    /\ address (g e) = address e
                    /\ customData (g e) = customData e
                    /\ tcpBuffer (g e) = tcpBuffer e.
Proof.
  cbv zeta. destruct save.
  - rewrite bind_eq, upd_eq. cbn [fst snd].
    rewrite bind_eq, gets_eq. cbn [fst snd obj].
    match goal with
    | |- context [shouldFlushDisconnectedClientData ?x] =>
        destruct (shouldFlushDisconnectedClientData x)
    end.
    + match goal with
      | |- context [ResetTimeout r ?d ?s] =>
          destruct (ResetTimeout_frame r d s) as (H1 & H2 & H3 & H4 & g & H5 & H6)
      end.
      cbv zeta in H1, H2, H3, H4, H5. cbn [obj heap world events issued] in *.
      rewrite H1, H2, H3, H4. do 4 (split; [reflexivity|]).
      exists g. split; [exact H5|exact H6].
    + rewrite mret_eq. cbn [snd obj heap world events issued].
      do 4 (split; [reflexivity|]).
      exists (fun e => e). split; [rewrite set_nth_id; reflexivity|].
      intros e. repeat split.
  - rewrite mret_eq. cbn [snd]. do 4 (split; [reflexivity|]).
    exists (fun e => e). split; [rewrite set_nth_id; reflexivity|].
    intros e. repeat split.
Qed.

(** The state [DisconnectClient] leaves when the client was not yet
    disconnected. *)
Lemma DisconnectClient_live (le : bool) (r : CrossClientEntryPtr)
    (save : bool) (st : Sys) :
  (r < length (heap st))%nat ->
  state (ent st r) <> CLIENT_ENTRY_DISCONNECTED ->
  let st' := snd (DisconnectClient le (Some r) save st) in
  exists g st2 mem,
    heap st' = set_nth r g (heap st)
    /\ (state (g (ent st r)) = CLIENT_ENTRY_DISCONNECTED
        /\ socket (g (ent st r)) = None
        /\ clientID (g (ent st r)) = clientID (ent st r)
        /\ address (g (ent st r)) = address (ent st r)
        /\ customData (g (ent st r)) = customData (ent st r))
    /\ events st' = events st ++ fired (obj st) [OnDisconnect r]
    /\ obj st'
       = (if save
          then set_disconnectedClients
                 (<[clientID (ent st r) := r]>
                    (disconnectedClients (obj st))) (obj st)
          else obj st)
    /\ issued st' = issued st
    /\ actions (world st')
       = actions (world st2)
         ++ match socket (ent st r) with
            | Some fd => [Close fd; Close fd]
            | None => []
            end
    /\ match socket (ent st r) with
       | Some fd =>
           exists res,
             actions (world st2)
             = actions (world st)
               ++ [TcpSend fd
                     (wire le (SetDataID DISCONNECT_PACK
                                 (CrossPack_new mem))) res]
       | None => actions (world st2) = actions (world st)
       end.
Proof.
  intros Hr Hs st'.
  assert (E : CrossClientEntryState_eqb (state (ent st r))
                CLIENT_ENTRY_DISCONNECTED = false)
    by (destruct (state (ent st r)); try reflexivity; contradiction).
  subst st'. unfold DisconnectClient.
    rewrite bind_eq, deref_eq. cbn [fst snd]. rewrite E. cbn [negb].
    rewrite bind_eq.
    destruct (save_frame r save st) as (S1 & S2 & S3 & S4 & g1 & S5 & S6).
    cbv zeta in S1, S2, S3, S4, S5.
    match goal with
    | |- context [snd (?m st)] => set (st1 := snd (m st)) in *
    end.
    assert (Hent1 : ent st1 r = g1 (ent st r)).
    { unfold ent. rewrite S5. apply nth_set_nth_eq. exact Hr. }
    rewrite bind_eq, server_sys_eq. cbn [fst snd].
    set (mem := fst (sys_new (world st1))).
    set (st1' := {| obj := obj st1; heap := heap st1;
                    world := snd (sys_new (world st1));
                    events := events st1; issued := issued st1 |}).
    assert (Hent1' : ent st1' r = g1 (ent st r)) by exact Hent1.
    assert (Hact1 : actions (world st1') = actions (world st1))
      by apply sys_new_actions.
    rewrite bind_eq.
    destruct (SendToClient_frame le
                (SetDataID DISCONNECT_PACK (CrossPack_new mem))
                (Some r) true st1') as (T1 & T2 & T3 & T4).
    pose proof (SendToClient_actions le
                  (SetDataID DISCONNECT_PACK (CrossPack_new mem)) r true
                  st1') as T5.
    cbv zeta in T1, T2, T3, T4, T5.
    rewrite Hent1' in T5.
    rewrite (proj1 (S6 _)), (proj1 (proj2 (S6 _))) in T5.
    specialize (T5 Hs).
    rewrite Hact1 in T5.
    match goal with
    | |- context [snd (SendToClient ?a ?b ?c ?d st1')] =>
        set (st2 := snd (SendToClient a b c d st1')) in *
    end.
    change (obj st1') with (obj st1) in T1.
    change (heap st1') with (heap st1) in T2.
    change (events st1') with (events st1) in T3.
    change (issued st1') with (issued st1) in T4.
    rewrite bind_eq, upd_entry_eq. cbn [fst snd].
    rewrite bind_eq, fire_eq. cbn [fst snd obj heap world events issued].
    destruct (socket (ent st r)) as [fd|] eqn:Hfd.
    - rewrite bind_eq, sys_close_eq. cbn [fst snd].
      rewrite bind_eq, sys_close_eq. cbn [fst snd].
      rewrite upd_entry_eq. cbn [snd obj heap world events issued actions].
      rewrite <- app_assoc. cbn [app].
      exists (fun e => set_e_socket None
                         (set_e_state CLIENT_ENTRY_DISCONNECTED (g1 e))), st2,
             mem.
      rewrite T1, T2, T3, T4, S1, S2, S3, S5.
      split; [rewrite !set_nth_set_nth; reflexivity|].
      split.
      { destruct (S6 (ent st r)) as (_ & _ & G3 & G4 & G5 & _).
        repeat split; assumption. }
      split.
      { unfold fired. cbn [List.filter handler_of].
        destruct save; cbn [handlers set_disconnectedClients]; reflexivity. }
      split; [reflexivity|]. split; [reflexivity|]. split; [reflexivity|].
      rewrite <- S4. exact T5.
    - rewrite mret_eq. cbn [snd obj heap world events issued].
      exists (fun e => set_e_state CLIENT_ENTRY_DISCONNECTED (g1 e)), st2,
             mem.
      rewrite T1, T2, T3, T4, S1, S2, S3, S5.
      split; [rewrite !set_nth_set_nth; reflexivity|].
      split.
      { destruct (S6 (ent st r)) as (_ & G2 & G3 & G4 & G5 & _).
        repeat split; try assumption.
        cbn [socket set_e_state]. rewrite G2. exact Hfd. }
      split.
      { unfold fired. cbn [List.filter handler_of].
        destruct save; cbn [handlers set_disconnectedClients]; reflexivity. }
      split; [reflexivity|]. split; [reflexivity|].
      split; [rewrite app_nil_r; reflexivity|].
      rewrite <- S4. exact T5.
Qed.

(** X14: DisconnectClient on a client that is not yet disconnected: the
    client is sent DISCONNECT on its socket, which is then closed twice,
    by Close() and once more by its destructor when the entry drops it;
    the entry becomes disconnected and keeps its id, its address
    and its user data; the other entries are not touched; the disconnect
    callback is executed; the entry is recorded in the table of
    disconnected clients under its id when that was asked for, and the
    server object is not changed otherwise - in particular the entry
    stays in the table of connected clients; and disconnecting the client
    again does nothing. *)
Theorem DisconnectClient_effects (le : bool) (r : CrossClientEntryPtr)
    (save : bool) (st : Sys) :
  (r < length (heap st))%nat ->
  state (ent st r) <> CLIENT_ENTRY_DISCONNECTED ->
  let st' := snd (DisconnectClient le (Some r) save st) in
  state (ent st' r) = CLIENT_ENTRY_DISCONNECTED
  /\ socket (ent st' r) = None
  /\ clientID (ent st' r) = clientID (ent st r)
  /\ address (ent st' r) = address (ent st r)
  /\ customData (ent st' r) = customData (ent st r)
  /\ length (heap st') = length (heap st)
  /\ (forall r', r' <> r -> ent st' r' = ent st r')
  /\ events st' = events st ++ fired (obj st) [OnDisconnect r]
  /\ obj st'
     = (if save
        then set_disconnectedClients
               (<[clientID (ent st r) := r]> (disconnectedClients (obj st)))
               (obj st)
        else obj st)
  /\ issued st' = issued st
  /\ match socket (ent st r) with
     | Some fd =>
         exists mem res,
           actions (world st')
           = actions (world st)
             ++ [TcpSend fd
                   (wire le (SetDataID DISCONNECT_PACK (CrossPack_new mem)))
                   res;
                 Close fd; Close fd]
     | None => actions (world st') = actions (world st)
     end
  /\ forall save', DisconnectClient le (Some r) save' st' = (tt, st').
Proof.
  intros Hr Hs st'.
  destruct (DisconnectClient_live le r save st Hr Hs)
    as (g & st2 & mem & Hh & (G1 & G2 & G3 & G4 & G5) & Hev & Hobj
        & Hiss & Hact & Hact2).
  fold st' in Hh, Hev, Hobj, Hiss, Hact.
  assert (Hent : ent st' r = g (ent st r)).
  { unfold ent. rewrite Hh. apply nth_set_nth_eq. exact Hr. }
  rewrite Hent.
  do 5 (split; [assumption|]).
  split; [rewrite Hh; apply length_set_nth|].
  split.
  { intros r' Hne. unfold ent. rewrite Hh. apply nth_set_nth_ne.
    congruence. }
  split; [exact Hev|]. split; [exact Hobj|]. split; [exact Hiss|].
  split.
  { rewrite Hact. destruct (socket (ent st r)) as [fd|].
    - destruct Hact2 as [res Hres]. exists mem, res. rewrite Hres.
      rewrite <- app_assoc. reflexivity.
    - rewrite app_nil_r. exact Hact2. }
  intros save'. unfold DisconnectClient.
  rewrite bind_eq, deref_eq. cbn [fst snd]. rewrite Hent, G1. reflexivity.
Qed.

Lemma DisconnectClient_effects_witness :
  let st := reconnecting_server in
  let st' := snd (DisconnectClient true (Some 0%nat) true st) in
  state (ent st' 0%nat) = CLIENT_ENTRY_DISCONNECTED
  /\ socket (ent st' 0%nat) = None
  /\ disconnectedClients (obj st') !! 2 = Some 0%nat
  /\ connectedClients (obj st') = connectedClients (obj st).
Proof.
  intros st st'.
  assert (Hr : (0 < length (heap st))%nat) by (cbn; lia).
  assert (Hs : state (ent st 0%nat) <> CLIENT_ENTRY_DISCONNECTED)
    by (intros H; discriminate H).
  destruct (DisconnectClient_effects true 0%nat true st Hr Hs)
    as (H1 & H2 & _ & _ & _ & _ & _ & _ & Ho & _).
  split; [exact H1|]. split; [exact H2|]. split.
  - exact (eq_trans (f_equal (fun o => disconnectedClients o !! 2) Ho)
             eq_refl).
  - exact (eq_trans (f_equal connectedClients Ho) eq_refl).
Defined.

(** ** The sweep that ends an update *)

Lemma sweep_running (st : Sys) (id : Z) (r : CrossClientEntryPtr) :
  connectedClients (obj (snd (sweep st))) !! id = Some r
  <-> connectedClients (obj st) !! id = Some r
      /\ Entry_IsRunning (ent st r) = true.
Proof.
  unfold sweep. cbn [snd obj connectedClients set_connectedClients].
  rewrite map_lookup_filter_Some. cbn [snd]. unfold ent.
  split; intros [H1 H2]; (split; [exact H1|]).
  - apply Is_true_true. exact H2.
  - apply Is_true_true. exact H2.
Qed.

Lemma Update_ends_with_sweep (le : bool) (st : Sys) :
  serverState (obj st) = SERVER_LOOP ->
  exists st0, snd (Update le st) = snd (sweep st0).
Proof.
  intros Hs. unfold Update. rewrite bind_eq, gets_eq. cbn [fst snd].
  rewrite Hs. cbn [CrossServerState_eqb].
  rewrite bind_eq. unfold after_accept.
  rewrite bind_eq. rewrite bind_eq, gets_eq. cbn [fst snd].
  rewrite bind_eq. rewrite bind_eq, gets_eq. cbn [fst snd].
  rewrite bind_eq. eexists. reflexivity.
Qed.

(** X15: After an update of a server that is serving, the table of connected
    clients holds no entry that is disconnected. *)
Theorem Update_sweeps (le : bool) (st : Sys) (id : Z)
    (r : CrossClientEntryPtr) :
  serverState (obj st) = SERVER_LOOP ->
  connectedClients (obj (snd (Update le st))) !! id = Some r ->
  Entry_IsRunning (ent (snd (Update le st)) r) = true
  /\ state (ent (snd (Update le st)) r) <> CLIENT_ENTRY_DISCONNECTED.
Proof.
  intros Hs Hr. destruct (Update_ends_with_sweep le st Hs) as [st0 E].
  rewrite E in *. apply sweep_running in Hr. destruct Hr as [_ Hrun].
  assert (Hent : ent (snd (sweep st0)) r = ent st0 r) by reflexivity.
  rewrite Hent. split; [exact Hrun|].
  unfold Entry_IsRunning in Hrun. intros Hd. rewrite Hd in Hrun.
  discriminate Hrun.
Qed.

Lemma Update_sweeps_witness :
  let st := run true [CallStart 5000 AF_INET] (fresh two_accepts) in
  serverState (obj st) = SERVER_LOOP
  /\ connectedClients (obj (snd (Update true st))) !! 1 = Some 0%nat
  /\ state (ent (snd (Update true st)) 0%nat) <> CLIENT_ENTRY_DISCONNECTED.
Proof.
  intros st.
  assert (Hs : serverState (obj st) = SERVER_LOOP)
    by (vm_compute; reflexivity).
  assert (Hr : connectedClients (obj (snd (Update true st))) !! 1
               = Some 0%nat) by (vm_compute; reflexivity).
  split; [exact Hs|]. split; [exact Hr|].
  exact (proj2 (Update_sweeps true st 1 0%nat Hs Hr)).
Defined.

(** ** Stopping the server *)

Lemma DisconnectClient_nosave (le : bool) (r : CrossClientEntryPtr)
    (st : Sys) :
  (r < length (heap st))%nat ->
  let st' := snd (DisconnectClient le (Some r) false st) in
  obj st' = obj st /\ length (heap st') = length (heap st)
  /\ issued st' = issued st
  /\ (forall r', state (ent st r') = CLIENT_ENTRY_DISCONNECTED ->
                 state (ent st' r') = CLIENT_ENTRY_DISCONNECTED)
  /\ state (ent st' r) = CLIENT_ENTRY_DISCONNECTED.
Proof.
  intros Hr st'.
  destruct (CrossClientEntryState_eqb (state (ent st r))
              CLIENT_ENTRY_DISCONNECTED) eqn:E.
  - assert (Hd : state (ent st r) = CLIENT_ENTRY_DISCONNECTED)
      by (destruct (state (ent st r)); try discriminate E; reflexivity).
    assert (Hst : st' = st).
    { subst st'. unfold DisconnectClient.
      rewrite bind_eq, deref_eq. cbn [fst snd]. rewrite E. reflexivity. }
    rewrite Hst. repeat split; try assumption. intros r' H; exact H.
  - assert (Hd : state (ent st r) <> CLIENT_ENTRY_DISCONNECTED)
      by (intros H; rewrite H in E; discriminate E).
    destruct (DisconnectClient_live le r false st Hr Hd)
      as (g & st2 & mem & Hh & (G1 & _) & _ & Ho & Hi & _).
    fold st' in Hh, Ho, Hi.
    assert (H1 : state (ent st' r) = CLIENT_ENTRY_DISCONNECTED).
    { unfold ent. rewrite Hh, (nth_set_nth_eq _ _ _ _ Hr). exact G1. }
    split; [exact Ho|]. split; [rewrite Hh; apply length_set_nth|].
    split; [exact Hi|]. split; [|exact H1].
    intros r' Hr'. destruct (Nat.eq_dec r' r) as [->|Hn]; [exact H1|].
    unfold ent. rewrite Hh, nth_set_nth_ne by congruence. exact Hr'.
Qed.

Lemma forM_disconnect (le : bool) (l : list (Z * CrossClientEntryPtr))
    (st : Sys) :
  (forall id r, In (id, r) l -> (r < length (heap st))%nat) ->
  let st' := snd (forM l (fun '(_, r) => DisconnectClient le (Some r) false)
                    st) in
  obj st' = obj st /\ length (heap st') = length (heap st)
  /\ issued st' = issued st
  /\ (forall r', state (ent st r') = CLIENT_ENTRY_DISCONNECTED ->
                 state (ent st' r') = CLIENT_ENTRY_DISCONNECTED)
  /\ (forall id r, In (id, r) l ->
                   state (ent st' r) = CLIENT_ENTRY_DISCONNECTED).
Proof.
  revert st. induction l as [|[id0 r0] l IH]; intros st Hin.
  - cbn [forM]. rewrite mret_eq. cbn [snd].
    repeat split; try (intros; assumption). intros id r [].
  - cbn [forM]. rewrite bind_eq.
    destruct (DisconnectClient_nosave le r0 st
                (Hin id0 r0 (or_introl eq_refl)))
      as (D1 & D2 & D3 & D4 & D5).
    cbv zeta in D1, D2, D3, D4, D5.
    set (st1 := snd (DisconnectClient le (Some r0) false st)) in *.
    destruct (IH st1) as (I1 & I2 & I3 & I4 & I5).
    { intros id r H. rewrite D2. apply (Hin id r). right. exact H. }
    cbv zeta in I1, I2, I3, I4, I5. cbv zeta.
    split; [congruence|]. split; [congruence|]. split; [congruence|].
    split.
    + intros r' H. apply I4, D4, H.
    + intros id r [H|H].
      * inversion H; subst. apply I4, D5.
      * apply (I5 id r H).
Qed.

Lemma forM_frame {A} (l : list A) (f : A -> M unit) (st : Sys) :
  (forall x s, obj (snd (f x s)) = obj s /\ heap (snd (f x s)) = heap s
               /\ issued (snd (f x s)) = issued s) ->
  let st' := snd (forM l f st) in
  obj st' = obj st /\ heap st' = heap st /\ issued st' = issued st.
Proof.
  intros Hf. revert st. induction l as [|x l IH]; intros st.
  - repeat split.
  - cbn [forM]. cbv zeta. rewrite bind_eq.
    destruct (Hf x st) as (H1 & H2 & H3).
    destruct (IH (snd (f x st))) as (I1 & I2 & I3).
    cbv zeta in I1, I2, I3. repeat split; congruence.
Qed.

(** X16: Stop on a server that was started, in a state where the table of
    connected clients points into the store of entries: the server is
    back in the state it needs to be started from, both client tables
    are empty, both sockets are dropped and the datagram buffer is
    empty; every client that was connected is disconnected, and no
    entry that was disconnected comes back; the counter of client ids,
    the data events and the counter of data ids are what they were, so
    ids issued after a restart continue those issued before.  On a
    server that was not started, Stop does nothing. *)
Theorem Stop_effects (le : bool) (st : Sys) :
  (serverState (obj st) = SERVER_NEEDS_STARTUP -> Stop le st = (tt, st))
  /\ (serverState (obj st) <> SERVER_NEEDS_STARTUP -> heap_closed st ->
      let st' := snd (Stop le st) in
      serverState (obj st') = SERVER_NEEDS_STARTUP
      /\ connectedClients (obj st') = ∅
      /\ disconnectedClients (obj st') = ∅
      /\ listenSocket (obj st') = None /\ streamSocket (obj st') = None
      /\ streamIsBound (obj st') = false /\ udpBuffer (obj st') = []
      /\ (forall id r, connectedClients (obj st) !! id = Some r ->
                       state (ent st' r) = CLIENT_ENTRY_DISCONNECTED)
      /\ (forall r, state (ent st r) = CLIENT_ENTRY_DISCONNECTED ->
                    state (ent st' r) = CLIENT_ENTRY_DISCONNECTED)
      /\ length (heap st') = length (heap st)
      /\ nextAvailableClientID (obj st') = nextAvailableClientID (obj st)
      /\ issued st' = issued st
      /\ dataEvents (obj st') = dataEvents (obj st)
      /\ nextAvailableDataID (obj st') = nextAvailableDataID (obj st)
      /\ canConnectList (obj st') = canConnectList (obj st)
      /\ serverProperties (obj st') = serverProperties (obj st)).
Proof.
  split.
  - intros Hs. unfold Stop. rewrite bind_eq, gets_eq. cbn [fst snd].
    rewrite Hs. reflexivity.
  - intros Hs Hc st'.
    assert (E : CrossServerState_eqb (serverState (obj st))
                  SERVER_NEEDS_STARTUP = false)
      by (destruct (serverState (obj st)); try reflexivity; contradiction).
    subst st'. unfold Stop. rewrite bind_eq, gets_eq. cbn [fst snd].
    rewrite E. cbn [negb].
    rewrite bind_eq.
    destruct (forM_disconnect le (clients_of (connectedClients (obj st))) st)
      as (F1 & F2 & F3 & F4 & F5).
    { intros id r H. apply (Hc id r).
      apply elem_of_map_to_list. apply list_elem_of_In. exact H. }
    cbv zeta in F1, F2, F3, F4, F5.
    set (st1 := snd (forM (clients_of (connectedClients (obj st)))
                       (fun '(_, r) => DisconnectClient le (Some r) false)
                       st)) in *.
    rewrite bind_eq, upd_eq. cbn [fst snd].
    rewrite bind_eq, gets_eq. cbn [fst snd obj].
    rewrite bind_eq.
    match goal with
    | |- context [forM ?l ?f ?s] =>
        destruct (forM_frame l f s) as (G1 & G2 & G4);
        [intros [? ?] ?; rewrite fire_eq; repeat split|];
        cbv zeta in G1, G2, G4;
        set (st2 := snd (forM l f s)) in *
    end.
    cbn [obj heap world issued] in G1, G2, G4.
    rewrite bind_eq, upd_eq. cbn [fst snd].
    rewrite G1, G2, G4, F1.
    assert (Hheap : forall s, heap s = heap st1 ->
               (forall id r, connectedClients (obj st) !! id = Some r ->
                             state (ent s r) = CLIENT_ENTRY_DISCONNECTED)
               /\ (forall r, state (ent st r) = CLIENT_ENTRY_DISCONNECTED ->
                             state (ent s r) = CLIENT_ENTRY_DISCONNECTED)
               /\ length (heap s) = length (heap st)).
    { intros s Hh. unfold ent. rewrite Hh. split; [|split].
      - intros id r H. apply (F5 id r).
        apply list_elem_of_In. apply elem_of_map_to_list. exact H.
      - exact F4.
      - exact F2. }
    cbn [listenSocket streamSocket set_disconnectedClients
         set_connectedClients].
    destruct (listenSocket (obj st)) as [fd1|] eqn:EL,
      (streamSocket (obj st)) as [fd2|] eqn:ES;
      repeat sstep;
      (destruct (Hheap _ eq_refl) as (K1 & K2 & K3)
       || (match goal with
           | |- context [state (ent ?s _)] =>
               destruct (Hheap s eq_refl) as (K1 & K2 & K3)
           end));
      repeat split; try reflexivity; try assumption;
      cbn; assumption.
Qed.

Lemma Stop_effects_witness :
  let st := run true [CallStart 5000 AF_INET; CallUpdate] (fresh two_accepts) in
  let st' := snd (Stop true st) in
  serverState (obj st) <> SERVER_NEEDS_STARTUP
  /\ heap_closed st
  /\ connectedClients (obj st) !! 1 = Some 0%nat
  /\ connectedClients (obj st') = ∅
  /\ state (ent st' 0%nat) = CLIENT_ENTRY_DISCONNECTED
  /\ nextAvailableClientID (obj st') = 3.
Proof.
  intros st st'.
  assert (Hs : serverState (obj st) <> SERVER_NEEDS_STARTUP)
    by (vm_compute; discriminate).
  assert (Hc : heap_closed st) by apply heap_closed_run.
  assert (Hr : connectedClients (obj st) !! 1 = Some 0%nat)
    by (vm_compute; reflexivity).
  destruct (proj2 (Stop_effects true st) Hs Hc)
    as (_ & H2 & _ & _ & _ & _ & _ & H8 & _ & _ & H11 & _).
  split; [exact Hs|]. split; [exact Hc|]. split; [exact Hr|].
  split; [exact H2|]. split; [exact (H8 1 0%nat Hr)|].
  etransitivity; [exact H11|vm_compute; reflexivity].
Defined.

End ServerDisconnect.

(** * CrossServer.h: the data events *)

Lemma to_N_inj (a b : byte) : Byte.to_N a = Byte.to_N b -> a = b.
Proof.
  intros H. apply (f_equal Byte.of_N) in H.
  rewrite !Byte.of_to_N in H. congruence.
Qed.

Lemma map_to_N_inj (a b : list byte) :
  map Byte.to_N a = map Byte.to_N b -> a = b.
Proof.
  revert b. induction a as [|x a IH]; intros [|y b] H; try discriminate H.
  - reflexivity.
  - cbn in H. injection H as H1 H2. f_equal; [apply to_N_inj, H1|apply IH, H2].
Qed.

Lemma bytes_eqb_eq (a b : list byte) : bytes_eqb a b = true <-> a = b.
Proof.
  unfold bytes_eqb. destruct (decide _) as [H|H]; split; intros E;
    try reflexivity; try discriminate E.
  - apply map_to_N_inj, H.
  - subst. contradiction.
Qed.

Lemma bytes_eqb_refl (a : list byte) : bytes_eqb a a = true.
Proof. apply bytes_eqb_eq. reflexivity. Qed.

Lemma bytes_eqb_neq (a b : list byte) : bytes_eqb a b = false <-> a <> b.
Proof.
  destruct (bytes_eqb a b) eqn:E; split; intros H; try reflexivity;
    try discriminate H.
  - apply bytes_eqb_eq in E. contradiction.
  - intros ->. rewrite bytes_eqb_refl in E. discriminate E.
Qed.

(** [find_name] finds the first event with the name, when there is one. *)
Lemma find_name_None (n : list byte) (l : list CrossDataEvent) (i : nat) :
  find_name n l i = None <-> ~ In n (map name l).
Proof.
  revert i. induction l as [|d l IH]; intros i; cbn [find_name map In].
  - split; [intros _ []|reflexivity].
  - destruct (bytes_eqb (name d) n) eqn:E.
    + apply bytes_eqb_eq in E. split; [discriminate|]. intros H.
      exfalso. apply H. left. exact E.
    + apply bytes_eqb_neq in E. rewrite IH. tauto.
Qed.

Lemma find_name_Some (n : list byte) (l : list CrossDataEvent) (i d : nat) :
  find_name n l i = Some d ->
  (i <= d)%nat
  /\ exists ev, nth_error l (d - i) = Some ev /\ name ev = n.
Proof.
  revert i. induction l as [|x l IH]; intros i; cbn [find_name];
    [discriminate|].
  destruct (bytes_eqb (name x) n) eqn:E.
  - intros H. injection H as <-. apply bytes_eqb_eq in E.
    split; [lia|]. exists x. rewrite Nat.sub_diag. split; [reflexivity|exact E].
  - intros H. destruct (IH (S i) H) as (Hle & ev & Hev & Hn).
    split; [lia|]. exists ev. split; [|exact Hn].
    replace (d - i)%nat with (S (d - S i)) by lia. exact Hev.
Qed.

Lemma find_name_nth (l : list CrossDataEvent) (i k : nat)
    (ev : CrossDataEvent) :
  NoDup (map name l) -> nth_error l k = Some ev ->
  find_name (name ev) l i = Some (i + k)%nat.
Proof.
  revert i k. induction l as [|x l IH]; intros i k Hnd Hk;
    [destruct k; discriminate Hk|].
  cbn [map] in Hnd. inversion Hnd as [|? ? Hx Hl]; subst.
  cbn [find_name]. destruct k as [|k].
  - cbn in Hk. injection Hk as ->. rewrite bytes_eqb_refl.
    f_equal. lia.
  - cbn in Hk. destruct (bytes_eqb (name x) (name ev)) eqn:E.
    + apply bytes_eqb_eq in E. exfalso. apply Hx. rewrite E.
      apply list_elem_of_In, in_map. apply (nth_error_In _ _ Hk).
    + rewrite (IH (S i) k Hl Hk). f_equal. lia.
Qed.

Lemma u16_u32 (z : Z) : u16 (u32 z) = u16 z.
Proof.
  unfold u16, u32. Z.div_mod_to_equations. lia.
Qed.

Section DataEvents.
Import Server ServerInv.

Lemma data_ok_Init : data_ok Init.
Proof.
  split; [reflexivity|]. split.
  - intros i ev H. destruct i; discriminate H.
  - constructor.
Qed.

Lemma nth_error_set_nth {A} (i k : nat) (f : A -> A) (l : list A) :
  nth_error (set_nth i f l) k
  = if Nat.eqb k i then option_map f (nth_error l k) else nth_error l k.
Proof.
  revert i k. induction l as [|x l IH]; intros [|i] [|k]; cbn;
    try reflexivity.
  - destruct (Nat.eqb _ _); reflexivity.
  - apply IH.
Qed.

Lemma map_name_set_nth (d : nat) (c : nat) (l : list CrossDataEvent) :
  map name
    (set_nth d
       (fun ev => {| name := name ev; de_dataID := de_dataID ev;
                     callbacks := (callbacks ev + c)%nat |}) l)
  = map name l.
Proof.
  revert d. induction l as [|x l IH]; intros [|d]; cbn; try reflexivity.
  rewrite IH. reflexivity.
Qed.

(** X17: AddDataType and AddDataHandler.  Data ids are given out in the
    order of registration: the [i]-th name registered has the id
    [CUSTOM_DATA_START + i] in 16-bit unsigned arithmetic.  Registering
    a name (cut to the maximum name length) succeeds exactly when the
    name is already registered or the server is not started; a name
    that is already registered only gains the callback, a new name gets
    the next id, and a refused registration changes nothing.  Earlier
    registrations keep their position, name and id, and nothing but the
    data events and their counter is touched. *)
Theorem AddDataHandler_ids (inDataName : list byte) (handler : option bool)
    (st : Sys) :
  data_ok (obj st) ->
  let n := firstn (Z.to_nat CROSS_SOCK_MAX_DATA_NAME_LENGTH) inDataName in
  let r := AddDataHandler inDataName handler st in
  data_ok (obj (snd r))
  /\ (fst r = true
      <-> In n (map name (dataEvents (obj st)))
          \/ serverState (obj st) = SERVER_NEEDS_STARTUP)
  /\ (fst r = false -> snd r = st)
  /\ (fst r = true ->
      exists i ev,
        nth_error (dataEvents (obj (snd r))) i = Some ev
        /\ name ev = n
        /\ de_dataID ev = u16 (CUSTOM_DATA_START + Z.of_nat i)
        /\ (In n (map name (dataEvents (obj st))) ->
            dataEvents (obj (snd r))
            = set_nth i
                (fun ev => {| name := name ev; de_dataID := de_dataID ev;
                              callbacks :=
                                (callbacks ev
                                 + match handler with
                                   | Some true => 1
                                   | _ => 0
                                   end)%nat |})
                (dataEvents (obj st))
            /\ nextAvailableDataID (obj (snd r))
               = nextAvailableDataID (obj st))
        /\ (~ In n (map name (dataEvents (obj st))) ->
            i = length (dataEvents (obj st))
            /\ dataEvents (obj (snd r)) = dataEvents (obj st) ++ [ev]))
  /\ (forall i ev,
        nth_error (dataEvents (obj st)) i = Some ev ->
        exists ev',
          nth_error (dataEvents (obj (snd r))) i = Some ev'
          /\ name ev' = name ev /\ de_dataID ev' = de_dataID ev)
  /\ heap (snd r) = heap st /\ world (snd r) = world st
  /\ events (snd r) = events st /\ issued (snd r) = issued st
  /\ connectedClients (obj (snd r)) = connectedClients (obj st)
  /\ serverState (obj (snd r)) = serverState (obj st).
Proof.
  intros (Hnext & Hids & Hnd) n r.
  assert (Hlen : Z.of_nat (length n) <= CROSS_SOCK_MAX_DATA_NAME_LENGTH).
  { subst n. rewrite length_firstn.
    unfold CROSS_SOCK_MAX_DATA_NAME_LENGTH. lia. }
  subst r. unfold AddDataHandler. fold n.
  set (added := match handler with Some true => 1%nat | _ => 0%nat end).
  rewrite bind_eq, gets_eq. cbn [fst snd].
  destruct (find_name n (dataEvents (obj st)) 0) as [d|] eqn:Ef.
  - (* the name is registered *)
    destruct (find_name_Some _ _ _ _ Ef) as (_ & ev & Hev & Hname).
    rewrite Nat.sub_0_r in Hev.
    assert (Hin : In n (map name (dataEvents (obj st)))).
    { rewrite <- Hname. apply in_map. apply (nth_error_In _ _ Hev). }
    rewrite bind_eq, upd_eq, mret_eq.
    cbn [fst snd obj heap world events issued dataEvents set_dataEvents
         nextAvailableDataID connectedClients serverState].
    split.
    { unfold data_ok.
      cbn [dataEvents set_dataEvents nextAvailableDataID].
      split; [|split].
      - rewrite length_set_nth. exact Hnext.
      - intros i ev' H. rewrite nth_error_set_nth in H.
        destruct (Nat.eqb i d).
        + destruct (nth_error (dataEvents (obj st)) i) as [e0|] eqn:E0;
            [|discriminate H].
          cbn in H. injection H as <-. cbn [de_dataID name].
          apply (Hids i e0 E0).
        + apply (Hids i ev' H).
      - rewrite map_name_set_nth. exact Hnd. }
    split; [split; [intros _; left; exact Hin|reflexivity]|].
    split; [discriminate|].
    split.
    { intros _.
      exists d, {| name := name ev; de_dataID := de_dataID ev;
                   callbacks := (callbacks ev + added)%nat |}.
      split; [rewrite nth_error_set_nth, Nat.eqb_refl, Hev; reflexivity|].
      split; [exact Hname|].
      split; [apply (Hids d ev Hev)|].
      split; [intros _; split; reflexivity|].
      intros Hn. contradiction. }
    split.
    { intros i e0 E0. rewrite nth_error_set_nth, E0.
      destruct (Nat.eqb i d); eexists; (split; [reflexivity|]);
        split; reflexivity. }
    repeat split.
  - (* a new name *)
    assert (Hnin : ~ In n (map name (dataEvents (obj st))))
      by (apply (find_name_None n _ 0), Ef).
    destruct (CrossServerState_eqb (serverState (obj st))
                SERVER_NEEDS_STARTUP) eqn:Es.
    + assert (Hs : serverState (obj st) = SERVER_NEEDS_STARTUP)
        by (destruct (serverState (obj st)); try discriminate Es;
            reflexivity).
      rewrite bind_eq, upd_eq. cbn [fst snd].
      rewrite bind_eq, upd_eq, mret_eq.
      cbn [fst snd obj heap world events issued dataEvents set_dataEvents
           set_nextAvailableDataID nextAvailableDataID connectedClients
           serverState].
      set (ev := {| name := n; de_dataID := u16 (nextAvailableDataID (obj st));
                    callbacks := added |}).
      assert (Hid : de_dataID ev
                    = u16 (CUSTOM_DATA_START
                           + Z.of_nat (length (dataEvents (obj st))))).
      { subst ev. cbn [de_dataID]. rewrite Hnext. apply u16_u32. }
      split.
      { unfold data_ok.
        cbn [dataEvents set_dataEvents nextAvailableDataID
             set_nextAvailableDataID].
        split; [|split].
        - rewrite Hnext, u32_succ, length_app. cbn [length]. f_equal. lia.
        - intros i ev' H.
          destruct (Nat.lt_ge_cases i (length (dataEvents (obj st))))
            as [Hlt|Hge].
          + rewrite nth_error_app1 in H by exact Hlt. apply (Hids i ev' H).
          + rewrite nth_error_app2 in H by exact Hge.
            destruct (i - length (dataEvents (obj st)))%nat as [|k] eqn:Ek;
              [|destruct k; discriminate H].
            cbn in H. injection H as <-.
            replace i with (length (dataEvents (obj st))) by lia.
            split; [exact Hid|exact Hlen].
        - rewrite map_app. cbn [map].
          apply NoDup_app. split; [exact Hnd|]. split.
          + intros x Hx Hx'. apply list_elem_of_In in Hx, Hx'.
            destruct Hx' as [<-|[]]. contradiction.
          + apply NoDup_singleton. }
      split; [split; [intros _; right; exact Hs|reflexivity]|].
      split; [discriminate|].
      split.
      { intros _. exists (length (dataEvents (obj st))), ev.
        split; [rewrite nth_error_app2, Nat.sub_diag by lia; reflexivity|].
        split; [reflexivity|]. split; [exact Hid|].
        split; [intros Hn; contradiction|].
        intros _. split; reflexivity. }
      split.
      { intros i e0 E0. exists e0.
        rewrite nth_error_app1 by (apply nth_error_Some; congruence).
        repeat split. exact E0. }
      repeat split.
    + rewrite mret_eq. cbn [fst snd].
      split; [split; [exact Hnext|split; [exact Hids|exact Hnd]]|].
      split.
      { split; [discriminate|]. intros [Hn|Hs]; [contradiction|].
        rewrite Hs in Es. discriminate Es. }
      split; [reflexivity|]. split; [discriminate|].
      split; [intros i e0 E0; exists e0; repeat split; exact E0|].
      repeat split.
Qed.

Lemma AddDataHandler_ids_witness :
  let st := fresh [] in
  let r := AddDataHandler [x61; x62] (Some true) st in
  data_ok (obj st) /\ data_ok (obj (snd r)) /\ fst r = true.
Proof.
  intros st r.
  assert (H0 : data_ok (obj st)) by apply data_ok_Init.
  destruct (AddDataHandler_ids [x61; x62] (Some true) st H0)
    as (H1 & H2 & _).
  split; [exact H0|]. split; [exact H1|].
  apply H2. right. reflexivity.
Defined.

(** ** The tables [Start] fills *)

Lemma name_find_insert_eq (n : list byte) (d : nat)
    (m : list (list byte * nat)) :
  name_find n (name_insert n d m) = Some d.
Proof.
  induction m as [|[k v] m IH]; cbn [name_insert name_find].
  - rewrite bytes_eqb_refl. reflexivity.
  - destruct (bytes_eqb k n) eqn:E; cbn [name_find]; rewrite E;
      [reflexivity|exact IH].
Qed.

Lemma name_find_insert_ne (n n' : list byte) (d : nat)
    (m : list (list byte * nat)) :
  n' <> n -> name_find n (name_insert n' d m) = name_find n m.
Proof.
  intros Hne. induction m as [|[k v] m IH]; cbn [name_insert name_find].
  - rewrite (proj2 (bytes_eqb_neq n' n) Hne). reflexivity.
  - destruct (bytes_eqb k n') eqn:E; cbn [name_find].
    + apply bytes_eqb_eq in E. subst k.
      rewrite (proj2 (bytes_eqb_neq n' n) Hne). reflexivity.
    + rewrite IH. reflexivity.
Qed.

Lemma fill_frame (l : list (nat * CrossDataEvent)) (s : CrossServer) :
  let s' := fold_left fill_step l s in
  dataEvents s' = dataEvents s /\ serverState s' = serverState s
  /\ nextAvailableDataID s' = nextAvailableDataID s
  /\ nextAvailableClientID s' = nextAvailableClientID s
  /\ connectedClients s' = connectedClients s
  /\ listenSocket s' = listenSocket s.
Proof.
  revert s. induction l as [|[d ev] l IH]; intros s; [repeat split|].
  cbn [fold_left]. destruct (IH (fill_step s (d, ev))) as (H1 & H2 & H3 & H4 & H5 & H6).
  cbv zeta in *. rewrite H1, H2, H3, H4, H5, H6. repeat split.
Qed.

Lemma fill_other (l : list (nat * CrossDataEvent)) (s : CrossServer)
    (n : list byte) (id : Z) :
  let s' := fold_left fill_step l s in
  (~ In n (map (fun x => name (snd x)) l) ->
   name_find n (dataEventsByName s') = name_find n (dataEventsByName s))
  /\ (~ In id (map (fun x => de_dataID (snd x)) l) ->
      dataEventsByID s' !! id = dataEventsByID s !! id).
Proof.
  revert s. induction l as [|[d ev] l IH]; intros s; [split; reflexivity|].
  cbn [fold_left map In snd]. destruct (IH (fill_step s (d, ev))) as [H1 H2].
  cbv zeta in *. split.
  - intros Hn. rewrite H1 by tauto. cbn [fill_step dataEventsByName
      set_dataEventsByName set_dataEventsByID].
    apply name_find_insert_ne. intros E. apply Hn. left. exact E.
  - intros Hn. rewrite H2 by tauto. cbn [fill_step dataEventsByID
      set_dataEventsByName set_dataEventsByID].
    apply lookup_insert_ne. intros E. apply Hn. left. exact E.
Qed.

Lemma fill_found (l : list (nat * CrossDataEvent)) (s : CrossServer)
    (d : nat) (ev : CrossDataEvent) :
  In (d, ev) l ->
  let s' := fold_left fill_step l s in
  (NoDup (map (fun x => name (snd x)) l) ->
   name_find (name ev) (dataEventsByName s') = Some d)
  /\ (NoDup (map (fun x => de_dataID (snd x)) l) ->
      dataEventsByID s' !! de_dataID ev = Some d).
Proof.
  revert s. induction l as [|[d0 e0] l IH]; intros s Hin; [destruct Hin|].
  cbn [fold_left map snd]. cbv zeta. destruct Hin as [E|Hin].
  - injection E as -> ->.
    destruct (fill_other l (fill_step s (d, ev)) (name ev) (de_dataID ev))
      as [O1 O2]. cbv zeta in O1, O2.
    split; intros Hnd; apply NoDup_cons in Hnd; destruct Hnd as [Hx _].
    + rewrite O1 by (intros H; apply Hx, list_elem_of_In, H).
      cbn [fill_step dataEventsByName set_dataEventsByName
           set_dataEventsByID].
      apply name_find_insert_eq.
    + rewrite O2 by (intros H; apply Hx, list_elem_of_In, H).
      cbn [fill_step dataEventsByID set_dataEventsByName
           set_dataEventsByID].
      apply lookup_insert_eq.
  - destruct (IH (fill_step s (d0, e0)) Hin) as [H1 H2]. cbv zeta in H1, H2.
    split; intros Hnd; apply NoDup_cons in Hnd; destruct Hnd as [_ Hnd];
      [apply H1|apply H2]; exact Hnd.
Qed.

Lemma FillDataEventMaps_fill (s : CrossServer) :
  FillDataEventMaps s
  = fold_left fill_step
      (combine (seq 0 (length (dataEvents s))) (dataEvents s))
      (set_dataEventsByName [] (set_dataEventsByID ∅ s)).
Proof.
  unfold FillDataEventMaps.
  generalize (combine (seq 0 (length (dataEvents s))) (dataEvents s)).
  generalize (set_dataEventsByName [] (set_dataEventsByID ∅ s)).
  intros s0 l. revert s0.
  induction l as [|[d ev] l IH]; intros s0; [reflexivity|apply IH].
Qed.

Lemma In_combine_seq {A} (l : list A) (a d : nat) (x : A) :
  In (d, x) (combine (seq a (length l)) l)
  <-> (a <= d)%nat /\ nth_error l (d - a) = Some x.
Proof.
  revert a d. induction l as [|y l IH]; intros a d; cbn [length seq combine In].
  - split; [intros []|]. intros [_ H]. destruct (d - a)%nat; discriminate H.
  - rewrite IH. split.
    + intros [E|[H1 H2]].
      * injection E as <- <-. rewrite Nat.sub_diag. split; [lia|reflexivity].
      * split; [lia|]. replace (d - a)%nat with (S (d - S a)) by lia.
        exact H2.
    + intros [H1 H2]. destruct (d - a)%nat as [|k] eqn:E.
      * left. cbn in H2. injection H2 as ->. f_equal. lia.
      * right. split; [lia|]. replace (d - S a)%nat with k by lia. exact H2.
Qed.

Lemma map_snd_combine_seq {A B} (f : A -> B) (l : list A) (a : nat) :
  map (fun x => f (snd x)) (combine (seq a (length l)) l) = map f l.
Proof.
  revert a. induction l as [|y l IH]; intros a; [reflexivity|].
  cbn [length seq combine map snd]. rewrite IH. reflexivity.
Qed.

Lemma fill_found_id (l : list (nat * CrossDataEvent)) (s : CrossServer)
    (d : nat) (ev : CrossDataEvent) :
  In (d, ev) l ->
  (forall d' e', In (d', e') l -> de_dataID e' = de_dataID ev -> d' = d) ->
  dataEventsByID (fold_left fill_step l s) !! de_dataID ev = Some d.
Proof.
  revert s d ev. induction l as [|[d0 e0] l IH]; intros s d ev Hin Huniq;
    [destruct Hin|].
  cbn [fold_left].
  destruct (in_dec Z.eq_dec (de_dataID ev)
              (map (fun x => de_dataID (snd x)) l)) as [Hi|Hni].
  - apply in_map_iff in Hi. destruct Hi as ([d' e'] & Hid & Hin').
    cbn [snd] in Hid.
    assert (d' = d) by (apply (Huniq d' e'); [right; exact Hin'|exact Hid]).
    subst d'. rewrite <- Hid. apply IH; [exact Hin'|].
    intros d2 e2 H2 E2. apply (Huniq d2 e2); [right; exact H2|congruence].
  - destruct (fill_other l (fill_step s (d0, e0)) [] (de_dataID ev))
      as [_ O2]. cbv zeta in O2. rewrite (O2 Hni).
    destruct Hin as [E|Hin].
    + injection E as -> ->.
      cbn [fill_step dataEventsByID set_dataEventsByName
           set_dataEventsByID].
      apply lookup_insert_eq.
    + exfalso. apply Hni. apply in_map_iff. exists (d, ev).
      split; [reflexivity|exact Hin].
Qed.

Lemma find_id_nth (l : list CrossDataEvent) (i k : nat)
    (ev : CrossDataEvent) :
  nth_error l k = Some ev ->
  (forall k' e', nth_error l k' = Some e' -> de_dataID e' = de_dataID ev ->
                 k' = k) ->
  find_id (de_dataID ev) l i = Some (i + k)%nat.
Proof.
  revert i k. induction l as [|x l IH]; intros i k Hk Huniq;
    [destruct k; discriminate Hk|].
  cbn [find_id]. destruct k as [|k].
  - cbn in Hk. injection Hk as ->. rewrite Z.eqb_refl. f_equal. lia.
  - cbn in Hk. destruct (Z.eqb_spec (de_dataID x) (de_dataID ev)) as [E|E].
    + specialize (Huniq O x eq_refl E). discriminate Huniq.
    + rewrite (IH (S i) k Hk).
      * f_equal. lia.
      * intros k' e' H' E'. specialize (Huniq (S k') e' H' E'). lia.
Qed.

Ltac sstep :=
  first [ rewrite bind_eq | rewrite mret_eq | rewrite gets_eq
        | rewrite deref_eq | rewrite upd_eq | rewrite upd_entry_eq
        | rewrite log_eq | rewrite fire_eq | rewrite server_sys_eq ];
  cbv beta; cbn [fst snd obj heap world events issued].

(** The update that binds the listener leaves the data events and their
    tables alone. *)
Lemma Update_binding_tables (le : bool) (st : Sys) :
  serverState (obj st) = SERVER_BINDING ->
  let st' := snd (Update le st) in
  dataEvents (obj st') = dataEvents (obj st)
  /\ dataEventsByName (obj st') = dataEventsByName (obj st)
  /\ dataEventsByID (obj st') = dataEventsByID (obj st)
  /\ IsRunning (obj st') = true.
Proof.
  intros Hs. cbv zeta. unfold Update, IsRunning. sstep. sstep. rewrite Hs.
  cbn [CrossServerState_eqb]. sstep.
  destruct (listenSocket (obj st)) as [fd|] eqn:El.
  - sstep. sstep. sstep. rewrite El. sstep. sstep.
    destruct (sys_bind (world st)) as [[result err] w].
    cbn [fst snd].
    destruct ((result >=? 0) || CrossSockError_eqb err SUCCESS
              || CrossSockError_eqb err ALREADY);
      repeat sstep; cbn; rewrite ?Hs; repeat split; reflexivity.
  - sstep. sstep. sstep. sstep. sstep.
    cbn [listenSocket set_listenSocket].
    destruct (fst (sys_socket (world st))) as [fd|].
    + sstep. sstep.
      destruct (sys_bind (snd (sys_socket (world st)))) as [[result err] w].
      cbn [fst snd].
      destruct ((result >=? 0) || CrossSockError_eqb err SUCCESS
                || CrossSockError_eqb err ALREADY);
        repeat sstep; cbn; rewrite ?Hs; repeat split; reflexivity.
    + sstep. cbn. rewrite Hs. repeat split; reflexivity.
Qed.

(** The tables of a server after [Start]. *)
Lemma Start_tables (le : bool) (inPort inFamily : Z) (st : Sys) :
  let s0 := set_addressFamily inFamily (set_port inPort (obj st)) in
  let s' := obj (snd (Start le inPort inFamily st)) in
  dataEvents s' = dataEvents (obj st)
  /\ dataEventsByName s' = dataEventsByName (FillDataEventMaps s0)
  /\ dataEventsByID s' = dataEventsByID (FillDataEventMaps s0)
  /\ IsRunning s' = true.
Proof.
  cbv zeta. unfold Start. do 8 sstep.
  match goal with
  | |- context [Update le ?s] =>
      destruct (Update_binding_tables le s eq_refl) as (H1 & H2 & H3 & H4)
  end.
  cbv zeta in H1, H2, H3, H4. cbn [obj] in H1, H2, H3, H4.
  rewrite H1, H2, H3, H4.
  cbn [dataEvents dataEventsByName dataEventsByID set_serverState].
  split; [|repeat split].
  rewrite FillDataEventMaps_fill.
  match goal with
  | |- context [fold_left fill_step ?l ?s] =>
      rewrite (proj1 (fill_frame l s))
  end.
  reflexivity.
Qed.

(** X18: The names registered before the start, resolved before and after
    it.  For the [i]-th data event registered (of at most 65536), with
    the id [CUSTOM_DATA_START + i] in 16-bit unsigned arithmetic:
    GetDataIDFromName gives the id for its name and GetNameFromDataID
    the name for its id, on the server before the start, through the
    sequential search, and after it, through the tables Start fills;
    CreatePack builds a packet with that id, whatever the storage of
    the packet held; and a name that was not registered resolves to
    UNKNOWN_PACK. *)
Theorem registered_names_resolve (le : bool) (inPort inFamily : Z)
    (st : Sys) (i : nat) (ev : CrossDataEvent) :
  data_ok (obj st) ->
  serverState (obj st) = SERVER_NEEDS_STARTUP ->
  Z.of_nat (length (dataEvents (obj st))) <= 65536 ->
  nth_error (dataEvents (obj st)) i = Some ev ->
  let id := u16 (CUSTOM_DATA_START + Z.of_nat i) in
  let s' := obj (snd (Start le inPort inFamily st)) in
  GetDataIDFromName (name ev) (obj st) = id
  /\ GetNameFromDataID id (obj st) = name ev
  /\ GetDataIDFromName (name ev) s' = id
  /\ GetNameFromDataID id s' = name ev
  /\ (forall mem, GetDataID (CreatePack mem (name ev) s') = id)
  /\ (forall n,
        ~ In (firstn (Z.to_nat CROSS_SOCK_MAX_DATA_NAME_LENGTH) n)
            (map name (dataEvents (obj st))) ->
        GetDataIDFromName n (obj st) = UNKNOWN_PACK
        /\ GetDataIDFromName n s' = UNKNOWN_PACK).
Proof.
  intros (Hnext & Hids & Hnd) Hs Hlen Hev id s'.
  destruct (Hids i ev Hev) as [Hid Hname]. fold id in Hid.
  assert (Hi : (i < length (dataEvents (obj st)))%nat)
    by (apply nth_error_Some; congruence).
  assert (Huniq : forall k' e',
             nth_error (dataEvents (obj st)) k' = Some e' ->
             de_dataID e' = de_dataID ev -> k' = i).
  { intros k' e' H' E'. destruct (Hids k' e' H') as [Hid' _].
    assert (Hk : (k' < length (dataEvents (obj st)))%nat)
      by (apply nth_error_Some; congruence).
    rewrite Hid', Hid in E'. subst id.
    unfold u16, CUSTOM_DATA_START in E'.
    Z.div_mod_to_equations. lia. }
  assert (Hcut : firstn (Z.to_nat CROSS_SOCK_MAX_DATA_NAME_LENGTH) (name ev)
                 = name ev).
  { apply firstn_all2. unfold CROSS_SOCK_MAX_DATA_NAME_LENGTH in *. lia. }
  assert (Hrun : IsRunning (obj st) = false)
    by (unfold IsRunning; rewrite Hs; reflexivity).
  destruct (Start_tables le inPort inFamily st) as (T1 & T2 & T3 & T4).
  cbv zeta in T1, T2, T3, T4. fold s' in T1, T2, T3, T4.
  set (s0 := set_addressFamily inFamily (set_port inPort (obj st))) in *.
  assert (Hin : In (i, ev)
                  (combine (seq 0 (length (dataEvents s0))) (dataEvents s0))).
  { apply In_combine_seq. rewrite Nat.sub_0_r. split; [lia|exact Hev]. }
  assert (Hbn : name_find (name ev) (dataEventsByName s') = Some i).
  { rewrite T2, FillDataEventMaps_fill.
    apply (fill_found _ _ i ev Hin).
    rewrite (map_snd_combine_seq name). exact Hnd. }
  assert (Hbi : dataEventsByID s' !! id = Some i).
  { rewrite T3, FillDataEventMaps_fill, <- Hid.
    apply (fill_found_id _ _ i ev Hin).
    intros d' e' H' E'. apply In_combine_seq in H'.
    rewrite Nat.sub_0_r in H'. apply (Huniq d' e' (proj2 H') E'). }
  assert (G1 : GetDataIDFromName (name ev) (obj st) = id).
  { unfold GetDataIDFromName. rewrite Hcut, Hrun.
    rewrite (find_name_nth _ 0 i ev Hnd Hev). cbn [Nat.add].
    rewrite Hev. exact Hid. }
  assert (G3 : GetDataIDFromName (name ev) s' = id).
  { unfold GetDataIDFromName. rewrite Hcut, T4, Hbn, T1, Hev. exact Hid. }
  split; [exact G1|]. split.
  { unfold GetNameFromDataID. rewrite Hrun, <- Hid.
    rewrite (find_id_nth _ 0 i ev Hev Huniq). cbn [Nat.add].
    rewrite Hev. reflexivity. }
  split; [exact G3|]. split.
  { unfold GetNameFromDataID. rewrite T4, Hbi, T1, Hev. reflexivity. }
  split.
  { intros mem. unfold CreatePack. rewrite G3. reflexivity. }
  intros n Hn. unfold GetDataIDFromName. rewrite Hrun, T4. split.
  - rewrite (proj2 (find_name_None _ _ 0) Hn). reflexivity.
  - rewrite T2, FillDataEventMaps_fill.
    match goal with
    | |- context [fold_left fill_step ?l ?s] =>
        rewrite (proj1 (fill_other l s
                          (firstn (Z.to_nat CROSS_SOCK_MAX_DATA_NAME_LENGTH)
                             n) 0))
    end.
    + reflexivity.
    + rewrite (map_snd_combine_seq name). exact Hn.
Qed.

Lemma registered_names_resolve_witness :
  let st := snd (AddDataHandler [x62] None
                   (snd (AddDataHandler [x61] (Some true) (fresh [])))) in
  let s' := obj (snd (Start true 5000 AF_INET st)) in
  GetDataIDFromName [x62] s' = 8 /\ GetNameFromDataID 8 s' = [x62]
  /\ GetDataIDFromName [x63] s' = UNKNOWN_PACK.
Proof.
  intros st s'.
  assert (H2 : data_ok (obj st)).
  { split; [reflexivity|]. split.
    - intros [|[|[|i]]] ev H; cbn in H; inversion H; subst; cbn;
        split; try reflexivity; discriminate.
    - cbn. apply NoDup_cons. split; [|apply NoDup_singleton].
      rewrite list_elem_of_In. cbn. intros [H|[]]. discriminate H. }
  assert (H3 : Z.of_nat (length (dataEvents (obj st))) <= 65536)
    by (cbn; discriminate).
  destruct (registered_names_resolve true 5000 AF_INET st 1
              {| name := [x62]; de_dataID := 8; callbacks := 0 |}
              H2 eq_refl H3 eq_refl)
    as (_ & _ & G3 & G4 & _ & G6).
  split; [exact G3|]. split; [exact G4|].
  apply (G6 [x63]). cbn. intros [H|[H|[]]]; discriminate H.
Defined.

End DataEvents.

(** * The client's Disconnect *)

Section ClientDisconnect.
Import Client.

Lemma client_bind_eq {A B} (m : M A) (f : A -> M B) (st : Sys) :
  (m ≫= f) st = f (fst (m st)) (snd (m st)).
Proof. unfold mbind, State_bind. destruct (m st). reflexivity. Qed.

Lemma client_upd_eq (f : CrossClient -> CrossClient) (st : Sys) :
  upd f st
  = (tt, {| obj := f (obj st); world := world st; events := events st |}).
Proof. reflexivity. Qed.

Lemma client_sys_eq {A} (m : State World A) (st : Sys) :
  sys m st
  = (fst (m (world st)),
     {| obj := obj st; world := snd (m (world st)); events := events st |}).
Proof. unfold sys. destruct (m (world st)). reflexivity. Qed.

Lemma client_fire_eq (installed : CrossClient -> bool) (e : Event)
    (st : Sys) :
  fire installed e st
  = (tt, {| obj := obj st; world := world st;
            events := events st ++ (if installed (obj st) then [e] else [])
         |}).
Proof.
  unfold fire. destruct (installed (obj st)); [reflexivity|].
  rewrite app_nil_r. destruct st; reflexivity.
Qed.

Lemma sys_send_eq (block : bool) (act : Z -> Action) (w : World) :
  sys_send block act w
  = (fst (send_until block (script w)),
     {| script := snd (send_until block (script w));
        actions := actions w
                   ++ [act (fst (send_until block (script w)))] |}).
Proof. unfold sys_send. destruct (send_until block (script w)). reflexivity. Qed.

Lemma set_serverSocket_None (c : CrossClient) :
  serverSocket c = None -> set_serverSocket None c = c.
Proof. destruct c. cbn. intros ->. reflexivity. Qed.

Lemma set_streamSocket_None (c : CrossClient) :
  streamSocket c = None -> set_streamSocket None c = c.
Proof. destruct c. cbn. intros ->. reflexivity. Qed.

Ltac cstep :=
  first [ rewrite client_bind_eq | rewrite client_upd_eq
        | rewrite client_sys_eq | rewrite client_fire_eq ];
  cbv beta; cbn [fst snd obj world events].

(** [SendToServer] talks to the environment only, and only when the
    client is past its connection attempts. *)
Lemma SendToServer_world (le : bool) (p : CrossPack) (b : bool) (st : Sys) :
  let st' := snd (SendToServer le p b st) in
  obj st' = obj st /\ events st' = events st
  /\ world st'
     = match serverSocket (obj st) with
       | Some fd =>
           if not_connected (obj st) then world st
           else {| script := snd (send_until b (script (world st)));
                   actions := actions (world st)
                              ++ [TcpSend fd (wire le p)
                                    (fst (send_until b (script (world st))))]
                |}
       | None => world st
       end.
Proof.
  cbv zeta. unfold SendToServer. rewrite client_bind_eq.
  change (gets obj st) with (obj st, st). cbn [fst snd].
  destruct (not_connected (obj st)).
  - destruct (serverSocket (obj st)); repeat split.
  - destruct (serverSocket (obj st)) as [fd|]; [|repeat split].
    rewrite client_bind_eq, client_sys_eq, sys_send_eq.
    cbn [fst snd obj world events]. repeat split.
Qed.

(** A running client after [Disconnect], in closed form.  The packet is
    declared, and its storage taken, whenever there is a server socket,
    also when nothing is sent. *)
Lemma Disconnect_run (le : bool) (AttemptReconnect : bool) (st : Sys) :
  IsRunning (obj st) = true ->
  let mem := fst (sys_new (world st)) in
  let w0 := snd (sys_new (world st)) in
  let frame := wire le (SetDataID DISCONNECT_PACK (CrossPack_new mem)) in
  let mid :=
    {| obj := set_streamIsBound false
                (set_streamSocket None
                   (set_serverSocket None (ResetDataEventIDs (obj st))));
       world :=
         {| script :=
              match serverSocket (obj st) with
              | Some _ =>
                  if negb (not_connected (obj st))
                  then snd (send_until true (script w0))
                  else script w0
              | None => script (world st)
              end;
            actions :=
              actions (world st)
              ++ match serverSocket (obj st) with
                 | Some fd =>
                     (if negb (not_connected (obj st))
                      then [TcpSend fd frame
                              (fst (send_until true (script w0)))]
                      else [])
                     ++ [Close fd; Close fd]
                 | None => []
                 end
              ++ match streamSocket (obj st) with
                 | Some fd => [Close fd; Close fd]
                 | None => []
                 end |};
       events := events st |} in
  let again := AttemptReconnect
               && shouldAttemptReconnect (clientProperties (obj st))
               && IsReady (obj st) in
  snd (Disconnect le AttemptReconnect st)
  = if again
    then snd (fire attemptReconnectEvent OnAttemptReconnect
                {| obj := set_clientState CLIENT_RECONNECTING
                            (set_udpBuffer []
                               (set_tcpBuffer []
                                  (set_connectionAttempts 0 (obj mid))));
                   world := world mid;
                   events := events mid |})
    else snd (fire disconnectEvent OnDisconnect
                {| obj := set_clientState CLIENT_NEEDS_TO_CONNECT (obj mid);
                   world := world mid;
                   events := events mid |}).
Proof.
  intros Hrun mem w0 frame mid again.
  unfold Disconnect. rewrite client_bind_eq.
  change (gets obj st) with (obj st, st). cbn [fst snd].
  rewrite Hrun.
  assert (Hw0 : actions w0 = actions (world st)) by apply sys_new_actions.
  assert (Hmid :
            snd ((match serverSocket (obj st) with
                  | Some fd =>
                      mem ← sys sys_new;
                      SendToServer le
                        (SetDataID DISCONNECT_PACK (CrossPack_new mem))
                        true;;
                      sys (sys_close fd);;
                      sys (sys_close fd);;
                      upd (set_serverSocket None)
                  | None => mret tt
                  end;;
                  match streamSocket (obj st) with
                  | Some fd =>
                      sys (sys_close fd);;
                      sys (sys_close fd);;
                      upd (set_streamSocket None)
                  | None => mret tt
                  end;;
                  upd (set_streamIsBound false))
                   (snd (upd ResetDataEventIDs st)))
            = mid).
  { subst mid. repeat cstep.
    destruct (serverSocket (obj st)) as [fd|] eqn:Efd.
    - repeat cstep. fold mem w0.
      match goal with
      | |- context [SendToServer le ?p true ?s] =>
          pose proof (SendToServer_world le p true s) as Hs
      end.
      cbv zeta in Hs. cbn [obj world events] in Hs.
      change (serverSocket (ResetDataEventIDs (obj st)))
        with (serverSocket (obj st)) in Hs.
      change (not_connected (ResetDataEventIDs (obj st)))
        with (not_connected (obj st)) in Hs.
      fold frame in Hs. rewrite Efd, Hw0 in Hs.
      destruct Hs as (Ho & He & Hw).
      match goal with
      | |- context [SendToServer le ?p true ?s] =>
          destruct (SendToServer le p true s) as [r [o w e]]
      end.
      cbn [snd obj world events] in Ho, He, Hw |- *. subst o e w.
      unfold sys_close, record. cbn [fst snd script actions].
      destruct (streamSocket (obj st)) as [fd2|] eqn:Efd2.
      + repeat cstep. unfold sys_close, record.
        cbn [fst snd script actions].
        destruct (not_connected (obj st));
          cbn [negb script actions]; rewrite <- ?app_assoc, ?Hw0;
          try (destruct w0 as [sc ac]; cbn [script actions] in *; subst ac);
          reflexivity.
      + change ((mret tt : M unit) ?s) with (tt, s).
        cbn [fst snd obj world events].
        rewrite (set_streamSocket_None
                   (set_serverSocket None (ResetDataEventIDs (obj st)))
                   Efd2).
        destruct (not_connected (obj st));
          cbn [negb script actions]; rewrite <- ?app_assoc, ?app_nil_r, ?Hw0;
          try (destruct w0 as [sc ac]; cbn [script actions] in *; subst ac);
          reflexivity.
    - change ((mret tt : M unit) ?s) with (tt, s).
      cbn [fst snd obj world events].
      rewrite (set_serverSocket_None (ResetDataEventIDs (obj st)) Efd).
      destruct (streamSocket (obj st)) as [fd2|] eqn:Efd2.
      + repeat cstep. unfold sys_close, record.
        cbn [fst snd script actions]. rewrite <- ?app_assoc.
        destruct (world st); reflexivity.
      + change ((mret tt : M unit) ?s) with (tt, s).
        cbn [fst snd obj world events]. rewrite app_nil_r.
        rewrite (set_streamSocket_None (ResetDataEventIDs (obj st)) Efd2).
        destruct (world st); reflexivity. }
  rewrite !client_bind_eq in Hmid. rewrite !client_bind_eq.
  cbv beta in Hmid |- *. cbn [fst snd] in Hmid |- *.
  rewrite Hmid.
  change (gets obj mid) with (obj mid, mid). cbn [fst snd].
  change (shouldAttemptReconnect (clientProperties (obj mid)))
    with (shouldAttemptReconnect (clientProperties (obj st))).
  change (IsReady (obj mid)) with (IsReady (obj st)).
  fold again. destruct again; repeat cstep; reflexivity.
Qed.

Lemma Disconnect_idle (le : bool) (AttemptReconnect : bool) (st : Sys) :
  IsRunning (obj st) = false -> Disconnect le AttemptReconnect st = (tt, st).
Proof.
  intros Hrun. unfold Disconnect. rewrite client_bind_eq.
  change (gets obj st) with (obj st, st). cbn [fst snd].
  rewrite Hrun. reflexivity.
Qed.

(** Without sockets and short of ready, [Disconnect] only settles the
    state. *)
Lemma Disconnect_no_sockets (le : bool) (AttemptReconnect : bool)
    (st : Sys) :
  serverSocket (obj st) = None -> streamSocket (obj st) = None ->
  IsReady (obj st) = false ->
  clientState (obj (snd (Disconnect le AttemptReconnect st)))
  = CLIENT_NEEDS_TO_CONNECT
  /\ world (snd (Disconnect le AttemptReconnect st)) = world st.
Proof.
  intros Hs Hu Hr. destruct (IsRunning (obj st)) eqn:Hrun.
  - pose proof (Disconnect_run le AttemptReconnect st Hrun) as H.
    cbv zeta in H. rewrite H, Hr, andb_false_r, client_fire_eq, Hs, Hu.
    cbn [fst snd obj world events app]. rewrite app_nil_r.
    split; [reflexivity|]. destruct (world st); reflexivity.
  - rewrite Disconnect_idle by exact Hrun. split; [|reflexivity].
    unfold IsRunning in Hrun. cbn [snd].
    destruct (clientState (obj st)); try discriminate Hrun. reflexivity.
Qed.

(** The DISCONNECT frame: the data id, a payload size of zero, the flag
    of a packet that is not finalized, and a sixth byte that nothing
    writes: it is what the storage of the packet held. *)
Lemma disconnect_frame (le : bool) (mem : nat -> byte) :
  wire le (SetDataID DISCONNECT_PACK (CrossPack_new mem))
  = [x03; x00; x00; x00; x00; mem 5%nat].
Proof. destruct le; vm_compute; reflexivity. Qed.

(** X19: Disconnect(AttemptReconnect).  A client that is not running is left
    alone.  A running client ends with both sockets released, the
    stream unbound, both data event tables empty and every data event
    reset to UNKNOWN_PACK, its names and callbacks kept.  It ends in
    CLIENT_RECONNECTING when a reconnection was asked for, the
    properties allow it and the client was connected and ready, and in
    CLIENT_NEEDS_TO_CONNECT otherwise; the one callback of that branch
    is executed when it is installed.  On the sockets it does this and
    nothing more: when there is a server socket, it declares a packet,
    sends the six-byte DISCONNECT_PACK frame on it (not while the client
    is still connecting or reconnecting) and closes the socket twice,
    once by Close() and once more when reset() destroys the socket; then
    it closes the stream socket twice in the same way when there is
    one.  The frame is 03 00 00 00 00 followed by one byte that the
    code never writes, the sixth byte of the storage the packet was
    given.  Identity, properties, server address and receive buffers of
    a client that does not reconnect are kept.  A second Disconnect
    touches no socket and ends in CLIENT_NEEDS_TO_CONNECT. *)
Theorem client_Disconnect_effects (le : bool) (AttemptReconnect : bool)
    (st : Sys) :
  (IsRunning (obj st) = false -> Disconnect le AttemptReconnect st = (tt, st))
  /\ (IsRunning (obj st) = true ->
      let st' := snd (Disconnect le AttemptReconnect st) in
      let again := AttemptReconnect
                   && shouldAttemptReconnect (clientProperties (obj st))
                   && IsReady (obj st) in
      let mem := fst (sys_new (world st)) in
      let w0 := snd (sys_new (world st)) in
      let frame := wire le (SetDataID DISCONNECT_PACK (CrossPack_new mem)) in
      let sent := negb (not_connected (obj st)) in
      clientState (obj st')
      = (if again then CLIENT_RECONNECTING else CLIENT_NEEDS_TO_CONNECT)
      /\ serverSocket (obj st') = None
      /\ streamSocket (obj st') = None
      /\ streamIsBound (obj st') = false
      /\ dataEventsByID (obj st') = ∅
      /\ dataEventsByName (obj st') = []
      /\ dataEvents (obj st')
         = map (fun d => {| name := name d; de_dataID := UNKNOWN_PACK;
                            callbacks := callbacks d |})
             (dataEvents (obj st))
      /\ events st'
         = events st
           ++ (if again
               then if attemptReconnectEvent (obj st)
                    then [OnAttemptReconnect] else []
               else if disconnectEvent (obj st) then [OnDisconnect] else [])
      /\ frame = [x03; x00; x00; x00; x00; mem 5%nat]
      /\ actions (world st')
         = actions (world st)
           ++ match serverSocket (obj st) with
              | Some fd =>
                  (if sent
                   then [TcpSend fd frame
                           (fst (send_until true (script w0)))]
                   else [])
                  ++ [Close fd; Close fd]
              | None => []
              end
           ++ match streamSocket (obj st) with
              | Some fd => [Close fd; Close fd]
              | None => []
              end
      /\ script (world st')
         = match serverSocket (obj st) with
           | Some _ =>
               if sent then snd (send_until true (script w0))
               else script w0
           | None => script (world st)
           end
      /\ clientID (obj st') = clientID (obj st)
      /\ clientProperties (obj st') = clientProperties (obj st)
      /\ serverAddress (obj st') = serverAddress (obj st)
      /\ (again = false ->
          tcpBuffer (obj st') = tcpBuffer (obj st)
          /\ udpBuffer (obj st') = udpBuffer (obj st)
          /\ connectionAttempts (obj st') = connectionAttempts (obj st))
      /\ (again = true ->
          tcpBuffer (obj st') = [] /\ udpBuffer (obj st') = []
          /\ connectionAttempts (obj st') = 0)
      /\ (forall b,
            let st'' := snd (Disconnect le b st') in
            clientState (obj st'') = CLIENT_NEEDS_TO_CONNECT
            /\ world st'' = world st')).
Proof.
  split; [apply Disconnect_idle|].
  intros Hrun. cbv zeta.
  pose proof (Disconnect_run le AttemptReconnect st Hrun) as Hst'.
  cbv zeta in Hst'. rewrite Hst'. clear Hst'.
  rewrite disconnect_frame.
  set (again := AttemptReconnect
                && shouldAttemptReconnect (clientProperties (obj st))
                && IsReady (obj st)).
  destruct again eqn:Ea; rewrite client_fire_eq;
    cbn [fst snd obj world events script actions].
  - repeat split; try discriminate; try reflexivity.
    + apply Disconnect_no_sockets; reflexivity.
    + apply Disconnect_no_sockets; reflexivity.
  - repeat split; try discriminate; try reflexivity.
Qed.

Lemma client_Disconnect_effects_witness :
  let st' := snd (Disconnect true true connected_client) in
  IsRunning (obj connected_client) = true
  /\ clientState (obj st') = CLIENT_RECONNECTING
  /\ actions (world st')
     = [TcpSend 3 [x03; x00; x00; x00; x00; x00] (-1); Close 3; Close 3]
  /\ events st' = [OnAttemptReconnect].
Proof.
  intros st'.
  assert (Hrun : IsRunning (obj connected_client) = true) by reflexivity.
  destruct (proj2 (client_Disconnect_effects true true connected_client)
              Hrun)
    as (H1 & _ & _ & _ & _ & _ & _ & H8 & H9 & H10 & _).
  split; [exact Hrun|]. split; [exact H1|]. split.
  - fold st' in H10. rewrite H10, H9. reflexivity.
  - exact H8.
Defined.

End ClientDisconnect.
